(** * NovusX rules engine (src/rl/env.py): a shallow embedding and its properties

    The development follows the class [NovusXEnv] of [src/rl/env.py]:
    the action codec ([_parse_action], [_encode_*]), the legality checks
    ([_can_move], [_can_attack], [_can_rotate], [_has_line_of_sight]),
    the four action appliers, [_end_turn], the win and draw detection,
    [step], [reset] and [get_valid_actions_mask]; then [clone],
    [set_training_mode], [get_game_result] and the spatial part of the
    tensor of [_get_observation].

    Conventions.
    - Python [int] is [Z]; [//] and [%] are [Z.div] and [Z.modulo] (both
      floor towards minus infinity for a positive divisor, like Python).
    - The methods mutate [self] and may raise: they live in the state and
      exception monad [M].  A raise keeps the mutations made before it.
    - [Unit] objects are created by [_apply_deploy] only and each one is
      referenced by exactly one grid cell, so the in-place writes to a
      unit's fields are writes to the value stored in its cell.
    - Rewards are floats taken from the configuration: they are kept as
      symbolic expressions over the reward keys ([Reward]).
    - The observation tensor is float data computed read-only from the
      state; [Observation] keeps the integer data it is computed from.
    - The MD5 digest of the state string is a parameter ([Digest]).
    - [_log_draw] only prints and is left out.

    Layout: the embedding of the source; the pure forms the methods
    compute on a well-formed state, used by the proofs; the concrete
    environments of the instances; the proofs, which end with one theorem
    per property (codec, end-turn bonuses, positions, deployment cap,
    turn economy, combat, rejections, misuse, game end, action mask) and
    go on with further properties of the same methods (what each action
    writes and leaves, the count and the ids of the units, the turn
    counter, the length of a game, clones, rewards, the observation);
    the instances. *)

From stdpp Require Import gmap strings list fin_maps pretty.

Local Open Scope Z_scope.

(** ** Enumerations *)

Inductive UnitType :=
  | EMPTY | SWORDSMAN | SHIELDMAN | AXEMAN | CAVALRY | ARCHER | SPEARMAN.

Inductive ActionType := DEPLOY | MOVE | ATTACK | ROTATE | END_TURN.

Inductive GameOutcome := IN_PROGRESS | PLAYER_0_WIN | PLAYER_1_WIN | DRAW.

Inductive DrawReason := NONE | MAX_TURNS | REPEATED_STATE | NO_PROGRESS.

Inductive exn :=
  | RuntimeError | ValueError | KeyError | IndexError | AttributeError.

Inductive result (A : Type) :=
  | Ok (a : A)
  | Raise (e : exn).
Arguments Ok {A} a.
Arguments Raise {A} e.

#[global] Instance UnitType_eq_dec : EqDecision UnitType.
Proof. solve_decision. Defined.
#[global] Instance GameOutcome_eq_dec : EqDecision GameOutcome.
Proof. solve_decision. Defined.
#[global] Instance DrawReason_eq_dec : EqDecision DrawReason.
Proof. solve_decision. Defined.

(** [UnitType.value] *)
Definition UnitType_value (t : UnitType) : Z :=
  match t with
  | EMPTY => 0 | SWORDSMAN => 1 | SHIELDMAN => 2 | AXEMAN => 3
  | CAVALRY => 4 | ARCHER => 5 | SPEARMAN => 6
  end.

(** [UnitType(v)]: the enum constructor raises [ValueError] on a value
    that is not a member. *)
Definition UnitType_of_value (v : Z) : result UnitType :=
  match v with
  | 0 => Ok EMPTY | 1 => Ok SWORDSMAN | 2 => Ok SHIELDMAN | 3 => Ok AXEMAN
  | 4 => Ok CAVALRY | 5 => Ok ARCHER | 6 => Ok SPEARMAN
  | _ => Raise ValueError
  end.

(** [UnitType.name] *)
Definition UnitType_name (t : UnitType) : string :=
  match t with
  | EMPTY => "EMPTY" | SWORDSMAN => "SWORDSMAN" | SHIELDMAN => "SHIELDMAN"
  | AXEMAN => "AXEMAN" | CAVALRY => "CAVALRY" | ARCHER => "ARCHER"
  | SPEARMAN => "SPEARMAN"
  end.

Definition UnitType_decode (n : nat) : UnitType :=
  match n with
  | 0 => EMPTY | 1 => SWORDSMAN | 2 => SHIELDMAN | 3 => AXEMAN
  | 4 => CAVALRY | 5 => ARCHER | _ => SPEARMAN
  end%nat.

#[global] Instance UnitType_countable : Countable UnitType.
Proof.
  refine (inj_countable' (fun t => Z.to_nat (UnitType_value t)) UnitType_decode _).
  intros []; reflexivity.
Defined.

(** ** Data model *)

Abbreviation Pos := (Z * Z)%type (only parsing).

Record Unit := mkUnit {
  unit_id : string;            (* field [id] *)
  owner_id : Z;
  unit_type : UnitType;
  position : Pos;
  acted_this_turn : bool
}.

(** A player is the dict built by [reset]; all four keys are always
    present, so [player.get("deployment_counts", {})] always finds one. *)
Record Player := mkPlayer {
  player_id : Z;               (* key "id" *)
  actions_remaining : Z;
  deployments_remaining : Z;
  deployment_counts : gmap UnitType Z
}.

Abbreviation Grid := (list (list (option Unit))) (only parsing).

Record GameState := mkGameState {
  grid : Grid;
  current_player : Z;
  turn_number : Z;
  players : list Player;
  free_deployments_remaining : Z;
  has_acted_this_turn : bool
}.

Inductive RewardKey :=
  | win | lose | draw_no_progress | draw_repetition | draw_max_turns
  | draw_default | turn_penalty | capture_control_point | lose_control_point
  | control_point_advantage | defeat_enemy_unit | lose_own_unit
  | invalid_action_penalty.

(** [RKey k] is [self.rewards[k]]; [RPlus r k n] is [r + self.rewards[k] * n]. *)
Inductive Reward :=
  | RKey (k : RewardKey)
  | RPlus (r : Reward) (k : RewardKey) (n : Z).

Record NovusXEnv := mkEnv {
  state : option GameState;
  step_count : Z;
  _unit_counter : Z;
  state_hash_counts : gmap string Z;
  turns_since_last_capture : Z;
  turns_since_last_unit_death : Z;
  last_control_ownership : gmap Pos (option Z);
  game_outcome : GameOutcome;
  draw_reason : DrawReason;
  training_mode : bool
}.

(** ** Constants *)

Definition GRID_SIZE : Z := 5.
Definition NUM_UNIT_TYPES : Z := 6.
Definition DEPLOY_ACTIONS : Z := 6 * 5 * 5.
Definition MOVE_ACTIONS : Z := 25 * 25.
Definition ATTACK_ACTIONS : Z := 25 * 25.
Definition ROTATE_ACTIONS : Z := 25 * 25.
Definition END_TURN_ACTIONS : Z := 1.
Definition ACTION_SPACE_SIZE : Z :=
  DEPLOY_ACTIONS + MOVE_ACTIONS + ATTACK_ACTIONS + ROTATE_ACTIONS + END_TURN_ACTIONS.
Definition MAX_TURN_LIMIT : Z := 1000.
Definition REPEATED_STATE_LIMIT : Z := 10.
Definition NO_PROGRESS_TURN_LIMIT : Z := 100.
Definition MAX_DEPLOYMENTS_PER_TYPE : Z := 3.

Definition CONTROL_POINTS : list Pos := [(2, 0); (2, 2); (2, 4)].
Definition OUTSIDE_POINTS : list Pos := [(2, 0); (2, 4)].

(** [UNIT_STATS[t]] as [(move_range, attack_range)]; there is no entry for
    [EMPTY], where the subscript raises [KeyError]. *)
Definition UNIT_STATS (t : UnitType) : option (Z * Z) :=
  match t with
  | EMPTY => None
  | SWORDSMAN => Some (1, 1)
  | SHIELDMAN => Some (1, 1)
  | AXEMAN => Some (1, 1)
  | CAVALRY => Some (2, 1)
  | ARCHER => Some (1, 2)
  | SPEARMAN => Some (1, 2)
  end.

Definition MELEE_BEATS (t : UnitType) : option (list UnitType) :=
  match t with
  | EMPTY => None
  | SWORDSMAN => Some [ARCHER; CAVALRY; AXEMAN; SWORDSMAN; SPEARMAN]
  | SHIELDMAN => Some [ARCHER]
  | AXEMAN => Some [ARCHER; SHIELDMAN; CAVALRY; AXEMAN; SPEARMAN]
  | CAVALRY => Some [ARCHER; CAVALRY; SPEARMAN]
  | ARCHER => Some [ARCHER]
  | SPEARMAN => Some [ARCHER; SHIELDMAN; CAVALRY; SPEARMAN]
  end.

Definition RANGED_BEATS (t : UnitType) : option (list UnitType) :=
  match t with
  | ARCHER => Some [ARCHER; CAVALRY; AXEMAN; SWORDSMAN; SPEARMAN]
  | SPEARMAN => Some [ARCHER; CAVALRY; SPEARMAN]
  | _ => None
  end.

(** [table.get(t, [])] *)
Definition beats_get (table : UnitType -> option (list UnitType)) (t : UnitType)
  : list UnitType := default [] (table t).

(** [x in xs] *)
Definition py_in (x : UnitType) (xs : list UnitType) : bool := bool_decide (x ∈ xs).

(** ** Action codec *)

Inductive Action :=
  | Deploy (unit_type : UnitType) (col : Z)
  | Move (source target : Pos)
  | Attack (source target : Pos)
  | Rotate (source target : Pos)
  | EndTurn.

Definition action_type (a : Action) : ActionType :=
  match a with
  | Deploy _ _ => DEPLOY
  | Move _ _ => MOVE
  | Attack _ _ => ATTACK
  | Rotate _ _ => ROTATE
  | EndTurn => END_TURN
  end.

#[global] Instance Action_eq_dec : EqDecision Action.
Proof. solve_decision. Defined.

(** Python's [divmod(a, b)] *)
Definition divmod (a b : Z) : Z * Z := (a / b, a mod b).

Definition _parse_action (action : Z) : result Action :=
  if bool_decide (action < DEPLOY_ACTIONS) then
    match UnitType_of_value (action / 25 + 1) with
    | Raise e => Raise e
    | Ok ut => Ok (Deploy ut (action mod 5))
    end
  else
    let action := action - DEPLOY_ACTIONS in
    if bool_decide (action < MOVE_ACTIONS) then
      Ok (Move (divmod (action / 25) 5) (divmod (action mod 25) 5))
    else
      let action := action - MOVE_ACTIONS in
      if bool_decide (action < ATTACK_ACTIONS) then
        Ok (Attack (divmod (action / 25) 5) (divmod (action mod 25) 5))
      else
        let action := action - ATTACK_ACTIONS in
        if bool_decide (action < ROTATE_ACTIONS) then
          Ok (Rotate (divmod (action / 25) 5) (divmod (action mod 25) 5))
        else Ok EndTurn.

Definition _encode_deploy (unit_type col : Z) : Z := (unit_type - 1) * 25 + col.

Definition _encode_move (source target : Pos) : Z :=
  let source_idx := source.1 * 5 + source.2 in
  let target_idx := target.1 * 5 + target.2 in
  DEPLOY_ACTIONS + source_idx * 25 + target_idx.

Definition _encode_attack (source target : Pos) : Z :=
  let source_idx := source.1 * 5 + source.2 in
  let target_idx := target.1 * 5 + target.2 in
  DEPLOY_ACTIONS + MOVE_ACTIONS + source_idx * 25 + target_idx.

Definition _encode_rotate (source target : Pos) : Z :=
  let source_idx := source.1 * 5 + source.2 in
  let target_idx := target.1 * 5 + target.2 in
  DEPLOY_ACTIONS + MOVE_ACTIONS + ATTACK_ACTIONS + source_idx * 25 + target_idx.

(** The index the encoders give a structured action; the end-turn index
    is the one [get_valid_actions_mask] uses, [ACTION_SPACE_SIZE - 1]. *)
Definition encode_action (a : Action) : Z :=
  match a with
  | Deploy ut col => _encode_deploy (UnitType_value ut) col
  | Move s t => _encode_move s t
  | Attack s t => _encode_attack s t
  | Rotate s t => _encode_rotate s t
  | EndTurn => ACTION_SPACE_SIZE - 1
  end.

Definition on_board (p : Pos) : Prop := 0 <= p.1 < 5 /\ 0 <= p.2 < 5.

(** The structured actions of the action space: a deployable unit type
    and a column of the board, or two cells of the board. *)
Definition action_wf (a : Action) : Prop :=
  match a with
  | Deploy ut col => ut <> EMPTY /\ 0 <= col < 5
  | Move s t | Attack s t | Rotate s t => on_board s /\ on_board t
  | EndTurn => True
  end.

(** ** Lists and the grid *)

(** Python's list subscript: a negative index counts from the end, an
    index outside [-len, len) raises [IndexError] ([None] here). *)
Definition py_norm {A} (l : list A) (i : Z) : option nat :=
  let n := Z.of_nat (length l) in
  if bool_decide (0 <= i < n) then Some (Z.to_nat i)
  else if bool_decide (- n <= i < 0) then Some (Z.to_nat (n + i))
  else None.

Definition py_get {A} (l : list A) (i : Z) : option A :=
  match py_norm l i with
  | Some k => l !! k
  | None => None
  end.

(** [grid[p[0]][p[1]]].  The grid is the 5x5 list of lists built by
    [reset]; cells are assigned, never appended or deleted, and every
    index the methods compute lies in 0..4 (see [_parse_action_on_board]),
    so the subscripts never raise and never wrap around. *)
Definition cell (g : Grid) (p : Pos) : option Unit :=
  match g !! Z.to_nat p.1 with
  | Some row => default None (row !! Z.to_nat p.2)
  | None => None
  end.

(** [grid[p[0]][p[1]] = v] *)
Definition set_cell (g : Grid) (p : Pos) (v : option Unit) : Grid :=
  alter (fun row => <[Z.to_nat p.2 := v]> row) (Z.to_nat p.1) g.

(** [range(start, stop, step)] for a non-zero [step] *)
Definition py_range (start stop step : Z) : list Z :=
  let n := if bool_decide (0 < step) then (stop - start + step - 1) / step
           else (start - stop - step - 1) / (- step) in
  (fun k : nat => start + Z.of_nat k * step) <$> seq 0 (Z.to_nat n).

(** [range(5)] *)
Definition range5 : list Z := [0; 1; 2; 3; 4].

Definition set_position (u : Unit) (p : Pos) : Unit :=
  mkUnit (unit_id u) (owner_id u) (unit_type u) p (acted_this_turn u).
Definition set_acted (u : Unit) (b : bool) : Unit :=
  mkUnit (unit_id u) (owner_id u) (unit_type u) (position u) b.

Definition set_actions_remaining (v : Z) (p : Player) : Player :=
  mkPlayer (player_id p) v (deployments_remaining p) (deployment_counts p).
Definition set_deployments_remaining (v : Z) (p : Player) : Player :=
  mkPlayer (player_id p) (actions_remaining p) v (deployment_counts p).
Definition set_deployment_counts (v : gmap UnitType Z) (p : Player) : Player :=
  mkPlayer (player_id p) (actions_remaining p) (deployments_remaining p) v.

Definition set_grid (v : Grid) (s : GameState) : GameState :=
  mkGameState v (current_player s) (turn_number s) (players s)
    (free_deployments_remaining s) (has_acted_this_turn s).
Definition set_current_player (v : Z) (s : GameState) : GameState :=
  mkGameState (grid s) v (turn_number s) (players s)
    (free_deployments_remaining s) (has_acted_this_turn s).
Definition set_turn_number (v : Z) (s : GameState) : GameState :=
  mkGameState (grid s) (current_player s) v (players s)
    (free_deployments_remaining s) (has_acted_this_turn s).
Definition set_players (v : list Player) (s : GameState) : GameState :=
  mkGameState (grid s) (current_player s) (turn_number s) v
    (free_deployments_remaining s) (has_acted_this_turn s).
Definition set_free_deployments_remaining (v : Z) (s : GameState) : GameState :=
  mkGameState (grid s) (current_player s) (turn_number s) (players s)
    v (has_acted_this_turn s).
Definition set_has_acted_this_turn (v : bool) (s : GameState) : GameState :=
  mkGameState (grid s) (current_player s) (turn_number s) (players s)
    (free_deployments_remaining s) v.

Definition set_state (v : option GameState) (e : NovusXEnv) : NovusXEnv :=
  mkEnv v (step_count e) (_unit_counter e) (state_hash_counts e)
    (turns_since_last_capture e) (turns_since_last_unit_death e)
    (last_control_ownership e) (game_outcome e) (draw_reason e) (training_mode e).
Definition set_step_count (v : Z) (e : NovusXEnv) : NovusXEnv :=
  mkEnv (state e) v (_unit_counter e) (state_hash_counts e)
    (turns_since_last_capture e) (turns_since_last_unit_death e)
    (last_control_ownership e) (game_outcome e) (draw_reason e) (training_mode e).
Definition set_unit_counter (v : Z) (e : NovusXEnv) : NovusXEnv :=
  mkEnv (state e) (step_count e) v (state_hash_counts e)
    (turns_since_last_capture e) (turns_since_last_unit_death e)
    (last_control_ownership e) (game_outcome e) (draw_reason e) (training_mode e).
Definition set_state_hash_counts (v : gmap string Z) (e : NovusXEnv) : NovusXEnv :=
  mkEnv (state e) (step_count e) (_unit_counter e) v
    (turns_since_last_capture e) (turns_since_last_unit_death e)
    (last_control_ownership e) (game_outcome e) (draw_reason e) (training_mode e).
Definition set_turns_since_last_capture (v : Z) (e : NovusXEnv) : NovusXEnv :=
  mkEnv (state e) (step_count e) (_unit_counter e) (state_hash_counts e)
    v (turns_since_last_unit_death e)
    (last_control_ownership e) (game_outcome e) (draw_reason e) (training_mode e).
Definition set_turns_since_last_unit_death (v : Z) (e : NovusXEnv) : NovusXEnv :=
  mkEnv (state e) (step_count e) (_unit_counter e) (state_hash_counts e)
    (turns_since_last_capture e) v
    (last_control_ownership e) (game_outcome e) (draw_reason e) (training_mode e).
Definition set_last_control_ownership (v : gmap Pos (option Z)) (e : NovusXEnv)
  : NovusXEnv :=
  mkEnv (state e) (step_count e) (_unit_counter e) (state_hash_counts e)
    (turns_since_last_capture e) (turns_since_last_unit_death e)
    v (game_outcome e) (draw_reason e) (training_mode e).
Definition set_game_outcome (v : GameOutcome) (e : NovusXEnv) : NovusXEnv :=
  mkEnv (state e) (step_count e) (_unit_counter e) (state_hash_counts e)
    (turns_since_last_capture e) (turns_since_last_unit_death e)
    (last_control_ownership e) v (draw_reason e) (training_mode e).
Definition set_draw_reason (v : DrawReason) (e : NovusXEnv) : NovusXEnv :=
  mkEnv (state e) (step_count e) (_unit_counter e) (state_hash_counts e)
    (turns_since_last_capture e) (turns_since_last_unit_death e)
    (last_control_ownership e) (game_outcome e) v (training_mode e).

(** ** The state and exception monad of the methods *)

Definition M (A : Type) : Type := NovusXEnv -> NovusXEnv * result A.

Definition ret {A} (a : A) : M A := fun self => (self, Ok a).
Definition raise {A} (e : exn) : M A := fun self => (self, Raise e).
Definition bind {A B} (m : M A) (k : A -> M B) : M B :=
  fun self =>
    match m self with
    | (self', Ok a) => k a self'
    | (self', Raise e) => (self', Raise e)
    end.
Definition lift {A} (r : result A) : M A := fun self => (self, r).
Definition modify (f : NovusXEnv -> NovusXEnv) : M unit := fun self => (f self, Ok tt).
Definition gets {A} (f : NovusXEnv -> A) : M A := fun self => (self, Ok (f self)).

Notation "'let*' x ':=' m 'in' k" := (bind m (fun x => k))
  (at level 10, x name, m at level 100, k at level 200).

(** [self.state.<attr>]: raises [AttributeError] while [self.state] is [None]. *)
Definition the_state : M GameState :=
  fun self =>
    match state self with
    | Some st => (self, Ok st)
    | None => (self, Raise AttributeError)
    end.

(** In-place mutation of the [GameState] object. *)
Definition modify_state (f : GameState -> GameState) : M unit :=
  let* st := the_state in modify (set_state (Some (f st))).

(** [self.state.players[i]] *)
Definition get_player (i : Z) : M Player :=
  let* st := the_state in
  match py_get (players st) i with
  | Some p => ret p
  | None => raise IndexError
  end.

(** In-place mutation of the dict [self.state.players[i]]. *)
Definition modify_player (i : Z) (f : Player -> Player) : M unit :=
  let* st := the_state in
  match py_norm (players st) i with
  | Some k => modify_state (fun st => set_players (alter f k (players st)) st)
  | None => raise IndexError
  end.

(** ** Read-only helpers on the game state *)

Definition _get_distance (a b : Pos) : Z :=
  let dx := Z.abs (a.2 - b.2) in
  let dy := Z.abs (a.1 - b.1) in
  if bool_decide (dx = 1) && bool_decide (dy = 1) then 2 else dx + dy.

Definition _controls_position (st : GameState) (pid : Z) (pos : Pos) : bool :=
  match cell (grid st) pos with
  | Some unit => bool_decide (owner_id unit = pid)
  | None => false
  end.

Definition _get_control_owner (st : GameState) (pos : Pos) : option Z :=
  owner_id <$> cell (grid st) pos.

(** [sum(1 for p in points if cond(p))] *)
Definition count_where {A} (cond : A -> bool) (xs : list A) : Z :=
  Z.of_nat (length (filter (fun x => cond x = true) xs)).

Definition _count_control_points (st : GameState) (pid : Z) : Z :=
  count_where (_controls_position st pid) CONTROL_POINTS.

Definition all_cells : list Pos :=
  row ← range5; col ← range5; [(row, col)].

Definition _count_units (st : GameState) (pid : Z) : Z :=
  count_where
    (fun p => match cell (grid st) p with
              | Some unit => bool_decide (owner_id unit = pid)
              | None => false
              end)
    all_cells.

Definition _can_move (st : GameState) (unit : Unit) (source target : Pos)
  : result bool :=
  if bool_decide (source = target) then Ok false
  else if bool_decide (cell (grid st) target <> None) then Ok false
  else
    match UNIT_STATS (unit_type unit) with
    | None => Raise KeyError
    | Some stats =>
        let dist := _get_distance source target in
        Ok (bool_decide (dist <= stats.1))
    end.

Definition _has_line_of_sight (st : GameState) (source target : Pos) : bool :=
  let dx := target.2 - source.2 in
  let dy := target.1 - source.1 in
  let adx := Z.abs dx in
  let ady := Z.abs dy in
  if bool_decide (adx = 0) && bool_decide (1 < ady) then
    let step := if bool_decide (0 < dy) then 1 else -1 in
    forallb (fun r => bool_decide (cell (grid st) (r, source.2) = None))
      (py_range (source.1 + step) target.1 step)
  else if bool_decide (ady = 0) && bool_decide (1 < adx) then
    let step := if bool_decide (0 < dx) then 1 else -1 in
    forallb (fun c => bool_decide (cell (grid st) (source.1, c) = None))
      (py_range (source.2 + step) target.2 step)
  else if bool_decide (adx = 1) && bool_decide (ady = 1) then true
  else true.

Definition manhattan (source target : Pos) : Z :=
  Z.abs (source.1 - target.1) + Z.abs (source.2 - target.2).

(** [attacker.unit_type in (UnitType.ARCHER, UnitType.SPEARMAN)] *)
Definition is_ranged_type (t : UnitType) : bool := py_in t [ARCHER; SPEARMAN].

Definition _can_attack (st : GameState) (attacker : Unit) (source target : Pos)
    (defender : Unit) : result bool :=
  match UNIT_STATS (unit_type attacker) with
  | None => Raise KeyError
  | Some stats =>
      let dist := _get_distance source target in
      if bool_decide (stats.2 < dist) then Ok false
      else
        let manhattan_dist := manhattan source target in
        let is_melee := bool_decide (manhattan_dist = 1) in
        if negb is_melee && is_ranged_type (unit_type attacker) then
          if bool_decide (unit_type defender = SHIELDMAN) then Ok false
          else
            let ranged_targets := beats_get RANGED_BEATS (unit_type attacker) in
            if negb (py_in (unit_type defender) ranged_targets) then Ok false
            else Ok (_has_line_of_sight st source target)
        else
          let attacker_wins :=
            py_in (unit_type defender) (beats_get MELEE_BEATS (unit_type attacker)) in
          let defender_wins :=
            py_in (unit_type attacker) (beats_get MELEE_BEATS (unit_type defender)) in
          if negb attacker_wins && negb defender_wins then Ok false
          else Ok true
  end.

Definition _can_rotate (st : GameState) (unit : Unit) (source target : Pos)
    (pid : Z) : bool :=
  match cell (grid st) target with
  | None => false
  | Some target_unit =>
      if bool_decide (owner_id target_unit <> pid) then false
      else if bool_decide (unit_type unit = unit_type target_unit) then false
      else
        let dx := Z.abs (target.2 - source.2) in
        let dy := Z.abs (target.1 - source.1) in
        let is_diagonal := bool_decide (dx = 1) && bool_decide (dy = 1) in
        let manhattan_dist := dx + dy in
        if bool_decide (manhattan_dist = 1) then true
        else if is_diagonal && bool_decide (unit_type unit = CAVALRY) then true
        else if bool_decide (manhattan_dist = 2)
                && (bool_decide (dx = 0) || bool_decide (dy = 0))
                && bool_decide (unit_type unit = CAVALRY)
                && bool_decide
                     (cell (grid st)
                        ((source.1 + target.1) / 2, (source.2 + target.2) / 2) = None)
        then true
        else false
  end.

Definition _check_winner (st : GameState) : option Z :=
  if bool_decide (_count_control_points st 0 = 3) then Some 0
  else if bool_decide (_count_control_points st 1 = 3) then Some 1
  else if bool_decide (10 < turn_number st) then
    if bool_decide (_count_units st (1 - 0) = 0)
       && bool_decide (0 < _count_units st 0) then Some 0
    else if bool_decide (_count_units st (1 - 1) = 0)
            && bool_decide (0 < _count_units st 1) then Some 1
    else None
  else None.

(** ** Turn transition *)

(** [if unit: unit.acted_this_turn = False] over the 25 cells *)
Definition clear_unit (c : option Unit) : option Unit :=
  match c with
  | Some unit => Some (set_acted unit false)
  | None => None
  end.

Definition clear_acted (g : Grid) : Grid :=
  fmap (M:=list) (fmap (M:=list) clear_unit) g.

Definition _end_turn : M unit :=
  let* st := the_state in
  let new_player := 1 - current_player st in
  let* _ := modify (fun e =>
    set_turns_since_last_capture (turns_since_last_capture e + 1) e) in
  let* _ := modify (fun e =>
    set_turns_since_last_unit_death (turns_since_last_unit_death e + 1) e) in
  let middle_bonus :=
    if _controls_position st new_player (nth 1 CONTROL_POINTS (0, 0)) then 1 else 0 in
  let side_control := count_where (_controls_position st new_player) OUTSIDE_POINTS in
  let both_sides := bool_decide (side_control = 2) in
  let* _ := modify_player new_player (set_actions_remaining (1 + middle_bonus)) in
  let* _ :=
    if both_sides then
      modify_player new_player
        (fun p => set_deployments_remaining (deployments_remaining p + 1) p)
    else ret tt in
  let* _ := modify_state
    (set_free_deployments_remaining (if bool_decide (0 < side_control) then 1 else 0)) in
  let* _ := modify_state (fun st => set_grid (clear_acted (grid st)) st) in
  let* _ := modify_state (set_current_player new_player) in
  let* _ := modify_state (fun st => set_turn_number (turn_number st + 1) st) in
  modify_state (set_has_acted_this_turn false).

(** The tail shared by the four appliers:
    [if player["actions_remaining"] <= 0: self._end_turn()]. *)
Definition auto_end_turn (pid : Z) : M unit :=
  let* player := get_player pid in
  if bool_decide (actions_remaining player <= 0) then _end_turn else ret tt.

Definition spend_action (pid : Z) : M unit :=
  let* _ := modify_player pid
    (fun p => set_actions_remaining (actions_remaining p - 1) p) in
  modify_state (set_has_acted_this_turn true).

(** ** Action application *)

Definition _apply_deploy (unit_type : UnitType) (col : Z) (pid : Z)
  : M (bool * string) :=
  let* player := get_player pid in
  if bool_decide (deployments_remaining player <= 0) then
    ret (false, "No deployments remaining")
  else
    let row := if bool_decide (pid = 0) then 0 else 4 in
    let* st := the_state in
    if bool_decide (cell (grid st) (row, col) <> None) then ret (false, "Tile occupied")
    else
      let type_count := default 0 (deployment_counts player !! unit_type) in
      if bool_decide (MAX_DEPLOYMENTS_PER_TYPE <= type_count) then
        ret (false, "Max " +:+ pretty MAX_DEPLOYMENTS_PER_TYPE +:+ " of "
                    +:+ UnitType_name unit_type +:+ " already deployed")
      else
        let* _ := modify (fun e => set_unit_counter (_unit_counter e + 1) e) in
        let* counter := gets _unit_counter in
        let unit :=
          mkUnit (pretty pid +:+ "-" +:+ UnitType_name unit_type +:+ "-" +:+ pretty counter)
                 pid unit_type (row, col) true in
        let* _ := modify_state (fun st => set_grid (set_cell (grid st) (row, col) (Some unit)) st) in
        let* _ := modify_player pid
          (fun p => set_deployments_remaining (deployments_remaining p - 1) p) in
        let* _ := modify_player pid
          (fun p => set_actions_remaining (actions_remaining p - 1) p) in
        let* _ := modify_player pid
          (fun p => set_deployment_counts
                      (<[unit_type := default 0 (deployment_counts p !! unit_type) + 1]>
                         (deployment_counts p)) p) in
        let* _ := modify_state (set_has_acted_this_turn true) in
        let* _ := auto_end_turn pid in
        ret (true, EmptyString).

Definition _apply_move (source target : Pos) (pid : Z) : M (bool * string) :=
  let* st := the_state in
  match cell (grid st) source with
  | None => ret (false, "No friendly unit at source")
  | Some unit =>
      if bool_decide (owner_id unit <> pid) then ret (false, "No friendly unit at source")
      else if acted_this_turn unit then ret (false, "Unit already acted")
      else
        let* ok := lift (_can_move st unit source target) in
        if negb ok then ret (false, "Invalid move")
        else
          let* _ := modify_state (fun st => set_grid (set_cell (grid st) source None) st) in
          let unit := set_acted (set_position unit target) true in
          let* _ := modify_state (fun st => set_grid (set_cell (grid st) target (Some unit)) st) in
          let* _ := spend_action pid in
          let* _ := auto_end_turn pid in
          ret (true, EmptyString)
  end.

(** The two removal flags [_apply_attack] computes,
    [(remove_attacker, remove_defender)]. *)
Definition resolve_combat (attacker defender : Unit) (source target : Pos)
  : bool * bool :=
  let dist := manhattan source target in
  let is_melee := bool_decide (dist = 1) in
  if negb is_melee && is_ranged_type (unit_type attacker) then
    let ranged_targets := beats_get RANGED_BEATS (unit_type attacker) in
    (false, py_in (unit_type defender) ranged_targets)
  else
    let attacker_wins :=
      py_in (unit_type defender) (beats_get MELEE_BEATS (unit_type attacker)) in
    let defender_wins :=
      py_in (unit_type attacker) (beats_get MELEE_BEATS (unit_type defender)) in
    if attacker_wins && defender_wins then (true, true)
    else if attacker_wins then (false, true)
    else if defender_wins then (true, false)
    else (false, false).

Definition _apply_attack (source target : Pos) (pid : Z) : M (bool * string) :=
  let* st := the_state in
  match cell (grid st) source with
  | None => ret (false, "No friendly unit at source")
  | Some attacker =>
      if bool_decide (owner_id attacker <> pid) then
        ret (false, "No friendly unit at source")
      else if acted_this_turn attacker then ret (false, "Unit already acted")
      else
        match cell (grid st) target with
        | None => ret (false, "No enemy unit at target")
        | Some defender =>
            if bool_decide (owner_id defender = pid) then
              ret (false, "No enemy unit at target")
            else
              let* ok := lift (_can_attack st attacker source target defender) in
              if negb ok then ret (false, "Invalid attack")
              else
                let '(remove_attacker, remove_defender) :=
                  resolve_combat attacker defender source target in
                let* _ := modify_state (fun st =>
                  set_grid (set_cell (grid st) source
                              (if remove_attacker then None
                               else Some (set_acted attacker true))) st) in
                let* _ :=
                  if remove_defender then
                    modify_state (fun st => set_grid (set_cell (grid st) target None) st)
                  else ret tt in
                let* _ := spend_action pid in
                let* _ := auto_end_turn pid in
                ret (true, EmptyString)
        end
  end.

Definition _apply_rotate (source target : Pos) (pid : Z) : M (bool * string) :=
  let* st := the_state in
  match cell (grid st) source with
  | None => ret (false, "No friendly unit at source")
  | Some unit =>
      if bool_decide (owner_id unit <> pid) then ret (false, "No friendly unit at source")
      else if acted_this_turn unit then ret (false, "Unit already acted")
      else
        match cell (grid st) target with
        | None => ret (false, "No friendly unit at target")
        | Some target_unit =>
            if bool_decide (owner_id target_unit <> pid) then
              ret (false, "No friendly unit at target")
            else if bool_decide (unit_type unit = unit_type target_unit) then
              ret (false, "Cannot swap units of same type")
            else
              let dx := Z.abs (target.2 - source.2) in
              let dy := Z.abs (target.1 - source.1) in
              let is_diagonal := bool_decide (dx = 1) && bool_decide (dy = 1) in
              let manhattan_dist := dx + dy in
              let swap : M (bool * string) :=
                let* _ := modify_state (fun st =>
                  set_grid (set_cell (grid st) source
                              (Some (set_position target_unit source))) st) in
                let* _ := modify_state (fun st =>
                  set_grid (set_cell (grid st) target
                              (Some (set_acted (set_position unit target) true))) st) in
                let* _ := spend_action pid in
                let* _ := auto_end_turn pid in
                ret (true, EmptyString) in
              if bool_decide (manhattan_dist = 1) then swap
              else if is_diagonal then
                if bool_decide (unit_type unit <> CAVALRY) then
                  ret (false, "Only cavalry can do diagonal swaps")
                else swap
              else if bool_decide (manhattan_dist = 2)
                      && (bool_decide (dx = 0) || bool_decide (dy = 0)) then
                if bool_decide (unit_type unit <> CAVALRY) then
                  ret (false, "Only cavalry can do long rotations")
                else if bool_decide
                          (cell (grid st)
                             ((source.1 + target.1) / 2, (source.2 + target.2) / 2)
                           <> None)
                then ret (false, "Middle tile not empty for long rotation")
                else swap
              else ret (false, "Invalid rotation distance")
        end
  end.

Definition _apply_action (a : Action) (pid : Z) : M (bool * string) :=
  let* player := get_player pid in
  match a with
  | EndTurn => let* _ := _end_turn in ret (true, EmptyString)
  | _ =>
      if bool_decide (actions_remaining player <= 0) then
        ret (false, "No actions remaining")
      else
        match a with
        | Deploy unit_type col => _apply_deploy unit_type col pid
        | Move source target => _apply_move source target pid
        | Attack source target => _apply_attack source target pid
        | Rotate source target => _apply_rotate source target pid
        | EndTurn => ret (false, "Unknown action type")
        end
  end.

(** ** Observation *)

(** The integer data the observation tensor is computed from: per cell
    the unit type, whether the unit is the observer's and its acted flag;
    then the numerators of the global features. *)
Record Observation := mkObs {
  obs_cells : list (list (option (UnitType * bool * bool)));
  obs_turn_number : Z;
  obs_actions : Z;
  obs_deployments : Z;
  obs_enemy_deployments : Z;
  obs_control : Z;
  obs_enemy_control : Z;
  obs_is_turn : bool
}.

Definition obs_cell (pid : Z) (c : option Unit) : option (UnitType * bool * bool) :=
  match c with
  | Some unit =>
      Some (unit_type unit, bool_decide (owner_id unit = pid), acted_this_turn unit)
  | None => None
  end.

(** The subscripts [self.state.players[player_id]] and
    [self.state.players[1 - player_id]] raise [IndexError] unless
    [player_id] is 0 or 1. *)
Definition _get_observation (st : GameState) (pid : Z) : result Observation :=
  match py_get (players st) pid with
  | None => Raise IndexError
  | Some player =>
      match py_get (players st) (1 - pid) with
      | None => Raise IndexError
      | Some enemy =>
          Ok (mkObs (fmap (M:=list) (fmap (M:=list) (obs_cell pid)) (grid st))
                (turn_number st) (actions_remaining player)
                (deployments_remaining player) (deployments_remaining enemy)
                (_count_control_points st pid) (_count_control_points st (1 - pid))
                (bool_decide (current_player st = pid)))
      end
  end.

Record StepInfo := mkInfo {
  info_winner : option Z;
  info_turn_number : Z;
  info_current_player : Z;
  info_game_outcome : GameOutcome;
  info_is_draw : bool;
  info_draw_reason : option DrawReason;
  info_draw_reward : option Reward;
  info_training_mode : bool;
  info_turns_since_capture : Z;
  info_turns_since_death : Z
}.

(** The [info] dict: [{"error": msg}] on a rejection, the full report
    otherwise. *)
Inductive Info :=
  | InfoError (error : string)
  | InfoStep (i : StepInfo).

Definition StepReturn : Type := Observation * Reward * bool * Info.

Definition _get_draw_reward (training : bool) (reason : DrawReason) : Reward :=
  if negb training then RKey draw_default
  else match reason with
       | NO_PROGRESS => RKey draw_no_progress
       | REPEATED_STATE => RKey draw_repetition
       | MAX_TURNS => RKey draw_max_turns
       | NONE => RKey draw_default
       end.

(** ** State hash *)

Definition cell_part (st : GameState) (p : Pos) : string :=
  match cell (grid st) p with
  | Some unit =>
      pretty p.1 +:+ "," +:+ pretty p.2 +:+ ":"
        +:+ pretty (UnitType_value (unit_type unit)) +:+ ":" +:+ pretty (owner_id unit)
  | None => pretty p.1 +:+ "," +:+ pretty p.2 +:+ ":empty"
  end.

Definition cp_part (st : GameState) (pos : Pos) : string :=
  "cp(" +:+ pretty pos.1 +:+ ", " +:+ pretty pos.2 +:+ "):"
    +:+ match _get_control_owner st pos with
        | Some owner => pretty owner
        | None => "None"
        end.

(** ["|".join(state_parts)]; [sorted(CONTROL_POINTS)] is [CONTROL_POINTS]. *)
Definition state_string (st : GameState) : string :=
  String.concat "|"
    ((cell_part st <$> all_cells) ++ (cp_part st <$> CONTROL_POINTS)
       ++ ["player:" +:+ pretty (current_player st)]).

(** ** Reset *)

Definition initial_deployment_counts : gmap UnitType Z :=
  <[SWORDSMAN := 0]> (<[SHIELDMAN := 0]> (<[AXEMAN := 0]> (<[CAVALRY := 0]>
    (<[ARCHER := 0]> (<[SPEARMAN := 0]> ∅))))).

Definition initial_state : GameState :=
  mkGameState (replicate 5 (replicate 5 None)) 0 1
    [ mkPlayer 0 1 10 initial_deployment_counts;
      mkPlayer 1 0 10 initial_deployment_counts ]
    0 false.

Definition reset : M Observation :=
  let* _ := modify (set_unit_counter 0) in
  let* _ := modify (set_step_count 0) in
  let* _ := modify (set_state_hash_counts ∅) in
  let* _ := modify (set_turns_since_last_capture 0) in
  let* _ := modify (set_turns_since_last_unit_death 0) in
  let* _ := modify (set_last_control_ownership
                      (list_to_map ((fun pos => (pos, None)) <$> CONTROL_POINTS))) in
  let* _ := modify (set_game_outcome IN_PROGRESS) in
  let* _ := modify (set_draw_reason NONE) in
  let* _ := modify (set_state (Some initial_state)) in
  let* st := the_state in
  lift (_get_observation st 0).

(** The object [NovusXEnv(config)] builds. *)
Definition init_env : NovusXEnv :=
  mkEnv None 0 0 ∅ 0 0 ∅ IN_PROGRESS NONE true.

(** ** Action mask *)

Definition rbind {A B} (r : result A) (k : A -> result B) : result B :=
  match r with
  | Ok a => k a
  | Raise e => Raise e
  end.

(** A [for] loop whose body may raise. *)
Fixpoint for_each {A S} (xs : list A) (body : A -> S -> result S) (acc : S)
  : result S :=
  match xs with
  | [] => Ok acc
  | x :: xs => rbind (body x acc) (for_each xs body)
  end.

(** [mask[idx] = 1.0]; every index written lies in [0, ACTION_SPACE_SIZE). *)
Definition mark (idx : Z) (mask : list bool) : list bool :=
  <[Z.to_nat idx := true]> mask.

Definition mask_deploy (st : GameState) (pid : Z) (player : Player)
  : list bool -> result (list bool) :=
  let deploy_row := if bool_decide (pid = 0) then 0 else 4 in
  for_each range5 (fun unit_type_idx mask =>
    rbind (UnitType_of_value (unit_type_idx + 1)) (fun unit_type =>
      let type_count := default 0 (deployment_counts player !! unit_type) in
      if bool_decide (MAX_DEPLOYMENTS_PER_TYPE <= type_count) then Ok mask
      else
        for_each range5 (fun col mask =>
          if bool_decide (cell (grid st) (deploy_row, col) = None) then
            Ok (mark (_encode_deploy (unit_type_idx + 1) col) mask)
          else Ok mask) mask)).

(** The loop nest shared by the move, attack and rotate sections: every
    own unit that has not acted, against every target cell. *)
Definition mask_units (st : GameState) (pid : Z)
    (body : Unit -> Pos -> Pos -> list bool -> result (list bool))
  : list bool -> result (list bool) :=
  for_each range5 (fun row =>
    for_each range5 (fun col mask =>
      match cell (grid st) (row, col) with
      | Some unit =>
          if bool_decide (owner_id unit = pid) && negb (acted_this_turn unit) then
            for_each range5 (fun target_row =>
              for_each range5 (fun target_col =>
                body unit (row, col) (target_row, target_col))) mask
          else Ok mask
      | None => Ok mask
      end)).

Definition mask_move (st : GameState) (pid : Z) : list bool -> result (list bool) :=
  mask_units st pid (fun unit source target mask =>
    rbind (_can_move st unit source target) (fun ok =>
      if ok then Ok (mark (_encode_move source target) mask) else Ok mask)).

Definition mask_attack (st : GameState) (pid : Z) : list bool -> result (list bool) :=
  mask_units st pid (fun unit source target mask =>
    match cell (grid st) target with
    | Some target_unit =>
        if bool_decide (owner_id target_unit <> pid) then
          rbind (_can_attack st unit source target target_unit) (fun ok =>
            if ok then Ok (mark (_encode_attack source target) mask) else Ok mask)
        else Ok mask
    | None => Ok mask
    end).

Definition mask_rotate (st : GameState) (pid : Z) : list bool -> result (list bool) :=
  mask_units st pid (fun unit source target mask =>
    if _can_rotate st unit source target pid then
      Ok (mark (_encode_rotate source target) mask)
    else Ok mask).

Definition get_valid_actions_mask (self : NovusXEnv) (player_id : option Z)
  : result (list bool) :=
  let zeros := replicate (Z.to_nat ACTION_SPACE_SIZE) false in
  match state self with
  | None => Ok zeros
  | Some st =>
      let pid := default (current_player st) player_id in
      if bool_decide (pid <> current_player st) then Ok zeros
      else
        match py_get (players st) pid with
        | None => Raise IndexError
        | Some player =>
            let has_actions := bool_decide (0 < actions_remaining player) in
            let has_deployments := bool_decide (0 < deployments_remaining player) in
            rbind (if has_actions && has_deployments
                   then mask_deploy st pid player zeros else Ok zeros) (fun mask =>
            rbind (if has_actions then mask_move st pid mask else Ok mask) (fun mask =>
            rbind (if has_actions then mask_attack st pid mask else Ok mask) (fun mask =>
            rbind (if has_actions then mask_rotate st pid mask else Ok mask) (fun mask =>
            Ok (mark (ACTION_SPACE_SIZE - 1) mask)))))
        end
  end.

(** ** Draw detection and [step] *)

(** [hashlib.md5(s.encode()).hexdigest()]: the digest function is a
    parameter of the development. *)
Class Digest := md5_hexdigest : string -> string.

Section Engine.

Context {digest : Digest}.

Definition _compute_state_hash (st : GameState) : string :=
  md5_hexdigest (state_string st).

Definition _check_draw_conditions : M (bool * DrawReason) :=
  let* st := the_state in
  if bool_decide (MAX_TURN_LIMIT <= turn_number st) then ret (true, MAX_TURNS)
  else
    let state_hash := _compute_state_hash st in
    let* _ := modify (fun e =>
      set_state_hash_counts
        (<[state_hash := default 0 (state_hash_counts e !! state_hash) + 1]>
           (state_hash_counts e)) e) in
    let* counts := gets state_hash_counts in
    if bool_decide (REPEATED_STATE_LIMIT <= default 0 (counts !! state_hash)) then
      ret (true, REPEATED_STATE)
    else
      let* capture := gets turns_since_last_capture in
      let* death := gets turns_since_last_unit_death in
      if bool_decide (NO_PROGRESS_TURN_LIMIT <= capture)
         && bool_decide (NO_PROGRESS_TURN_LIMIT <= death)
      then ret (true, NO_PROGRESS)
      else ret (false, NONE).

(** The shaping reward of an applied action. *)
Definition shaping_reward (prev_control curr_control enemy_control
    prev_units curr_units prev_enemy_units curr_enemy_units : Z) : Reward :=
  let reward := RKey turn_penalty in
  let reward :=
    if bool_decide (prev_control < curr_control) then
      RPlus reward capture_control_point (curr_control - prev_control)
    else if bool_decide (curr_control < prev_control) then
      RPlus reward lose_control_point (prev_control - curr_control)
    else reward in
  let control_advantage := curr_control - enemy_control in
  let reward :=
    if bool_decide (control_advantage <> 0) then
      RPlus reward control_point_advantage control_advantage
    else reward in
  let reward :=
    if bool_decide (curr_units < prev_units) then
      RPlus reward lose_own_unit (prev_units - curr_units)
    else reward in
  if bool_decide (curr_enemy_units < prev_enemy_units) then
    RPlus reward defeat_enemy_unit (prev_enemy_units - curr_enemy_units)
  else reward.

Definition build_info (winner : option Z) (reward : Reward) : M Info :=
  let* st := the_state in
  let* e := gets (fun e => e) in
  ret (InfoStep
         (mkInfo winner (turn_number st) (current_player st) (game_outcome e)
            (bool_decide (game_outcome e = DRAW))
            (if bool_decide (draw_reason e <> NONE) then Some (draw_reason e) else None)
            (if bool_decide (game_outcome e = DRAW) then Some reward else None)
            (training_mode e) (turns_since_last_capture e)
            (turns_since_last_unit_death e))).

(** The last part of [step], from "Check for game end" to the return:
    win conditions first, then the draw conditions; [reward] is the
    shaping reward computed so far. *)
Definition check_game_end (pid : Z) (reward : Reward) : M StepReturn :=
  let* st := the_state in
  match _check_winner st with
  | Some winner =>
      let* _ := modify (set_game_outcome
        (if bool_decide (winner = 0) then PLAYER_0_WIN else PLAYER_1_WIN)) in
      let reward := if bool_decide (winner = pid) then RKey win else RKey lose in
      let* info := build_info (Some winner) reward in
      let* st := the_state in
      let* obs := lift (_get_observation st pid) in
      ret (obs, reward, true, info)
  | None =>
      let* drawn := _check_draw_conditions in
      let '(draw_detected, reason) := drawn in
      if draw_detected then
        let* _ := modify (set_game_outcome DRAW) in
        let* _ := modify (set_draw_reason reason) in
        let* training := gets training_mode in
        let reward := _get_draw_reward training reason in
        let* info := build_info None reward in
        let* st := the_state in
        let* obs := lift (_get_observation st pid) in
        ret (obs, reward, true, info)
      else
        let* info := build_info None reward in
        let* st := the_state in
        let* obs := lift (_get_observation st pid) in
        ret (obs, reward, false, info)
  end.

(** The part of [step] between the application of the action and the
    game-end check: the no-progress counters, then the shaping reward.
    [st0] is the state before the action. *)
Definition track_progress (st0 : GameState) (pid : Z) : M Reward :=
  let prev_control := _count_control_points st0 pid in
  let prev_units := _count_units st0 pid in
  let enemy_id := 1 - pid in
  let prev_enemy_units := _count_units st0 enemy_id in
  let prev_total_units := prev_units + prev_enemy_units in
  let prev_control_ownership := _get_control_owner st0 in
  let* st := the_state in
  let curr_total_units := _count_units st 0 + _count_units st 1 in
  let unit_died := bool_decide (curr_total_units < prev_total_units) in
  let control_changed :=
    existsb (fun pos =>
               bool_decide (_get_control_owner st pos <> prev_control_ownership pos))
            CONTROL_POINTS in
  let* _ := if control_changed then modify (set_turns_since_last_capture 0)
            else ret tt in
  let* _ := if unit_died then modify (set_turns_since_last_unit_death 0)
            else ret tt in
  ret (shaping_reward prev_control (_count_control_points st pid)
         (_count_control_points st enemy_id) prev_units (_count_units st pid)
         prev_enemy_units (_count_units st enemy_id)).

Definition step (action : Z) (player_id : option Z) : M StepReturn :=
  let* s0 := gets state in
  match s0 with
  | None => raise RuntimeError
  | Some st0 =>
      let pid := default (current_player st0) player_id in
      if bool_decide (pid <> current_player st0) then
        let* obs := lift (_get_observation st0 pid) in
        ret (obs, RKey invalid_action_penalty, false, InfoError "Not your turn")
      else
        let* _ := modify (fun e => set_step_count (step_count e + 1) e) in
        let* a := lift (_parse_action action) in
        let* applied := _apply_action a pid in
        let '(valid, error_msg) := applied in
        if negb valid then
          let* st := the_state in
          let* obs := lift (_get_observation st pid) in
          ret (obs, RKey invalid_action_penalty, false, InfoError error_msg)
        else
          let* reward := track_progress st0 pid in
          check_game_end pid reward
  end.

(** The environments a caller can hold: after a [reset], and after any
    further [step], with whatever index and player argument.  [acts]
    restricts the action indices of the steps. *)
Inductive reachable_by (acts : Z -> Prop) : NovusXEnv -> Prop :=
  | reach_reset e : reachable_by acts (reset e).1
  | reach_step e action player_id :
      reachable_by acts e -> acts action ->
      reachable_by acts (step action player_id e).1.

Definition reachable : NovusXEnv -> Prop := reachable_by (fun _ => True).

Definition in_action_space (a : Z) : Prop := 0 <= a < ACTION_SPACE_SIZE.

(** [step] applied the action: it returned the full report, neither a
    rejection nor an exception. *)
Definition step_succeeds (action : Z) (player_id : option Z) (e : NovusXEnv) : bool :=
  match (step action player_id e).2 with
  | Ok (_, _, _, InfoStep _) => true
  | _ => false
  end.

(** [step] rejected the action: it returned an [{"error": ...}] info. *)
Definition step_rejects (action : Z) (player_id : option Z) (e : NovusXEnv) : bool :=
  match (step action player_id e).2 with
  | Ok (_, _, _, InfoError _) => true
  | _ => false
  end.

(** ** Derived forms used by the proofs

    The monadic methods, run on a well-formed environment, compute the
    pure state transformers below (lemmas [_end_turn_run],
    [spend_action_run], [auto_end_turn_run] and the [_apply_*_run]
    family). *)

Definition grid_wf (g : Grid) : Prop :=
  length g = 5%nat /\ Forall (fun row => length row = 5%nat) g.

Definition is_player (pid : Z) : Prop := pid = 0 \/ pid = 1.

Definition player_at (st : GameState) (pid : Z) : option Player :=
  players st !! Z.to_nat pid.

Definition upd_player (pid : Z) (f : Player -> Player) (st : GameState) : GameState :=
  set_players (alter f (Z.to_nat pid) (players st)) st.

Definition upd_grid (p : Pos) (v : option Unit) (st : GameState) : GameState :=
  set_grid (set_cell (grid st) p v) st.

Definition middle_bonus (st : GameState) (pid : Z) : Z :=
  if _controls_position st pid (2, 2) then 1 else 0.

Definition side_control (st : GameState) (pid : Z) : Z :=
  count_where (_controls_position st pid) OUTSIDE_POINTS.

Definition end_turn_st (st : GameState) : GameState :=
  let new_player := 1 - current_player st in
  let st1 := upd_player new_player
               (set_actions_remaining (1 + middle_bonus st new_player)) st in
  let st2 := if bool_decide (side_control st new_player = 2) then
               upd_player new_player
                 (fun p => set_deployments_remaining (deployments_remaining p + 1) p) st1
             else st1 in
  let st3 := set_free_deployments_remaining
               (if bool_decide (0 < side_control st new_player) then 1 else 0) st2 in
  let st4 := set_grid (clear_acted (grid st3)) st3 in
  let st5 := set_current_player new_player st4 in
  let st6 := set_turn_number (turn_number st5 + 1) st5 in
  set_has_acted_this_turn false st6.

Definition tick (e : NovusXEnv) : NovusXEnv :=
  set_turns_since_last_unit_death (turns_since_last_unit_death e + 1)
    (set_turns_since_last_capture (turns_since_last_capture e + 1) e).

Definition end_turn_env (e : NovusXEnv) (st : GameState) : NovusXEnv :=
  set_state (Some (end_turn_st st)) (tick e).

Definition spend_st (pid : Z) (st : GameState) : GameState :=
  set_has_acted_this_turn true
    (upd_player pid (fun p => set_actions_remaining (actions_remaining p - 1) p) st).

(** Whether the turn ends after the action of [pid] that led to [st]. *)
Definition turn_over (pid : Z) (st : GameState) : bool :=
  match player_at st pid with
  | Some p => bool_decide (actions_remaining p <= 0)
  | None => false
  end.

Definition auto_end_env (pid : Z) (e : NovusXEnv) (st : GameState) : NovusXEnv :=
  if turn_over pid st then end_turn_env e st else e.

(** The environment after an accepted move, attack or rotate that left
    the state [st] behind: the action is paid, then the turn may end. *)
Definition finish_env (pid : Z) (e : NovusXEnv) (st : GameState) : NovusXEnv :=
  auto_end_env pid (set_state (Some (spend_st pid st)) e) (spend_st pid st).

Definition deploy_st (ut : UnitType) (col pid counter : Z) (st : GameState) : GameState :=
  let row := if bool_decide (pid = 0) then 0 else 4 in
  let unit :=
    mkUnit (pretty pid +:+ "-" +:+ UnitType_name ut +:+ "-" +:+ pretty counter)
           pid ut (row, col) true in
  let st1 := upd_grid (row, col) (Some unit) st in
  let st2 := upd_player pid
               (fun p => set_deployments_remaining (deployments_remaining p - 1) p) st1 in
  let st3 := upd_player pid
               (fun p => set_actions_remaining (actions_remaining p - 1) p) st2 in
  let st4 := upd_player pid
               (fun p => set_deployment_counts
                           (<[ut := default 0 (deployment_counts p !! ut) + 1]>
                              (deployment_counts p)) p) st3 in
  set_has_acted_this_turn true st4.

Definition move_st (unit : Unit) (source target : Pos) (st : GameState) : GameState :=
  upd_grid target (Some (set_acted (set_position unit target) true))
    (upd_grid source None st).

Definition attack_st (attacker defender : Unit) (source target : Pos)
    (st : GameState) : GameState :=
  let flags := resolve_combat attacker defender source target in
  let st1 := upd_grid source
               (if flags.1 then None else Some (set_acted attacker true)) st in
  if flags.2 then upd_grid target None st1 else st1.

Definition rotate_st (unit target_unit : Unit) (source target : Pos)
    (st : GameState) : GameState :=
  upd_grid target (Some (set_acted (set_position unit target) true))
    (upd_grid source (Some (set_position target_unit source)) st).

Record state_wf (st : GameState) : Prop := mk_state_wf {
  wf_grid : grid_wf (grid st);
  wf_players : length (players st) = 2%nat;
  wf_current : is_player (current_player st)
}.

(** What an applier decides on the state [st]: a raise, a rejection with
    its message, or the state the accepted action leaves once it is paid
    for (before the turn may end). *)
Definition deploy_outcome (st : GameState) (counter : Z) (ut : UnitType) (col pid : Z)
  : result (string + GameState) :=
  match player_at st pid with
  | None => Raise IndexError
  | Some player =>
      if bool_decide (deployments_remaining player <= 0) then
        Ok (inl "No deployments remaining")
      else if bool_decide
                (cell (grid st) (if bool_decide (pid = 0) then 0 else 4, col) <> None)
      then Ok (inl "Tile occupied")
      else if bool_decide (MAX_DEPLOYMENTS_PER_TYPE
                           <= default 0 (deployment_counts player !! ut))
      then Ok (inl ("Max " +:+ pretty MAX_DEPLOYMENTS_PER_TYPE +:+ " of "
                    +:+ UnitType_name ut +:+ " already deployed"))
      else Ok (inr (deploy_st ut col pid (counter + 1) st))
  end.

Definition move_outcome (st : GameState) (source target : Pos) (pid : Z)
  : result (string + GameState) :=
  match cell (grid st) source with
  | None => Ok (inl "No friendly unit at source")
  | Some unit =>
      if bool_decide (owner_id unit <> pid) then Ok (inl "No friendly unit at source")
      else if acted_this_turn unit then Ok (inl "Unit already acted")
      else
        match _can_move st unit source target with
        | Raise x => Raise x
        | Ok false => Ok (inl "Invalid move")
        | Ok true => Ok (inr (spend_st pid (move_st unit source target st)))
        end
  end.

Definition attack_outcome (st : GameState) (source target : Pos) (pid : Z)
  : result (string + GameState) :=
  match cell (grid st) source with
  | None => Ok (inl "No friendly unit at source")
  | Some attacker =>
      if bool_decide (owner_id attacker <> pid) then
        Ok (inl "No friendly unit at source")
      else if acted_this_turn attacker then Ok (inl "Unit already acted")
      else
        match cell (grid st) target with
        | None => Ok (inl "No enemy unit at target")
        | Some defender =>
            if bool_decide (owner_id defender = pid) then
              Ok (inl "No enemy unit at target")
            else
              match _can_attack st attacker source target defender with
              | Raise x => Raise x
              | Ok false => Ok (inl "Invalid attack")
              | Ok true =>
                  Ok (inr (spend_st pid (attack_st attacker defender source target st)))
              end
        end
  end.

Definition rotate_outcome (st : GameState) (source target : Pos) (pid : Z)
  : result (string + GameState) :=
  match cell (grid st) source with
  | None => Ok (inl "No friendly unit at source")
  | Some unit =>
      if bool_decide (owner_id unit <> pid) then Ok (inl "No friendly unit at source")
      else if acted_this_turn unit then Ok (inl "Unit already acted")
      else
        match cell (grid st) target with
        | None => Ok (inl "No friendly unit at target")
        | Some target_unit =>
            if bool_decide (owner_id target_unit <> pid) then
              Ok (inl "No friendly unit at target")
            else if bool_decide (unit_type unit = unit_type target_unit) then
              Ok (inl "Cannot swap units of same type")
            else
              let dx := Z.abs (target.2 - source.2) in
              let dy := Z.abs (target.1 - source.1) in
              let done := Ok (inr (spend_st pid
                                     (rotate_st unit target_unit source target st))) in
              if bool_decide (dx + dy = 1) then done
              else if bool_decide (dx = 1) && bool_decide (dy = 1) then
                if bool_decide (unit_type unit <> CAVALRY) then
                  Ok (inl "Only cavalry can do diagonal swaps")
                else done
              else if bool_decide (dx + dy = 2)
                      && (bool_decide (dx = 0) || bool_decide (dy = 0)) then
                if bool_decide (unit_type unit <> CAVALRY) then
                  Ok (inl "Only cavalry can do long rotations")
                else if bool_decide
                          (cell (grid st)
                             ((source.1 + target.1) / 2, (source.2 + target.2) / 2)
                           <> None)
                then Ok (inl "Middle tile not empty for long rotation")
                else done
              else Ok (inl "Invalid rotation distance")
        end
  end.

Definition action_outcome (st : GameState) (counter : Z) (a : Action) (pid : Z)
  : result (string + GameState) :=
  match a with
  | Deploy ut col => deploy_outcome st counter ut col pid
  | Move source target => move_outcome st source target pid
  | Attack source target => attack_outcome st source target pid
  | Rotate source target => rotate_outcome st source target pid
  | EndTurn => Ok (inr st)
  end.

(** [_unit_counter] after the action: only an accepted deploy counts. *)
Definition count_deploy (a : Action) (e : NovusXEnv) : NovusXEnv :=
  match a with
  | Deploy _ _ => set_unit_counter (_unit_counter e + 1) e
  | _ => e
  end.

(** How an applier ends on [e] given its outcome; [e1] is [e] with the
    unit counter of an accepted deploy. *)
Definition conclude (pid : Z) (e e1 : NovusXEnv) (o : result (string + GameState))
  : NovusXEnv * result (bool * string) :=
  match o with
  | Raise x => (e, Raise x)
  | Ok (inl msg) => (e, Ok (false, msg))
  | Ok (inr st1) => (auto_end_env pid (set_state (Some st1) e1) st1, Ok (true, EmptyString))
  end.

(** What [_apply_action] returns on [e], whose state is [st]. *)
Definition apply_result (e : NovusXEnv) (st : GameState) (a : Action) (pid : Z)
  : NovusXEnv * result (bool * string) :=
  match a with
  | EndTurn => (end_turn_env e st, Ok (true, EmptyString))
  | _ =>
      match player_at st pid with
      | None => (e, Raise IndexError)
      | Some player =>
          if bool_decide (actions_remaining player <= 0) then
            (e, Ok (false, "No actions remaining"))
          else
            conclude pid e (count_deploy a e) (action_outcome st (_unit_counter e) a pid)
      end
  end.

(** The environment and verdict [_check_draw_conditions] computes on
    [e], whose state is [st]. *)
Definition draw_check (e : NovusXEnv) (st : GameState)
  : NovusXEnv * (bool * DrawReason) :=
  if bool_decide (MAX_TURN_LIMIT <= turn_number st) then (e, (true, MAX_TURNS))
  else
    let state_hash := _compute_state_hash st in
    let e' :=
      set_state_hash_counts
        (<[state_hash := default 0 (state_hash_counts e !! state_hash) + 1]>
           (state_hash_counts e)) e in
    if bool_decide (REPEATED_STATE_LIMIT
                    <= default 0 (state_hash_counts e' !! state_hash)) then
      (e', (true, REPEATED_STATE))
    else if bool_decide (NO_PROGRESS_TURN_LIMIT <= turns_since_last_capture e')
            && bool_decide (NO_PROGRESS_TURN_LIMIT <= turns_since_last_unit_death e')
    then (e', (true, NO_PROGRESS))
    else (e', (false, NONE)).

(** The environment [check_game_end] leaves, with the reward, the [done]
    flag and the winner it reports. *)
Definition game_end (pid : Z) (reward : Reward) (e : NovusXEnv) (st : GameState)
  : NovusXEnv * (Reward * bool * option Z) :=
  match _check_winner st with
  | Some winner =>
      (set_game_outcome
         (if bool_decide (winner = 0) then PLAYER_0_WIN else PLAYER_1_WIN) e,
       (if bool_decide (winner = pid) then RKey win else RKey lose, true, Some winner))
  | None =>
      let '(e', (draw_detected, reason)) := draw_check e st in
      if draw_detected then
        (set_draw_reason reason (set_game_outcome DRAW e'),
         (_get_draw_reward (training_mode e') reason, true, None))
      else (e', (reward, false, None))
  end.

(** The environment [track_progress] leaves: [st0] is the state before
    the action, [st] the state after it. *)
Definition track_env (st0 st : GameState) (pid : Z) (e : NovusXEnv) : NovusXEnv :=
  let unit_died :=
    bool_decide (_count_units st 0 + _count_units st 1
                 < _count_units st0 pid + _count_units st0 (1 - pid)) in
  let control_changed :=
    existsb (fun pos =>
               bool_decide (_get_control_owner st pos <> _get_control_owner st0 pos))
            CONTROL_POINTS in
  let e1 := if control_changed then set_turns_since_last_capture 0 e else e in
  if unit_died then set_turns_since_last_unit_death 0 e1 else e1.

Definition track_reward (st0 st : GameState) (pid : Z) : Reward :=
  shaping_reward (_count_control_points st0 pid) (_count_control_points st pid)
    (_count_control_points st (1 - pid)) (_count_units st0 pid) (_count_units st pid)
    (_count_units st0 (1 - pid)) (_count_units st (1 - pid)).

(** The coordinates of a structured action are on the board. *)
Definition coords_ok (a : Action) : Prop :=
  match a with
  | Deploy _ col => 0 <= col < 5
  | Move s t | Attack s t | Rotate s t => on_board s /\ on_board t
  | EndTurn => True
  end.

(** Every unit on the board satisfies [G] at its cell. *)
Definition cells_good (G : Z * Z -> Unit -> Prop) (st : GameState) : Prop :=
  forall p u, on_board p -> cell (grid st) p = Some u -> G p u.

(** The deployment counts an accepted action leaves to the acting player. *)
Definition counts_after (a : Action) (counts : gmap UnitType Z) : gmap UnitType Z :=
  match a with
  | Deploy ut _ => <[ut := default 0 (counts !! ut) + 1]> counts
  | _ => counts
  end.

(** Whether [_apply_action] accepts the action of [pid] on [st]. *)
Definition accepts (st : GameState) (a : Action) (pid : Z) : bool :=
  match a with
  | EndTurn => true
  | _ =>
      match player_at st pid with
      | Some player =>
          bool_decide (0 < actions_remaining player)
          && match action_outcome st 0 a pid with
             | Ok (inr _) => true
             | _ => false
             end
      | None => false
      end
  end.

(** The per-player part of the reachable-state invariant. *)
Definition players_good (st : GameState) : Prop :=
  forall pid p, is_player pid -> player_at st pid = Some p ->
    0 <= actions_remaining p
    /\ forall t, default 0 (deployment_counts p !! t) <= MAX_DEPLOYMENTS_PER_TYPE.

(** The state [_apply_action] leaves: it depends on the environment
    through the unit counter only. *)
Definition next_state (st : GameState) (counter : Z) (a : Action) (pid : Z)
  : GameState :=
  match a with
  | EndTurn => end_turn_st st
  | _ =>
      match player_at st pid with
      | None => st
      | Some player =>
          if bool_decide (actions_remaining player <= 0) then st
          else
            match action_outcome st counter a pid with
            | Ok (inr st1) => if turn_over pid st1 then end_turn_st st1 else st1
            | _ => st
            end
      end
  end.

(** The attributes of the engine that only the game-end check writes. *)
Definition same_verdict (e e' : NovusXEnv) : Prop :=
  state_hash_counts e' = state_hash_counts e
  /\ game_outcome e' = game_outcome e
  /\ draw_reason e' = draw_reason e
  /\ training_mode e' = training_mode e.

(** A pass over the mask that sets exactly the bits in [S] and leaves
    the others as they were. *)
Definition marks (F : list bool -> result (list bool)) (S : nat -> Prop) : Prop :=
  forall m, exists m',
    F m = Ok m' /\ length m' = length m
    /\ forall i, (i < length m)%nat ->
         (m' !! i = Some true <-> m !! i = Some true \/ S i).

(** The structured actions whose index [get_valid_actions_mask] sets for
    the player [pid] to move, [player] being that player's resources. *)
Definition marked (st : GameState) (pid : Z) (player : Player) (a : Action) : Prop :=
  match a with
  | Deploy ut col =>
      0 < actions_remaining player /\ 0 < deployments_remaining player
      /\ 1 <= UnitType_value ut <= 5 /\ 0 <= col < 5
      /\ default 0 (deployment_counts player !! ut) < MAX_DEPLOYMENTS_PER_TYPE
      /\ cell (grid st) (if bool_decide (pid = 0) then 0 else 4, col) = None
  | Move s t =>
      0 < actions_remaining player /\ on_board s /\ on_board t
      /\ exists unit, cell (grid st) s = Some unit /\ owner_id unit = pid
                      /\ acted_this_turn unit = false
                      /\ _can_move st unit s t = Ok true
  | Attack s t =>
      0 < actions_remaining player /\ on_board s /\ on_board t
      /\ exists unit target_unit,
           cell (grid st) s = Some unit /\ owner_id unit = pid
           /\ acted_this_turn unit = false
           /\ cell (grid st) t = Some target_unit /\ owner_id target_unit <> pid
           /\ _can_attack st unit s t target_unit = Ok true
  | Rotate s t =>
      0 < actions_remaining player /\ on_board s /\ on_board t
      /\ exists unit, cell (grid st) s = Some unit /\ owner_id unit = pid
                      /\ acted_this_turn unit = false
                      /\ _can_rotate st unit s t pid = true
  | EndTurn => True
  end.

(** No unit on the board has the type [EMPTY]. *)
Definition no_empty (st : GameState) : Prop :=
  cells_good (fun _ u => unit_type u <> EMPTY) st.

(** Whether an outcome is an accepted action. *)
Definition is_accept (o : result (string + GameState)) : bool :=
  match o with
  | Ok (inr _) => true
  | _ => false
  end.

End Engine.

(** ** Further definitions

    Methods and derived notions used by the further properties. *)

(** The turn counter and the players' budgets in a state of play: player 0
    moves on the odd turns, nobody holds more than two actions or a
    negative budget, and the player to move has an action left. *)
Definition turns_good (st : GameState) : Prop :=
  1 <= turn_number st
  /\ current_player st = (turn_number st + 1) mod 2
  /\ (forall pid p, is_player pid -> player_at st pid = Some p ->
        0 <= actions_remaining p <= 2 /\ 0 <= deployments_remaining p)
  /\ (forall p, player_at st (current_player st) = Some p -> 1 <= actions_remaining p).

(** Twice the turn number minus the actions the player to move has left:
    the measure every applied action makes grow. *)
Definition clock (st : GameState) : Z :=
  2 * turn_number st
  - match player_at st (current_player st) with
    | Some p => actions_remaining p
    | None => 0
    end.

(** Whether a cell holds a unit of the player, as 1 or 0: the summand of
    [_count_units]. *)
Definition owned (pid : Z) (c : option Unit) : Z :=
  match c with
  | Some unit => if bool_decide (owner_id unit = pid) then 1 else 0
  | None => 0
  end.

(** The cells an action writes: the deploy cell of the player's home row,
    or the source and the target. *)
Definition action_cells (a : Action) (pid : Z) : list Pos :=
  match a with
  | Deploy _ col => [(if bool_decide (pid = 0) then 0 else 4, col)]
  | Move s t | Attack s t | Rotate s t => [s; t]
  | EndTurn => []
  end.

(** A cell once the step is over: as the action left it while the turn
    goes on, with the acted flag cleared when the turn has ended. *)
Definition settle (st st' : GameState) (c : option Unit) : option Unit :=
  if bool_decide (current_player st' = current_player st) then c else clear_unit c.

(** [set_training_mode] *)
Definition set_training_mode (training : bool) (e : NovusXEnv) : NovusXEnv :=
  mkEnv (state e) (step_count e) (_unit_counter e) (state_hash_counts e)
    (turns_since_last_capture e) (turns_since_last_unit_death e)
    (last_control_ownership e) (game_outcome e) (draw_reason e) training.

(** [clone]: a new engine built by the constructor from the same
    configuration, then given copies of the attributes the method lists.
    The copies are deep, and values here are immutable, so a copy is the
    value itself. *)
Definition clone (self : NovusXEnv) : NovusXEnv :=
  let new_env := init_env in
  let new_env := set_state (state self) new_env in
  let new_env := set_step_count (step_count self) new_env in
  let new_env := set_unit_counter (_unit_counter self) new_env in
  let new_env := set_state_hash_counts (state_hash_counts self) new_env in
  let new_env := set_turns_since_last_capture (turns_since_last_capture self) new_env in
  let new_env :=
    set_turns_since_last_unit_death (turns_since_last_unit_death self) new_env in
  let new_env := set_last_control_ownership (last_control_ownership self) new_env in
  let new_env := set_game_outcome (game_outcome self) new_env in
  set_draw_reason (draw_reason self) new_env.

(** The report [build_info] assembles from the environment [e], whose
    state is [st]. *)
Definition info_of (winner : option Z) (reward : Reward) (e : NovusXEnv)
    (st : GameState) : StepInfo :=
  mkInfo winner (turn_number st) (current_player st) (game_outcome e)
    (bool_decide (game_outcome e = DRAW))
    (if bool_decide (draw_reason e <> NONE) then Some (draw_reason e) else None)
    (if bool_decide (game_outcome e = DRAW) then Some reward else None)
    (training_mode e) (turns_since_last_capture e) (turns_since_last_unit_death e).

(** Two return values of [step] that agree but for the reward of a draw
    and the training flag of the report. *)
Definition same_return (r r' : result StepReturn) : Prop :=
  match r, r' with
  | Ok (obs, reward, finished, InfoError msg),
    Ok (obs', reward', finished', InfoError msg') =>
      obs = obs' /\ reward = reward' /\ finished = finished' /\ msg = msg'
  | Ok (obs, reward, finished, InfoStep i), Ok (obs', reward', finished', InfoStep i') =>
      obs = obs' /\ finished = finished'
      /\ info_winner i = info_winner i'
      /\ info_game_outcome i = info_game_outcome i'
      /\ info_draw_reason i = info_draw_reason i'
      /\ (finished = false \/ info_winner i <> None -> reward = reward')
  | Raise x, Raise x' => x = x'
  | _, _ => False
  end.

Definition all_unit_types : list UnitType :=
  [EMPTY; SWORDSMAN; SHIELDMAN; AXEMAN; CAVALRY; ARCHER; SPEARMAN].

(** The units a player has deployed so far, all types together:
    [sum(player["deployment_counts"].values())]. *)
Definition deployed (p : Player) : Z :=
  foldr Z.add 0 ((fun t => default 0 (deployment_counts p !! t)) <$> all_unit_types).

(** [GameOutcome.name] and [DrawReason.name] *)
Definition GameOutcome_name (o : GameOutcome) : string :=
  match o with
  | IN_PROGRESS => "IN_PROGRESS" | PLAYER_0_WIN => "PLAYER_0_WIN"
  | PLAYER_1_WIN => "PLAYER_1_WIN" | DRAW => "DRAW"
  end.

Definition DrawReason_name (r : DrawReason) : string :=
  match r with
  | NONE => "NONE" | MAX_TURNS => "MAX_TURNS" | REPEATED_STATE => "REPEATED_STATE"
  | NO_PROGRESS => "NO_PROGRESS"
  end.

(** The dict [get_game_result] returns, key by key. *)
Record GameResult := mkResult {
  result_outcome : string;
  result_is_terminal : bool;
  result_is_draw : bool;
  result_draw_reason : option string;
  result_winner : option Z;
  result_turn_count : Z;
  result_step_count : Z
}.

Definition get_game_result (self : NovusXEnv) : GameResult :=
  mkResult (GameOutcome_name (game_outcome self))
    (bool_decide (game_outcome self <> IN_PROGRESS))
    (bool_decide (game_outcome self = DRAW))
    (if bool_decide (draw_reason self <> NONE)
     then Some (DrawReason_name (draw_reason self)) else None)
    (if bool_decide (game_outcome self = PLAYER_0_WIN) then Some 0
     else if bool_decide (game_outcome self = PLAYER_1_WIN) then Some 1 else None)
    (match state self with Some st => turn_number st | None => 0 end)
    (step_count self).

(** The id [_apply_deploy] gives a unit:
    [f"{player_id}-{unit_type.name}-{self._unit_counter}"]. *)
Definition unit_name (owner : Z) (ut : UnitType) (serial : Z) : string :=
  pretty owner +:+ "-" +:+ UnitType_name ut +:+ "-" +:+ pretty serial.

Definition dash : Ascii.ascii := Ascii.ascii_of_nat 45.

Fixpoint has_dash (s : string) : bool :=
  match s with
  | EmptyString => false
  | String a s' => bool_decide (a = dash) || has_dash s'
  end.

(** The part of a string after its last dash. *)
Fixpoint after_last_dash (s : string) : string :=
  match s with
  | EmptyString => EmptyString
  | String a s' =>
      if has_dash s' then after_last_dash s'
      else if bool_decide (a = dash) then s' else String a s'
  end.

(** The ids of the units on the board, given the unit counter: each is
    the id of a deployment made so far, and no two cells hold the same. *)
Definition ids_good (counter : Z) (st : GameState) : Prop :=
  (forall p u, on_board p -> cell (grid st) p = Some u ->
     exists serial,
       1 <= serial <= counter
       /\ unit_id u = unit_name (owner_id u) (unit_type u) serial)
  /\ (forall p q u v, on_board p -> on_board q ->
        cell (grid st) p = Some u -> cell (grid st) q = Some v ->
        unit_id u = unit_id v -> p = q).

(** The spatial part of the tensor [_get_observation] returns.  Every
    channel holds 0.0 or 1.0, a boolean here; the channels of a cell are
    written in the order of the source, a later write replacing an
    earlier one. *)
Definition STATE_CHANNELS : Z := 11.

Definition cell_channels (pid : Z) (pos : Pos) (c : option Unit) : list bool :=
  let zeros := replicate (Z.to_nat STATE_CHANNELS) false in
  let written :=
    match c with
    | Some unit =>
        let ch := <[Z.to_nat (UnitType_value (unit_type unit)) := true]> zeros in
        let ch := if bool_decide (owner_id unit = pid) then <[7%nat := true]> ch
                  else <[8%nat := true]> ch in
        <[9%nat := acted_this_turn unit]> ch
    | None => <[6%nat := true]> (<[0%nat := true]> zeros)
    end in
  if bool_decide (pos ∈ CONTROL_POINTS) then <[10%nat := true]> written else written.

(** [spatial.flatten()]: row by row, cell by cell, channel by channel. *)
Definition spatial_flat (st : GameState) (pid : Z) : list bool :=
  pos ← all_cells; cell_channels pid pos (cell (grid st) pos).

(** Reading a cell back from its channels. *)
Definition channel (chs : list bool) (i : nat) : bool := default false (chs !! i).

Definition decode_cell (chs : list bool) : option (UnitType * bool * bool) :=
  if channel chs 7 || channel chs 8 then
    let ty := if channel chs 1 then SWORDSMAN
              else if channel chs 2 then SHIELDMAN
              else if channel chs 3 then AXEMAN
              else if channel chs 4 then CAVALRY
              else if channel chs 5 then ARCHER
              else if channel chs 6 then SPEARMAN
              else EMPTY in
    Some (ty, channel chs 7, channel chs 9)
  else None.

(** A method that writes neither [training_mode] nor
    [last_control_ownership], whatever it returns or raises. *)
Definition keeps {A} (m : M A) : Prop :=
  forall e, training_mode (m e).1 = training_mode e
            /\ last_control_ownership (m e).1 = last_control_ownership e.

Section Runs.
Context {digest : Digest}.

(** A run of [step] calls, each given as the action index and the player
    argument, in which every call is applied and none ends the game. *)
Fixpoint open_run (calls : list (Z * option Z)) (e : NovusXEnv) : bool :=
  match calls with
  | [] => true
  | (action, player_id) :: calls =>
      match (step action player_id e).2 with
      | Ok (_, _, false, InfoStep _) => open_run calls (step action player_id e).1
      | _ => false
      end
  end.

End Runs.

(** ** Concrete environments

    The scenarios the instances at the end of the file are evaluated on. *)

(** The instances run [step] with the identity in place of the digest;
    the theorems hold for every digest function. *)
Definition plain_digest (s : string) : string := s.

Definition fresh : NovusXEnv := (reset init_env).1.

(** The environment after the given action indices, each played by the
    player to move. *)
Definition play (actions : list Z) (e : NovusXEnv) : NovusXEnv :=
  foldl (fun e a => (@step plain_digest a None e).1) e actions.

(** Player 1 brings one cavalry to each outer control point while
    player 0 deploys once and then passes; it is player 0's turn. *)
Definition sides_env : NovusXEnv :=
  play [2; 75; 2025; 660; 2025; 79; 2025; 764] fresh.

(** Player 0 has deployed a Swordsman in column 2. *)
Definition one_unit_env : NovusXEnv := play [2] fresh.

Definition one_unit_state : GameState :=
  Eval vm_compute in default initial_state (state one_unit_env).

(** Player 0 has deployed three Swordsmen and is to move. *)
Definition capped_env : NovusXEnv := play [0; 2025; 1; 2025; 2; 2025] fresh.

Definition capped_state : GameState :=
  Eval vm_compute in default initial_state (state capped_env).

Definition capped_player : Player :=
  Eval vm_compute in default (mkPlayer 0 0 0 ∅) (player_at capped_state 0).

(** Player 0's Archer at (0,0) faces player 1's Archer at (2,0), the
    cell between them empty; it is player 0's turn. *)
Definition duel_env : NovusXEnv := play [100; 100; 2025; 665; 2025; 535] fresh.

Definition duel_state : GameState :=
  Eval vm_compute in default initial_state (state duel_env).

(** The bit of the mask at an index, for the player to move. *)
Definition mask_bit (e : NovusXEnv) (i : nat) : option bool :=
  match get_valid_actions_mask e None with
  | Ok mask => mask !! i
  | Raise _ => None
  end.

(** Player 0 deploys once and both players pass until turn 11, where
    player 1, without a unit, has lost. *)
Definition over_env : NovusXEnv :=
  play [0; 2025; 2025; 2025; 2025; 2025; 2025; 2025; 2025; 2025] fresh.

(** An engine at the turn limit whose two no-progress counters are at
    their limit as well. *)
Definition late_env : NovusXEnv :=
  set_turns_since_last_unit_death NO_PROGRESS_TURN_LIMIT
    (set_turns_since_last_capture NO_PROGRESS_TURN_LIMIT
       (set_state (Some (set_turn_number MAX_TURN_LIMIT initial_state)) fresh)).

(** Player 0 has deployed a Swordsman in column 2 and is to move again. *)
Definition march_env : NovusXEnv := play [2; 2025] fresh.

Definition march_state : GameState :=
  Eval vm_compute in default initial_state (state march_env).

(** Player 0 has a Swordsman at (0,2) and a Shieldman next to it, at
    (0,3), and is to move. *)
Definition swap_env : NovusXEnv := play [2; 2025; 28; 2025] fresh.

Definition swap_state : GameState :=
  Eval vm_compute in default initial_state (state swap_env).

Definition capped_opponent : Player :=
  Eval vm_compute in default (mkPlayer 0 0 0 ∅) (player_at capped_state 1).

(** The state of the duel with other ids, positions and flags for the
    same units, at another turn. *)
Definition renamed_duel_state : GameState :=
  set_turn_number 40
    (upd_grid (0, 0) (Some (mkUnit "a" 0 ARCHER (3, 3) true))
       (upd_grid (2, 0) (Some (mkUnit "b" 1 ARCHER (1, 1) true)) duel_state)).

(** ** Proofs *)

Section Proofs.

Context {digest : Digest}.

Lemma py_norm_player {A} (l : list A) (pid : Z) :
  length l = 2%nat -> is_player pid -> py_norm l pid = Some (Z.to_nat pid).
Proof.
  intros Hl [-> | ->]; unfold py_norm; rewrite Hl; reflexivity.
Qed.

Lemma py_get_player (st : GameState) (pid : Z) :
  length (players st) = 2%nat -> is_player pid ->
  py_get (players st) pid = player_at st pid.
Proof.
  intros Hl Hp. unfold py_get, player_at. by rewrite py_norm_player.
Qed.

Lemma player_at_is_Some (st : GameState) (pid : Z) :
  length (players st) = 2%nat -> is_player pid -> is_Some (player_at st pid).
Proof.
  intros Hl [-> | ->]; unfold player_at; apply lookup_lt_is_Some; rewrite Hl; simpl; lia.
Qed.

Lemma is_player_other (pid : Z) : is_player pid -> is_player (1 - pid).
Proof. intros [-> | ->]; [right | left]; reflexivity. Qed.

(** *** Running the monadic primitives *)

Lemma bind_ok {A B} (m : M A) (k : A -> M B) (e e' : NovusXEnv) (a : A) :
  m e = (e', Ok a) -> bind m k e = k a e'.
Proof. intros H. unfold bind. by rewrite H. Qed.

Lemma the_state_run (e : NovusXEnv) (st : GameState) :
  state e = Some st -> the_state e = (e, Ok st).
Proof. intros H. unfold the_state. by rewrite H. Qed.

Lemma modify_state_run (f : GameState -> GameState) (e : NovusXEnv) (st : GameState) :
  state e = Some st -> modify_state f e = (set_state (Some (f st)) e, Ok tt).
Proof.
  intros H. unfold modify_state. by rewrite (bind_ok _ _ _ _ _ (the_state_run _ _ H)).
Qed.

Lemma get_player_run (pid : Z) (e : NovusXEnv) (st : GameState) (p : Player) :
  state e = Some st -> length (players st) = 2%nat -> is_player pid ->
  player_at st pid = Some p -> get_player pid e = (e, Ok p).
Proof.
  intros H Hl Hp Hat. unfold get_player.
  rewrite (bind_ok _ _ _ _ _ (the_state_run _ _ H)).
  by rewrite py_get_player, Hat.
Qed.

Lemma modify_player_run (pid : Z) (f : Player -> Player) (e : NovusXEnv)
    (st : GameState) :
  state e = Some st -> length (players st) = 2%nat -> is_player pid ->
  modify_player pid f e = (set_state (Some (upd_player pid f st)) e, Ok tt).
Proof.
  intros H Hl Hp. unfold modify_player.
  rewrite (bind_ok _ _ _ _ _ (the_state_run _ _ H)).
  rewrite py_norm_player by done.
  by rewrite (modify_state_run _ _ _ H).
Qed.

Lemma length_players_upd (pid : Z) (f : Player -> Player) (st : GameState) :
  length (players (upd_player pid f st)) = length (players st).
Proof. unfold upd_player. cbn. apply length_alter. Qed.

Ltac solve_state :=
  first [ eassumption | reflexivity | cbn; eassumption ].
Ltac solve_len :=
  cbn; rewrite ?length_players_upd; cbn; rewrite ?length_alter; first [ eassumption | done ].

(** One step of symbolic execution of a [bind]. *)
Ltac mstep :=
  first
    [ erewrite bind_ok by (eapply the_state_run; solve_state)
    | erewrite bind_ok by (eapply modify_player_run; [solve_state | solve_len | eassumption])
    | erewrite bind_ok by (eapply modify_state_run; solve_state)
    | erewrite bind_ok by (eapply get_player_run;
                           [solve_state | solve_len | eassumption | eassumption])
    | erewrite bind_ok by (unfold modify, gets, ret, lift; reflexivity) ].

Lemma _end_turn_run (e : NovusXEnv) (st : GameState) :
  state e = Some st -> length (players st) = 2%nat -> is_player (current_player st) ->
  _end_turn e = (end_turn_env e st, Ok tt).
Proof.
  intros Hst Hl Hc. apply is_player_other in Hc.
  unfold _end_turn.
  do 4 mstep.
  unfold end_turn_env, end_turn_st.
  change (nth 1 CONTROL_POINTS (0, 0)) with ((2, 2) : Z * Z).
  fold (middle_bonus st (1 - current_player st)).
  fold (side_control st (1 - current_player st)).
  case_bool_decide.
  - do 5 mstep. erewrite modify_state_run by solve_state. reflexivity.
  - do 5 mstep. erewrite modify_state_run by solve_state. reflexivity.
Qed.

Lemma spend_action_run (pid : Z) (e : NovusXEnv) (st : GameState) :
  state e = Some st -> length (players st) = 2%nat -> is_player pid ->
  spend_action pid e = (set_state (Some (spend_st pid st)) e, Ok tt).
Proof.
  intros Hst Hl Hp. unfold spend_action. mstep.
  erewrite modify_state_run by solve_state. reflexivity.
Qed.

Lemma auto_end_turn_run (pid : Z) (e : NovusXEnv) (st : GameState) :
  state e = Some st -> length (players st) = 2%nat -> is_player pid ->
  is_player (current_player st) ->
  auto_end_turn pid e = (auto_end_env pid e st, Ok tt).
Proof.
  intros Hst Hl Hp Hc. unfold auto_end_turn, auto_end_env, turn_over.
  destruct (player_at_is_Some st pid Hl Hp) as [p Hat]. rewrite Hat.
  mstep. case_bool_decide.
  - by apply _end_turn_run.
  - reflexivity.
Qed.

(** The tail of the move, attack and rotate appliers. *)
Lemma finish_run (pid : Z) (e : NovusXEnv) (st : GameState) :
  state e = Some st -> length (players st) = 2%nat -> is_player pid ->
  is_player (current_player st) ->
  (let* _ := spend_action pid in let* _ := auto_end_turn pid in ret (true, EmptyString)) e
  = (auto_end_env pid (set_state (Some (spend_st pid st)) e) (spend_st pid st),
     Ok (true, EmptyString)).
Proof.
  intros Hst Hl Hp Hc.
  erewrite bind_ok by (by apply spend_action_run).
  erewrite bind_ok; [reflexivity |].
  apply auto_end_turn_run; try done.
  unfold spend_st. solve_len.
Qed.

Lemma bind_lift {A B} (r : result A) (k : A -> M B) (e : NovusXEnv) :
  bind (lift r) k e = match r with Ok a => k a e | Raise x => (e, Raise x) end.
Proof. unfold bind, lift. by destruct r. Qed.

Section Appliers.

Context (pid : Z) (e : NovusXEnv) (st : GameState).
Hypothesis Hst : state e = Some st.
Hypothesis Hl : length (players st) = 2%nat.
Hypothesis Hp : is_player pid.
Hypothesis Hc : is_player (current_player st).

Lemma finish_run_on (st1 : GameState) (e1 : NovusXEnv) :
  state e1 = Some st1 -> players st1 = players st -> current_player st1 = current_player st ->
  (let* _ := spend_action pid in let* _ := auto_end_turn pid in ret (true, EmptyString)) e1
  = (auto_end_env pid (set_state (Some (spend_st pid st1)) e1) (spend_st pid st1),
     Ok (true, EmptyString)).
Proof.
  intros H1 H2 H3. apply finish_run; try done; congruence.
Qed.

Lemma _apply_move_run (source target : Z * Z) :
  _apply_move source target pid e
  = conclude pid e e (move_outcome st source target pid).
Proof.
  unfold _apply_move, move_outcome. mstep.
  destruct (cell (grid st) source) as [unit|]; [|reflexivity].
  case_bool_decide; [reflexivity|].
  destruct (acted_this_turn unit); [reflexivity|].
  rewrite bind_lift.
  destruct (_can_move st unit source target) as [[|]|x]; try reflexivity.
  cbn [negb]. do 2 mstep.
  erewrite finish_run_on by reflexivity. reflexivity.
Qed.

Lemma _apply_attack_run (source target : Z * Z) :
  _apply_attack source target pid e
  = conclude pid e e (attack_outcome st source target pid).
Proof.
  unfold _apply_attack, attack_outcome. mstep.
  destruct (cell (grid st) source) as [attacker|]; [|reflexivity].
  case_bool_decide; [reflexivity|].
  destruct (acted_this_turn attacker); [reflexivity|].
  destruct (cell (grid st) target) as [defender|]; [|reflexivity].
  case_bool_decide; [reflexivity|].
  rewrite bind_lift.
  destruct (_can_attack st attacker source target defender) as [[|]|x];
    try reflexivity.
  cbn [negb]. unfold attack_st.
  destruct (resolve_combat attacker defender source target) as [ra rd]. cbn [fst snd].
  mstep. destruct rd.
  - mstep. erewrite finish_run_on by reflexivity. reflexivity.
  - mstep. erewrite finish_run_on by reflexivity. reflexivity.
Qed.

Lemma _apply_rotate_run (source target : Z * Z) :
  _apply_rotate source target pid e
  = conclude pid e e (rotate_outcome st source target pid).
Proof.
  unfold _apply_rotate, rotate_outcome. mstep.
  destruct (cell (grid st) source) as [unit|]; [|reflexivity].
  case_bool_decide; [reflexivity|].
  destruct (acted_this_turn unit); [reflexivity|].
  destruct (cell (grid st) target) as [target_unit|]; [|reflexivity].
  case_bool_decide; [reflexivity|].
  case_bool_decide; [reflexivity|].
  cbv zeta.
  assert (Hswap :
    (let* _ := modify_state (fun st0 =>
        set_grid (set_cell (grid st0) source
                    (Some (set_position target_unit source))) st0) in
     let* _ := modify_state (fun st0 =>
        set_grid (set_cell (grid st0) target
                    (Some (set_acted (set_position unit target) true))) st0) in
     let* _ := spend_action pid in
     let* _ := auto_end_turn pid in ret (true, EmptyString)) e
    = conclude pid e e
        (Ok (inr (spend_st pid (rotate_st unit target_unit source target st))))).
  { do 2 mstep. erewrite finish_run_on by reflexivity. reflexivity. }
  repeat match goal with
         | |- context [bool_decide ?P] => destruct (bool_decide P); cbn [andb orb negb]
         end;
    first [ exact Hswap | reflexivity ].
Qed.

Lemma _apply_deploy_run (ut : UnitType) (col : Z) :
  _apply_deploy ut col pid e
  = conclude pid e (set_unit_counter (_unit_counter e + 1) e)
      (deploy_outcome st (_unit_counter e) ut col pid).
Proof.
  unfold _apply_deploy, deploy_outcome.
  destruct (player_at_is_Some st pid Hl Hp) as [player Hat]. rewrite Hat.
  mstep.
  destruct (bool_decide (deployments_remaining player <= 0)); [reflexivity|].
  mstep.
  destruct (bool_decide (cell (grid st) _ <> None)); [reflexivity|].
  destruct (bool_decide (MAX_DEPLOYMENTS_PER_TYPE <= _)); [reflexivity|].
  do 7 mstep.
  erewrite bind_ok; [reflexivity|].
  apply auto_end_turn_run; try done; solve_len.
Qed.

Lemma _apply_action_run (a : Action) :
  _apply_action a pid e = apply_result e st a pid.
Proof.
  unfold _apply_action, apply_result.
  destruct (player_at_is_Some st pid Hl Hp) as [player Hat]. rewrite Hat.
  mstep.
  destruct a; cbn [action_outcome count_deploy].
  - case_bool_decide; [reflexivity|]. apply _apply_deploy_run.
  - case_bool_decide; [reflexivity|]. apply _apply_move_run.
  - case_bool_decide; [reflexivity|]. apply _apply_attack_run.
  - case_bool_decide; [reflexivity|]. apply _apply_rotate_run.
  - erewrite bind_ok by (by apply _end_turn_run). reflexivity.
Qed.

End Appliers.

(** *** The action codec *)

(** [lia] after the divisions and remainders are turned into equations. *)
Ltac dlia := Z.to_euclidean_division_equations; lia.

Lemma divmod5_inj (x y : Z) : divmod x 5 = divmod y 5 -> x = y.
Proof. unfold divmod. intros [= H1 H2]. dlia. Qed.

Lemma divmod25_cells (x y : Z) :
  divmod (x / 25) 5 = divmod (y / 25) 5 ->
  divmod (x mod 25) 5 = divmod (y mod 25) 5 -> x = y.
Proof. intros H1%divmod5_inj H2%divmod5_inj. dlia. Qed.

Lemma divmod5_on_board (x : Z) : 0 <= x < 25 -> on_board (divmod x 5).
Proof. unfold on_board, divmod. cbn. dlia. Qed.

Lemma divmod5_encode (p : Z * Z) : on_board p -> divmod (p.1 * 5 + p.2) 5 = p.
Proof.
  destruct p as [r c]. unfold on_board, divmod. cbn. intros H.
  f_equal; dlia.
Qed.

Lemma cells_encode (s t : Z * Z) :
  on_board s -> on_board t ->
  let x := (s.1 * 5 + s.2) * 25 + (t.1 * 5 + t.2) in
  0 <= x < 625 /\ divmod (x / 25) 5 = s /\ divmod (x mod 25) 5 = t.
Proof.
  intros Hs Ht x.
  assert (0 <= s.1 * 5 + s.2 < 25) by (unfold on_board in Hs; dlia).
  assert (0 <= t.1 * 5 + t.2 < 25) by (unfold on_board in Ht; dlia).
  assert (x / 25 = s.1 * 5 + s.2) as -> by (unfold x; dlia).
  assert (x mod 25 = t.1 * 5 + t.2) as -> by (unfold x; dlia).
  rewrite !divmod5_encode by done. unfold x. split; [dlia | done].
Qed.

Lemma UnitType_of_value_ok (v : Z) :
  1 <= v <= 6 -> exists ut, UnitType_of_value v = Ok ut /\ ut <> EMPTY /\ UnitType_value ut = v.
Proof.
  intros H.
  assert (v = 1 \/ v = 2 \/ v = 3 \/ v = 4 \/ v = 5 \/ v = 6) as Hv by dlia.
  destruct Hv as [-> | [-> | [-> | [-> | [-> | ->]]]]]; eexists; (split; [reflexivity | done]).
Qed.

Lemma UnitType_of_value_value (ut : UnitType) :
  UnitType_of_value (UnitType_value ut) = Ok ut.
Proof. by destruct ut. Qed.

Lemma UnitType_value_range (ut : UnitType) : ut <> EMPTY -> 1 <= UnitType_value ut <= 6.
Proof. destruct ut; cbn; intros; first [done | dlia]. Qed.

(** The shape of [_parse_action] on each block of the action space. *)
Lemma _parse_action_deploy (a : Z) :
  0 <= a < DEPLOY_ACTIONS ->
  exists ut, UnitType_of_value (a / 25 + 1) = Ok ut /\ ut <> EMPTY
             /\ UnitType_value ut = a / 25 + 1
             /\ _parse_action a = Ok (Deploy ut (a mod 5)).
Proof.
  intros H. unfold DEPLOY_ACTIONS in H.
  destruct (UnitType_of_value_ok (a / 25 + 1)) as (ut & Hut & Hne & Hv); [dlia|].
  exists ut. repeat split; try done.
  unfold _parse_action. rewrite bool_decide_eq_true_2 by (unfold DEPLOY_ACTIONS; dlia).
  by rewrite Hut.
Qed.

Lemma _parse_action_move (a : Z) :
  DEPLOY_ACTIONS <= a < DEPLOY_ACTIONS + MOVE_ACTIONS ->
  _parse_action a = Ok (Move (divmod ((a - 150) / 25) 5) (divmod ((a - 150) mod 25) 5)).
Proof.
  unfold DEPLOY_ACTIONS, MOVE_ACTIONS. intros H. unfold _parse_action.
  rewrite bool_decide_eq_false_2 by (unfold DEPLOY_ACTIONS; dlia).
  rewrite bool_decide_eq_true_2 by (unfold DEPLOY_ACTIONS, MOVE_ACTIONS; dlia).
  reflexivity.
Qed.

Lemma _parse_action_attack (a : Z) :
  DEPLOY_ACTIONS + MOVE_ACTIONS <= a < DEPLOY_ACTIONS + MOVE_ACTIONS + ATTACK_ACTIONS ->
  _parse_action a = Ok (Attack (divmod ((a - 775) / 25) 5) (divmod ((a - 775) mod 25) 5)).
Proof.
  unfold DEPLOY_ACTIONS, MOVE_ACTIONS, ATTACK_ACTIONS. intros H. unfold _parse_action.
  rewrite bool_decide_eq_false_2 by (unfold DEPLOY_ACTIONS; dlia).
  rewrite bool_decide_eq_false_2 by (unfold DEPLOY_ACTIONS, MOVE_ACTIONS; dlia).
  rewrite bool_decide_eq_true_2
    by (unfold DEPLOY_ACTIONS, MOVE_ACTIONS, ATTACK_ACTIONS; dlia).
  unfold DEPLOY_ACTIONS, MOVE_ACTIONS.
  replace (a - 6 * 5 * 5 - 25 * 25) with (a - 775) by dlia. reflexivity.
Qed.

Lemma _parse_action_rotate (a : Z) :
  DEPLOY_ACTIONS + MOVE_ACTIONS + ATTACK_ACTIONS <= a < ACTION_SPACE_SIZE - 1 ->
  _parse_action a = Ok (Rotate (divmod ((a - 1400) / 25) 5) (divmod ((a - 1400) mod 25) 5)).
Proof.
  unfold ACTION_SPACE_SIZE, DEPLOY_ACTIONS, MOVE_ACTIONS, ATTACK_ACTIONS,
    ROTATE_ACTIONS, END_TURN_ACTIONS.
  intros H. unfold _parse_action.
  rewrite bool_decide_eq_false_2 by (unfold DEPLOY_ACTIONS; dlia).
  rewrite bool_decide_eq_false_2 by (unfold DEPLOY_ACTIONS, MOVE_ACTIONS; dlia).
  rewrite bool_decide_eq_false_2
    by (unfold DEPLOY_ACTIONS, MOVE_ACTIONS, ATTACK_ACTIONS; dlia).
  rewrite bool_decide_eq_true_2
    by (unfold DEPLOY_ACTIONS, MOVE_ACTIONS, ATTACK_ACTIONS, ROTATE_ACTIONS; dlia).
  unfold DEPLOY_ACTIONS, MOVE_ACTIONS, ATTACK_ACTIONS.
  replace (a - 6 * 5 * 5 - 25 * 25 - 25 * 25) with (a - 1400) by dlia. reflexivity.
Qed.

Lemma _parse_action_end_turn (a : Z) :
  ACTION_SPACE_SIZE - 1 <= a -> _parse_action a = Ok EndTurn.
Proof.
  unfold ACTION_SPACE_SIZE, DEPLOY_ACTIONS, MOVE_ACTIONS, ATTACK_ACTIONS,
    ROTATE_ACTIONS, END_TURN_ACTIONS.
  intros H. unfold _parse_action.
  rewrite bool_decide_eq_false_2 by (unfold DEPLOY_ACTIONS; dlia).
  rewrite bool_decide_eq_false_2 by (unfold DEPLOY_ACTIONS, MOVE_ACTIONS; dlia).
  rewrite bool_decide_eq_false_2
    by (unfold DEPLOY_ACTIONS, MOVE_ACTIONS, ATTACK_ACTIONS; dlia).
  rewrite bool_decide_eq_false_2
    by (unfold DEPLOY_ACTIONS, MOVE_ACTIONS, ATTACK_ACTIONS, ROTATE_ACTIONS; dlia).
  reflexivity.
Qed.

(** The five blocks of the action space. *)
Lemma action_space_blocks (a : Z) :
  in_action_space a ->
  0 <= a < 150 \/ 150 <= a < 775 \/ 775 <= a < 1400 \/ 1400 <= a < 2025 \/ a = 2025.
Proof.
  unfold in_action_space, ACTION_SPACE_SIZE, DEPLOY_ACTIONS, MOVE_ACTIONS,
    ATTACK_ACTIONS, ROTATE_ACTIONS, END_TURN_ACTIONS. dlia.
Qed.

(** Every cell index [_parse_action] produces lies on the 5x5 board. *)
Lemma _parse_action_on_board (a : Z) (act : Action) :
  in_action_space a -> _parse_action a = Ok act -> action_wf act.
Proof.
  intros Ha Hp. destruct (action_space_blocks a Ha) as [H | [H | [H | [H | ->]]]].
  - destruct (_parse_action_deploy a) as (ut & _ & Hne & _ & Hd); [done|].
    rewrite Hd in Hp. injection Hp as <-. cbn. split; [done | dlia].
  - rewrite _parse_action_move in Hp by done. injection Hp as <-.
    split; apply divmod5_on_board; dlia.
  - rewrite _parse_action_attack in Hp by done. injection Hp as <-.
    split; apply divmod5_on_board; dlia.
  - rewrite _parse_action_rotate in Hp by done. injection Hp as <-.
    split; apply divmod5_on_board; dlia.
  - injection Hp as <-. done.
Qed.

Lemma _parse_action_total (a : Z) :
  in_action_space a -> exists act, _parse_action a = Ok act /\ action_wf act.
Proof.
  intros Ha.
  assert (exists act, _parse_action a = Ok act) as [act Hact].
  { destruct (action_space_blocks a Ha) as [H | [H | [H | [H | ->]]]].
    - destruct (_parse_action_deploy a) as (ut & _ & _ & _ & Hd); [done|]. eauto.
    - rewrite _parse_action_move by done. eauto.
    - rewrite _parse_action_attack by done. eauto.
    - rewrite _parse_action_rotate by done. eauto.
    - eauto. }
  exists act. split; [done|]. by eapply _parse_action_on_board.
Qed.

Lemma _parse_encode (act : Action) :
  action_wf act ->
  in_action_space (encode_action act) /\ _parse_action (encode_action act) = Ok act.
Proof.
  destruct act as [ut col | s t | s t | s t |]; cbn [action_wf encode_action].
  - intros [Hne Hcol]. pose proof (UnitType_value_range ut Hne) as Hr.
    unfold _encode_deploy.
    assert (0 <= (UnitType_value ut - 1) * 25 + col < 150) as Hin by dlia.
    split; [unfold in_action_space, ACTION_SPACE_SIZE, DEPLOY_ACTIONS, MOVE_ACTIONS,
              ATTACK_ACTIONS, ROTATE_ACTIONS, END_TURN_ACTIONS; dlia|].
    destruct (_parse_action_deploy _ Hin) as (ut' & Hut' & _ & _ & ->).
    replace (((UnitType_value ut - 1) * 25 + col) / 25 + 1) with (UnitType_value ut)
      in Hut' by dlia.
    rewrite UnitType_of_value_value in Hut'. injection Hut' as <-.
    do 2 f_equal. dlia.
  - intros [Hs Ht]. destruct (cells_encode s t Hs Ht) as (Hx & H1 & H2).
    unfold _encode_move. cbv zeta. unfold DEPLOY_ACTIONS.
    split; [unfold in_action_space, ACTION_SPACE_SIZE, DEPLOY_ACTIONS, MOVE_ACTIONS,
              ATTACK_ACTIONS, ROTATE_ACTIONS, END_TURN_ACTIONS; dlia|].
    rewrite _parse_action_move by (unfold DEPLOY_ACTIONS, MOVE_ACTIONS; dlia).
    replace (6 * 5 * 5 + (s.1 * 5 + s.2) * 25 + (t.1 * 5 + t.2) - 150)
      with ((s.1 * 5 + s.2) * 25 + (t.1 * 5 + t.2)) by dlia.
    by rewrite H1, H2.
  - intros [Hs Ht]. destruct (cells_encode s t Hs Ht) as (Hx & H1 & H2).
    unfold _encode_attack. cbv zeta. unfold DEPLOY_ACTIONS, MOVE_ACTIONS.
    split; [unfold in_action_space, ACTION_SPACE_SIZE, DEPLOY_ACTIONS, MOVE_ACTIONS,
              ATTACK_ACTIONS, ROTATE_ACTIONS, END_TURN_ACTIONS; dlia|].
    rewrite _parse_action_attack
      by (unfold DEPLOY_ACTIONS, MOVE_ACTIONS, ATTACK_ACTIONS; dlia).
    replace (6 * 5 * 5 + 25 * 25 + (s.1 * 5 + s.2) * 25 + (t.1 * 5 + t.2) - 775)
      with ((s.1 * 5 + s.2) * 25 + (t.1 * 5 + t.2)) by dlia.
    by rewrite H1, H2.
  - intros [Hs Ht]. destruct (cells_encode s t Hs Ht) as (Hx & H1 & H2).
    unfold _encode_rotate. cbv zeta. unfold DEPLOY_ACTIONS, MOVE_ACTIONS, ATTACK_ACTIONS.
    split; [unfold in_action_space, ACTION_SPACE_SIZE, DEPLOY_ACTIONS, MOVE_ACTIONS,
              ATTACK_ACTIONS, ROTATE_ACTIONS, END_TURN_ACTIONS; dlia|].
    rewrite _parse_action_rotate
      by (unfold ACTION_SPACE_SIZE, DEPLOY_ACTIONS, MOVE_ACTIONS, ATTACK_ACTIONS,
            ROTATE_ACTIONS, END_TURN_ACTIONS; dlia).
    replace (6 * 5 * 5 + 25 * 25 + 25 * 25 + (s.1 * 5 + s.2) * 25 + (t.1 * 5 + t.2) - 1400)
      with ((s.1 * 5 + s.2) * 25 + (t.1 * 5 + t.2)) by dlia.
    by rewrite H1, H2.
  - intros _. split; [|reflexivity].
    unfold in_action_space, ACTION_SPACE_SIZE, DEPLOY_ACTIONS, MOVE_ACTIONS,
      ATTACK_ACTIONS, ROTATE_ACTIONS, END_TURN_ACTIONS; dlia.
Qed.

Lemma _parse_action_inj_cells (a b : Z) :
  in_action_space a -> in_action_space b -> DEPLOY_ACTIONS <= a ->
  _parse_action a = _parse_action b -> a = b.
Proof.
  intros Ha Hb Hge. unfold DEPLOY_ACTIONS in Hge.
  destruct (action_space_blocks a Ha) as [H | [H | [H | [H | ->]]]]; [lia | | | |];
    (destruct (action_space_blocks b Hb) as [H' | [H' | [H' | [H' | ->]]]];
     [ destruct (_parse_action_deploy b) as (ut & _ & _ & _ & ->); [done|]
     | rewrite (_parse_action_move b) by done
     | rewrite (_parse_action_attack b) by done
     | rewrite (_parse_action_rotate b) by done
     | rewrite (_parse_action_end_turn 2025) by done ]);
    rewrite ?(_parse_action_move a), ?(_parse_action_attack a),
      ?(_parse_action_rotate a), ?(_parse_action_end_turn 2025) by done;
    intros Heq; try discriminate Heq; try reflexivity;
    match type of Heq with
    | Ok (_ ?s ?t) = Ok (_ ?s' ?t') =>
        assert (s = s') as H1 by congruence; assert (t = t') as H2 by congruence
    end;
    pose proof (divmod25_cells _ _ H1 H2); lia.
Qed.

Lemma _parse_action_deploy_alias (a b : Z) :
  0 <= a < DEPLOY_ACTIONS -> 0 <= b < DEPLOY_ACTIONS ->
  _parse_action a = _parse_action b <-> a / 25 = b / 25 /\ a mod 5 = b mod 5.
Proof.
  intros Ha Hb.
  destruct (_parse_action_deploy a Ha) as (ua & Hua & _ & Hva & ->).
  destruct (_parse_action_deploy b Hb) as (ub & Hub & _ & Hvb & ->).
  split.
  - intros [= -> Hm]. split; [lia | done].
  - intros [Hd Hm]. rewrite Hd in Hua. rewrite Hua in Hub. injection Hub as ->.
    by rewrite Hm.
Qed.

(** C5 (amended).  The codec is a section, not a bijection: decoding is
    total on the action space and yields a well-formed structured action;
    encoding a structured action and decoding it gives the action back;
    decoding is injective on the move, attack, rotate and end-turn
    indices; two deploy indices decode to the same action exactly when
    they agree on [index // 25] and [index % 5], so each deploy action
    has five indices. *)
Theorem codec_total_section_not_injective (a b : Z) (act : Action) :
  in_action_space a -> in_action_space b -> action_wf act ->
  (exists act_a, _parse_action a = Ok act_a /\ action_wf act_a)
  /\ (in_action_space (encode_action act)
      /\ _parse_action (encode_action act) = Ok act)
  /\ (DEPLOY_ACTIONS <= a -> _parse_action a = _parse_action b -> a = b)
  /\ (a < DEPLOY_ACTIONS -> b < DEPLOY_ACTIONS ->
      (_parse_action a = _parse_action b <-> a / 25 = b / 25 /\ a mod 5 = b mod 5)).
Proof.
  intros Ha Hb Hact. split; [by apply _parse_action_total|].
  split; [by apply _parse_encode|].
  split; [by apply _parse_action_inj_cells|].
  intros H1 H2. apply _parse_action_deploy_alias.
  - unfold in_action_space in Ha. lia.
  - unfold in_action_space in Hb. lia.
Qed.

(** *** The grid *)

Lemma cell_set_cell_eq (g : list (list (option Unit))) (p : Z * Z) (v : option Unit) :
  grid_wf g -> on_board p -> cell (set_cell g p v) p = v.
Proof.
  intros [Hlen Hrows] [Hr Hc]. unfold cell, set_cell.
  destruct (lookup_lt_is_Some_2 g (Z.to_nat p.1)) as [row Hrow]; [lia|].
  rewrite list_lookup_alter_eq, Hrow. cbn.
  assert (length row = 5%nat) as Hrl.
  { rewrite Forall_forall in Hrows. apply Hrows. eapply list_elem_of_lookup_2, Hrow. }
  rewrite list_lookup_insert_eq by lia. reflexivity.
Qed.

Lemma cell_set_cell_ne (g : list (list (option Unit))) (p q : Z * Z) (v : option Unit) :
  on_board p -> on_board q -> p <> q -> cell (set_cell g p v) q = cell g q.
Proof.
  intros [Hr Hc] [Hr' Hc'] Hne. unfold cell, set_cell.
  destruct (decide (Z.to_nat p.1 = Z.to_nat q.1)) as [Heq | Hneq].
  - rewrite <- Heq, list_lookup_alter_eq.
    destruct (g !! Z.to_nat p.1) as [row|]; [|reflexivity]. cbn.
    rewrite list_lookup_insert_ne; [reflexivity|].
    intros Hcol. apply Hne. destruct p, q; cbn in *. f_equal; lia.
  - by rewrite list_lookup_alter_ne.
Qed.

Lemma grid_wf_set_cell (g : list (list (option Unit))) (p : Z * Z) (v : option Unit) :
  grid_wf g -> grid_wf (set_cell g p v).
Proof.
  intros [Hlen Hrows]. unfold set_cell. split.
  - by rewrite length_alter.
  - apply Forall_alter; [done|]. intros row Hrow Hl. by rewrite length_insert.
Qed.

Lemma cell_clear_acted (g : list (list (option Unit))) (p : Z * Z) :
  cell (clear_acted g) p = clear_unit (cell g p).
Proof.
  unfold cell, clear_acted. rewrite list_lookup_fmap.
  destruct (g !! Z.to_nat p.1) as [row|]; [|reflexivity]. cbn.
  rewrite list_lookup_fmap. by destruct (row !! Z.to_nat p.2).
Qed.

Lemma grid_wf_clear_acted (g : list (list (option Unit))) :
  grid_wf g -> grid_wf (clear_acted g).
Proof.
  intros [Hlen Hrows]. unfold clear_acted. split.
  - by rewrite length_fmap.
  - apply Forall_fmap. eapply Forall_impl; [exact Hrows|].
    intros row Hl. cbn. by rewrite length_fmap.
Qed.

Lemma grid_wf_initial : grid_wf (grid initial_state).
Proof. split; [reflexivity|]. cbn. repeat constructor. Qed.

Lemma cell_initial (p : Z * Z) : cell (grid initial_state) p = None.
Proof.
  unfold cell. change (grid initial_state) with (replicate 5 (replicate 5 (@None Unit))).
  destruct (replicate 5 (replicate 5 (@None Unit)) !! Z.to_nat p.1) as [row|] eqn:Hrow;
    [|reflexivity].
  apply lookup_replicate in Hrow as [-> _].
  destruct (replicate 5 (@None Unit) !! Z.to_nat p.2) as [c|] eqn:Hc; [|reflexivity].
  by apply lookup_replicate in Hc as [-> _].
Qed.

(** *** Players *)

Lemma player_at_upd_ne (pid qid : Z) (f : Player -> Player) (st : GameState) :
  is_player pid -> is_player qid -> pid <> qid ->
  player_at (upd_player pid f st) qid = player_at st qid.
Proof.
  intros Hp Hq Hne. unfold player_at, upd_player. cbn.
  apply list_lookup_alter_ne. destruct Hp as [-> | ->], Hq as [-> | ->]; done.
Qed.

Lemma side_control_two (st : GameState) (pid : Z) :
  bool_decide (side_control st pid = 2)
  = _controls_position st pid (2, 0) && _controls_position st pid (2, 4).
Proof.
  unfold side_control, count_where, OUTSIDE_POINTS.
  rewrite !filter_cons, filter_nil.
  destruct (_controls_position st pid (2, 0)), (_controls_position st pid (2, 4));
    repeat case_decide; try done.
Qed.

Lemma side_control_pos (st : GameState) (pid : Z) :
  bool_decide (0 < side_control st pid)
  = _controls_position st pid (2, 0) || _controls_position st pid (2, 4).
Proof.
  unfold side_control, count_where, OUTSIDE_POINTS.
  rewrite !filter_cons, filter_nil.
  destruct (_controls_position st pid (2, 0)), (_controls_position st pid (2, 4));
    repeat case_decide; try done.
Qed.

Lemma end_turn_st_fields (st : GameState) :
  current_player (end_turn_st st) = 1 - current_player st
  /\ turn_number (end_turn_st st) = turn_number st + 1
  /\ grid (end_turn_st st) = clear_acted (grid st)
  /\ length (players (end_turn_st st)) = length (players st)
  /\ free_deployments_remaining (end_turn_st st)
     = (if bool_decide (0 < side_control st (1 - current_player st)) then 1 else 0).
Proof.
  unfold end_turn_st. cbv zeta.
  destruct (bool_decide (side_control st (1 - current_player st) = 2));
    cbn; rewrite ?length_alter; done.
Qed.

(** What [_end_turn] leaves for the incoming player. *)
Lemma end_turn_st_player (st : GameState) (p : Player) :
  is_player (current_player st) ->
  player_at st (1 - current_player st) = Some p ->
  player_at (end_turn_st st) (1 - current_player st)
  = Some (mkPlayer (player_id p)
            (1 + middle_bonus st (1 - current_player st))
            (deployments_remaining p
             + (if _controls_position st (1 - current_player st) (2, 0)
                   && _controls_position st (1 - current_player st) (2, 4)
                then 1 else 0))
            (deployment_counts p)).
Proof.
  intros Hc Hat. unfold end_turn_st. cbv zeta.
  rewrite side_control_two.
  set (new := 1 - current_player st) in *.
  destruct (_controls_position st new (2, 0) && _controls_position st new (2, 4)).
  - unfold player_at in *. cbn. rewrite !list_lookup_alter_eq, Hat. cbn.
    reflexivity.
  - unfold player_at in *. cbn. rewrite !list_lookup_alter_eq, Hat. cbn.
    unfold set_actions_remaining. cbn. do 2 f_equal. lia.
Qed.

Lemma end_turn_st_other (st : GameState) :
  is_player (current_player st) ->
  player_at (end_turn_st st) (current_player st) = player_at st (current_player st).
Proof.
  intros Hc. unfold end_turn_st. cbv zeta.
  pose proof (is_player_other _ Hc) as Hn.
  assert (1 - current_player st <> current_player st) as Hne by lia.
  destruct (bool_decide (side_control st (1 - current_player st) = 2)).
  - transitivity (player_at
      (upd_player (1 - current_player st)
         (fun p => set_deployments_remaining (deployments_remaining p + 1) p)
         (upd_player (1 - current_player st)
            (set_actions_remaining (1 + middle_bonus st (1 - current_player st))) st))
      (current_player st)); [reflexivity|].
    by rewrite !player_at_upd_ne.
  - transitivity (player_at
      (upd_player (1 - current_player st)
         (set_actions_remaining (1 + middle_bonus st (1 - current_player st))) st)
      (current_player st)); [reflexivity|].
    by rewrite !player_at_upd_ne.
Qed.

(** C3 (amended).  On every end-turn the incoming player's
    actionsRemaining is set to 1, plus 1 if that player holds the center
    control point (holding both outer points gives no action); the
    player's deploymentsRemaining grows by 1 iff they hold both outer
    control points; the free-deployment flag is set iff they hold at
    least one outer control point. *)
Theorem end_turn_bonuses (e : NovusXEnv) (st : GameState) (p : Player) :
  state e = Some st -> length (players st) = 2%nat ->
  is_player (current_player st) ->
  player_at st (1 - current_player st) = Some p ->
  let new_player := 1 - current_player st in
  let center := _controls_position st new_player (2, 2) in
  let left := _controls_position st new_player (2, 0) in
  let right := _controls_position st new_player (2, 4) in
  exists e' st' p',
    _end_turn e = (e', Ok tt) /\ state e' = Some st'
    /\ current_player st' = new_player
    /\ turn_number st' = turn_number st + 1
    /\ player_at st' new_player = Some p'
    /\ actions_remaining p' = 1 + (if center then 1 else 0)
    /\ deployments_remaining p'
       = deployments_remaining p + (if left && right then 1 else 0)
    /\ free_deployments_remaining st' = (if left || right then 1 else 0).
Proof.
  intros Hst Hl Hc Hat new_player center left right.
  eexists _, _, _. split; [by apply _end_turn_run|].
  destruct (end_turn_st_fields st) as (Hcur & Hturn & _ & _ & Hfree).
  split; [reflexivity|].
  split; [exact Hcur|].
  split; [exact Hturn|].
  split; [by apply end_turn_st_player|].
  split; [reflexivity|].
  split; [reflexivity|].
  rewrite Hfree. unfold left, right. by rewrite <- side_control_pos.
Qed.

(** *** Well-formed states *)

Lemma state_wf_initial : state_wf initial_state.
Proof. split; [apply grid_wf_initial | reflexivity | by left]. Qed.

Lemma state_wf_upd_grid (p : Z * Z) (v : option Unit) (st : GameState) :
  state_wf st -> state_wf (upd_grid p v st).
Proof. intros [Hg Hl Hc]. split; cbn; [by apply grid_wf_set_cell | done | done]. Qed.

Lemma state_wf_upd_player (pid : Z) (f : Player -> Player) (st : GameState) :
  state_wf st -> state_wf (upd_player pid f st).
Proof. intros [Hg Hl Hc]. split; cbn; [done | by rewrite length_alter | done]. Qed.

Lemma state_wf_set_has_acted (b : bool) (st : GameState) :
  state_wf st -> state_wf (set_has_acted_this_turn b st).
Proof. intros [Hg Hl Hc]. by split. Qed.

Lemma state_wf_spend (pid : Z) (st : GameState) :
  state_wf st -> state_wf (spend_st pid st).
Proof.
  intros H. unfold spend_st. by apply state_wf_set_has_acted, state_wf_upd_player.
Qed.

Lemma state_wf_end_turn (st : GameState) : state_wf st -> state_wf (end_turn_st st).
Proof.
  intros [Hg Hl Hc]. destruct (end_turn_st_fields st) as (Hcur & _ & Hgrid & Hlen & _).
  split.
  - rewrite Hgrid. by apply grid_wf_clear_acted.
  - by rewrite Hlen.
  - rewrite Hcur. by apply is_player_other.
Qed.

Lemma state_wf_deploy (ut : UnitType) (col pid counter : Z) (st : GameState) :
  state_wf st -> state_wf (deploy_st ut col pid counter st).
Proof.
  intros H. unfold deploy_st. cbv zeta.
  by apply state_wf_set_has_acted, state_wf_upd_player, state_wf_upd_player,
    state_wf_upd_player, state_wf_upd_grid.
Qed.

Lemma state_wf_move (unit : Unit) (source target : Z * Z) (st : GameState) :
  state_wf st -> state_wf (move_st unit source target st).
Proof. intros H. unfold move_st. by do 2 apply state_wf_upd_grid. Qed.

Lemma state_wf_attack (attacker defender : Unit) (source target : Z * Z)
    (st : GameState) :
  state_wf st -> state_wf (attack_st attacker defender source target st).
Proof.
  intros H. unfold attack_st. cbv zeta.
  destruct (resolve_combat attacker defender source target).2;
    repeat apply state_wf_upd_grid; done.
Qed.

Lemma state_wf_rotate (unit target_unit : Unit) (source target : Z * Z)
    (st : GameState) :
  state_wf st -> state_wf (rotate_st unit target_unit source target st).
Proof. intros H. unfold rotate_st. by do 2 apply state_wf_upd_grid. Qed.

(** An accepted outcome is the state paid for by the acting player. *)
Lemma action_outcome_wf (st st1 : GameState) (counter : Z) (a : Action) (pid : Z) :
  state_wf st -> action_outcome st counter a pid = Ok (inr st1) -> state_wf st1.
Proof.
  intros Hwf. destruct a as [ut col | s t | s t | s t |]; cbn [action_outcome].
  - unfold deploy_outcome. destruct (player_at st pid) as [p|]; [|done].
    destruct (bool_decide (deployments_remaining p <= 0)); [done|].
    destruct (bool_decide (cell (grid st) _ <> None)); [done|].
    destruct (bool_decide (MAX_DEPLOYMENTS_PER_TYPE <= _)); [done|].
    intros [= <-]. by apply state_wf_deploy.
  - unfold move_outcome. destruct (cell (grid st) s) as [u|]; [|done].
    case_bool_decide; [done|]. destruct (acted_this_turn u); [done|].
    destruct (_can_move st u s t) as [[|]|]; try done.
    intros [= <-]. by apply state_wf_spend, state_wf_move.
  - unfold attack_outcome. destruct (cell (grid st) s) as [u|]; [|done].
    case_bool_decide; [done|]. destruct (acted_this_turn u); [done|].
    destruct (cell (grid st) t) as [d|]; [|done].
    case_bool_decide; [done|].
    destruct (_can_attack st u s t d) as [[|]|]; try done.
    intros [= <-]. by apply state_wf_spend, state_wf_attack.
  - unfold rotate_outcome. destruct (cell (grid st) s) as [u|]; [|done].
    case_bool_decide; [done|]. destruct (acted_this_turn u); [done|].
    destruct (cell (grid st) t) as [d|]; [|done].
    case_bool_decide; [done|]. case_bool_decide; [done|]. cbv zeta.
    repeat match goal with
           | |- context [bool_decide ?P] => destruct (bool_decide P); cbn [andb orb negb]
           end; try done;
      intros [= <-]; by apply state_wf_spend, state_wf_rotate.
  - by intros [= <-].
Qed.

Lemma auto_end_env_state (pid : Z) (e : NovusXEnv) (st : GameState) :
  state e = Some st ->
  state (auto_end_env pid e st)
  = Some (if turn_over pid st then end_turn_st st else st).
Proof. intros H. unfold auto_end_env. by destruct (turn_over pid st). Qed.

(** [_apply_action] keeps the state well formed, whatever it returns. *)
Lemma apply_result_wf (e : NovusXEnv) (st : GameState) (a : Action) (pid : Z) :
  state e = Some st -> state_wf st ->
  exists st1, state (apply_result e st a pid).1 = Some st1 /\ state_wf st1.
Proof.
  intros Hst Hwf. unfold apply_result.
  assert (exists st1, state e = Some st1 /\ state_wf st1) as Hsame by eauto.
  destruct a as [ut col | s t | s t | s t |];
    try (destruct (player_at st pid) as [player|]; [|exact Hsame];
         case_bool_decide; [exact Hsame|];
         match goal with
         | |- context [conclude _ _ _ ?o] =>
             destruct o as [[msg | st1] | x] eqn:Hout; [exact Hsame | | exact Hsame]
         end;
         apply action_outcome_wf in Hout; [|done];
         cbn [conclude fst]; rewrite auto_end_env_state by done;
         eexists; split; [reflexivity|];
         destruct (turn_over pid st1); [by apply state_wf_end_turn | done]).
  cbn. eexists. split; [reflexivity|]. by apply state_wf_end_turn.
Qed.

(** *** Running [step] *)

Lemma _get_observation_ok (st : GameState) (pid : Z) :
  length (players st) = 2%nat -> is_player pid ->
  exists obs, _get_observation st pid = Ok obs.
Proof.
  intros Hl Hp. unfold _get_observation.
  rewrite !py_get_player by (try apply is_player_other; done).
  destruct (player_at_is_Some st pid Hl Hp) as [p ->].
  destruct (player_at_is_Some st (1 - pid) Hl (is_player_other _ Hp)) as [q ->].
  eauto.
Qed.

Lemma _check_draw_conditions_run (e : NovusXEnv) (st : GameState) :
  state e = Some st ->
  _check_draw_conditions e = ((draw_check e st).1, Ok (draw_check e st).2).
Proof.
  intros Hst. unfold _check_draw_conditions, draw_check. mstep.
  destruct (bool_decide (MAX_TURN_LIMIT <= turn_number st)); [reflexivity|].
  do 2 mstep. cbv zeta.
  destruct (bool_decide (REPEATED_STATE_LIMIT <= _)); [reflexivity|].
  do 2 mstep.
  destruct (_ && _); reflexivity.
Qed.

Lemma draw_check_state (e : NovusXEnv) (st : GameState) :
  state (draw_check e st).1 = state e.
Proof.
  unfold draw_check. cbv zeta.
  repeat match goal with
         | |- context [bool_decide ?P] => destruct (bool_decide P); cbn [andb]
         end; reflexivity.
Qed.

Lemma game_end_state (pid : Z) (reward : Reward) (e : NovusXEnv) (st : GameState) :
  state (game_end pid reward e st).1 = state e.
Proof.
  unfold game_end. destruct (_check_winner st); [reflexivity|].
  pose proof (draw_check_state e st) as H.
  destruct (draw_check e st) as [e' [[|] reason]]; exact H.
Qed.

Lemma build_info_run (winner : option Z) (reward : Reward) (e : NovusXEnv)
    (st : GameState) :
  state e = Some st ->
  exists i, build_info winner reward e = (e, Ok (InfoStep i))
            /\ info_winner i = winner /\ info_game_outcome i = game_outcome e
            /\ info_turn_number i = turn_number st
            /\ info_draw_reason i
               = (if bool_decide (draw_reason e <> NONE) then Some (draw_reason e)
                  else None).
Proof.
  intros Hst. unfold build_info. do 2 mstep. eexists. split; [reflexivity|]. done.
Qed.

Lemma check_game_end_run (pid : Z) (reward : Reward) (e : NovusXEnv) (st : GameState) :
  state e = Some st -> length (players st) = 2%nat -> is_player pid ->
  exists obs i,
    check_game_end pid reward e
    = ((game_end pid reward e st).1,
       Ok (obs, (game_end pid reward e st).2.1.1, (game_end pid reward e st).2.1.2,
           InfoStep i))
    /\ info_winner i = (game_end pid reward e st).2.2
    /\ info_game_outcome i = game_outcome (game_end pid reward e st).1
    /\ info_draw_reason i
       = (if bool_decide (draw_reason (game_end pid reward e st).1 <> NONE)
          then Some (draw_reason (game_end pid reward e st).1) else None).
Proof.
  intros Hst Hl Hp. destruct (_get_observation_ok st pid Hl Hp) as [obs Hobs].
  unfold check_game_end, game_end. mstep.
  destruct (_check_winner st) as [w|].
  - mstep.
    edestruct (build_info_run (Some w)) as (i & Hi & Hw & Ho & _ & Hr);
      [|erewrite bind_ok by exact Hi]; [cbn; exact Hst|].
    mstep. rewrite bind_lift, Hobs.
    exists obs, i. split; [reflexivity|]. done.
  - erewrite bind_ok by (by apply _check_draw_conditions_run).
    pose proof (draw_check_state e st) as Hds.
    destruct (draw_check e st) as [e' [[|] reason]]; cbn [fst snd] in *.
    + do 3 mstep.
      edestruct (build_info_run None) as (i & Hi & Hw & Ho & _ & Hr);
        [|erewrite bind_ok by exact Hi]; [cbn; by rewrite Hds|].
      erewrite bind_ok by (eapply the_state_run; cbn; by rewrite Hds).
      rewrite bind_lift, Hobs.
      exists obs, i. split; [reflexivity|]. done.
    + edestruct (build_info_run None) as (i & Hi & Hw & Ho & _ & Hr);
        [|erewrite bind_ok by exact Hi]; [by rewrite Hds|].
      erewrite bind_ok by (eapply the_state_run; by rewrite Hds).
      rewrite bind_lift, Hobs.
      exists obs, i. split; [reflexivity|]. done.
Qed.

Lemma track_env_state (st0 st : GameState) (pid : Z) (e : NovusXEnv) :
  state (track_env st0 st pid e) = state e.
Proof.
  unfold track_env. cbv zeta.
  destruct (bool_decide (_ < _)), (existsb _ _); reflexivity.
Qed.

Lemma track_progress_run (st0 st : GameState) (pid : Z) (e : NovusXEnv) :
  state e = Some st ->
  track_progress st0 pid e = (track_env st0 st pid e, Ok (track_reward st0 st pid)).
Proof.
  intros Hst. unfold track_progress, track_env, track_reward. cbv zeta. mstep.
  destruct (existsb _ _), (bool_decide (_ < _)); do 2 mstep; reflexivity.
Qed.

(** What [step] does on a well-formed state when the acting player is
    the player to move and the index decodes. *)
Lemma step_run (action : Z) (player_id : option Z) (e : NovusXEnv) (st : GameState)
    (act : Action) :
  state e = Some st -> state_wf st ->
  default (current_player st) player_id = current_player st ->
  _parse_action action = Ok act ->
  let pid := current_player st in
  let e0 := set_step_count (step_count e + 1) e in
  let e1 := (apply_result e0 st act pid).1 in
  match (apply_result e0 st act pid).2 with
  | Raise x => step action player_id e = (e1, Raise x)
  | Ok (false, msg) =>
      exists obs, step action player_id e
                  = (e1, Ok (obs, RKey invalid_action_penalty, false, InfoError msg))
  | Ok (true, _) =>
      exists st1 obs i,
        state e1 = Some st1 /\ state_wf st1
        /\ let e2 := track_env st st1 pid e1 in
           let ge := game_end pid (track_reward st st1 pid) e2 st1 in
           step action player_id e = (ge.1, Ok (obs, ge.2.1.1, ge.2.1.2, InfoStep i))
           /\ info_winner i = ge.2.2
           /\ info_game_outcome i = game_outcome ge.1
           /\ info_draw_reason i
              = (if bool_decide (draw_reason ge.1 <> NONE)
                 then Some (draw_reason ge.1) else None)
  end.
Proof.
  intros Hst Hwf Hpid Hparse pid e0 e1.
  destruct Hwf as [Hg Hl Hc].
  destruct (apply_result_wf e0 st act pid) as (st1 & Hst1 & Hwf1); [done | done |].
  fold e1 in Hst1.
  assert (step action player_id e
          = match apply_result e0 st act pid with
            | (e1, Ok (valid, error_msg)) =>
                (if negb valid then
                   let* st := the_state in
                   let* obs := lift (_get_observation st pid) in
                   ret (obs, RKey invalid_action_penalty, false, InfoError error_msg)
                 else
                   let* reward := track_progress st pid in
                   check_game_end pid reward) e1
            | (e1, Raise x) => (e1, Raise x)
            end) as ->.
  { unfold step. erewrite bind_ok by (unfold gets; rewrite Hst; reflexivity).
    cbv beta iota. rewrite Hpid.
    rewrite bool_decide_eq_false_2 by (intros H; by apply H).
    mstep. rewrite bind_lift, Hparse.
    unfold bind at 1. rewrite (_apply_action_run pid e0 st) by done.
    by destruct (apply_result e0 st act pid) as [e' [[[|] msg]|x]]. }
  subst e1. destruct (apply_result e0 st act pid) as [e1 [[[|] msg]|x]];
    cbn [fst snd negb] in *.
  - destruct Hwf1 as [Hg1 Hl1 Hc1].
    erewrite bind_ok by (by apply track_progress_run).
    destruct (check_game_end_run pid (track_reward st st1 pid)
                (track_env st st1 pid e1) st1) as (obs & i & Hrun & Hi);
      [by rewrite track_env_state | done | done |].
    exists st1, obs, i. split; [done|]. split; [done|]. by split.
  - destruct Hwf1 as [Hg1 Hl1 Hc1].
    destruct (_get_observation_ok st1 pid Hl1 Hc) as [obs Hobs].
    mstep. rewrite bind_lift, Hobs. by exists obs.
  - reflexivity.
Qed.

(** *** What an accepted action changes *)

Lemma _parse_action_coords (action : Z) (act : Action) :
  _parse_action action = Ok act -> coords_ok act.
Proof.
  unfold _parse_action, DEPLOY_ACTIONS, MOVE_ACTIONS, ATTACK_ACTIONS, ROTATE_ACTIONS.
  repeat case_bool_decide.
  - destruct (UnitType_of_value _); [|done]. intros [= <-]. cbn. dlia.
  - intros [= <-]. split; apply divmod5_on_board; dlia.
  - intros [= <-]. split; apply divmod5_on_board; dlia.
  - intros [= <-]. split; apply divmod5_on_board; dlia.
  - by intros [= <-].
Qed.

Lemma deploy_row_on_board (pid col : Z) :
  0 <= col < 5 -> on_board (if bool_decide (pid = 0) then 0 else 4, col).
Proof. intros H. unfold on_board. case_bool_decide; cbn; lia. Qed.

(** The scalar fields and the players after an accepted action, before
    the turn may end: the acting player pays one action (and, for a
    deploy, one deployment and one count of the type); nothing else
    changes. *)
Lemma action_outcome_frame (st st1 : GameState) (counter : Z) (a : Action) (pid : Z)
    (p : Player) :
  is_player pid -> player_at st pid = Some p -> a <> EndTurn ->
  action_outcome st counter a pid = Ok (inr st1) ->
  turn_number st1 = turn_number st
  /\ current_player st1 = current_player st
  /\ player_at st1 (1 - pid) = player_at st (1 - pid)
  /\ exists p1, player_at st1 pid = Some p1
       /\ actions_remaining p1 = actions_remaining p - 1
       /\ deployment_counts p1 = counts_after a (deployment_counts p)
       /\ match a with
          | Deploy ut _ =>
              default 0 (deployment_counts p !! ut) < MAX_DEPLOYMENTS_PER_TYPE
              /\ deployments_remaining p1 = deployments_remaining p - 1
          | _ => deployments_remaining p1 = deployments_remaining p
          end.
Proof.
  intros Hp Hat Hne.
  assert (Z.to_nat (1 - pid) <> Z.to_nat pid) as Hother
    by (destruct Hp as [-> | ->]; done).
  destruct a as [ut col | s t | s t | s t |]; cbn [action_outcome counts_after];
    [ | | | | done].
  - unfold deploy_outcome. rewrite Hat.
    destruct (bool_decide (deployments_remaining p <= 0)); [done|].
    destruct (bool_decide (cell (grid st) _ <> None)); [done|].
    case_bool_decide as Hmax; [done|].
    intros [= <-]. unfold deploy_st, player_at, upd_player in *. cbn.
    rewrite !list_lookup_alter_eq, !list_lookup_alter_ne, Hat by done. cbn.
    repeat split; [eexists; repeat split; cbn; lia].
  - unfold move_outcome. destruct (cell (grid st) s) as [u|]; [|done].
    case_bool_decide; [done|]. destruct (acted_this_turn u); [done|].
    destruct (_can_move st u s t) as [[|]|]; try done.
    intros [= <-]. unfold spend_st, player_at, upd_player in *. cbn.
    rewrite !list_lookup_alter_eq, !list_lookup_alter_ne, Hat by done. cbn.
    repeat split; eexists; repeat split.
  - unfold attack_outcome. destruct (cell (grid st) s) as [u|]; [|done].
    case_bool_decide; [done|]. destruct (acted_this_turn u); [done|].
    destruct (cell (grid st) t) as [d|]; [|done].
    case_bool_decide; [done|].
    destruct (_can_attack st u s t d) as [[|]|]; try done.
    intros [= <-]. unfold spend_st, attack_st, player_at, upd_player in *. cbv zeta.
    destruct (resolve_combat u d s t).2; cbn;
      rewrite !list_lookup_alter_eq, !list_lookup_alter_ne, Hat by done; cbn;
      repeat split; eexists; repeat split.
  - unfold rotate_outcome. destruct (cell (grid st) s) as [u|]; [|done].
    case_bool_decide; [done|]. destruct (acted_this_turn u); [done|].
    destruct (cell (grid st) t) as [d|]; [|done].
    case_bool_decide; [done|]. case_bool_decide; [done|]. cbv zeta.
    repeat match goal with
           | |- context [bool_decide ?P] => destruct (bool_decide P); cbn [andb orb negb]
           end; try done;
      intros [= <-]; unfold spend_st, player_at, upd_player in *; cbn;
      rewrite !list_lookup_alter_eq, !list_lookup_alter_ne, Hat by done; cbn;
      repeat split; eexists; repeat split.
Qed.

Section CellsGood.

Context (G : Z * Z -> Unit -> Prop).
Hypothesis G_acted : forall p u b, G p u -> G p (set_acted u b).
Hypothesis G_moved : forall p q u, G p u -> G q (set_position u q).

Lemma cells_good_upd_grid (p : Z * Z) (v : option Unit) (st : GameState) :
  grid_wf (grid st) -> on_board p -> cells_good G st ->
  (forall u, v = Some u -> G p u) -> cells_good G (upd_grid p v st).
Proof.
  intros Hwf Hp Hgood Hv q u Hq. unfold upd_grid. cbn.
  destruct (decide (p = q)) as [<- | Hne].
  - rewrite cell_set_cell_eq by done. apply Hv.
  - rewrite cell_set_cell_ne by done. by apply Hgood.
Qed.

Lemma cells_good_spend (pid : Z) (st : GameState) :
  cells_good G st -> cells_good G (spend_st pid st).
Proof. intros H. exact H. Qed.

Lemma cells_good_end_turn (st : GameState) :
  cells_good G st -> cells_good G (end_turn_st st).
Proof.
  intros H p u Hp. destruct (end_turn_st_fields st) as (_ & _ & -> & _).
  rewrite cell_clear_acted. destruct (cell (grid st) p) as [u'|] eqn:Hc; [|done].
  intros [= <-]. apply G_acted. by apply H.
Qed.

Lemma cells_good_outcome (st st1 : GameState) (counter : Z) (a : Action) (pid : Z) :
  state_wf st -> coords_ok a -> cells_good G st ->
  (forall ut col uid owner row acted,
     a = Deploy ut col -> G (row, col) (mkUnit uid owner ut (row, col) acted)) ->
  action_outcome st counter a pid = Ok (inr st1) -> cells_good G st1.
Proof.
  intros Hwf Hco Hgood Hnew. pose proof (wf_grid _ Hwf) as Hg.
  destruct a as [ut col | s t | s t | s t |]; cbn [action_outcome coords_ok] in *.
  - unfold deploy_outcome. destruct (player_at st pid) as [p|]; [|done].
    destruct (bool_decide (deployments_remaining p <= 0)); [done|].
    destruct (bool_decide (cell (grid st) _ <> None)); [done|].
    destruct (bool_decide (MAX_DEPLOYMENTS_PER_TYPE <= _)); [done|].
    intros [= <-]. unfold deploy_st. cbv zeta.
    change (cells_good G
              (upd_grid (if bool_decide (pid = 0) then 0 else 4, col)
                 (Some (mkUnit (pretty pid +:+ "-" +:+ UnitType_name ut +:+ "-"
                                  +:+ pretty (counter + 1))
                          pid ut (if bool_decide (pid = 0) then 0 else 4, col) true))
                 st)).
    apply cells_good_upd_grid; [done | by apply deploy_row_on_board | done |].
    intros u [= <-]. by eapply Hnew.
  - destruct Hco as [Hs Ht].
    unfold move_outcome. destruct (cell (grid st) s) as [u|] eqn:Hu; [|done].
    case_bool_decide; [done|]. destruct (acted_this_turn u); [done|].
    destruct (_can_move st u s t) as [[|]|]; try done.
    intros [= <-]. apply cells_good_spend. unfold move_st.
    apply cells_good_upd_grid; [by apply grid_wf_set_cell | done | |].
    + by apply cells_good_upd_grid.
    + intros u' [= <-]. apply G_acted. eapply G_moved. by apply (Hgood s).
  - destruct Hco as [Hs Ht].
    unfold attack_outcome. destruct (cell (grid st) s) as [u|] eqn:Hu; [|done].
    case_bool_decide; [done|]. destruct (acted_this_turn u); [done|].
    destruct (cell (grid st) t) as [d|]; [|done].
    case_bool_decide; [done|].
    destruct (_can_attack st u s t d) as [[|]|]; try done.
    intros [= <-]. apply cells_good_spend. unfold attack_st. cbv zeta.
    assert (cells_good G
              (upd_grid s (if (resolve_combat u d s t).1 then None
                           else Some (set_acted u true)) st)) as H1.
    { apply cells_good_upd_grid; try done.
      intros u'. destruct (resolve_combat u d s t).1; [done|].
      intros [= <-]. apply G_acted. by apply (Hgood s). }
    destruct (resolve_combat u d s t).2; [|done].
    apply cells_good_upd_grid; [by apply grid_wf_set_cell | done | done | done].
  - destruct Hco as [Hs Ht].
    unfold rotate_outcome. destruct (cell (grid st) s) as [u|] eqn:Hu; [|done].
    case_bool_decide; [done|]. destruct (acted_this_turn u); [done|].
    destruct (cell (grid st) t) as [d|] eqn:Hd; [|done].
    case_bool_decide; [done|]. case_bool_decide; [done|]. cbv zeta.
    assert (cells_good G (spend_st pid (rotate_st u d s t st))) as Hdone.
    { apply cells_good_spend. unfold rotate_st.
      apply cells_good_upd_grid; [by apply grid_wf_set_cell | done | |].
      - apply cells_good_upd_grid; try done.
        intros u' [= <-]. eapply G_moved. by apply (Hgood t).
      - intros u' [= <-]. apply G_acted. eapply G_moved. by apply (Hgood s). }
    repeat match goal with
           | |- context [bool_decide ?P] => destruct (bool_decide P); cbn [andb orb negb]
           end; try done; by intros [= <-].
  - by intros [= <-].
Qed.

End CellsGood.

(** *** Reachable environments *)

(** [_apply_action] either accepts the action, and then the state is the
    next turn (an end-turn) or the paid outcome of the action, followed
    by the next turn when the player has no action left; or it rejects or
    raises, and then nothing of the environment has changed. *)
Lemma apply_result_state (e : NovusXEnv) (st : GameState) (a : Action) (pid : Z) :
  state e = Some st ->
  match (apply_result e st a pid).2 with
  | Ok (true, _) =>
      (a = EndTurn /\ state (apply_result e st a pid).1 = Some (end_turn_st st))
      \/ (exists p st1,
            a <> EndTurn /\ player_at st pid = Some p /\ 0 < actions_remaining p
            /\ action_outcome st (_unit_counter e) a pid = Ok (inr st1)
            /\ state (apply_result e st a pid).1
               = Some (if turn_over pid st1 then end_turn_st st1 else st1))
  | _ => (apply_result e st a pid).1 = e
  end.
Proof.
  intros Hst. unfold apply_result.
  destruct a as [ut col | s t | s t | s t |];
    try (destruct (player_at st pid) as [p|]; [|reflexivity];
         case_bool_decide as Hact; [reflexivity|];
         match goal with
         | |- context [conclude _ _ _ ?o] =>
             destruct o as [[msg | st1] | x] eqn:Hout; [reflexivity | | reflexivity]
         end;
         cbn [conclude fst snd];
         right; exists p, st1;
         split; [done|]; split; [done|]; split; [lia|]; split; [done|];
         by rewrite auto_end_env_state).
  left. by split.
Qed.

Lemma step_state_applied (action : Z) (player_id : option Z) (e : NovusXEnv)
    (st : GameState) (act : Action) :
  state e = Some st -> state_wf st ->
  default (current_player st) player_id = current_player st ->
  _parse_action action = Ok act ->
  state (step action player_id e).1
  = state (apply_result (set_step_count (step_count e + 1) e) st act
             (current_player st)).1.
Proof.
  intros Hst Hwf Hpid Hparse.
  pose proof (step_run action player_id e st act Hst Hwf Hpid Hparse) as Hrun.
  cbv zeta in Hrun.
  destruct (apply_result _ st act (current_player st)) as [e1 [[[|] msg]|x]];
    cbn [fst snd] in *.
  - destruct Hrun as (st1 & obs & i & Hst1 & _ & -> & _). cbn [fst].
    by rewrite game_end_state, track_env_state.
  - destruct Hrun as (obs & ->). reflexivity.
  - by rewrite Hrun.
Qed.

(** The state after [step]: the state before it, or the state after
    [_apply_action] on the decoded action of the player to move. *)
Lemma step_state (action : Z) (player_id : option Z) (e : NovusXEnv) (st : GameState) :
  state e = Some st -> state_wf st ->
  state (step action player_id e).1 = Some st
  \/ exists act,
       _parse_action action = Ok act
       /\ default (current_player st) player_id = current_player st
       /\ state (step action player_id e).1
          = state (apply_result (set_step_count (step_count e + 1) e) st act
                     (current_player st)).1.
Proof.
  intros Hst Hwf.
  destruct (decide (default (current_player st) player_id = current_player st))
    as [Hpid | Hpid].
  - destruct (_parse_action action) as [act | x] eqn:Hparse.
    + right. exists act. split; [done|]. split; [done|].
      by apply step_state_applied.
    + left. unfold step. erewrite bind_ok by (unfold gets; rewrite Hst; reflexivity).
      cbv beta iota. rewrite Hpid.
      rewrite bool_decide_eq_false_2 by (intros H; by apply H).
      mstep. rewrite bind_lift, Hparse. exact Hst.
  - left. unfold step. erewrite bind_ok by (unfold gets; rewrite Hst; reflexivity).
    cbv beta iota. rewrite bool_decide_eq_true_2 by done.
    rewrite bind_lift. by destruct (_get_observation _ _).
Qed.

(** Invariants of the game state, by induction on the calls: [I] holds
    after [reset], an end-turn keeps it, and so does every accepted
    action of the player to move. *)
Lemma reachable_state_inv (acts : Z -> Prop) (I : GameState -> Prop) :
  I initial_state ->
  (forall st, state_wf st -> I st -> I (end_turn_st st)) ->
  (forall st action a counter st1 p,
     state_wf st -> I st -> acts action -> _parse_action action = Ok a ->
     a <> EndTurn -> player_at st (current_player st) = Some p ->
     0 < actions_remaining p ->
     action_outcome st counter a (current_player st) = Ok (inr st1) -> I st1) ->
  forall e, reachable_by acts e -> exists st, state e = Some st /\ state_wf st /\ I st.
Proof.
  intros Hinit Hend Hact e Hreach.
  induction Hreach as [e | e action player_id Hreach (st & Hst & Hwf & HI) Hacts].
  - exists initial_state. split; [reflexivity|]. split; [apply state_wf_initial | done].
  - destruct (step_state action player_id e st Hst Hwf)
      as [Hsame | (act & Hparse & Hpid & Hstate)]; [by exists st|].
    rewrite Hstate.
    pose proof (apply_result_state (set_step_count (step_count e + 1) e) st act
                  (current_player st) Hst) as Hres.
    destruct (apply_result _ st act (current_player st)) as [e1 [[[|] msg]|x]];
      cbn [fst snd] in *;
      [| subst e1; by exists st | subst e1; by exists st].
    destruct Hres as [[-> Hnext] | (p & st1 & Hne & Hat & Hpos & Hout & Hnext)].
    + eexists. split; [exact Hnext|]. split; [by apply state_wf_end_turn | by apply Hend].
    + eexists. split; [exact Hnext|].
      pose proof (action_outcome_wf _ _ _ _ _ Hwf Hout) as Hwf1.
      assert (I st1) as HI1 by (by eapply (Hact st action act _ st1 p)).
      destruct (turn_over (current_player st) st1);
        [split; [by apply state_wf_end_turn | by apply Hend] | by split].
Qed.

Lemma players_good_initial : players_good initial_state.
Proof.
  intros pid p [-> | ->] [= <-]; (split; [cbn; lia|]); intros []; vm_compute; done.
Qed.

Lemma players_good_end_turn (st : GameState) :
  state_wf st -> players_good st -> players_good (end_turn_st st).
Proof.
  intros [Hg Hl Hc] Hgood pid p Hpid Hat.
  destruct (decide (pid = current_player st)) as [-> | Hne].
  - rewrite end_turn_st_other in Hat by done. by apply (Hgood _ p Hc).
  - assert (pid = 1 - current_player st) as ->
      by (destruct Hpid as [-> | ->], Hc as [Hc | Hc]; lia).
    destruct (player_at_is_Some st (1 - current_player st) Hl Hpid) as [q Hq].
    rewrite (end_turn_st_player st q Hc Hq) in Hat. injection Hat as <-. cbn.
    split; [unfold middle_bonus; destruct (_controls_position _ _ _); lia|].
    by apply (Hgood _ q Hpid).
Qed.

Lemma players_good_outcome (st st1 : GameState) (counter : Z) (a : Action) (p : Player) :
  state_wf st -> players_good st -> a <> EndTurn ->
  player_at st (current_player st) = Some p -> 0 < actions_remaining p ->
  action_outcome st counter a (current_player st) = Ok (inr st1) -> players_good st1.
Proof.
  intros [Hg Hl Hc] Hgood Hne Hat Hpos Hout.
  destruct (action_outcome_frame st st1 counter a (current_player st) p Hc Hat Hne Hout)
    as (_ & _ & Hother & p1 & Hp1 & Hact & Hcounts & Hdep).
  intros pid q Hpid Hq.
  destruct (decide (pid = current_player st)) as [-> | Hneq].
  - rewrite Hp1 in Hq. injection Hq as <-. split; [lia|].
    intros t. rewrite Hcounts.
    destruct a as [ut col | | | |]; cbn [counts_after]; try by apply (Hgood _ p Hc).
    destruct Hdep as [Hlt _].
    destruct (decide (ut = t)) as [<- | Hut].
    + rewrite lookup_insert_eq. cbn. lia.
    + rewrite lookup_insert_ne by done. by apply (Hgood _ p Hc).
  - assert (pid = 1 - current_player st) as ->
      by (destruct Hpid as [-> | ->], Hc as [Hc | Hc]; lia).
    rewrite Hother in Hq. by apply (Hgood _ q Hpid).
Qed.

Lemma reachable_good (acts : Z -> Prop) (e : NovusXEnv) :
  reachable_by acts e ->
  exists st, state e = Some st /\ state_wf st
             /\ players_good st /\ cells_good (fun p u => position u = p) st.
Proof.
  intros Hreach.
  destruct (reachable_state_inv acts
              (fun st => players_good st /\ cells_good (fun p u => position u = p) st))
    with (e := e) as (st & Hst & Hwf & HI); [| | | done | by exists st].
  - split; [apply players_good_initial|].
    intros p u _. by rewrite cell_initial.
  - intros st Hwf [Hp Hc]. split; [by apply players_good_end_turn|].
    by apply cells_good_end_turn.
  - intros st action a counter st1 p Hwf [Hp Hc] _ Hparse Hne Hat Hpos Hout.
    split; [by eapply players_good_outcome|].
    eapply (cells_good_outcome (fun p u => position u = p)); try done.
    by eapply _parse_action_coords.
Qed.

(** C10.  In every state reachable by reset followed by step calls,
    every unit stored at a grid cell has its position field equal to
    that cell. *)
Theorem positions_synchronized (e : NovusXEnv) (st : GameState) (p : Z * Z) (u : Unit) :
  reachable e -> state e = Some st -> on_board p ->
  cell (grid st) p = Some u -> position u = p.
Proof.
  intros Hreach Hst Hp Hcell.
  destruct (reachable_good _ e Hreach) as (st' & Hst' & _ & _ & Hgood).
  rewrite Hst in Hst'. injection Hst' as <-. by apply Hgood.
Qed.

(** *** When [step] applies the action *)

Lemma action_outcome_counter (st : GameState) (c c' : Z) (a : Action) (pid : Z) :
  is_accept (action_outcome st c a pid) = is_accept (action_outcome st c' a pid).
Proof.
  destruct a as [ut col | | | |]; try reflexivity.
  cbn [action_outcome]. unfold deploy_outcome.
  destruct (player_at st pid) as [p|]; [|reflexivity].
  destruct (bool_decide (deployments_remaining p <= 0)); [reflexivity|].
  destruct (bool_decide (cell (grid st) _ <> None)); [reflexivity|].
  destruct (bool_decide (MAX_DEPLOYMENTS_PER_TYPE <= _)); reflexivity.
Qed.

Lemma apply_result_accepts (e : NovusXEnv) (st : GameState) (a : Action) (pid : Z) :
  match (apply_result e st a pid).2 with
  | Ok (true, _) => accepts st a pid = true
  | _ => accepts st a pid = false
  end.
Proof.
  unfold apply_result, accepts.
  destruct a as [ut col | s t | s t | s t |]; [| | | | reflexivity];
    (destruct (player_at st pid) as [p|]; [|reflexivity];
     case_bool_decide as Hact;
     [ rewrite bool_decide_eq_false_2 by lia; reflexivity |];
     rewrite bool_decide_eq_true_2 by lia; cbn [andb];
     match goal with
     | |- context [conclude _ _ _ (action_outcome st ?c ?a pid)] =>
         pose proof (action_outcome_counter st c 0 a pid) as Hshape;
         destruct (action_outcome st c a pid) as [[msg | st1] | x];
         destruct (action_outcome st 0 a pid) as [[msg' | st1'] | x'];
         cbn in Hshape; try discriminate Hshape; reflexivity
     end).
Qed.

Lemma step_succeeds_spec (action : Z) (player_id : option Z) (e : NovusXEnv)
    (st : GameState) :
  state e = Some st -> state_wf st ->
  step_succeeds action player_id e
  = bool_decide (default (current_player st) player_id = current_player st)
    && match _parse_action action with
       | Ok act => accepts st act (current_player st)
       | Raise _ => false
       end.
Proof.
  intros Hst Hwf. unfold step_succeeds.
  case_bool_decide as Hpid; cbn [andb].
  - destruct (_parse_action action) as [act | x] eqn:Hparse.
    + pose proof (step_run action player_id e st act Hst Hwf Hpid Hparse) as Hrun.
      cbv zeta in Hrun.
      pose proof (apply_result_accepts (set_step_count (step_count e + 1) e) st act
                    (current_player st)) as Hacc.
      destruct (apply_result _ st act (current_player st)) as [e1 [[[|] msg]|x]];
        cbn [fst snd] in *.
      * destruct Hrun as (st1 & obs & i & _ & _ & -> & _). by rewrite Hacc.
      * destruct Hrun as (obs & ->). by rewrite Hacc.
      * by rewrite Hrun, Hacc.
    + unfold step. erewrite bind_ok by (unfold gets; rewrite Hst; reflexivity).
      cbv beta iota. rewrite Hpid.
      rewrite bool_decide_eq_false_2 by (intros H; by apply H).
      mstep. by rewrite bind_lift, Hparse.
  - unfold step. erewrite bind_ok by (unfold gets; rewrite Hst; reflexivity).
    cbv beta iota. rewrite bool_decide_eq_true_2 by done.
    rewrite bind_lift. by destruct (_get_observation _ _).
Qed.

(** C8.  In every state reachable from a fresh reset, each player's
    deployment count of every unit type is at most 3, and a deploy of a
    type whose count is already 3 is rejected, leaving the state as it
    was. *)
Theorem deployment_cap (e : NovusXEnv) (st : GameState) (pid : Z) (p : Player)
    (t : UnitType) :
  reachable e -> state e = Some st -> is_player pid -> player_at st pid = Some p ->
  default 0 (deployment_counts p !! t) <= 3
  /\ forall action col,
       pid = current_player st -> _parse_action action = Ok (Deploy t col) ->
       default 0 (deployment_counts p !! t) = 3 ->
       step_rejects action None e = true
       /\ state (step action None e).1 = Some st.
Proof.
  intros Hreach Hst Hpid Hat.
  destruct (reachable_good _ e Hreach) as (st' & Hst' & Hwf & Hgood & _).
  rewrite Hst in Hst'. injection Hst' as <-.
  split; [by apply (Hgood pid p Hpid Hat)|].
  intros action col -> Hparse Hfull.
  pose proof (step_run action None e st _ Hst Hwf eq_refl Hparse) as Hrun.
  cbv zeta in Hrun. unfold step_rejects.
  assert (exists msg,
            apply_result (set_step_count (step_count e + 1) e) st (Deploy t col)
              (current_player st)
            = (set_step_count (step_count e + 1) e, Ok (false, msg))) as [msg Hres].
  { unfold apply_result. rewrite Hat. case_bool_decide; [by eexists|].
    cbn [action_outcome]. unfold deploy_outcome. rewrite Hat, Hfull.
    destruct (bool_decide (deployments_remaining p <= 0)); [by eexists|].
    destruct (bool_decide (cell (grid st) _ <> None)); [by eexists|].
    rewrite bool_decide_eq_true_2 by (unfold MAX_DEPLOYMENTS_PER_TYPE; lia).
    by eexists. }
  rewrite Hres in Hrun. cbn [fst snd] in Hrun. destruct Hrun as (obs & ->).
  by split.
Qed.

(** C9 (amended).  In every state reachable from a fresh reset no
    player's actionsRemaining is negative.  An applied deploy, move,
    attack or rotate costs the acting player one action and triggers an
    end-turn exactly when it drops actionsRemaining to 0.  An applied
    END_TURN always triggers an end-turn and leaves the acting player's
    actionsRemaining as it was. *)
Theorem turn_economy (e : NovusXEnv) (st : GameState) :
  reachable e -> state e = Some st ->
  (forall pid p, is_player pid -> player_at st pid = Some p -> 0 <= actions_remaining p)
  /\ forall action player_id act p,
       _parse_action action = Ok act ->
       player_at st (current_player st) = Some p ->
       step_succeeds action player_id e = true ->
       exists st',
         state (step action player_id e).1 = Some st'
         /\ match act with
            | EndTurn =>
                turn_number st' = turn_number st + 1
                /\ current_player st' = 1 - current_player st
                /\ player_at st' (current_player st) = Some p
            | _ =>
                exists p',
                  player_at st' (current_player st) = Some p'
                  /\ actions_remaining p' = actions_remaining p - 1
                  /\ (actions_remaining p' = 0 ->
                      turn_number st' = turn_number st + 1
                      /\ current_player st' = 1 - current_player st)
                  /\ (actions_remaining p' <> 0 ->
                      turn_number st' = turn_number st
                      /\ current_player st' = current_player st)
            end.
Proof.
  intros Hreach Hst.
  destruct (reachable_good _ e Hreach) as (st' & Hst' & Hwf & Hgood & _).
  rewrite Hst in Hst'. injection Hst' as <-.
  split; [intros pid p Hpid Hat; by apply (Hgood pid p)|].
  intros action player_id act p Hparse Hat Hsucc.
  pose proof Hwf as [Hg Hl Hc].
  rewrite (step_succeeds_spec _ _ _ st) in Hsucc by done.
  rewrite Hparse in Hsucc. apply andb_prop in Hsucc as [Hpid Hacc].
  apply bool_decide_eq_true_1 in Hpid.
  rewrite (step_state_applied action player_id e st act) by done.
  set (e0 := set_step_count (step_count e + 1) e) in *.
  pose proof (apply_result_state e0 st act (current_player st) Hst) as Hres.
  pose proof (apply_result_accepts e0 st act (current_player st)) as Hacc'.
  destruct (apply_result e0 st act (current_player st)) as [e1 [[[|] msg]|x]];
    cbn [fst snd] in *; [| congruence | congruence].
  destruct (end_turn_st_fields st) as (Hcur & Hturn & _).
  destruct Hres as [[-> Hnext] | (q & st1 & Hne & Hq & Hpos & Hout & Hnext)].
  - eexists. split; [exact Hnext|].
    split; [done|]. split; [done|]. rewrite end_turn_st_other by done. exact Hat.
  - rewrite Hat in Hq. injection Hq as <-.
    destruct (action_outcome_frame st st1 _ act (current_player st) p Hc Hat Hne Hout)
      as (Hturn1 & Hcur1 & _ & p1 & Hp1 & Hact1 & _).
    eexists. split; [exact Hnext|].
    assert (exists p', player_at (if turn_over (current_player st) st1
                                  then end_turn_st st1 else st1) (current_player st)
                       = Some p'
              /\ actions_remaining p' = actions_remaining p - 1
              /\ (actions_remaining p' = 0 ->
                  turn_number (if turn_over (current_player st) st1
                               then end_turn_st st1 else st1) = turn_number st + 1
                  /\ current_player (if turn_over (current_player st) st1
                                     then end_turn_st st1 else st1)
                     = 1 - current_player st)
              /\ (actions_remaining p' <> 0 ->
                  turn_number (if turn_over (current_player st) st1
                               then end_turn_st st1 else st1) = turn_number st
                  /\ current_player (if turn_over (current_player st) st1
                                     then end_turn_st st1 else st1)
                     = current_player st)) as Hgoal.
    { exists p1. unfold turn_over. rewrite Hp1.
      destruct (end_turn_st_fields st1) as (Hcur' & Hturn' & _).
      case_bool_decide as Hover.
      - rewrite <- Hcur1 at 1. rewrite end_turn_st_other by (by rewrite Hcur1).
        rewrite Hcur1. split; [done|]. split; [done|].
        split; [intros _; split; congruence | intros Hnz; lia].
      - split; [done|]. split; [done|]. split; [intros Hz; lia | done]. }
    by destruct act.
Qed.

(** *** Combat *)

Lemma manhattan_zero (s t : Z * Z) : manhattan s t = 0 -> s = t.
Proof. destruct s, t. unfold manhattan. cbn. intros H. f_equal; lia. Qed.

Lemma _get_distance_manhattan (s t : Z * Z) :
  _get_distance s t = manhattan s t.
Proof.
  unfold _get_distance, manhattan. destruct s, t. cbn.
  repeat case_bool_decide; cbn; lia.
Qed.

(** The removal flags of an attack that [_can_attack] allows. *)
Lemma attack_flags (st : GameState) (attacker defender : Unit) (source target : Z * Z) :
  _can_attack st attacker source target defender = Ok true -> source <> target ->
  let attacker_wins :=
    py_in (unit_type defender) (beats_get MELEE_BEATS (unit_type attacker)) in
  let defender_wins :=
    py_in (unit_type attacker) (beats_get MELEE_BEATS (unit_type defender)) in
  let flags := resolve_combat attacker defender source target in
  (manhattan source target = 1 /\ flags = (defender_wins, attacker_wins))
  \/ (manhattan source target = 2 /\ is_ranged_type (unit_type attacker) = true
      /\ py_in (unit_type defender) (beats_get RANGED_BEATS (unit_type attacker)) = true
      /\ flags = (false, true)).
Proof.
  intros Hcan Hne. cbv zeta.
  assert (manhattan source target <> 0) as Hnz by (intros H; by apply manhattan_zero in H).
  unfold _can_attack in Hcan. unfold resolve_combat.
  rewrite _get_distance_manhattan in Hcan.
  destruct (UNIT_STATS (unit_type attacker)) as [stats|] eqn:Hstats; [|done].
  case_bool_decide as Hrange; [done|].
  destruct (bool_decide (manhattan source target = 1)) eqn:Hmelee; cbn [negb andb] in *.
  - apply bool_decide_eq_true_1 in Hmelee. left. split; [done|].
    destruct (py_in (unit_type defender) _), (py_in (unit_type attacker) _); done.
  - apply bool_decide_eq_false_1 in Hmelee.
    destruct (is_ranged_type (unit_type attacker)) eqn:Hranged.
    + right.
      destruct (bool_decide (unit_type defender = SHIELDMAN)); [done|].
      destruct (py_in (unit_type defender) _) eqn:Hin; [|done].
      assert (stats.2 <= 2) by (destruct (unit_type attacker); simplify_eq/=; lia).
      pose proof (Z.abs_nonneg (source.1 - target.1)).
      pose proof (Z.abs_nonneg (source.2 - target.2)).
      unfold manhattan in *. split; [lia | done].
    + exfalso.
      assert (stats.2 = 1)
        by (destruct (unit_type attacker); vm_compute in Hranged; simplify_eq/=; done).
      pose proof (Z.abs_nonneg (source.1 - target.1)).
      pose proof (Z.abs_nonneg (source.2 - target.2)).
      unfold manhattan in *. lia.
Qed.

(** Combat as [_apply_attack] resolves it.  For every attack accepted by
    step: at distance 1 the melee table decides both ways, the attacker
    is removed iff the attacker's type is in the defender's melee entry
    and the defender is removed iff the defender's type is in the
    attacker's melee entry; at distance 2 the attacker is an Archer or a
    Spearman whose ranged entry holds the defender's type, the defender
    is removed and the attacker stays on the board, also when the ranged
    entry of the defender's type holds the attacker's type: the ranged
    branch has no case for the mutual destruction that the method's
    docstring and its melee branch have. *)
Theorem attack_resolution (e : NovusXEnv) (st : GameState) (action : Z)
    (player_id : option Z) (source target : Z * Z) (attacker defender : Unit) :
  state e = Some st -> state_wf st ->
  _parse_action action = Ok (Attack source target) ->
  cell (grid st) source = Some attacker -> cell (grid st) target = Some defender ->
  step_succeeds action player_id e = true ->
  exists st',
    state (step action player_id e).1 = Some st'
    /\ ((manhattan source target = 1
         /\ (cell (grid st') source = None
             <-> py_in (unit_type attacker)
                   (beats_get MELEE_BEATS (unit_type defender)) = true)
         /\ (cell (grid st') target = None
             <-> py_in (unit_type defender)
                   (beats_get MELEE_BEATS (unit_type attacker)) = true))
        \/ (manhattan source target = 2
            /\ is_ranged_type (unit_type attacker) = true
            /\ py_in (unit_type defender)
                 (beats_get RANGED_BEATS (unit_type attacker)) = true
            /\ cell (grid st') source <> None
            /\ cell (grid st') target = None)).
Proof.
  intros Hst Hwf Hparse Hsrc Htgt Hsucc.
  pose proof Hwf as [Hg Hl Hc].
  destruct (_parse_action_coords _ _ Hparse) as [Hs Ht].
  rewrite (step_succeeds_spec _ _ _ st) in Hsucc by done.
  rewrite Hparse in Hsucc. apply andb_prop in Hsucc as [Hpid Hacc].
  apply bool_decide_eq_true_1 in Hpid.
  rewrite (step_state_applied action player_id e st _) by done.
  set (e0 := set_step_count (step_count e + 1) e) in *.
  pose proof (apply_result_state e0 st (Attack source target) (current_player st) Hst)
    as Hres.
  pose proof (apply_result_accepts e0 st (Attack source target) (current_player st))
    as Hacc'.
  destruct (apply_result e0 st _ (current_player st)) as [e1 [[[|] msg]|x]];
    cbn [fst snd] in *; [| congruence | congruence].
  destruct Hres as [[[=] _] | (q & st1 & _ & Hq & Hpos & Hout & Hnext)].
  cbn [action_outcome] in Hout. unfold attack_outcome in Hout.
  rewrite Hsrc, Htgt in Hout.
  case_bool_decide as Hown; [done|]. destruct (acted_this_turn attacker); [done|].
  case_bool_decide as Hown'; [done|].
  destruct (_can_attack st attacker source target defender) as [[|]|] eqn:Hcan;
    try done.
  injection Hout as <-.
  assert (source <> target) as Hne by (intros ->; congruence).
  assert (forall st2 p, cell (grid (if turn_over (current_player st) st2
                                    then end_turn_st st2 else st2)) p = None
                        <-> cell (grid st2) p = None) as Hkeep.
  { intros st2 p. destruct (turn_over _ st2); [|done].
    destruct (end_turn_st_fields st2) as (_ & _ & -> & _). rewrite cell_clear_acted.
    by destruct (cell (grid st2) p). }
  eexists. split; [exact Hnext|]. rewrite !Hkeep.
  change (grid (spend_st (current_player st)
                  (attack_st attacker defender source target st)))
    with (grid (attack_st attacker defender source target st)).
  assert (forall flags,
            resolve_combat attacker defender source target = flags ->
            (cell (grid (attack_st attacker defender source target st)) source = None
             <-> flags.1 = true)
            /\ (cell (grid (attack_st attacker defender source target st)) target = None
                <-> flags.2 = true)) as Hcells.
  { intros [ra rd] Hflags. unfold attack_st. rewrite Hflags. cbn [fst snd].
    destruct rd; unfold upd_grid; cbn [grid set_grid].
    - rewrite cell_set_cell_ne by done.
      rewrite !cell_set_cell_eq by (try apply grid_wf_set_cell; done).
      by destruct ra.
    - rewrite cell_set_cell_eq, cell_set_cell_ne, Htgt by done. by destruct ra. }
  destruct (attack_flags st attacker defender source target Hcan Hne)
    as [[Hdist Hflags] | (Hdist & Hranged & Hin & Hflags)];
    destruct (Hcells _ Hflags) as [H1 H2]; cbn [fst snd] in *.
  - left. done.
  - right. repeat split; try done.
    + intros Hnone. apply H1 in Hnone. done.
    + by apply H2.
Qed.

(** *** Rejections and misuse *)

Lemma step_before_reset (action : Z) (player_id : option Z) (e : NovusXEnv) :
  state e = None -> step action player_id e = (e, Raise RuntimeError).
Proof.
  intros Hst. unfold step.
  erewrite bind_ok by (unfold gets; rewrite Hst; reflexivity). reflexivity.
Qed.

Lemma step_not_your_turn (action : Z) (pid : Z) (e : NovusXEnv) (st : GameState) :
  state e = Some st -> length (players st) = 2%nat -> is_player pid ->
  pid <> current_player st ->
  exists obs,
    step action (Some pid) e
    = (e, Ok (obs, RKey invalid_action_penalty, false, InfoError "Not your turn")).
Proof.
  intros Hst Hl Hp Hne. destruct (_get_observation_ok st pid Hl Hp) as [obs Hobs].
  exists obs. unfold step.
  erewrite bind_ok by (unfold gets; rewrite Hst; reflexivity).
  cbv beta iota. change (default (current_player st) (Some pid)) with pid.
  rewrite bool_decide_eq_true_2 by done.
  by rewrite bind_lift, Hobs.
Qed.

Lemma step_wrong_player (action : Z) (player_id : option Z) (e : NovusXEnv)
    (st : GameState) :
  state e = Some st ->
  default (current_player st) player_id <> current_player st ->
  (step action player_id e).1 = e
  /\ match (step action player_id e).2 with
     | Ok (_, reward, finished, info) =>
         reward = RKey invalid_action_penalty /\ finished = false
         /\ info = InfoError "Not your turn"
     | Raise x => x = IndexError
     end.
Proof.
  intros Hst Hne. unfold step.
  erewrite bind_ok by (unfold gets; rewrite Hst; reflexivity).
  cbv beta iota. rewrite bool_decide_eq_true_2 by done.
  rewrite bind_lift. unfold _get_observation.
  destruct (py_get (players st) _); [|done].
  destruct (py_get (players st) _); done.
Qed.

Lemma step_parse_raises (action : Z) (player_id : option Z) (e : NovusXEnv)
    (st : GameState) (x : exn) :
  state e = Some st ->
  default (current_player st) player_id = current_player st ->
  _parse_action action = Raise x ->
  step action player_id e = (set_step_count (step_count e + 1) e, Raise x).
Proof.
  intros Hst Hpid Hparse. unfold step.
  erewrite bind_ok by (unfold gets; rewrite Hst; reflexivity).
  cbv beta iota. rewrite Hpid.
  rewrite bool_decide_eq_false_2 by (intros H; by apply H).
  mstep. by rewrite bind_lift, Hparse.
Qed.

(** C6.  Whenever step rejects an action it returns the invalid-action
    penalty with done=false, and the game state (board, unit fields,
    player resources, current player, turn number) is exactly as before;
    of the engine only the step counter may have moved.  A call by the
    player whose turn it is not is rejected, and so is a decoded action
    that [_apply_action] refuses. *)
Theorem rejection_is_read_only (e : NovusXEnv) (st : GameState) (action : Z)
    (player_id : option Z) :
  reachable e -> state e = Some st ->
  (step_rejects action player_id e = true ->
   exists obs msg,
     (step action player_id e).2
     = Ok (obs, RKey invalid_action_penalty, false, InfoError msg)
     /\ state (step action player_id e).1 = Some st
     /\ ((step action player_id e).1 = e
         \/ (step action player_id e).1 = set_step_count (step_count e + 1) e))
  /\ (forall pid, player_id = Some pid -> is_player pid -> pid <> current_player st ->
      step_rejects action player_id e = true)
  /\ (forall act msg,
        default (current_player st) player_id = current_player st ->
        _parse_action action = Ok act ->
        (_apply_action act (current_player st)
           (set_step_count (step_count e + 1) e)).2 = Ok (false, msg) ->
        step_rejects action player_id e = true).
Proof.
  intros Hreach Hst.
  destruct (reachable_good _ e Hreach) as (st' & Hst' & Hwf & _).
  rewrite Hst in Hst'. injection Hst' as <-. pose proof Hwf as [Hg Hl Hc].
  split; [|split].
  - unfold step_rejects. intros Hrej.
    destruct (decide (default (current_player st) player_id = current_player st))
      as [Hpid | Hpid].
    + destruct (_parse_action action) as [act | x] eqn:Hparse.
      * pose proof (step_run action player_id e st act Hst Hwf Hpid Hparse) as Hrun.
        cbv zeta in Hrun.
        pose proof (apply_result_state (set_step_count (step_count e + 1) e) st act
                      (current_player st) Hst) as Hres.
        destruct (apply_result _ st act (current_player st)) as [e1 [[[|] msg]|x]];
          cbn [fst snd] in *.
        -- destruct Hrun as (st1 & obs & i & _ & _ & Hrun & _).
           rewrite Hrun in Hrej. done.
        -- destruct Hrun as (obs & Hrun). rewrite Hrun. cbn [fst snd]. subst e1.
           exists obs, msg. split; [done|]. split; [done | by right].
        -- rewrite Hrun in Hrej. done.
      * rewrite (step_parse_raises action player_id e st x) in Hrej by done. done.
    + destruct (step_wrong_player action player_id e st Hst Hpid) as [Henv Hres].
      destruct (step action player_id e) as [e' [[[[obs reward] finished] info]|x]];
        cbn [fst snd] in *; [|done].
      destruct Hres as (-> & -> & ->). subst e'.
      exists obs, "Not your turn". split; [done|]. split; [done | by left].
  - intros pid -> Hp Hne. unfold step_rejects.
    destruct (step_not_your_turn action pid e st Hst Hl Hp Hne) as [obs ->]. done.
  - intros act msg Hpid Hparse Happ. unfold step_rejects.
    pose proof (step_run action player_id e st act Hst Hwf Hpid Hparse) as Hrun.
    cbv zeta in Hrun.
    rewrite (_apply_action_run _ _ st) in Happ by done.
    rewrite Happ in Hrun. destruct Hrun as (obs & ->). done.
Qed.

Lemma apply_result_next (e : NovusXEnv) (st : GameState) (a : Action) (pid : Z) :
  state e = Some st ->
  state (apply_result e st a pid).1 = Some (next_state st (_unit_counter e) a pid).
Proof.
  intros Hst. unfold apply_result, next_state.
  destruct a as [ut col | s t | s t | s t |]; [| | | | reflexivity];
    (destruct (player_at st pid) as [p|]; [|done];
     case_bool_decide; [done|];
     match goal with
     | |- context [conclude _ _ _ ?o] => destruct o as [[msg | st1] | x]; [done | | done]
     end;
     cbn [conclude fst]; by rewrite auto_end_env_state).
Qed.

Lemma same_verdict_refl (e : NovusXEnv) : same_verdict e e.
Proof. by repeat split. Qed.

Lemma same_verdict_auto_end (pid : Z) (e e1 : NovusXEnv) (st : GameState) :
  same_verdict e e1 -> same_verdict e (auto_end_env pid e1 st).
Proof. intros H. unfold auto_end_env. by destruct (turn_over pid st). Qed.

Lemma apply_result_verdict (e : NovusXEnv) (st : GameState) (a : Action) (pid : Z) :
  same_verdict e (apply_result e st a pid).1.
Proof.
  unfold apply_result.
  destruct a as [ut col | s t | s t | s t |]; [| | | | by repeat split];
    (destruct (player_at st pid) as [p|]; [|apply same_verdict_refl];
     case_bool_decide; [apply same_verdict_refl|];
     match goal with
     | |- context [conclude _ _ _ ?o] =>
         destruct o as [[msg | st1] | x];
         [apply same_verdict_refl | | apply same_verdict_refl]
     end;
     cbn [conclude fst]; apply same_verdict_auto_end; by repeat split).
Qed.

Lemma step_state_next (action : Z) (player_id : option Z) (e : NovusXEnv)
    (st : GameState) :
  state e = Some st -> state_wf st ->
  state (step action player_id e).1
  = Some (if bool_decide (default (current_player st) player_id = current_player st)
          then match _parse_action action with
               | Ok act => next_state st (_unit_counter e) act (current_player st)
               | Raise _ => st
               end
          else st).
Proof.
  intros Hst Hwf. case_bool_decide as Hpid.
  - destruct (_parse_action action) as [act | x] eqn:Hparse.
    + rewrite (step_state_applied action player_id e st act) by done.
      by rewrite apply_result_next.
    + by rewrite (step_parse_raises action player_id e st x).
  - by destruct (step_wrong_player action player_id e st Hst Hpid) as [-> _].
Qed.

(** C4 (amended).  Calling step before reset fails loudly, with
    RuntimeError and the engine untouched, and so does an index below
    -25, with ValueError and the game state untouched.  Step has no guard
    on a finished game: the recorded outcome and draw reason change
    neither whether the call is applied nor the game state it leaves.  An
    index at or above ACTION_SPACE_SIZE is decoded as END_TURN and
    applied, and an index in [-25, -1] is decoded as a deploy of the type
    EMPTY. *)
Theorem step_misuse (e0 e : NovusXEnv) (st : GameState) (action : Z)
    (player_id : option Z) :
  state e0 = None -> state e = Some st -> state_wf st ->
  default (current_player st) player_id = current_player st ->
  step action player_id e0 = (e0, Raise RuntimeError)
  /\ (action < -25 ->
      step action player_id e = (set_step_count (step_count e + 1) e, Raise ValueError))
  /\ (-25 <= action < 0 -> _parse_action action = Ok (Deploy EMPTY (action mod 5)))
  /\ (ACTION_SPACE_SIZE <= action ->
      _parse_action action = Ok EndTurn
      /\ step_succeeds action player_id e = true
      /\ state (step action player_id e).1 = Some (end_turn_st st))
  /\ (forall outcome reason,
        let e' := set_draw_reason reason (set_game_outcome outcome e) in
        step_succeeds action player_id e' = step_succeeds action player_id e
        /\ state (step action player_id e').1 = state (step action player_id e).1).
Proof.
  intros Hnone Hst Hwf Hpid.
  split; [by apply step_before_reset|].
  split; [|split; [|split]].
  - intros Hlow. apply (step_parse_raises action player_id e st); try done.
    unfold _parse_action. rewrite bool_decide_eq_true_2 by (unfold DEPLOY_ACTIONS; lia).
    assert (action / 25 + 1 < 0) as Hneg by dlia.
    by destruct (action / 25 + 1).
  - intros Hrange. unfold _parse_action.
    rewrite bool_decide_eq_true_2 by (unfold DEPLOY_ACTIONS; lia).
    assert (action / 25 + 1 = 0) as -> by dlia. reflexivity.
  - intros Hhigh.
    assert (_parse_action action = Ok EndTurn) as Hparse
      by (apply _parse_action_end_turn; lia).
    split; [done|]. split.
    + rewrite (step_succeeds_spec _ _ _ st), Hparse by done.
      by rewrite bool_decide_eq_true_2.
    + rewrite (step_state_next _ _ _ st), Hparse by done.
      by rewrite bool_decide_eq_true_2.
  - intros outcome reason e'. split.
    + by rewrite !(step_succeeds_spec _ _ _ st).
    + by rewrite !(step_state_next _ _ _ st).
Qed.

(** *** Game end *)

Lemma track_env_verdict (st0 st : GameState) (pid : Z) (e : NovusXEnv) :
  same_verdict e (track_env st0 st pid e).
Proof.
  unfold track_env. cbv zeta.
  destruct (bool_decide (_ < _)), (existsb _ _); by repeat split.
Qed.

(** The control-point sweep comes before the elimination test. *)
Lemma _check_winner_sweep (st : GameState) :
  (_count_control_points st 0 = 3 -> _check_winner st = Some 0)
  /\ (_count_control_points st 0 <> 3 -> _count_control_points st 1 = 3 ->
      _check_winner st = Some 1).
Proof.
  unfold _check_winner. split.
  - intros H. by rewrite bool_decide_eq_true_2.
  - intros H0 H1. rewrite bool_decide_eq_false_2 by done.
    by rewrite bool_decide_eq_true_2.
Qed.

(** What [game_end] decides, in its order. *)
Lemma game_end_cases (pid : Z) (reward : Reward) (e : NovusXEnv) (st : GameState) :
  let ge := game_end pid reward e st in
  turns_since_last_capture ge.1 = turns_since_last_capture e
  /\ turns_since_last_unit_death ge.1 = turns_since_last_unit_death e
  /\ ge.2.2 = _check_winner st
  /\ match _check_winner st with
     | Some w =>
         ge.2.1.2 = true
         /\ game_outcome ge.1 = (if bool_decide (w = 0) then PLAYER_0_WIN else PLAYER_1_WIN)
         /\ draw_reason ge.1 = draw_reason e
         /\ state_hash_counts ge.1 = state_hash_counts e
     | None =>
         let seen := default 0 (state_hash_counts e !! _compute_state_hash st) + 1 in
         if bool_decide (MAX_TURN_LIMIT <= turn_number st) then
           ge.2.1.2 = true /\ game_outcome ge.1 = DRAW /\ draw_reason ge.1 = MAX_TURNS
           /\ state_hash_counts ge.1 = state_hash_counts e
         else
           state_hash_counts ge.1
           = <[_compute_state_hash st := seen]> (state_hash_counts e)
           /\ if bool_decide (REPEATED_STATE_LIMIT <= seen) then
                ge.2.1.2 = true /\ game_outcome ge.1 = DRAW
                /\ draw_reason ge.1 = REPEATED_STATE
              else if bool_decide (NO_PROGRESS_TURN_LIMIT <= turns_since_last_capture e)
                      && bool_decide (NO_PROGRESS_TURN_LIMIT
                                      <= turns_since_last_unit_death e)
              then ge.2.1.2 = true /\ game_outcome ge.1 = DRAW
                   /\ draw_reason ge.1 = NO_PROGRESS
              else ge.2.1.2 = false /\ game_outcome ge.1 = game_outcome e
                   /\ draw_reason ge.1 = draw_reason e
     end.
Proof.
  unfold game_end. destruct (_check_winner st) as [w|]; [done|].
  unfold draw_check. cbv zeta.
  destruct (bool_decide (MAX_TURN_LIMIT <= turn_number st)); [done|].
  cbn [state_hash_counts set_state_hash_counts]. rewrite lookup_insert_eq. cbn [default].
  change (from_option id 0 (Some ?x)) with x.
  destruct (bool_decide (REPEATED_STATE_LIMIT <= _)); [done|].
  cbn [turns_since_last_capture turns_since_last_unit_death set_state_hash_counts].
  destruct (_ && _); done.
Qed.

(** C7.  After every applied action the win conditions are checked
    first, the control-point sweep before the elimination, and the draw
    conditions only when there is no winner, in the order max-turn
    (turn >= 1000), repeated-state (the state hash seen >= 10 times),
    no-progress (both counters >= 100): a state at the turn limit is
    reported as a MAX_TURNS draw whatever the no-progress counters say. *)
Theorem game_end_priority (e : NovusXEnv) (st : GameState) (action : Z)
    (player_id : option Z) :
  state e = Some st -> state_wf st -> step_succeeds action player_id e = true ->
  exists e2 st2 obs reward finished i,
    step action player_id e = (e2, Ok (obs, reward, finished, InfoStep i))
    /\ state e2 = Some st2
    /\ info_winner i = _check_winner st2
    /\ info_game_outcome i = game_outcome e2
    /\ (_count_control_points st2 0 = 3 -> _check_winner st2 = Some 0)
    /\ (_count_control_points st2 0 <> 3 -> _count_control_points st2 1 = 3 ->
        _check_winner st2 = Some 1)
    /\ match _check_winner st2 with
       | Some w =>
           finished = true
           /\ game_outcome e2 = (if bool_decide (w = 0) then PLAYER_0_WIN
                                 else PLAYER_1_WIN)
           /\ draw_reason e2 = draw_reason e
           /\ state_hash_counts e2 = state_hash_counts e
       | None =>
           let seen := default 0 (state_hash_counts e !! _compute_state_hash st2) + 1 in
           if bool_decide (MAX_TURN_LIMIT <= turn_number st2) then
             finished = true /\ game_outcome e2 = DRAW /\ draw_reason e2 = MAX_TURNS
             /\ state_hash_counts e2 = state_hash_counts e
           else
             state_hash_counts e2
             = <[_compute_state_hash st2 := seen]> (state_hash_counts e)
             /\ if bool_decide (REPEATED_STATE_LIMIT <= seen) then
                  finished = true /\ game_outcome e2 = DRAW
                  /\ draw_reason e2 = REPEATED_STATE
                else if bool_decide (NO_PROGRESS_TURN_LIMIT <= turns_since_last_capture e2)
                        && bool_decide (NO_PROGRESS_TURN_LIMIT
                                        <= turns_since_last_unit_death e2)
                then finished = true /\ game_outcome e2 = DRAW
                     /\ draw_reason e2 = NO_PROGRESS
                else finished = false /\ game_outcome e2 = game_outcome e
                     /\ draw_reason e2 = draw_reason e
       end.
Proof.
  intros Hst Hwf Hsucc.
  rewrite (step_succeeds_spec _ _ _ st) in Hsucc by done.
  apply andb_prop in Hsucc as [Hpid Hacc]. apply bool_decide_eq_true_1 in Hpid.
  destruct (_parse_action action) as [act|] eqn:Hparse; [|done].
  pose proof (step_run action player_id e st act Hst Hwf Hpid Hparse) as Hrun.
  cbv zeta in Hrun.
  set (e0 := set_step_count (step_count e + 1) e) in *.
  pose proof (apply_result_accepts e0 st act (current_player st)) as Hacc'.
  pose proof (apply_result_verdict e0 st act (current_player st)) as Hv1.
  destruct (apply_result e0 st act (current_player st)) as [e1 [[[|] msg]|x]];
    cbn [fst snd] in *; [| congruence | congruence].
  destruct Hrun as (st1 & obs & i & Hst1 & Hwf1 & Hrun & Hwin & Hout & _).
  pose proof (track_env_verdict st st1 (current_player st) e1) as Hv2.
  set (e1' := track_env st st1 (current_player st) e1) in *.
  pose proof (game_end_cases (current_player st)
                (track_reward st st1 (current_player st)) e1' st1) as Hge.
  cbv zeta in Hge.
  pose proof (game_end_state (current_player st)
                (track_reward st st1 (current_player st)) e1' st1) as Hgs.
  set (ge := game_end (current_player st)
               (track_reward st st1 (current_player st)) e1' st1) in *.
  destruct Hge as (Hcap & Hdeath & Hw & Hcases).
  destruct Hv1 as (Hc1 & Ho1 & Hr1 & _). destruct Hv2 as (Hc2 & Ho2 & Hr2 & _).
  cbn in Hc1, Ho1, Hr1.
  exists ge.1, st1, obs, ge.2.1.1, ge.2.1.2, i.
  split; [exact Hrun|].
  split; [rewrite Hgs; unfold e1'; by rewrite track_env_state|].
  split; [congruence|]. split; [done|].
  destruct (_check_winner_sweep st1) as [Hs0 Hs1].
  split; [done|]. split; [done|].
  rewrite Hcap, Hdeath.
  rewrite Hc2, Hc1, Ho2, Ho1, Hr2, Hr1 in Hcases. exact Hcases.
Qed.

(** *** The action mask *)

Lemma marks_skip : marks Ok (fun _ => False).
Proof. intros m. exists m. split; [done|]. split; [done|]. intros i _. tauto. Qed.

Lemma marks_mark (k : Z) : marks (fun m => Ok (mark k m)) (fun i => i = Z.to_nat k).
Proof.
  intros m. eexists. split; [reflexivity|]. unfold mark.
  split; [apply length_insert|]. intros i Hi.
  destruct (decide (i = Z.to_nat k)) as [-> | Hne].
  - rewrite list_lookup_insert_eq by done. tauto.
  - rewrite list_lookup_insert_ne by done. tauto.
Qed.

Lemma marks_ext (F : list bool -> result (list bool)) (S T : nat -> Prop) :
  marks F S -> (forall i, S i <-> T i) -> marks F T.
Proof.
  intros HF Hext m. destruct (HF m) as (m' & Hm & Hl & Hbits).
  exists m'. split; [done|]. split; [done|]. intros i Hi.
  rewrite (Hbits i Hi), (Hext i). tauto.
Qed.

Lemma marks_seq (F G : list bool -> result (list bool)) (S T : nat -> Prop) :
  marks F S -> marks G T -> marks (fun m => rbind (F m) G) (fun i => S i \/ T i).
Proof.
  intros HF HG m. destruct (HF m) as (m1 & Hm1 & Hl1 & Hb1).
  destruct (HG m1) as (m2 & Hm2 & Hl2 & Hb2).
  exists m2. rewrite Hm1. cbn. split; [done|]. split; [congruence|].
  intros i Hi. rewrite Hb2 by lia. rewrite Hb1 by done. tauto.
Qed.

Lemma marks_for_each {A} (xs : list A) (body : A -> list bool -> result (list bool))
    (S : A -> nat -> Prop) :
  (forall x, x ∈ xs -> marks (body x) (S x)) ->
  marks (for_each xs body) (fun i => exists x, x ∈ xs /\ S x i).
Proof.
  induction xs as [|x xs IH]; intros Hbody.
  - eapply marks_ext; [apply marks_skip|]. intros i. split; [done|].
    intros (x & Hx & _). by apply elem_of_nil in Hx.
  - eapply marks_ext.
    + apply (marks_seq (body x) (for_each xs body)).
      * apply Hbody. by left.
      * apply IH. intros y Hy. apply Hbody. by right.
    + intros i. split.
      * intros [H | (y & Hy & H)]; [exists x | exists y]; (split; [|done]);
          [by left | by right].
      * intros (y & Hy & H). apply elem_of_cons in Hy as [-> | Hy]; [by left|].
        right. by exists y.
Qed.

Lemma elem_of_range5 (x : Z) : x ∈ range5 <-> 0 <= x < 5.
Proof.
  unfold range5. rewrite !elem_of_cons, elem_of_nil. lia.
Qed.

(** The loop nest over the own units that have not acted. *)
Lemma marks_units (st : GameState) (pid : Z)
    (body : Unit -> Z * Z -> Z * Z -> list bool -> result (list bool))
    (B : Unit -> Z * Z -> Z * Z -> nat -> Prop) :
  (forall unit s t, on_board s -> on_board t -> cell (grid st) s = Some unit ->
                    marks (body unit s t) (B unit s t)) ->
  marks (mask_units st pid body)
    (fun i => exists s t unit,
       on_board s /\ on_board t /\ cell (grid st) s = Some unit
       /\ owner_id unit = pid /\ acted_this_turn unit = false /\ B unit s t i).
Proof.
  intros Hbody. unfold mask_units.
  eapply marks_ext.
  - apply marks_for_each with
      (S := fun row i => exists col, col ∈ range5 /\ exists unit,
              cell (grid st) (row, col) = Some unit /\ owner_id unit = pid
              /\ acted_this_turn unit = false
              /\ exists tr, tr ∈ range5 /\ exists tc, tc ∈ range5
                             /\ B unit (row, col) (tr, tc) i).
    intros row Hrow. apply marks_for_each. intros col Hcol.
    destruct (cell (grid st) (row, col)) as [unit|] eqn:Hcell.
    + destruct (bool_decide (owner_id unit = pid)) eqn:Hown;
        [destruct (acted_this_turn unit) eqn:Hacted|]; cbn [andb negb].
      * eapply marks_ext; [apply marks_skip|]. intros i. split; [done|].
        intros (u & [= <-] & _ & Hf & _). congruence.
      * apply bool_decide_eq_true_1 in Hown.
        eapply marks_ext.
        -- apply marks_for_each with
             (S := fun tr i => exists tc, tc ∈ range5 /\ B unit (row, col) (tr, tc) i).
           intros tr Htr. apply marks_for_each. intros tc Htc.
           apply Hbody; [| | done]; split; cbn; by apply elem_of_range5.
        -- intros i. split.
           ++ intros (tr & Htr & tc & Htc & HB). exists unit. eauto 10.
           ++ intros (u & [= <-] & _ & _ & H). exact H.
      * apply bool_decide_eq_false_1 in Hown.
        eapply marks_ext; [apply marks_skip|]. intros i. split; [done|].
        intros (u & [= <-] & Hf & _). congruence.
    + eapply marks_ext; [apply marks_skip|]. intros i. split; [done|].
      by intros (u & [=] & _).
  - intros i. split.
    + intros (row & Hrow & col & Hcol & unit & Hcell & Hown & Hacted
              & tr & Htr & tc & Htc & HB).
      exists (row, col), (tr, tc), unit.
      repeat split; cbn; try done; by apply elem_of_range5.
    + intros ([row col] & [tr tc] & unit & [Hr Hc] & [Htr Htc] & Hcell & Hown
              & Hacted & HB). cbn in *.
      exists row. split; [by apply elem_of_range5|].
      exists col. split; [by apply elem_of_range5|].
      exists unit. repeat split; try done.
      exists tr. split; [by apply elem_of_range5|].
      exists tc. split; [by apply elem_of_range5|]. done.
Qed.

Lemma marks_when (b : bool) (F : list bool -> result (list bool)) (S : nat -> Prop) :
  marks F S -> marks (fun m => if b then F m else Ok m) (fun i => b = true /\ S i).
Proof.
  intros HF. destruct b.
  - eapply marks_ext; [exact HF|]. intros i. tauto.
  - eapply marks_ext; [apply marks_skip|]. intros i. split; [done|]. by intros [? _].
Qed.

Lemma _can_move_total (st : GameState) (u : Unit) (s t : Z * Z) :
  unit_type u <> EMPTY -> exists b, _can_move st u s t = Ok b.
Proof.
  intros Hne. unfold _can_move. repeat case_bool_decide; eauto.
  destruct (unit_type u); try done; eauto.
Qed.

Lemma _can_attack_total (st : GameState) (u d : Unit) (s t : Z * Z) :
  unit_type u <> EMPTY -> exists b, _can_attack st u s t d = Ok b.
Proof.
  intros Hne. unfold _can_attack.
  destruct (UNIT_STATS (unit_type u)) as [stats|] eqn:Hstats;
    [|by destruct (unit_type u)].
  destruct (bool_decide (stats.2 < _)); [eauto|].
  destruct (negb _ && _).
  - destruct (bool_decide (unit_type d = SHIELDMAN)); [eauto|].
    destruct (negb _); eauto.
  - destruct (negb _ && negb _); eauto.
Qed.

Lemma marks_move (st : GameState) (pid : Z) :
  no_empty st ->
  marks (mask_move st pid)
    (fun i => exists s t unit,
       on_board s /\ on_board t /\ cell (grid st) s = Some unit
       /\ owner_id unit = pid /\ acted_this_turn unit = false
       /\ _can_move st unit s t = Ok true /\ i = Z.to_nat (_encode_move s t)).
Proof.
  intros Hne. unfold mask_move. apply marks_units.
  intros unit s t Hs Ht Hcell.
  destruct (_can_move_total st unit s t (Hne s unit Hs Hcell)) as [b Hb].
  rewrite Hb. cbn [rbind]. destruct b.
  - eapply marks_ext; [apply marks_mark|]. intros i. cbn. tauto.
  - eapply marks_ext; [apply marks_skip|]. intros i. split; [done|]. by intros [? _].
Qed.

Lemma marks_attack (st : GameState) (pid : Z) :
  no_empty st ->
  marks (mask_attack st pid)
    (fun i => exists s t unit,
       on_board s /\ on_board t /\ cell (grid st) s = Some unit
       /\ owner_id unit = pid /\ acted_this_turn unit = false
       /\ (exists target_unit,
             cell (grid st) t = Some target_unit /\ owner_id target_unit <> pid
             /\ _can_attack st unit s t target_unit = Ok true)
          /\ i = Z.to_nat (_encode_attack s t)).
Proof.
  intros Hne. unfold mask_attack. apply marks_units.
  intros unit s t Hs Ht Hcell.
  destruct (cell (grid st) t) as [d|].
  - case_bool_decide as Hown.
    + destruct (_can_attack_total st unit d s t (Hne s unit Hs Hcell)) as [b Hb].
      rewrite Hb. cbn [rbind]. destruct b.
      * eapply marks_ext; [apply marks_mark|]. intros i. split; [eauto 10|].
        by intros [_ ->].
      * eapply marks_ext; [apply marks_skip|]. intros i. split; [done|].
        intros [(d' & [= <-] & _ & Hf) _]. congruence.
    + eapply marks_ext; [apply marks_skip|]. intros i. split; [done|].
      intros [(d' & [= <-] & Hf & _) _]. done.
  - eapply marks_ext; [apply marks_skip|]. intros i. split; [done|].
    by intros [(d' & [=] & _) _].
Qed.

Lemma marks_rotate (st : GameState) (pid : Z) :
  marks (mask_rotate st pid)
    (fun i => exists s t unit,
       on_board s /\ on_board t /\ cell (grid st) s = Some unit
       /\ owner_id unit = pid /\ acted_this_turn unit = false
       /\ _can_rotate st unit s t pid = true /\ i = Z.to_nat (_encode_rotate s t)).
Proof.
  unfold mask_rotate. apply marks_units.
  intros unit s t Hs Ht Hcell.
  destruct (_can_rotate st unit s t pid).
  - eapply marks_ext; [apply marks_mark|]. intros i. tauto.
  - eapply marks_ext; [apply marks_skip|]. intros i. split; [done|]. by intros [? _].
Qed.

Lemma marks_deploy (st : GameState) (pid : Z) (player : Player) :
  marks (mask_deploy st pid player)
    (fun i => exists ut col,
       1 <= UnitType_value ut <= 5 /\ 0 <= col < 5
       /\ default 0 (deployment_counts player !! ut) < MAX_DEPLOYMENTS_PER_TYPE
       /\ cell (grid st) (if bool_decide (pid = 0) then 0 else 4, col) = None
       /\ i = Z.to_nat (_encode_deploy (UnitType_value ut) col)).
Proof.
  unfold mask_deploy. cbv zeta.
  eapply marks_ext.
  - apply marks_for_each with
      (S := fun idx i => exists ut col,
              UnitType_value ut = idx + 1 /\ 0 <= col < 5
              /\ default 0 (deployment_counts player !! ut) < MAX_DEPLOYMENTS_PER_TYPE
              /\ cell (grid st) (if bool_decide (pid = 0) then 0 else 4, col) = None
              /\ i = Z.to_nat (_encode_deploy (idx + 1) col)).
    intros idx Hidx. apply elem_of_range5 in Hidx.
    destruct (UnitType_of_value_ok (idx + 1)) as (ut & Hut & _ & Hval); [lia|].
    rewrite Hut. cbn [rbind].
    assert (forall ut', UnitType_value ut' = idx + 1 -> ut' = ut) as Huniq.
    { intros ut' Hv. rewrite <- Hval in Hv.
      pose proof (UnitType_of_value_value ut') as H1.
      pose proof (UnitType_of_value_value ut) as H2. rewrite Hv in H1. congruence. }
    case_bool_decide as Hmax.
    + eapply marks_ext; [apply marks_skip|]. intros i. split; [done|].
      intros (ut' & col & Hv & _ & Hlt & _). rewrite (Huniq _ Hv) in Hlt. lia.
    + eapply marks_ext.
      * apply marks_for_each with
          (S := fun col i =>
                  cell (grid st) (if bool_decide (pid = 0) then 0 else 4, col) = None
                  /\ i = Z.to_nat (_encode_deploy (idx + 1) col)).
        intros col Hcol. case_bool_decide as Hcell.
        -- eapply marks_ext; [apply marks_mark|]. intros i. tauto.
        -- eapply marks_ext; [apply marks_skip|]. intros i. split; [done|].
           by intros [? _].
      * intros i. split.
        -- intros (col & Hcol & Hcell & ->). apply elem_of_range5 in Hcol.
           exists ut, col. repeat split; try done; lia.
        -- intros (ut' & col & Hv & Hcol & Hlt & Hcell & ->).
           exists col. split; [by apply elem_of_range5 | done].
  - intros i. split.
    + intros (idx & Hidx & ut & col & Hv & Hcol & Hlt & Hcell & ->).
      apply elem_of_range5 in Hidx. exists ut, col. rewrite Hv.
      repeat split; try done; lia.
    + intros (ut & col & Hv & Hcol & Hlt & Hcell & ->).
      exists (UnitType_value ut - 1). split; [apply elem_of_range5; lia|].
      exists ut, col. replace (UnitType_value ut - 1 + 1) with (UnitType_value ut) by lia.
      done.
Qed.

Lemma reachable_no_empty (e : NovusXEnv) :
  reachable_by in_action_space e ->
  exists st, state e = Some st /\ state_wf st /\ no_empty st.
Proof.
  intros Hreach.
  apply (reachable_state_inv in_action_space no_empty); try done.
  - intros p u _. by rewrite cell_initial.
  - intros st Hwf Hne. by apply cells_good_end_turn.
  - intros st action a counter st1 p Hwf Hne Hin Hparse _ _ _ Hout.
    eapply (cells_good_outcome (fun _ u => unit_type u <> EMPTY)); try done.
    + by eapply _parse_action_coords.
    + intros ut col uid owner row acted ->. cbn.
      by destruct (_parse_action_on_board _ _ Hin Hparse).
Qed.

(** The bits of the whole mask. *)
Lemma mask_spec (e : NovusXEnv) (st : GameState) (player_id : option Z)
    (player : Player) :
  state e = Some st -> state_wf st -> no_empty st ->
  default (current_player st) player_id = current_player st ->
  player_at st (current_player st) = Some player ->
  exists mask,
    get_valid_actions_mask e player_id = Ok mask
    /\ length mask = Z.to_nat ACTION_SPACE_SIZE
    /\ forall i, (i < Z.to_nat ACTION_SPACE_SIZE)%nat ->
         (mask !! i = Some true
          <-> exists act, marked st (current_player st) player act
                          /\ i = Z.to_nat (encode_action act)).
Proof.
  intros Hst [Hg Hl Hc] Hne Hpid Hat.
  set (pid := current_player st) in *.
  set (ha := bool_decide (0 < actions_remaining player)).
  set (hd := bool_decide (0 < deployments_remaining player)).
  assert (marks
    (fun zeros =>
       rbind ((fun m => if ha && hd then mask_deploy st pid player m else Ok m) zeros)
         (fun mask =>
            rbind ((fun m => if ha then mask_move st pid m else Ok m) mask)
              (fun mask =>
                 rbind ((fun m => if ha then mask_attack st pid m else Ok m) mask)
                   (fun mask =>
                      rbind ((fun m => if ha then mask_rotate st pid m else Ok m) mask)
                        (fun mask => Ok (mark (ACTION_SPACE_SIZE - 1) mask))))))
    (fun i => exists act, marked st pid player act /\ i = Z.to_nat (encode_action act)))
    as Hmarks.
  { eapply marks_ext.
    - apply marks_seq; [apply marks_when, marks_deploy|].
      apply marks_seq; [by apply marks_when, marks_move|].
      apply marks_seq; [by apply marks_when, marks_attack|].
      apply marks_seq; [apply marks_when, marks_rotate|].
      apply marks_mark.
    - intros i. unfold ha, hd. split.
      + intros [[Hb (ut & col & Hv & Hcol & Hlt & Hcell & ->)]
               | [[Hb (s & t & u & Hs & Ht & Hcell & Hown & Hact & Hcan & ->)]
                 | [[Hb (s & t & u & Hs & Ht & Hcell & Hown & Hact
                         & (d & Hd & Hdown & Hcan) & ->)]
                   | [[Hb (s & t & u & Hs & Ht & Hcell & Hown & Hact & Hcan & ->)]
                     | ->]]]].
        * apply andb_prop in Hb as [Ha Hd].
          apply bool_decide_eq_true_1 in Ha, Hd.
          exists (Deploy ut col). split; [|done]. cbn. done.
        * apply bool_decide_eq_true_1 in Hb.
          exists (Move s t). split; [|done]. cbn. eauto 10.
        * apply bool_decide_eq_true_1 in Hb.
          exists (Attack s t). split; [|done]. cbn. eauto 12.
        * apply bool_decide_eq_true_1 in Hb.
          exists (Rotate s t). split; [|done]. cbn. eauto 10.
        * exists EndTurn. by split.
      + intros ([ut col | s t | s t | s t |] & Hm & ->); cbn in Hm.
        * destruct Hm as (Ha & Hd & Hv & Hcol & Hlt & Hcell). left.
          split; [by rewrite !bool_decide_eq_true_2|]. by exists ut, col.
        * destruct Hm as (Ha & Hs & Ht & u & Hcell & Hown & Hact & Hcan).
          right. left. split; [by rewrite bool_decide_eq_true_2|].
          by exists s, t, u.
        * destruct Hm as (Ha & Hs & Ht & u & d & Hcell & Hown & Hact & Hd & Hdown & Hcan).
          right. right. left. split; [by rewrite bool_decide_eq_true_2|].
          exists s, t, u. do 5 (split; [done|]). split; [by exists d | done].
        * destruct Hm as (Ha & Hs & Ht & u & Hcell & Hown & Hact & Hcan).
          right. right. right. left. split; [by rewrite bool_decide_eq_true_2|].
          by exists s, t, u.
        * right. right. right. right. reflexivity. }
  destruct (Hmarks (replicate (Z.to_nat ACTION_SPACE_SIZE) false))
    as (mask & Hmask & Hlen & Hbits).
  subst pid. exists mask. split; [|split].
  - unfold get_valid_actions_mask. rewrite Hst. cbv zeta. rewrite Hpid.
    rewrite bool_decide_eq_false_2 by (intros H; by apply H).
    rewrite py_get_player, Hat by done. exact Hmask.
  - by rewrite Hlen, length_replicate.
  - intros i Hi. rewrite Hbits by (by rewrite length_replicate).
    rewrite lookup_replicate. split; [intros [[[=] _] | H]; exact H | by right].
Qed.

Lemma rotate_outcome_can_rotate (st : GameState) (unit : Unit) (s t : Z * Z) (pid : Z) :
  cell (grid st) s = Some unit -> owner_id unit = pid -> acted_this_turn unit = false ->
  is_accept (rotate_outcome st s t pid) = _can_rotate st unit s t pid.
Proof.
  intros Hcell Hown Hact. unfold rotate_outcome, _can_rotate.
  rewrite Hcell, Hact. rewrite bool_decide_eq_false_2 by (intros H; by apply H).
  destruct (cell (grid st) t) as [d|]; [|done].
  destruct (bool_decide (owner_id d <> pid)); [done|].
  destruct (bool_decide (unit_type unit = unit_type d)); [done|].
  cbv zeta.
  destruct (bool_decide (_ + _ = 1)); [done|].
  destruct (bool_decide (Z.abs (t.2 - s.2) = 1)), (bool_decide (Z.abs (t.1 - s.1) = 1));
    cbn [andb];
    destruct (bool_decide (_ + _ = 2)) eqn:Hm2; cbn [andb];
    destruct (bool_decide (Z.abs (t.2 - s.2) = 0)) eqn:Hdx,
             (bool_decide (Z.abs (t.1 - s.1) = 0)) eqn:Hdy; cbn [andb orb];
    repeat case_bool_decide; try done.
Qed.

(** On the structured actions of the action space, the mask marks what
    [_apply_action] accepts, but for the deploys of a Spearman. *)
Lemma marked_accepts (st : GameState) (pid : Z) (player : Player) (act : Action) :
  player_at st pid = Some player -> action_wf act ->
  (marked st pid player act
   <-> accepts st act pid = true
       /\ match act with Deploy ut _ => ut <> SPEARMAN | _ => True end).
Proof.
  intros Hat Hwf. unfold accepts. rewrite Hat.
  destruct act as [ut col | s t | s t | s t |]; cbn [marked action_outcome action_wf] in *.
  - destruct Hwf as [Hne Hcol]. unfold deploy_outcome. rewrite Hat.
    pose proof (UnitType_value_range ut Hne) as Hr.
    split.
    + intros (Ha & Hd & Hv & _ & Hlt & Hcell).
      rewrite bool_decide_eq_true_2 by done.
      rewrite bool_decide_eq_false_2 by lia.
      rewrite bool_decide_eq_false_2 by (intros H; by apply H).
      rewrite bool_decide_eq_false_2 by lia.
      split; [done|]. intros ->. cbn in Hv. lia.
    + intros [Hacc Hsp]. apply andb_prop in Hacc as [Ha Hout].
      apply bool_decide_eq_true_1 in Ha.
      destruct (bool_decide (deployments_remaining player <= 0)) eqn:Hd; [done|].
      destruct (bool_decide (cell (grid st) _ <> None)) eqn:Hcell; [done|].
      destruct (bool_decide (MAX_DEPLOYMENTS_PER_TYPE <= _)) eqn:Hmax; [done|].
      apply bool_decide_eq_false_1 in Hd, Hcell, Hmax.
      split; [done|]. split; [lia|].
      split; [destruct ut; cbn; done || lia|]. split; [done|]. split; [lia|].
      match goal with
      | |- ?c = None => destruct c; [exfalso; by apply Hcell | done]
      end.
  - destruct Hwf as [Hs Ht]. unfold move_outcome. split.
    + intros (Ha & _ & _ & u & Hcell & Hown & Hact & Hcan).
      rewrite Hcell, Hact, Hcan. rewrite bool_decide_eq_true_2 by done.
      by rewrite bool_decide_eq_false_2 by (intros H; by apply H).
    + intros [Hacc _]. apply andb_prop in Hacc as [Ha Hout].
      apply bool_decide_eq_true_1 in Ha.
      destruct (cell (grid st) s) as [u|]; [|done].
      case_bool_decide as Hown; [done|].
      destruct (acted_this_turn u) eqn:Hact; [done|].
      destruct (_can_move st u s t) as [[|]|] eqn:Hcan; try done.
      do 3 (split; [done|]). exists u. split; [done|].
      split; [by destruct (decide (owner_id u = pid))|]. by split.
  - destruct Hwf as [Hs Ht]. unfold attack_outcome. split.
    + intros (Ha & _ & _ & u & d & Hcell & Hown & Hact & Hd & Hdown & Hcan).
      rewrite Hcell, Hact, Hd, Hcan. rewrite bool_decide_eq_true_2 by done.
      rewrite bool_decide_eq_false_2 by (intros H; by apply H).
      by rewrite bool_decide_eq_false_2 by done.
    + intros [Hacc _]. apply andb_prop in Hacc as [Ha Hout].
      apply bool_decide_eq_true_1 in Ha.
      destruct (cell (grid st) s) as [u|]; [|done].
      case_bool_decide as Hown; [done|].
      destruct (acted_this_turn u) eqn:Hact; [done|].
      destruct (cell (grid st) t) as [d|]; [|done].
      case_bool_decide as Hdown; [done|].
      destruct (_can_attack st u s t d) as [[|]|] eqn:Hcan; try done.
      do 3 (split; [done|]). exists u, d. split; [done|].
      split; [by destruct (decide (owner_id u = pid))|].
      do 3 (split; [done|]). done.
  - destruct Hwf as [Hs Ht]. split.
    + intros (Ha & _ & _ & u & Hcell & Hown & Hact & Hcan).
      rewrite bool_decide_eq_true_2 by done. cbn [andb]. split; [|done].
      pose proof (rotate_outcome_can_rotate st u s t pid Hcell Hown Hact) as Hrot.
      rewrite Hcan in Hrot. unfold is_accept in Hrot.
      by destruct (rotate_outcome st s t pid) as [[|]|].
    + intros [Hacc _]. apply andb_prop in Hacc as [Ha Hout].
      apply bool_decide_eq_true_1 in Ha.
      do 3 (split; [done|]).
      destruct (cell (grid st) s) as [u|] eqn:Hcell;
        [|by unfold rotate_outcome in Hout; rewrite Hcell in Hout].
      assert (owner_id u = pid /\ acted_this_turn u = false) as [Hown Hact].
      { unfold rotate_outcome in Hout. rewrite Hcell in Hout.
        case_bool_decide as Hown; [done|].
        destruct (acted_this_turn u); [done|].
        split; [by destruct (decide (owner_id u = pid)) | done]. }
      exists u. do 3 (split; [done|]).
      rewrite <- (rotate_outcome_can_rotate st u s t pid Hcell Hown Hact).
      unfold is_accept. by destruct (rotate_outcome st s t pid) as [[|]|].
  - done.
Qed.

Lemma marked_wf (st : GameState) (pid : Z) (player : Player) (act : Action) :
  marked st pid player act -> action_wf act.
Proof.
  destruct act as [ut col | s t | s t | s t |]; cbn; try tauto.
  intros (_ & _ & Hv & Hcol & _). split; [|done]. intros ->. cbn in Hv. lia.
Qed.

(** The index of a marked action decodes to that action. *)
Lemma marked_index (st : GameState) (pid : Z) (player : Player) (act : Action) (a : Z) :
  0 <= a -> marked st pid player act -> Z.to_nat a = Z.to_nat (encode_action act) ->
  a = encode_action act /\ _parse_action a = Ok act.
Proof.
  intros Ha Hm Hi. destruct (_parse_encode act (marked_wf _ _ _ _ Hm)) as [Hin Hparse].
  assert (a = encode_action act) as -> by (unfold in_action_space in Hin; lia).
  by split.
Qed.

(** C1 (amended).  For every state reachable by steps with indices of
    the action space, for the player whose turn it is and every index a
    of the action space: a bit the mask sets is an action step applies;
    on the move, attack, rotate and end-turn indices the bit is 1 iff
    step applies the action; on the deploy indices the bit is 1 iff step
    applies the action at the index (t-1)*25+col the encoder gives a type
    t in 1..5 and a column, and it is 0 at every other index of the same
    deploy (those with a % 25 >= 5), which step decodes and applies all
    the same. *)
Theorem mask_agrees_with_step (e : NovusXEnv) (st : GameState)
    (player_id : option Z) (a : Z) :
  reachable_by in_action_space e -> state e = Some st ->
  default (current_player st) player_id = current_player st ->
  in_action_space a ->
  exists mask,
    get_valid_actions_mask e player_id = Ok mask
    /\ length mask = Z.to_nat ACTION_SPACE_SIZE
    /\ (mask !! Z.to_nat a = Some true -> step_succeeds a player_id e = true)
    /\ (DEPLOY_ACTIONS <= a -> step_succeeds a player_id e = true ->
        mask !! Z.to_nat a = Some true)
    /\ (forall t col, 1 <= t <= 5 -> 0 <= col < 5 -> a = _encode_deploy t col ->
        step_succeeds a player_id e = true -> mask !! Z.to_nat a = Some true)
    /\ (a < DEPLOY_ACTIONS -> 5 <= a mod 25 -> mask !! Z.to_nat a = Some false).
Proof.
  intros Hreach Hst Hpid Ha.
  destruct (reachable_no_empty e Hreach) as (st' & Hst' & Hwf & Hne).
  rewrite Hst in Hst'. injection Hst' as <-. pose proof Hwf as [Hg Hl Hc].
  destruct (player_at_is_Some st (current_player st) Hl Hc) as [player Hat].
  destruct (mask_spec e st player_id player Hst Hwf Hne Hpid Hat)
    as (mask & Hmask & Hlen & Hbits).
  destruct (_parse_action_total a Ha) as (act & Hparse & Hactwf).
  assert (step_succeeds a player_id e = accepts st act (current_player st)) as Hstep.
  { rewrite (step_succeeds_spec _ _ _ st), Hparse by done.
    by rewrite bool_decide_eq_true_2. }
  assert (Z.to_nat a < Z.to_nat ACTION_SPACE_SIZE)%nat as Hi
    by (unfold in_action_space in Ha; lia).
  assert (0 <= a) as Ha0 by (unfold in_action_space in Ha; lia).
  exists mask. split; [done|]. split; [done|].
  rewrite Hstep, (Hbits _ Hi). split; [|split; [|split]].
  - intros (act' & Hm & Hidx).
    destruct (marked_index _ _ _ _ _ Ha0 Hm Hidx) as [_ Hparse'].
    rewrite Hparse in Hparse'. injection Hparse' as <-.
    by apply (marked_accepts st _ player act Hat Hactwf) in Hm as [Hacc _].
  - intros Hge Hacc. exists act.
    assert (match act with Deploy ut _ => ut <> SPEARMAN | _ => True end) as Hkind.
    { destruct act as [ut col | | | |]; try done.
      unfold _parse_action in Hparse.
      rewrite bool_decide_eq_false_2 in Hparse by lia.
      repeat case_bool_decide; done. }
    split; [by apply (marked_accepts st _ player act Hat Hactwf)|].
    f_equal. destruct (_parse_encode act Hactwf) as [Hin Hback].
    apply _parse_action_inj_cells; try done. by rewrite Hback.
  - intros t col Ht Hcol Henc Hacc. apply (Hbits _ Hi).
    destruct (UnitType_of_value_ok t) as (ut & _ & Hut & Hval); [lia|].
    assert (action_wf (Deploy ut col)) as Hdwf by (split; done).
    destruct (_parse_encode (Deploy ut col) Hdwf) as [_ Hback].
    cbn [encode_action] in Hback. rewrite Hval, <- Henc, Hparse in Hback.
    assert (act = Deploy ut col) as Hact by congruence. subst act.
    exists (Deploy ut col). split; [|by cbn; rewrite Hval, Henc].
    apply (marked_accepts st _ player _ Hat Hactwf). split; [done|].
    intros ->. cbn in Hval. lia.
  - intros Hlt Hmod.
    assert (mask !! Z.to_nat a <> Some true) as Hnot.
    { rewrite (Hbits _ Hi). intros (act' & Hm & Hidx).
      destruct (marked_index _ _ _ _ _ Ha0 Hm Hidx) as [Henc _].
      destruct act' as [ut col | s t | s t | s t |]; cbn in Henc, Hm.
      - destruct Hm as (_ & _ & Hv & Hcol & _). unfold _encode_deploy in Henc. dlia.
      - destruct Hm as (_ & [? ?] & [? ?] & _).
        unfold _encode_move, DEPLOY_ACTIONS in *. cbn in *. lia.
      - destruct Hm as (_ & [? ?] & [? ?] & _).
        unfold _encode_attack, DEPLOY_ACTIONS, MOVE_ACTIONS in *. cbn in *. lia.
      - destruct Hm as (_ & [? ?] & [? ?] & _).
        unfold _encode_rotate, DEPLOY_ACTIONS, MOVE_ACTIONS, ATTACK_ACTIONS in *.
        cbn in *. lia.
      - unfold ACTION_SPACE_SIZE, DEPLOY_ACTIONS, MOVE_ACTIONS, ATTACK_ACTIONS,
          ROTATE_ACTIONS, END_TURN_ACTIONS in *. lia. }
    destruct (lookup_lt_is_Some_2 mask (Z.to_nat a)) as [b Hb]; [lia|].
    rewrite Hb in *. by destruct b.
Qed.

(** ** Further properties *)

(** *** Counting units and control points *)

Lemma elem_of_all_cells (p : Z * Z) : p ∈ all_cells <-> on_board p.
Proof.
  unfold all_cells, on_board. destruct p as [r c]. cbn [fst snd].
  rewrite list_elem_of_bind. split.
  - intros (row & Hin & Hrow). apply list_elem_of_bind in Hin as (col & Hin & Hcol).
    apply list_elem_of_singleton in Hin as [= -> ->].
    by rewrite <- !elem_of_range5.
  - intros [Hr Hc]. exists r. split; [|by apply elem_of_range5].
    apply list_elem_of_bind. exists c. split; [by apply list_elem_of_singleton|].
    by apply elem_of_range5.
Qed.

Lemma count_where_pos {A} (cond : A -> bool) (xs : list A) (x : A) :
  x ∈ xs -> cond x = true -> 0 < count_where cond xs.
Proof.
  intros Hin Hx. unfold count_where.
  assert (x ∈ filter (fun x => cond x = true) xs) as Hf
    by (by apply list_elem_of_filter).
  destruct (filter _ xs); [by apply elem_of_nil in Hf | cbn; lia].
Qed.

Lemma _count_control_points_sum (st : GameState) (pid : Z) :
  _count_control_points st pid
  = (if _controls_position st pid (2, 0) then 1 else 0)
    + (if _controls_position st pid (2, 2) then 1 else 0)
    + (if _controls_position st pid (2, 4) then 1 else 0).
Proof.
  unfold _count_control_points, count_where, CONTROL_POINTS.
  rewrite !filter_cons, filter_nil.
  destruct (_controls_position st pid (2, 0)), (_controls_position st pid (2, 2)),
    (_controls_position st pid (2, 4)); repeat case_decide; done.
Qed.

Lemma _controls_position_units (st : GameState) (pid : Z) (p : Z * Z) :
  on_board p -> _controls_position st pid p = true -> 0 < _count_units st pid.
Proof.
  intros Hp Hc. unfold _count_units.
  apply (count_where_pos _ _ p); [by apply elem_of_all_cells|].
  unfold _controls_position in Hc. by destruct (cell (grid st) p).
Qed.

Lemma _controls_position_one (st : GameState) (pid qid : Z) (p : Z * Z) :
  pid <> qid -> _controls_position st pid p = true -> _controls_position st qid p = false.
Proof.
  unfold _controls_position. destruct (cell (grid st) p) as [u|]; [|done].
  intros Hne H. apply bool_decide_eq_true_1 in H. apply bool_decide_eq_false_2. congruence.
Qed.

(** X1.  The winner [_check_winner] reports does not depend on the order
    in which it tries the two players. *)
Theorem check_winner_symmetric (st : GameState) (w : Z) :
  _check_winner st = Some w
  <-> is_player w
      /\ (_count_control_points st w = 3
          \/ (10 < turn_number st /\ _count_units st (1 - w) = 0
              /\ 0 < _count_units st w)).
Proof.
  assert (forall pid, _count_control_points st pid = 3 -> 0 < _count_units st pid) as Hu.
  { intros pid. rewrite _count_control_points_sum.
    destruct (_controls_position st pid (2, 0)) eqn:H0; [|repeat case_match; lia].
    intros _. by apply (_controls_position_units st pid (2, 0)). }
  assert (_count_control_points st 0 = 3 -> _count_control_points st 1 = 3 -> False) as Hx.
  { rewrite !_count_control_points_sum.
    destruct (_controls_position st 0 (2, 0)) eqn:H0; [|repeat case_match; lia].
    rewrite (_controls_position_one st 0 1 (2, 0)) by done. repeat case_match; lia. }
  unfold _check_winner. change (1 - 0) with 1. change (1 - 1) with 0.
  split.
  - repeat case_bool_decide; cbn [andb]; intros [= <-];
      (split; [by (left + right)|]); change (1 - 0) with 1; change (1 - 1) with 0;
      first [ by left | right; repeat split; lia ].
  - intros [[-> | ->] H]; change (1 - 0) with 1 in H; change (1 - 1) with 0 in H.
    + destruct H as [H | (Ht & H1 & H0)].
      * by rewrite bool_decide_eq_true_2.
      * case_bool_decide; [done|].
        rewrite bool_decide_eq_false_2 by (intros H3; apply Hu in H3; lia).
        rewrite !bool_decide_eq_true_2 by done. done.
    + destruct H as [H | (Ht & H0 & H1)].
      * rewrite bool_decide_eq_false_2 by (intros H3; by apply Hx).
        by rewrite bool_decide_eq_true_2.
      * rewrite bool_decide_eq_false_2 by (intros H3; apply Hu in H3; lia).
        case_bool_decide; [done|].
        rewrite (bool_decide_eq_true_2 (10 < _)) by done.
        rewrite (bool_decide_eq_false_2 (_count_units st 1 = 0)) by lia.
        cbn [andb]. by rewrite !bool_decide_eq_true_2.
Qed.

(** *** Invariants of the state after a step *)

Lemma next_state_cases (st : GameState) (counter : Z) (a : Action) (pid : Z) :
  (accepts st a pid = false /\ next_state st counter a pid = st)
  \/ (accepts st a pid = true /\ a = EndTurn
      /\ next_state st counter a pid = end_turn_st st)
  \/ (exists p st1,
        accepts st a pid = true /\ a <> EndTurn /\ player_at st pid = Some p
        /\ 0 < actions_remaining p
        /\ action_outcome st counter a pid = Ok (inr st1)
        /\ next_state st counter a pid
           = if turn_over pid st1 then end_turn_st st1 else st1).
Proof.
  unfold next_state, accepts.
  destruct a as [ut col | s t | s t | s t |]; [| | | | right; left; done];
    (destruct (player_at st pid) as [p|]; [|left; done];
     destruct (decide (actions_remaining p <= 0)) as [Hact | Hact];
     [ left; rewrite (bool_decide_eq_true_2 (_ <= 0)), (bool_decide_eq_false_2 (0 < _))
         by lia; done |];
     rewrite (bool_decide_eq_false_2 (_ <= 0)), (bool_decide_eq_true_2 (0 < _)) by lia;
     cbn [andb];
     match goal with
     | |- context [action_outcome st counter ?a pid] =>
         pose proof (action_outcome_counter st counter 0 a pid) as Hshape;
         destruct (action_outcome st counter a pid) as [[msg | st1] | x] eqn:Hout;
         destruct (action_outcome st 0 a pid) as [[msg' | st1'] | x'];
         cbn in Hshape; try discriminate Hshape; try (left; done)
     end;
     right; right; exists p, st1; repeat split; try done; lia).
Qed.

(** Invariants of the game state, by induction on the calls: [I] holds
    after [reset], an end-turn keeps it, and every accepted action of the
    player to move leads to a state with [I], the turn ended or not. *)
Lemma reachable_turn_inv (acts : Z -> Prop) (I : GameState -> Prop) :
  I initial_state ->
  (forall st, state_wf st -> I st -> I (end_turn_st st)) ->
  (forall st action a counter st1 p,
     state_wf st -> I st -> acts action -> _parse_action action = Ok a ->
     a <> EndTurn -> player_at st (current_player st) = Some p ->
     0 < actions_remaining p ->
     action_outcome st counter a (current_player st) = Ok (inr st1) ->
     state_wf st1 ->
     I (if turn_over (current_player st) st1 then end_turn_st st1 else st1)) ->
  forall e, reachable_by acts e -> exists st, state e = Some st /\ state_wf st /\ I st.
Proof.
  intros Hinit Hend Hact e Hreach.
  induction Hreach as [e | e action player_id Hreach (st & Hst & Hwf & HI) Hacts].
  - exists initial_state. split; [reflexivity|]. split; [apply state_wf_initial | done].
  - rewrite (step_state_next action player_id e st Hst Hwf).
    eexists. split; [reflexivity|].
    case_bool_decide as Hpid; [|done].
    destruct (_parse_action action) as [act|] eqn:Hparse; [|done].
    destruct (next_state_cases st (_unit_counter e) act (current_player st))
      as [[_ ->] | [(_ & -> & ->) | (p & st1 & _ & Hne & Hat & Hpos & Hout & ->)]].
    + done.
    + split; [by apply state_wf_end_turn | by apply Hend].
    + pose proof (action_outcome_wf _ _ _ _ _ Hwf Hout) as Hwf1.
      split; [destruct (turn_over _ _); [by apply state_wf_end_turn | done]|].
      by eapply (Hact st action act _ st1 p).
Qed.

Lemma turns_good_end_turn (st : GameState) :
  state_wf st ->
  1 <= turn_number st -> current_player st = (turn_number st + 1) mod 2 ->
  (forall pid p, is_player pid -> player_at st pid = Some p ->
     0 <= actions_remaining p <= 2 /\ 0 <= deployments_remaining p) ->
  turns_good (end_turn_st st).
Proof.
  intros [Hg Hl Hc] Hturn Hcur Hall.
  destruct (end_turn_st_fields st) as (Hcur' & Hturn' & _).
  pose proof (is_player_other _ Hc) as Hn.
  destruct (player_at_is_Some st (1 - current_player st) Hl Hn) as [q Hq].
  pose proof (end_turn_st_player st q Hc Hq) as Hnew.
  pose proof (end_turn_st_other st Hc) as Hold.
  assert (0 <= middle_bonus st (1 - current_player st) <= 1) as Hb
    by (unfold middle_bonus; destruct (_controls_position st _ (2, 2)); lia).
  split; [lia|]. split; [rewrite Hcur', Hturn'; destruct Hc as [H0 | H1]; dlia|].
  split.
  - intros pid p Hpid Hat.
    destruct (decide (pid = current_player st)) as [-> | Hne].
    + rewrite Hold in Hat. by apply (Hall _ p Hc).
    + assert (pid = 1 - current_player st) as ->
        by (destruct Hpid as [-> | ->], Hc as [Hc | Hc]; lia).
      rewrite Hnew in Hat. injection Hat as <-. cbn.
      destruct (Hall _ q Hn Hq) as [_ Hd].
      destruct (_ && _); lia.
  - rewrite Hcur', Hnew. intros p [= <-]. cbn. lia.
Qed.

Lemma reachable_turns (acts : Z -> Prop) (e : NovusXEnv) :
  reachable_by acts e -> exists st, state e = Some st /\ state_wf st /\ turns_good st.
Proof.
  apply reachable_turn_inv.
  - split; [done|]. split; [done|]. split.
    + intros pid p [-> | ->] [= <-]; cbn; lia.
    + intros p [= <-]. cbn. lia.
  - intros st Hwf (H1 & H2 & H3 & H4). by apply turns_good_end_turn.
  - intros st action a counter st1 p Hwf (H1 & H2 & H3 & H4) _ Hparse Hne Hat Hpos Hout Hwf1.
    pose proof Hwf as [Hg Hl Hc].
    destruct (action_outcome_frame st st1 counter a (current_player st) p Hc Hat Hne Hout)
      as (Hturn1 & Hcur1 & Hother & p1 & Hp1 & Hact1 & _ & Hdep).
    assert (forall pid q, is_player pid -> player_at st1 pid = Some q ->
              0 <= actions_remaining q <= 2 /\ 0 <= deployments_remaining q) as Hall1.
    { intros pid q Hpid Hq.
      destruct (decide (pid = current_player st)) as [-> | Hneq].
      - rewrite Hp1 in Hq. injection Hq as <-.
        destruct (H3 _ p Hc Hat) as [Ha Hd]. split; [lia|].
        destruct a; try lia.
        cbn [action_outcome] in Hout.
        unfold deploy_outcome in Hout. rewrite Hat in Hout.
        case_bool_decide; [done|]. lia.
      - assert (pid = 1 - current_player st) as ->
          by (destruct Hpid as [-> | ->], Hc as [Hc' | Hc']; lia).
        rewrite Hother in Hq. by apply (H3 _ q Hpid). }
    unfold turn_over. rewrite Hp1. case_bool_decide as Hover.
    + apply turns_good_end_turn; [done | lia | congruence | done].
    + split; [lia|]. split; [congruence|]. split; [done|].
      rewrite Hcur1, Hp1. intros q [= <-]. lia.
Qed.

(** *** An applied step *)

(** What [step] does when it applies the action: the decoded action is
    accepted on the state, the state moves to [next_state], and the
    environment and the report are those of the game-end check. *)
Lemma step_applied (action : Z) (player_id : option Z) (e : NovusXEnv) (st : GameState) :
  state e = Some st -> state_wf st -> step_succeeds action player_id e = true ->
  exists act st1 obs i,
    default (current_player st) player_id = current_player st
    /\ _parse_action action = Ok act
    /\ accepts st act (current_player st) = true
    /\ st1 = next_state st (_unit_counter e) act (current_player st)
    /\ state_wf st1
    /\ let e1 := (apply_result (set_step_count (step_count e + 1) e) st act
                    (current_player st)).1 in
       let ge := game_end (current_player st) (track_reward st st1 (current_player st))
                   (track_env st st1 (current_player st) e1) st1 in
       state e1 = Some st1
       /\ step action player_id e = (ge.1, Ok (obs, ge.2.1.1, ge.2.1.2, InfoStep i))
       /\ info_winner i = ge.2.2
       /\ info_game_outcome i = game_outcome ge.1
       /\ info_draw_reason i
          = (if bool_decide (draw_reason ge.1 <> NONE) then Some (draw_reason ge.1)
             else None).
Proof.
  intros Hst Hwf Hsucc.
  rewrite (step_succeeds_spec _ _ _ st) in Hsucc by done.
  apply andb_prop in Hsucc as [Hpid Hacc]. apply bool_decide_eq_true_1 in Hpid.
  destruct (_parse_action action) as [act|] eqn:Hparse; [|done].
  pose proof (step_run action player_id e st act Hst Hwf Hpid Hparse) as Hrun.
  cbv zeta in Hrun.
  set (e0 := set_step_count (step_count e + 1) e) in *.
  pose proof (apply_result_accepts e0 st act (current_player st)) as Hacc'.
  pose proof (apply_result_next e0 st act (current_player st) Hst) as Hnext.
  destruct (apply_result e0 st act (current_player st)) as [e1 [[[|] msg]|x]] eqn:Hres;
    cbn [fst snd] in *; [| congruence | congruence].
  destruct Hrun as (st1 & obs & i & Hst1 & Hwf1 & Hrun & Hi).
  exists act, st1, obs, i.
  split; [done|]. split; [done|]. split; [done|].
  split; [change (_unit_counter e0) with (_unit_counter e) in Hnext; congruence|].
  split; [done|]. cbv zeta. rewrite Hres. cbn [fst]. split; [done|]. by split.
Qed.

(** *** The length of a game *)

Lemma clock_grows (st : GameState) (counter : Z) (act : Action) :
  state_wf st -> turns_good st -> accepts st act (current_player st) = true ->
  turns_good (next_state st counter act (current_player st)) ->
  clock st + 1 <= clock (next_state st counter act (current_player st)).
Proof.
  intros Hwf (Ht & Hcur & Hall & Hmove) Hacc (Ht' & Hcur' & Hall' & Hmove').
  pose proof Hwf as [Hg Hl Hc].
  destruct (player_at_is_Some st (current_player st) Hl Hc) as [p Hp].
  pose proof (Hmove p Hp) as Hp1. destruct (Hall _ p Hc Hp) as [[_ Hp2] _].
  assert (forall st', state_wf st' -> turns_good st' ->
            2 * turn_number st' - 2 <= clock st') as Hlow.
  { clear. intros st' [Hg Hl Hc] (_ & _ & Hall & _). unfold clock.
    destruct (player_at_is_Some st' (current_player st') Hl Hc) as [q Hq]. rewrite Hq.
    destruct (Hall _ q Hc Hq) as [[_ Hq2] _]. lia. }
  assert (clock st = 2 * turn_number st - actions_remaining p) as Hclock
    by (unfold clock; by rewrite Hp).
  destruct (next_state_cases st counter act (current_player st))
    as [[Hno _] | [(_ & -> & Hnext) | (q & st1 & _ & Hne & Hq & Hpos & Hout & Hnext)]];
    [congruence | |].
  - rewrite Hnext in *.
    pose proof (Hlow _ (state_wf_end_turn _ Hwf) (conj Ht' (conj Hcur' (conj Hall' Hmove')))).
    destruct (end_turn_st_fields st) as (_ & Hturn & _). lia.
  - rewrite Hnext in *. clear Hnext.
    rewrite Hp in Hq. injection Hq as <-.
    destruct (action_outcome_frame st st1 counter act (current_player st) p Hc Hp Hne Hout)
      as (Hturn1 & Hcur1 & _ & p1 & Hp1' & Hact1 & _).
    pose proof (action_outcome_wf _ _ _ _ _ Hwf Hout) as Hwf1.
    unfold turn_over in *. rewrite Hp1' in *. case_bool_decide as Hover.
    + pose proof (Hlow _ (state_wf_end_turn _ Hwf1)
                    (conj Ht' (conj Hcur' (conj Hall' Hmove')))).
      destruct (end_turn_st_fields st1) as (_ & Hturn & _). lia.
    + unfold clock at 2. rewrite Hcur1, Hp1'. lia.
Qed.

Lemma reachable_step (acts : Z -> Prop) (action : Z) (player_id : option Z)
    (e : NovusXEnv) :
  reachable_by acts e -> acts action -> reachable_by acts (step action player_id e).1.
Proof. intros H1 H2. by constructor. Qed.

Lemma open_run_clock (calls : list (Z * option Z)) (e : NovusXEnv) (st : GameState) :
  reachable e -> state e = Some st -> calls <> [] -> open_run calls e = true ->
  clock st + Z.of_nat (length calls) <= 2 * MAX_TURN_LIMIT - 3.
Proof.
  revert e st. induction calls as [|[action player_id] calls IH]; [done|].
  intros e st Hreach Hst _ Hrun. cbn [open_run] in Hrun.
  destruct (reachable_turns _ e Hreach) as (st0 & Hst0 & Hwf & Hgood).
  rewrite Hst in Hst0. injection Hst0 as <-.
  assert (step_succeeds action player_id e = true) as Hsucc.
  { unfold step_succeeds. revert Hrun.
    by destruct (step action player_id e).2 as [[[[? ?] []] []]|]. }
  destruct (step_applied action player_id e st Hst Hwf Hsucc)
    as (act & st1 & obs & i & Hpid & Hparse & Hacc & Hnext & Hwf1 & Hstep).
  cbv zeta in Hstep. destruct Hstep as (Hst1 & Hstep & _).
  assert (reachable (step action player_id e).1) as Hreach1
    by (by apply reachable_step).
  assert (state (step action player_id e).1 = Some st1) as Hstate1.
  { rewrite Hstep. cbn [fst]. by rewrite game_end_state, track_env_state. }
  destruct (reachable_turns _ _ Hreach1) as (st1' & Hst1' & _ & Hgood1).
  rewrite Hstate1 in Hst1'. injection Hst1' as <-.
  pose proof Hgood1 as Hgood1'. rewrite Hnext in Hgood1'.
  pose proof (clock_grows st (_unit_counter e) act Hwf Hgood Hacc Hgood1') as Hgrow.
  rewrite <- Hnext in Hgrow.
  destruct calls as [|c calls].
  - cbn [length].
    assert (turn_number st1 < MAX_TURN_LIMIT) as Hturn.
    { rewrite Hstep in Hrun. cbn [snd] in Hrun.
      pose proof (game_end_cases (current_player st)
                    (track_reward st st1 (current_player st))
                    (track_env st st1 (current_player st)
                       (apply_result (set_step_count (step_count e + 1) e) st act
                          (current_player st)).1) st1) as Hge.
      cbv zeta in Hge. destruct Hge as (_ & _ & _ & Hge).
      destruct (game_end _ _ _ st1) as [e2 [[r fin] w]]. cbn [fst snd] in *.
      destruct fin; [done|].
      destruct (_check_winner st1); [by destruct Hge|].
      case_bool_decide; [by destruct Hge | lia]. }
    destruct Hgood1 as (_ & _ & _ & Hmove1). pose proof Hwf1 as [_ Hl1 Hc1].
    destruct (player_at_is_Some st1 (current_player st1) Hl1 Hc1) as [q Hq].
    pose proof (Hmove1 q Hq). unfold clock in Hgrow at 2. rewrite Hq in Hgrow.
    unfold MAX_TURN_LIMIT in *. lia.
  - assert (open_run (c :: calls) (step action player_id e).1 = true) as Hrest.
    { revert Hrun. by destruct (step action player_id e).2 as [[[[? ?] []] []]|]. }
    pose proof (IH _ st1 Hreach1 Hstate1 ltac:(done) Hrest) as Hrec.
    cbn [length] in *. lia.
Qed.

(** X3.  A game cannot go on for ever: counted from [reset], at most 1996
    calls of [step] in a row can each be applied without one of them
    reporting the end of the game. *)
Theorem game_length_bound (e0 : NovusXEnv) (calls : list (Z * option Z)) :
  open_run calls (reset e0).1 = true -> (length calls <= 1996)%nat.
Proof.
  intros Hrun. destruct calls as [|c calls]; [cbn; lia|].
  pose proof (open_run_clock (c :: calls) (reset e0).1 initial_state
                (reach_reset _ e0) eq_refl ltac:(done) Hrun) as H.
  change (clock initial_state) with 1 in H. unfold MAX_TURN_LIMIT in H. lia.
Qed.

(** *** The number of units *)

Lemma count_where_cons {A} (f : A -> bool) (x : A) (xs : list A) :
  count_where f (x :: xs) = (if f x then 1 else 0) + count_where f xs.
Proof.
  unfold count_where. rewrite filter_cons.
  destruct (f x); case_decide; try done. cbn [length]. lia.
Qed.

Lemma count_where_ext {A} (f g : A -> bool) (xs : list A) :
  (forall x, x ∈ xs -> f x = g x) -> count_where f xs = count_where g xs.
Proof.
  intros H. induction xs as [|x xs IH]; [done|].
  rewrite !count_where_cons.
  rewrite (H x) by (by left). rewrite IH by (intros y Hy; apply H; by right). done.
Qed.

(** Changing the condition at one point of a list without repetition. *)
Lemma count_where_update {A} (f g : A -> bool) (xs : list A) (p : A) :
  NoDup xs -> p ∈ xs -> (forall x, x ∈ xs -> x <> p -> g x = f x) ->
  count_where g xs
  = count_where f xs - (if f p then 1 else 0) + (if g p then 1 else 0).
Proof.
  intros Hnd Hin Hext. induction xs as [|x xs IH]; [by apply elem_of_nil in Hin|].
  apply NoDup_cons in Hnd as [Hx Hnd]. rewrite !count_where_cons.
  apply elem_of_cons in Hin as [-> | Hin].
  - rewrite (count_where_ext g f xs); [lia|].
    intros y Hy. apply Hext; [by right|]. intros ->. done.
  - rewrite IH; [| done | done | intros y Hy; apply Hext; by right].
    rewrite (Hext x); [lia | by left | intros ->; done].
Qed.

Lemma NoDup_all_cells : NoDup all_cells.
Proof. apply (bool_decide_unpack _). by vm_compute. Qed.

Lemma _count_units_owned (st : GameState) (pid : Z) :
  _count_units st pid
  = count_where (fun p => bool_decide (owned pid (cell (grid st) p) = 1)) all_cells.
Proof.
  unfold _count_units. apply count_where_ext. intros p _. unfold owned.
  destruct (cell (grid st) p) as [u|]; [|done]. by destruct (bool_decide (owner_id u = pid)).
Qed.

Lemma owned_cases (pid : Z) (c : option Unit) :
  (if bool_decide (owned pid c = 1) then 1 else 0) = owned pid c.
Proof.
  unfold owned. destruct c as [u|]; [|done]. by destruct (bool_decide (owner_id u = pid)).
Qed.

(** Writing one cell changes the count by what the cell held and holds. *)
Lemma _count_units_upd_grid (st : GameState) (p : Z * Z) (v : option Unit) (pid : Z) :
  grid_wf (grid st) -> on_board p ->
  _count_units (upd_grid p v st) pid
  = _count_units st pid - owned pid (cell (grid st) p) + owned pid v.
Proof.
  intros Hg Hp. rewrite !_count_units_owned.
  rewrite (count_where_update
             (fun q => bool_decide (owned pid (cell (grid st) q) = 1))
             (fun q => bool_decide (owned pid (cell (grid (upd_grid p v st)) q) = 1))
             all_cells p).
  - rewrite !owned_cases. unfold upd_grid. cbn [grid set_grid].
    by rewrite cell_set_cell_eq.
  - apply NoDup_all_cells.
  - by apply elem_of_all_cells.
  - intros q Hq Hne. apply elem_of_all_cells in Hq. unfold upd_grid. cbn [grid set_grid].
    by rewrite cell_set_cell_ne.
Qed.

(** *** What an accepted action is *)

(** Inversion of an accepted action: the checks it passed and the state
    it leaves, before the turn may end. *)
Lemma action_outcome_inv (st st1 : GameState) (counter : Z) (a : Action) (pid : Z) :
  action_outcome st counter a pid = Ok (inr st1) ->
  match a with
  | Deploy ut col =>
      exists player,
        player_at st pid = Some player /\ 0 < deployments_remaining player
        /\ cell (grid st) (if bool_decide (pid = 0) then 0 else 4, col) = None
        /\ default 0 (deployment_counts player !! ut) < MAX_DEPLOYMENTS_PER_TYPE
        /\ st1 = deploy_st ut col pid (counter + 1) st
  | Move s t =>
      exists unit,
        cell (grid st) s = Some unit /\ owner_id unit = pid
        /\ acted_this_turn unit = false /\ _can_move st unit s t = Ok true
        /\ st1 = spend_st pid (move_st unit s t st)
  | Attack s t =>
      exists attacker defender,
        cell (grid st) s = Some attacker /\ owner_id attacker = pid
        /\ acted_this_turn attacker = false
        /\ cell (grid st) t = Some defender /\ owner_id defender <> pid
        /\ _can_attack st attacker s t defender = Ok true
        /\ st1 = spend_st pid (attack_st attacker defender s t st)
  | Rotate s t =>
      exists unit target_unit,
        cell (grid st) s = Some unit /\ owner_id unit = pid
        /\ acted_this_turn unit = false
        /\ cell (grid st) t = Some target_unit /\ owner_id target_unit = pid
        /\ unit_type unit <> unit_type target_unit
        /\ _can_rotate st unit s t pid = true
        /\ st1 = spend_st pid (rotate_st unit target_unit s t st)
  | EndTurn => st1 = st
  end.
Proof.
  destruct a as [ut col | s t | s t | s t |]; cbn [action_outcome].
  - unfold deploy_outcome. destruct (player_at st pid) as [player|]; [|done].
    case_bool_decide as Hdep; [done|].
    destruct (cell (grid st) _) as [u|] eqn:Hcell;
      [rewrite bool_decide_eq_true_2 by done; done|].
    rewrite bool_decide_eq_false_2 by (intros H; by apply H).
    destruct (bool_decide_reflect
                (MAX_DEPLOYMENTS_PER_TYPE <= default 0 (deployment_counts player !! ut)))
      as [Hmax | Hmax]; [done|].
    intros [= <-]. exists player. repeat split; (done || lia).
  - unfold move_outcome. destruct (cell (grid st) s) as [u|]; [|done].
    case_bool_decide as Hown; [done|].
    destruct (acted_this_turn u) eqn:Hacted; [done|].
    destruct (_can_move st u s t) as [[|]|] eqn:Hcan; try done.
    intros [= <-]. exists u. repeat split; done.
  - unfold attack_outcome. destruct (cell (grid st) s) as [u|]; [|done].
    case_bool_decide as Hown; [done|].
    destruct (acted_this_turn u) eqn:Hacted; [done|].
    destruct (cell (grid st) t) as [d|]; [|done].
    case_bool_decide as Hown'; [done|].
    destruct (_can_attack st u s t d) as [[|]|] eqn:Hcan; try done.
    intros [= <-]. exists u, d. repeat split; done.
  - intros Hout.
    assert (is_accept (rotate_outcome st s t pid) = true) as Hacc by (by rewrite Hout).
    revert Hout. unfold rotate_outcome.
    destruct (cell (grid st) s) as [u|] eqn:Hu; [|done].
    case_bool_decide as Hown; [done|].
    destruct (acted_this_turn u) eqn:Hacted; [done|].
    rewrite (rotate_outcome_can_rotate st u s t pid Hu Hown Hacted) in Hacc.
    destruct (cell (grid st) t) as [d|]; [|done].
    case_bool_decide as Hown'; [done|].
    case_bool_decide as Htype; [done|]. cbv zeta.
    repeat match goal with
           | |- context [bool_decide ?P] => destruct (bool_decide P); cbn [andb orb negb]
           end; try done;
      intros [= <-]; exists u, d; repeat split; done.
  - by intros [= <-].
Qed.

(** The grid an accepted action leaves is kept by the payment. *)
Lemma cell_spend_st (pid : Z) (st : GameState) (p : Z * Z) :
  cell (grid (spend_st pid st)) p = cell (grid st) p.
Proof. reflexivity. Qed.

Lemma _can_move_ne (st : GameState) (u : Unit) (s t : Z * Z) :
  _can_move st u s t = Ok true -> s <> t /\ cell (grid st) t = None.
Proof.
  unfold _can_move. case_bool_decide as Hst; [done|].
  destruct (cell (grid st) t) as [d|];
    [rewrite bool_decide_eq_true_2 by done; done | done].
Qed.

Lemma _count_units_end_turn (st : GameState) (pid : Z) :
  _count_units (end_turn_st st) pid = _count_units st pid.
Proof.
  unfold _count_units. apply count_where_ext. intros p _.
  destruct (end_turn_st_fields st) as (_ & _ & -> & _).
  rewrite cell_clear_acted. by destruct (cell (grid st) p).
Qed.

Lemma _count_units_grid (st st' : GameState) (pid : Z) :
  grid st' = grid st -> _count_units st' pid = _count_units st pid.
Proof. unfold _count_units. by intros ->. Qed.

(** The units of a player after an accepted action, before the turn may
    end: a deploy adds one to the deploying player, an attack takes away
    the units it removes, and nothing else changes the count. *)
Lemma action_outcome_units (st st1 : GameState) (counter : Z) (a : Action) (pid q : Z) :
  state_wf st -> coords_ok a -> action_outcome st counter a pid = Ok (inr st1) ->
  match a with
  | Deploy _ _ =>
      _count_units st1 q = _count_units st q + (if bool_decide (pid = q) then 1 else 0)
  | Attack s t =>
      exists attacker defender,
        cell (grid st) s = Some attacker /\ cell (grid st) t = Some defender
        /\ owner_id attacker = pid /\ owner_id defender <> pid
        /\ _count_units st1 q
           = _count_units st q
             - (if (resolve_combat attacker defender s t).1
                then owned q (Some attacker) else 0)
             - (if (resolve_combat attacker defender s t).2
                then owned q (Some defender) else 0)
  | _ => _count_units st1 q = _count_units st q
  end.
Proof.
  intros Hwf Hco Hout. pose proof (wf_grid _ Hwf) as Hg.
  apply action_outcome_inv in Hout.
  destruct a as [ut col | s t | s t | s t |]; cbn [coords_ok] in Hco.
  - destruct Hout as (player & _ & _ & Hcell & _ & ->).
    transitivity (_count_units
      (upd_grid (if bool_decide (pid = 0) then 0 else 4, col)
         (Some (mkUnit (pretty pid +:+ "-" +:+ UnitType_name ut +:+ "-"
                          +:+ pretty (counter + 1))
                  pid ut (if bool_decide (pid = 0) then 0 else 4, col) true)) st) q);
      [by apply _count_units_grid|].
    rewrite _count_units_upd_grid by (done || by apply deploy_row_on_board).
    rewrite Hcell. cbn [owned owner_id]. lia.
  - destruct Hout as (u & Hu & Hown & Hacted & Hcan & ->). destruct Hco as [Hs Ht].
    apply _can_move_ne in Hcan as [Hne Hempty].
    rewrite (_count_units_grid (move_st u s t st)) by done. unfold move_st.
    rewrite _count_units_upd_grid by (done || by apply grid_wf_set_cell).
    rewrite _count_units_upd_grid by done.
    unfold upd_grid at 1. cbn [grid set_grid].
    rewrite cell_set_cell_ne, Hempty, Hu by done. cbn [owned owner_id set_acted set_position].
    lia.
  - destruct Hout as (u & d & Hu & Hown & Hacted & Hd & Hown' & Hcan & ->).
    destruct Hco as [Hs Ht].
    assert (s <> t) as Hne by (intros ->; congruence).
    exists u, d. split; [done|]. split; [done|]. split; [done|]. split; [done|].
    rewrite (_count_units_grid (attack_st u d s t st)) by done. unfold attack_st. cbv zeta.
    destruct (resolve_combat u d s t) as [ra rd]. cbn [fst snd].
    assert (_count_units
              (upd_grid s (if ra then None else Some (set_acted u true)) st) q
            = _count_units st q - (if ra then owned q (Some u) else 0)) as H1.
    { rewrite _count_units_upd_grid, Hu by done. destruct ra; cbn [owned owner_id set_acted]; lia. }
    destruct rd; [|lia].
    rewrite _count_units_upd_grid by (done || by apply grid_wf_set_cell).
    rewrite H1. unfold upd_grid at 1. cbn [grid set_grid].
    rewrite cell_set_cell_ne, Hd by done. cbn [owned]. lia.
  - destruct Hout as (u & d & Hu & Hown & Hacted & Hd & Hown' & Htype & _ & ->).
    destruct Hco as [Hs Ht].
    assert (s <> t) as Hne by (intros ->; congruence).
    rewrite (_count_units_grid (rotate_st u d s t st)) by done. unfold rotate_st.
    rewrite _count_units_upd_grid by (done || by apply grid_wf_set_cell).
    rewrite _count_units_upd_grid by done.
    unfold upd_grid at 1. cbn [grid set_grid].
    rewrite cell_set_cell_ne, Hd, Hu by done.
    cbn [owned owner_id set_acted set_position]. lia.
  - by subst.
Qed.

(** Every unit on the board is owned by player 0 or player 1. *)
Lemma reachable_owners (acts : Z -> Prop) (e : NovusXEnv) :
  reachable_by acts e ->
  exists st, state e = Some st /\ state_wf st
             /\ cells_good (fun _ u => is_player (owner_id u)) st.
Proof.
  apply reachable_state_inv.
  - intros p u _. by rewrite cell_initial.
  - intros st _ H. by apply cells_good_end_turn.
  - intros st action a counter st1 p Hwf Hgood _ Hparse Hne _ _ Hout.
    pose proof (_parse_action_coords _ _ Hparse) as Hco.
    destruct a as [ut col | s t | s t | s t |];
      try (by eapply (cells_good_outcome (fun _ u => is_player (owner_id u)))).
    apply action_outcome_inv in Hout as (player & _ & _ & _ & _ & ->).
    change (cells_good (fun _ u => is_player (owner_id u))
              (upd_grid (if bool_decide (current_player st = 0) then 0 else 4, col)
                 (Some (mkUnit (pretty (current_player st) +:+ "-" +:+ UnitType_name ut
                                  +:+ "-" +:+ pretty (counter + 1))
                          (current_player st) ut
                          (if bool_decide (current_player st = 0) then 0 else 4, col)
                          true)) st)).
    apply cells_good_upd_grid; [apply Hwf | by apply deploy_row_on_board | done |].
    intros u [= <-]. cbn. apply Hwf.
Qed.

(** X4.  Only a deploy creates a unit and only an attack removes one:
    after every applied step the two players' unit counts are those
    before it, plus one for the deploying player, minus the units an
    attack removed. *)
Theorem unit_conservation (e : NovusXEnv) (st : GameState) (action : Z)
    (player_id : option Z) (act : Action) :
  reachable e -> state e = Some st -> _parse_action action = Ok act ->
  step_succeeds action player_id e = true ->
  exists st',
    state (step action player_id e).1 = Some st'
    /\ let me := current_player st in
       match act with
       | Deploy _ _ =>
           _count_units st' me = _count_units st me + 1
           /\ _count_units st' (1 - me) = _count_units st (1 - me)
       | Attack s t =>
           exists attacker defender,
             cell (grid st) s = Some attacker /\ cell (grid st) t = Some defender
             /\ _count_units st' me
                = _count_units st me
                  - (if (resolve_combat attacker defender s t).1 then 1 else 0)
             /\ _count_units st' (1 - me)
                = _count_units st (1 - me)
                  - (if (resolve_combat attacker defender s t).2 then 1 else 0)
       | _ =>
           _count_units st' me = _count_units st me
           /\ _count_units st' (1 - me) = _count_units st (1 - me)
       end.
Proof.
  intros Hreach Hst Hparse Hsucc.
  destruct (reachable_owners _ e Hreach) as (st0 & Hst0 & Hwf & Hown).
  rewrite Hst in Hst0. injection Hst0 as <-.
  destruct (step_applied action player_id e st Hst Hwf Hsucc)
    as (act' & st1 & obs & i & Hpid & Hparse' & Hacc & Hnext & Hwf1 & Hstep).
  rewrite Hparse in Hparse'. injection Hparse' as <-.
  cbv zeta in Hstep. destruct Hstep as (_ & Hstep & _).
  exists st1. split.
  { rewrite Hstep. cbn [fst]. rewrite game_end_state, track_env_state.
    rewrite apply_result_next by done. by rewrite Hnext. }
  pose proof (_parse_action_coords _ _ Hparse) as Hco.
  pose proof Hwf as [Hg Hl Hc].
  assert (forall q,
            match act with
            | Deploy _ _ =>
                _count_units st1 q
                = _count_units st q + (if bool_decide (current_player st = q) then 1 else 0)
            | Attack s t =>
                exists attacker defender,
                  cell (grid st) s = Some attacker /\ cell (grid st) t = Some defender
                  /\ owner_id attacker = current_player st
                  /\ owner_id defender <> current_player st
                  /\ _count_units st1 q
                     = _count_units st q
                       - (if (resolve_combat attacker defender s t).1
                          then owned q (Some attacker) else 0)
                       - (if (resolve_combat attacker defender s t).2
                          then owned q (Some defender) else 0)
            | _ => _count_units st1 q = _count_units st q
            end) as Hunits.
  { intros q. subst st1.
    destruct (next_state_cases st (_unit_counter e) act (current_player st))
      as [[Hno _] | [(_ & -> & ->) | (p & st2 & _ & Hne & Hp & Hpos & Hout & ->)]];
      [congruence | apply _count_units_end_turn |].
    pose proof (action_outcome_units st st2 _ act (current_player st) q Hwf Hco Hout)
      as Hu.
    assert (_count_units (if turn_over (current_player st) st2
                          then end_turn_st st2 else st2) q
            = _count_units st2 q) as ->
      by (destruct (turn_over _ _); [apply _count_units_end_turn | done]).
    exact Hu. }
  cbv zeta. pose proof (Hunits (current_player st)) as Hme.
  pose proof (Hunits (1 - current_player st)) as Hother.
  assert (current_player st <> 1 - current_player st) as Hne by lia.
  destruct act as [ut col | s t | s t | s t |]; try done.
  - rewrite Hme, Hother.
    rewrite (bool_decide_eq_true_2 (current_player st = current_player st)) by done.
    rewrite (bool_decide_eq_false_2 (current_player st = 1 - current_player st)) by done.
    lia.
  - destruct Hme as (u & d & Hu & Hd & Hou & Hod & Hme).
    destruct Hother as (u' & d' & Hu' & Hd' & _ & _ & Hother).
    rewrite Hu in Hu'. injection Hu' as <-. rewrite Hd in Hd'. injection Hd' as <-.
    exists u, d. split; [done|]. split; [done|].
    destruct Hco as [Hs Ht].
    pose proof (Hown t d Ht Hd) as Hpd. cbn beta in Hpd.
    assert (owner_id d = 1 - current_player st) as Hd1
      by (destruct Hpd as [H0 | H1], Hc as [Hc0 | Hc1]; lia).
    cbn [owned] in Hme, Hother.
    rewrite (bool_decide_eq_true_2 (owner_id u = current_player st)) in Hme by done.
    rewrite (bool_decide_eq_false_2 (owner_id d = current_player st)) in Hme by done.
    rewrite (bool_decide_eq_false_2 (owner_id u = 1 - current_player st)) in Hother
      by lia.
    rewrite (bool_decide_eq_true_2 (owner_id d = 1 - current_player st)) in Hother
      by done.
    split; [rewrite Hme | rewrite Hother]; repeat case_match; lia.
Qed.

(** *** The cells after an applied step *)

Lemma applied_cells (action : Z) (player_id : option Z) (e : NovusXEnv) (st : GameState)
    (act : Action) :
  state e = Some st -> state_wf st -> _parse_action action = Ok act ->
  step_succeeds action player_id e = true ->
  exists st' st1,
    state (step action player_id e).1 = Some st'
    /\ action_outcome st (_unit_counter e) act (current_player st) = Ok (inr st1)
    /\ (current_player st' = current_player st
        \/ current_player st' = 1 - current_player st)
    /\ forall q, cell (grid st') q = settle st st' (cell (grid st1) q).
Proof.
  intros Hst Hwf Hparse Hsucc.
  destruct (step_applied action player_id e st Hst Hwf Hsucc)
    as (act' & st' & obs & i & Hpid & Hparse' & Hacc & Hnext & Hwf1 & Hstep).
  rewrite Hparse in Hparse'. injection Hparse' as <-.
  cbv zeta in Hstep. destruct Hstep as (_ & Hstep & _).
  pose proof Hwf as [Hg Hl Hc].
  assert (current_player st <> 1 - current_player st) as Hflip by lia.
  exists st'.
  assert (state (step action player_id e).1 = Some st') as Hst'.
  { rewrite Hstep. cbn [fst]. rewrite game_end_state, track_env_state.
    rewrite apply_result_next by done. by rewrite Hnext. }
  assert (forall st1, settle st (end_turn_st st1) = clear_unit
                      \/ current_player st1 <> current_player st) as Hended.
  { intros st1. destruct (decide (current_player st1 = current_player st)) as [Heq|]; [|by right].
    left. unfold settle. destruct (end_turn_st_fields st1) as (-> & _).
    rewrite Heq. by rewrite bool_decide_eq_false_2 by lia. }
  destruct (next_state_cases st (_unit_counter e) act (current_player st))
    as [[Hno _] | [(_ & -> & Hn) | (p & st1 & _ & Hne & Hp & Hpos & Hout & Hn)]];
    [congruence | |].
  - exists st. split; [done|]. split; [done|].
    rewrite Hn in Hnext. subst st'.
    destruct (end_turn_st_fields st) as (Hcur & _ & Hgrid & _).
    split; [by right|]. intros q. rewrite Hgrid, cell_clear_acted.
    by destruct (Hended st) as [-> | ?].
  - exists st1. split; [done|]. split; [done|].
    rewrite Hn in Hnext. subst st'.
    destruct (action_outcome_frame st st1 _ act (current_player st) p Hc Hp Hne Hout)
      as (_ & Hcur1 & _).
    destruct (turn_over (current_player st) st1).
    + destruct (end_turn_st_fields st1) as (Hcur & _ & Hgrid & _).
      split; [right; congruence|]. intros q. rewrite Hgrid, cell_clear_acted.
      by destruct (Hended st1) as [-> | ?].
    + split; [by left|]. intros q. unfold settle. by rewrite bool_decide_eq_true_2.
Qed.

(** X5.  An applied step writes no cell but those its action names: every
    other cell of the board holds what it held, with the acted flag
    cleared when the turn has ended. *)
Theorem step_frame (e : NovusXEnv) (st : GameState) (action : Z) (player_id : option Z)
    (act : Action) (q : Z * Z) :
  state e = Some st -> state_wf st -> _parse_action action = Ok act ->
  step_succeeds action player_id e = true ->
  on_board q -> q ∉ action_cells act (current_player st) ->
  exists st',
    state (step action player_id e).1 = Some st'
    /\ cell (grid st') q = settle st st' (cell (grid st) q).
Proof.
  intros Hst Hwf Hparse Hsucc Hq Hout.
  destruct (applied_cells action player_id e st act Hst Hwf Hparse Hsucc)
    as (st' & st1 & Hst' & Hact & _ & Hcells).
  exists st'. split; [done|]. rewrite Hcells. f_equal.
  pose proof (_parse_action_coords _ _ Hparse) as Hco.
  apply action_outcome_inv in Hact.
  destruct act as [ut col | s t | s t | s t |]; cbn [action_cells coords_ok] in *.
  - destruct Hact as (player & _ & _ & _ & _ & ->).
    apply not_elem_of_cons in Hout as [Hne _].
    transitivity (cell (set_cell (grid st)
                          (if bool_decide (current_player st = 0) then 0 else 4, col)
                          (Some (mkUnit (pretty (current_player st) +:+ "-"
                                           +:+ UnitType_name ut +:+ "-"
                                           +:+ pretty (_unit_counter e + 1))
                                   (current_player st) ut
                                   (if bool_decide (current_player st = 0) then 0 else 4,
                                    col) true))) q); [reflexivity|].
    apply cell_set_cell_ne; [by apply deploy_row_on_board | done | done].
  - destruct Hact as (u & _ & _ & _ & _ & ->). destruct Hco as [Hs Ht].
    apply not_elem_of_cons in Hout as [Hqs Hout].
    apply not_elem_of_cons in Hout as [Hqt _].
    rewrite cell_spend_st. unfold move_st, upd_grid. cbn [grid set_grid].
    by rewrite !cell_set_cell_ne.
  - destruct Hact as (u & d & _ & _ & _ & _ & _ & _ & ->). destruct Hco as [Hs Ht].
    apply not_elem_of_cons in Hout as [Hqs Hout].
    apply not_elem_of_cons in Hout as [Hqt _].
    rewrite cell_spend_st. unfold attack_st, upd_grid. cbv zeta.
    destruct (resolve_combat u d s t).2; cbn [grid set_grid];
      by rewrite !cell_set_cell_ne.
  - destruct Hact as (u & d & _ & _ & _ & _ & _ & _ & _ & ->). destruct Hco as [Hs Ht].
    apply not_elem_of_cons in Hout as [Hqs Hout].
    apply not_elem_of_cons in Hout as [Hqt _].
    rewrite cell_spend_st. unfold rotate_st, upd_grid. cbn [grid set_grid].
    by rewrite !cell_set_cell_ne.
  - by subst.
Qed.

(** *** The effect of a move, of a rotate and of a deploy *)

Lemma manhattan_pos (s t : Z * Z) : s <> t -> 1 <= manhattan s t.
Proof.
  intros Hne. destruct (decide (manhattan s t = 0)) as [H0 | H0].
  - by apply manhattan_zero in H0.
  - unfold manhattan in *. lia.
Qed.

(** When a unit may move: to another cell, empty, within one step, or two
    for the cavalry; the cells on the way do not matter. *)
Lemma _can_move_spec (st : GameState) (u : Unit) (s t : Z * Z) :
  _can_move st u s t = Ok true
  <-> unit_type u <> EMPTY /\ s <> t /\ cell (grid st) t = None
      /\ manhattan s t <= (if bool_decide (unit_type u = CAVALRY) then 2 else 1).
Proof.
  unfold _can_move. rewrite _get_distance_manhattan.
  destruct (decide (s = t)) as [-> | Hne].
  { rewrite bool_decide_eq_true_2 by done. split; [done | by intros (_ & ? & _)]. }
  rewrite bool_decide_eq_false_2 by done.
  destruct (cell (grid st) t) as [d|].
  { rewrite bool_decide_eq_true_2 by done. split; [done | by intros (_ & _ & ? & _)]. }
  rewrite bool_decide_eq_false_2 by (intros H; by apply H).
  destruct (unit_type u); cbn [UNIT_STATS fst];
    (split; [intros [= H]; apply bool_decide_eq_true_1 in H; by repeat split
            | intros (Hty & _ & _ & H); try done; cbn in H;
              by rewrite bool_decide_eq_true_2 ]).
Qed.

(** X7.  An applied move takes an own unit that has not acted to an empty
    cell at distance 1, or at most 2 for the cavalry, and leaves the
    source empty; the unit keeps its id, owner and type, its position is
    the target, and it has acted unless the turn has ended. *)
Theorem move_effect (e : NovusXEnv) (st : GameState) (action : Z) (player_id : option Z)
    (s t : Z * Z) :
  state e = Some st -> state_wf st -> _parse_action action = Ok (Move s t) ->
  step_succeeds action player_id e = true ->
  exists st' unit,
    state (step action player_id e).1 = Some st'
    /\ cell (grid st) s = Some unit /\ owner_id unit = current_player st
    /\ acted_this_turn unit = false /\ cell (grid st) t = None
    /\ 1 <= manhattan s t <= (if bool_decide (unit_type unit = CAVALRY) then 2 else 1)
    /\ cell (grid st') s = None
    /\ cell (grid st') t
       = Some (mkUnit (unit_id unit) (owner_id unit) (unit_type unit) t
                 (bool_decide (current_player st' = current_player st))).
Proof.
  intros Hst Hwf Hparse Hsucc.
  destruct (applied_cells action player_id e st _ Hst Hwf Hparse Hsucc)
    as (st' & st1 & Hst' & Hact & _ & Hcells).
  destruct (_parse_action_coords _ _ Hparse) as [Hs Ht].
  apply action_outcome_inv in Hact as (u & Hu & Hown & Hacted & Hcan & ->).
  apply _can_move_spec in Hcan as (Hty & Hne & Hempty & Hdist).
  pose proof (manhattan_pos s t Hne) as Hpos.
  pose proof (wf_grid _ Hwf) as Hg.
  exists st', u. repeat split; try done.
  - rewrite Hcells, cell_spend_st. unfold move_st, upd_grid. cbn [grid set_grid].
    rewrite cell_set_cell_ne by done. rewrite cell_set_cell_eq by done.
    unfold settle.
    by destruct (bool_decide (current_player st' = current_player st)).
  - rewrite Hcells, cell_spend_st. unfold move_st, upd_grid. cbn [grid set_grid].
    rewrite cell_set_cell_eq by (done || by apply grid_wf_set_cell).
    unfold settle.
    by destruct (bool_decide (current_player st' = current_player st)).
Qed.

(** When a rotate is legal: the target holds an own unit of another
    type, next to the source; or, for the cavalry, diagonally next to it
    or two cells away in a line with the cell between them empty. *)
Lemma _can_rotate_spec (st : GameState) (u : Unit) (s t : Z * Z) (pid : Z) :
  _can_rotate st u s t pid = true
  <-> exists target_unit,
        cell (grid st) t = Some target_unit /\ owner_id target_unit = pid
        /\ unit_type u <> unit_type target_unit
        /\ (manhattan s t = 1
            \/ (unit_type u = CAVALRY /\ manhattan s t = 2
                /\ (s.1 = t.1 \/ s.2 = t.2 ->
                    cell (grid st) ((s.1 + t.1) / 2, (s.2 + t.2) / 2) = None))).
Proof.
  unfold _can_rotate, manhattan. destruct (cell (grid st) t) as [d|]; [|split; [done|]; by intros (? & ? & _)].
  destruct (decide (owner_id d = pid)) as [Hown | Hown].
  2: { rewrite bool_decide_eq_true_2 by done. split; [done|]. intros (? & [= <-] & ? & _). done. }
  rewrite bool_decide_eq_false_2 by (intros H; by apply H).
  destruct (decide (unit_type u = unit_type d)) as [Hty | Hty].
  { rewrite bool_decide_eq_true_2 by done. split; [done|]. intros (? & [= <-] & _ & ? & _). done. }
  rewrite bool_decide_eq_false_2 by done. cbv zeta.
  assert ((exists target_unit,
             Some d = Some target_unit /\ owner_id target_unit = pid
             /\ unit_type u <> unit_type target_unit
             /\ (Z.abs (s.1 - t.1) + Z.abs (s.2 - t.2) = 1
                 \/ (unit_type u = CAVALRY /\ Z.abs (s.1 - t.1) + Z.abs (s.2 - t.2) = 2
                     /\ (s.1 = t.1 \/ s.2 = t.2 ->
                         cell (grid st) ((s.1 + t.1) / 2, (s.2 + t.2) / 2) = None))))
          <-> (Z.abs (s.1 - t.1) + Z.abs (s.2 - t.2) = 1
               \/ (unit_type u = CAVALRY /\ Z.abs (s.1 - t.1) + Z.abs (s.2 - t.2) = 2
                   /\ (s.1 = t.1 \/ s.2 = t.2 ->
                       cell (grid st) ((s.1 + t.1) / 2, (s.2 + t.2) / 2) = None)))) as ->.
  { split; [by intros (? & [= <-] & _ & _ & H) | intros H; by exists d]. }
  destruct (decide (Z.abs (t.2 - s.2) + Z.abs (t.1 - s.1) = 1)) as [H1 | H1].
  { rewrite bool_decide_eq_true_2 by done. split; [intros _; left; lia | done]. }
  rewrite (bool_decide_eq_false_2 (_ = 1)) by done.
  destruct (decide (unit_type u = CAVALRY)) as [Hcav | Hcav].
  2: { rewrite !(bool_decide_eq_false_2 (unit_type u = CAVALRY)) by done.
       rewrite !andb_false_r. cbn [andb].
       split; [done | intros [H | (H & _)]; [lia | done]]. }
  rewrite !(bool_decide_eq_true_2 (unit_type u = CAVALRY)) by done.
  rewrite !andb_true_r.
  destruct (decide (Z.abs (t.2 - s.2) = 1 /\ Z.abs (t.1 - s.1) = 1)) as [[Hx Hy] | Hdiag].
  { rewrite !bool_decide_eq_true_2 by done. cbn [andb].
    split; [intros _; right; repeat split; [done | lia | lia] | done]. }
  assert (bool_decide (Z.abs (t.2 - s.2) = 1) && bool_decide (Z.abs (t.1 - s.1) = 1)
          = false) as ->.
  { apply andb_false_iff. destruct (decide (Z.abs (t.2 - s.2) = 1));
      [right | left]; apply bool_decide_eq_false_2; tauto. }
  destruct (decide (Z.abs (t.2 - s.2) + Z.abs (t.1 - s.1) = 2)) as [H2 | H2].
  2: { rewrite (bool_decide_eq_false_2 (_ = 2)) by done. cbn [andb].
       split; [done | intros [H | (_ & H & _)]; lia]. }
  rewrite (bool_decide_eq_true_2 (_ = 2)) by done. cbn [andb].
  assert (bool_decide (Z.abs (t.2 - s.2) = 0) || bool_decide (Z.abs (t.1 - s.1) = 0)
          = true) as ->.
  { apply orb_true_iff. destruct (decide (Z.abs (t.2 - s.2) = 0));
      [left | right]; apply bool_decide_eq_true_2; lia. }
  cbn [andb].
  destruct (cell (grid st) ((s.1 + t.1) / 2, (s.2 + t.2) / 2)) as [m|] eqn:Hmid.
  2: { rewrite bool_decide_eq_true_2 by done.
       split; [intros _; right; repeat split; (done || lia) | done]. }
  rewrite bool_decide_eq_false_2 by done.
  split; [done | intros [H | (_ & _ & Hm)]; [lia|]].
  assert (Some m = None) by (apply Hm; lia). done.
Qed.

(** X8.  An applied rotate swaps two own units of different types: the
    target is next to the source, or, for an initiating cavalry,
    diagonally next to it or two cells away in a line with the cell
    between them empty.  Each unit keeps its id, owner and type and gets
    the other's cell as position; the initiating unit has acted and the
    other keeps its flag, both cleared when the turn has ended. *)
Theorem rotate_effect (e : NovusXEnv) (st : GameState) (action : Z)
    (player_id : option Z) (s t : Z * Z) :
  state e = Some st -> state_wf st -> _parse_action action = Ok (Rotate s t) ->
  step_succeeds action player_id e = true ->
  exists st' unit target_unit,
    state (step action player_id e).1 = Some st'
    /\ cell (grid st) s = Some unit /\ owner_id unit = current_player st
    /\ acted_this_turn unit = false
    /\ cell (grid st) t = Some target_unit /\ owner_id target_unit = current_player st
    /\ unit_type unit <> unit_type target_unit
    /\ (manhattan s t = 1
        \/ (unit_type unit = CAVALRY /\ manhattan s t = 2
            /\ (s.1 = t.1 \/ s.2 = t.2 ->
                cell (grid st) ((s.1 + t.1) / 2, (s.2 + t.2) / 2) = None)))
    /\ cell (grid st') s
       = Some (mkUnit (unit_id target_unit) (owner_id target_unit) (unit_type target_unit) s
                 (acted_this_turn target_unit
                  && bool_decide (current_player st' = current_player st)))
    /\ cell (grid st') t
       = Some (mkUnit (unit_id unit) (owner_id unit) (unit_type unit) t
                 (bool_decide (current_player st' = current_player st))).
Proof.
  intros Hst Hwf Hparse Hsucc.
  destruct (applied_cells action player_id e st _ Hst Hwf Hparse Hsucc)
    as (st' & st1 & Hst' & Hact & _ & Hcells).
  destruct (_parse_action_coords _ _ Hparse) as [Hs Ht].
  apply action_outcome_inv in Hact
    as (u & d & Hu & Hown & Hacted & Hd & Hown' & Hty & Hcan & ->).
  apply _can_rotate_spec in Hcan as (d' & Hd' & _ & _ & Hgeo).
  assert (s <> t) as Hne by (intros ->; congruence).
  pose proof (wf_grid _ Hwf) as Hg.
  exists st', u, d. do 8 (split; [done|]). split.
  - rewrite Hcells, cell_spend_st. unfold rotate_st, upd_grid. cbn [grid set_grid].
    rewrite cell_set_cell_ne by done. rewrite cell_set_cell_eq by done.
    unfold settle.
    destruct (bool_decide (current_player st' = current_player st)); cbn;
      [by rewrite andb_true_r | by rewrite andb_false_r].
  - rewrite Hcells, cell_spend_st. unfold rotate_st, upd_grid. cbn [grid set_grid].
    rewrite cell_set_cell_eq by (done || by apply grid_wf_set_cell).
    unfold settle.
    by destruct (bool_decide (current_player st' = current_player st)).
Qed.

(** *** The counters of the engine *)

Lemma auto_end_env_fields (pid : Z) (e : NovusXEnv) (st : GameState) :
  step_count (auto_end_env pid e st) = step_count e
  /\ _unit_counter (auto_end_env pid e st) = _unit_counter e
  /\ last_control_ownership (auto_end_env pid e st) = last_control_ownership e.
Proof. unfold auto_end_env. by destruct (turn_over pid st). Qed.

Lemma conclude_fields (pid : Z) (e e1 : NovusXEnv) (o : result (string + GameState)) :
  let e' := (conclude pid e e1 o).1 in
  let e2 := if is_accept o then e1 else e in
  step_count e' = step_count e2 /\ _unit_counter e' = _unit_counter e2
  /\ last_control_ownership e' = last_control_ownership e2.
Proof.
  destruct o as [[msg | st1] | x]; cbn [conclude fst is_accept]; try done.
  apply (auto_end_env_fields pid (set_state (Some st1) e1) st1).
Qed.

(** [_apply_action] moves the unit counter on an accepted deploy only,
    and never the step counter. *)
Lemma apply_result_fields (e : NovusXEnv) (st : GameState) (a : Action) (pid : Z) :
  step_count (apply_result e st a pid).1 = step_count e
  /\ last_control_ownership (apply_result e st a pid).1 = last_control_ownership e
  /\ _unit_counter (apply_result e st a pid).1
     = _unit_counter e
       + (if accepts st a pid then match a with Deploy _ _ => 1 | _ => 0 end else 0).
Proof.
  unfold apply_result, accepts.
  destruct a as [ut col | s t | s t | s t |];
    [| | | | cbn; repeat split; lia];
    (destruct (player_at st pid) as [p|]; [| cbn; repeat split; lia];
     destruct (decide (actions_remaining p <= 0)) as [Hact | Hact];
     [ rewrite (bool_decide_eq_true_2 (_ <= 0)), (bool_decide_eq_false_2 (0 < _)) by lia;
       cbn; repeat split; lia |];
     rewrite (bool_decide_eq_false_2 (_ <= 0)), (bool_decide_eq_true_2 (0 < _)) by lia;
     cbn [andb];
     match goal with
     | |- context [conclude pid e ?e1 (action_outcome st ?c ?a pid)] =>
         pose proof (action_outcome_counter st c 0 a pid) as Hshape;
         pose proof (conclude_fields pid e e1 (action_outcome st c a pid)) as Hf;
         cbv zeta in Hf; destruct Hf as (H1 & H2 & H3);
         rewrite H1, H2, H3, Hshape;
         destruct (action_outcome st 0 a pid) as [[msg | st1] | x];
         cbn; repeat split; lia
     end).
Qed.

(** *** The attributes [step] never writes *)

Lemma keeps_ret {A} (a : A) : keeps (ret a).
Proof. by intros e. Qed.

Lemma keeps_raise {A} (x : exn) : keeps (raise (A:=A) x).
Proof. by intros e. Qed.

Lemma keeps_lift {A} (r : result A) : keeps (lift r).
Proof. by intros e. Qed.

Lemma keeps_gets {A} (f : NovusXEnv -> A) : keeps (gets f).
Proof. by intros e. Qed.

Lemma keeps_modify (f : NovusXEnv -> NovusXEnv) :
  (forall e, training_mode (f e) = training_mode e
             /\ last_control_ownership (f e) = last_control_ownership e) ->
  keeps (modify f).
Proof. intros H e. apply H. Qed.

Lemma keeps_bind {A B} (m : M A) (k : A -> M B) :
  keeps m -> (forall a, keeps (k a)) -> keeps (bind m k).
Proof.
  intros Hm Hk e. unfold bind. specialize (Hm e).
  destruct (m e) as [e1 [a | x]]; cbn [fst] in *; [|done].
  destruct (Hk a e1) as [H1 H2]. destruct Hm as [H3 H4]. split; congruence.
Qed.

Lemma keeps_the_state : keeps the_state.
Proof. intros e. unfold the_state. by destruct (state e). Qed.

Create HintDb keeps.

#[local] Hint Resolve keeps_ret keeps_raise keeps_lift keeps_gets keeps_the_state : keeps.

(** One step through the structure of a method. *)
Ltac keeps_step :=
  first
    [ progress eauto with keeps
    | apply keeps_bind; [|intros ?]
    | apply keeps_modify; by intros []
    | match goal with
      | |- keeps (match ?x with _ => _ end) => destruct x
      | |- keeps (let '(_, _) := ?x in _) => destruct x
      end ].

Lemma keeps_modify_state (f : GameState -> GameState) : keeps (modify_state f).
Proof. unfold modify_state. repeat keeps_step. Qed.

Lemma keeps_get_player (i : Z) : keeps (get_player i).
Proof. unfold get_player. repeat keeps_step. Qed.

#[local] Hint Resolve keeps_modify_state keeps_get_player : keeps.

Lemma keeps_modify_player (i : Z) (f : Player -> Player) : keeps (modify_player i f).
Proof. unfold modify_player. repeat keeps_step. Qed.

#[local] Hint Resolve keeps_modify_player : keeps.

Lemma keeps_end_turn : keeps _end_turn.
Proof. unfold _end_turn. repeat keeps_step. Qed.

#[local] Hint Resolve keeps_end_turn : keeps.

Lemma keeps_auto_end_turn (pid : Z) : keeps (auto_end_turn pid).
Proof. unfold auto_end_turn. repeat keeps_step. Qed.

Lemma keeps_spend_action (pid : Z) : keeps (spend_action pid).
Proof. unfold spend_action. repeat keeps_step. Qed.

#[local] Hint Resolve keeps_auto_end_turn keeps_spend_action : keeps.

Lemma keeps_apply_deploy (ut : UnitType) (col pid : Z) : keeps (_apply_deploy ut col pid).
Proof. unfold _apply_deploy. repeat keeps_step. Qed.

Lemma keeps_apply_move (s t : Z * Z) (pid : Z) : keeps (_apply_move s t pid).
Proof. unfold _apply_move. repeat keeps_step. Qed.

Lemma keeps_apply_attack (s t : Z * Z) (pid : Z) : keeps (_apply_attack s t pid).
Proof. unfold _apply_attack. repeat keeps_step. Qed.

Lemma keeps_apply_rotate (s t : Z * Z) (pid : Z) : keeps (_apply_rotate s t pid).
Proof. unfold _apply_rotate. repeat keeps_step. Qed.

#[local] Hint Resolve keeps_apply_deploy keeps_apply_move keeps_apply_attack
  keeps_apply_rotate : keeps.

Lemma keeps_apply_action (a : Action) (pid : Z) : keeps (_apply_action a pid).
Proof. unfold _apply_action. repeat keeps_step. Qed.

Lemma keeps_check_draw_conditions : keeps _check_draw_conditions.
Proof. unfold _check_draw_conditions. repeat keeps_step. Qed.

Lemma keeps_build_info (winner : option Z) (reward : Reward) :
  keeps (build_info winner reward).
Proof. unfold build_info. repeat keeps_step. Qed.

#[local] Hint Resolve keeps_apply_action keeps_check_draw_conditions keeps_build_info
  : keeps.

Lemma keeps_check_game_end (pid : Z) (reward : Reward) : keeps (check_game_end pid reward).
Proof. unfold check_game_end. repeat keeps_step. Qed.

Lemma keeps_track_progress (st0 : GameState) (pid : Z) : keeps (track_progress st0 pid).
Proof. unfold track_progress. repeat keeps_step. Qed.

#[local] Hint Resolve keeps_check_game_end keeps_track_progress : keeps.

Lemma keeps_step_method (action : Z) (player_id : option Z) :
  keeps (step action player_id).
Proof. unfold step. repeat keeps_step. Qed.

Lemma reachable_ownership (e : NovusXEnv) :
  reachable e ->
  last_control_ownership e = list_to_map ((fun pos => (pos, None)) <$> CONTROL_POINTS).
Proof.
  induction 1 as [e | e a p Hreach IH _]; [reflexivity|].
  by destruct (keeps_step_method a p e) as [_ ->].
Qed.

(** X13.  [step] never writes [training_mode] nor [last_control_ownership],
    whatever the environment and the arguments, whether it applies the
    action, rejects it or raises; so in every reachable environment the
    ownership record is still the one [reset] wrote, with no owner for
    any control point, whoever holds them on the board. *)
Theorem step_never_writes (action : Z) (player_id : option Z) (e : NovusXEnv) :
  training_mode (step action player_id e).1 = training_mode e
  /\ last_control_ownership (step action player_id e).1 = last_control_ownership e
  /\ (reachable e ->
      last_control_ownership e
      = list_to_map ((fun pos => (pos, None)) <$> CONTROL_POINTS)).
Proof.
  destruct (keeps_step_method action player_id e) as [H1 H2].
  split; [done|]. split; [done|]. apply reachable_ownership.
Qed.

(** *** [step] in full *)

Lemma build_info_full (winner : option Z) (reward : Reward) (e : NovusXEnv)
    (st : GameState) :
  state e = Some st ->
  build_info winner reward e = (e, Ok (InfoStep (info_of winner reward e st))).
Proof. intros Hst. unfold build_info. do 2 mstep. reflexivity. Qed.

Lemma check_game_end_full (pid : Z) (reward : Reward) (e : NovusXEnv) (st : GameState) :
  state e = Some st ->
  check_game_end pid reward e
  = let ge := game_end pid reward e st in
    (ge.1,
     match _get_observation st pid with
     | Ok obs => Ok (obs, ge.2.1.1, ge.2.1.2, InfoStep (info_of ge.2.2 ge.2.1.1 ge.1 st))
     | Raise x => Raise x
     end).
Proof.
  intros Hst. unfold check_game_end, game_end. mstep.
  destruct (_check_winner st) as [w|].
  - mstep. erewrite bind_ok by (apply build_info_full; cbn; exact Hst).
    mstep. rewrite bind_lift. by destruct (_get_observation st pid).
  - erewrite bind_ok by (by apply _check_draw_conditions_run).
    pose proof (draw_check_state e st) as Hds.
    destruct (draw_check e st) as [e' [[|] reason]]; cbn [fst snd] in *.
    + do 3 mstep.
      erewrite bind_ok by (apply build_info_full; cbn; by rewrite Hds).
      erewrite bind_ok by (eapply the_state_run; cbn; by rewrite Hds).
      rewrite bind_lift. by destruct (_get_observation st pid).
    + erewrite bind_ok by (apply build_info_full; by rewrite Hds).
      erewrite bind_ok by (eapply the_state_run; by rewrite Hds).
      rewrite bind_lift. by destruct (_get_observation st pid).
Qed.

(** [step] when the acting player is the player to move and the index
    decodes: the environment and the return value in closed form. *)
Lemma step_full (action : Z) (player_id : option Z) (e : NovusXEnv) (st : GameState)
    (act : Action) :
  state e = Some st -> state_wf st ->
  default (current_player st) player_id = current_player st ->
  _parse_action action = Ok act ->
  let pid := current_player st in
  let e0 := set_step_count (step_count e + 1) e in
  let st1 := next_state st (_unit_counter e) act pid in
  step action player_id e
  = match apply_result e0 st act pid with
    | (e1, Raise x) => (e1, Raise x)
    | (e1, Ok (false, msg)) =>
        (e1, match _get_observation st1 pid with
             | Ok obs => Ok (obs, RKey invalid_action_penalty, false, InfoError msg)
             | Raise x => Raise x
             end)
    | (e1, Ok (true, _)) =>
        let ge := game_end pid (track_reward st st1 pid) (track_env st st1 pid e1) st1 in
        (ge.1,
         match _get_observation st1 pid with
         | Ok obs =>
             Ok (obs, ge.2.1.1, ge.2.1.2, InfoStep (info_of ge.2.2 ge.2.1.1 ge.1 st1))
         | Raise x => Raise x
         end)
    end.
Proof.
  intros Hst Hwf Hpid Hparse pid e0 st1.
  destruct Hwf as [Hg Hl Hc].
  pose proof (apply_result_next e0 st act pid Hst) as Hnext.
  change (_unit_counter e0) with (_unit_counter e) in Hnext. fold st1 in Hnext.
  unfold step. erewrite bind_ok by (unfold gets; rewrite Hst; reflexivity).
  cbv beta iota. rewrite Hpid.
  rewrite bool_decide_eq_false_2 by (intros H; by apply H).
  mstep. rewrite bind_lift, Hparse.
  unfold bind at 1. rewrite (_apply_action_run pid e0 st) by done.
  destruct (apply_result e0 st act pid) as [e1 [[[|] msg]|x]]; cbn [fst negb] in *.
  - erewrite bind_ok by (by apply track_progress_run).
    rewrite (check_game_end_full _ _ _ st1) by (by rewrite track_env_state).
    reflexivity.
  - mstep. rewrite bind_lift. subst pid. by destruct (_get_observation st1 _).
  - reflexivity.
Qed.

(** *** Clones and the training mode *)

Lemma step_other_player (action : Z) (player_id : option Z) (e : NovusXEnv)
    (st : GameState) :
  state e = Some st ->
  default (current_player st) player_id <> current_player st ->
  step action player_id e
  = (e, match _get_observation st (default (current_player st) player_id) with
        | Ok obs => Ok (obs, RKey invalid_action_penalty, false, InfoError "Not your turn")
        | Raise x => Raise x
        end).
Proof.
  intros Hst Hpid. unfold step.
  erewrite bind_ok by (unfold gets; rewrite Hst; reflexivity).
  cbv beta iota. rewrite bool_decide_eq_true_2 by done.
  rewrite bind_lift. by destruct (_get_observation _ _).
Qed.

Lemma apply_result_mode (b : bool) (e : NovusXEnv) (st : GameState) (a : Action) (pid : Z) :
  apply_result (set_training_mode b e) st a pid
  = (set_training_mode b (apply_result e st a pid).1, (apply_result e st a pid).2).
Proof.
  unfold apply_result.
  destruct a as [ut col | s t | s t | s t |]; [| | | | reflexivity];
    (destruct (player_at st pid) as [p|]; [|reflexivity];
     destruct (bool_decide (actions_remaining p <= 0)); [reflexivity|];
     cbn [_unit_counter set_training_mode];
     match goal with
     | |- context [action_outcome st ?c ?a pid] =>
         destruct (action_outcome st c a pid) as [[msg | st1] | x]; try reflexivity
     end;
     cbn [conclude]; unfold auto_end_env; by destruct (turn_over pid st1)).
Qed.

Lemma track_env_mode (b : bool) (st0 st : GameState) (pid : Z) (e : NovusXEnv) :
  track_env st0 st pid (set_training_mode b e)
  = set_training_mode b (track_env st0 st pid e).
Proof.
  unfold track_env. cbv zeta. by destruct (existsb _ _), (bool_decide (_ < _)).
Qed.

(** The game-end check does not read the training mode, but for the
    reward of a draw. *)
Lemma game_end_mode (b : bool) (pid : Z) (reward : Reward) (e : NovusXEnv)
    (st : GameState) :
  let ge := game_end pid reward e st in
  let ge' := game_end pid reward (set_training_mode b e) st in
  ge'.1 = set_training_mode b ge.1 /\ ge'.2.1.2 = ge.2.1.2 /\ ge'.2.2 = ge.2.2
  /\ (ge.2.1.2 = false \/ ge.2.2 <> None -> ge'.2.1.1 = ge.2.1.1).
Proof.
  unfold game_end. destruct (_check_winner st) as [w|]; [done|].
  unfold draw_check. cbv zeta.
  destruct (bool_decide (MAX_TURN_LIMIT <= turn_number st));
    [cbn; repeat split; by intros [|] |].
  cbn [state_hash_counts set_training_mode set_state_hash_counts].
  destruct (bool_decide (REPEATED_STATE_LIMIT <= _));
    [cbn; repeat split; by intros [|] |].
  cbn [turns_since_last_capture turns_since_last_unit_death set_state_hash_counts].
  destruct (_ && _); cbn; repeat split; by intros [|].
Qed.

(** X14.  [clone] copies every attribute but the training mode, which the
    constructor sets.  A clone and its original evolve alike: the same
    call of [step] leaves the same environment, up to the training mode,
    and returns the same observation, done flag and report, or raises
    the same exception; only the reward of a draw may differ. *)
Theorem clone_step (e : NovusXEnv) (st : GameState) (action : Z) (player_id : option Z) :
  state e = Some st -> state_wf st ->
  clone e = set_training_mode true e
  /\ (step action player_id (clone e)).1 = clone (step action player_id e).1
  /\ same_return (step action player_id (clone e)).2 (step action player_id e).2.
Proof.
  intros Hst Hwf. split; [reflexivity|].
  change (clone e) with (set_training_mode true e).
  change (clone (step action player_id e).1)
    with (set_training_mode true (step action player_id e).1).
  assert (state (set_training_mode true e) = Some st) as Hst' by done.
  destruct (decide (default (current_player st) player_id = current_player st))
    as [Hpid | Hpid].
  2: { rewrite (step_other_player _ _ _ st Hst' Hpid), (step_other_player _ _ _ st Hst Hpid).
       split; [reflexivity|]. cbn [snd]. by destruct (_get_observation _ _). }
  destruct (_parse_action action) as [act | x] eqn:Hparse.
  2: { rewrite (step_parse_raises _ _ _ st x Hst' Hpid Hparse),
         (step_parse_raises _ _ _ st x Hst Hpid Hparse). by split. }
  rewrite (step_full _ _ _ st act Hst' Hwf Hpid Hparse),
    (step_full _ _ _ st act Hst Hwf Hpid Hparse). cbv zeta.
  change (set_step_count (step_count (set_training_mode true e) + 1)
            (set_training_mode true e))
    with (set_training_mode true (set_step_count (step_count e + 1) e)).
  change (_unit_counter (set_training_mode true e)) with (_unit_counter e).
  rewrite apply_result_mode.
  destruct (apply_result (set_step_count (step_count e + 1) e) st act (current_player st))
    as [e1 [[[|] msg]|x]]; cbn [fst snd].
  - rewrite track_env_mode.
    set (st1 := next_state st (_unit_counter e) act (current_player st)).
    set (r := track_reward st st1 (current_player st)).
    set (e2 := track_env st st1 (current_player st) e1).
    destruct (game_end_mode true (current_player st) r e2 st1) as (H1 & H2 & H3 & H4).
    split; [exact H1|].
    destruct (_get_observation st1 (current_player st)) as [obs|]; [|done].
    cbn [same_return info_winner info_game_outcome info_draw_reason info_of].
    rewrite H1, H2, H3. repeat split; try done.
  - split; [reflexivity|]. by destruct (_get_observation _ _).
  - by split.
Qed.

Lemma track_env_fields (st0 st : GameState) (pid : Z) (e : NovusXEnv) :
  step_count (track_env st0 st pid e) = step_count e
  /\ _unit_counter (track_env st0 st pid e) = _unit_counter e.
Proof.
  unfold track_env. cbv zeta. by destruct (existsb _ _), (bool_decide (_ < _)).
Qed.

Lemma game_end_fields (pid : Z) (reward : Reward) (e : NovusXEnv) (st : GameState) :
  step_count (game_end pid reward e st).1 = step_count e
  /\ _unit_counter (game_end pid reward e st).1 = _unit_counter e.
Proof.
  unfold game_end. destruct (_check_winner st); [done|].
  unfold draw_check. cbv zeta.
  repeat match goal with
         | |- context [bool_decide ?P] => destruct (bool_decide P); cbn [andb]
         end; done.
Qed.

(** The two counters of the engine after a call of [step]: the step
    counter counts the calls made by the player to move, applied or not,
    and the unit counter the applied deploys. *)
Lemma step_counters (action : Z) (player_id : option Z) (e : NovusXEnv) (st : GameState) :
  state e = Some st -> state_wf st ->
  step_count (step action player_id e).1
  = step_count e
    + (if bool_decide (default (current_player st) player_id = current_player st)
       then 1 else 0)
  /\ _unit_counter (step action player_id e).1
     = _unit_counter e
       + (if step_succeeds action player_id e
          then match _parse_action action with Ok (Deploy _ _) => 1 | _ => 0 end
          else 0).
Proof.
  intros Hst Hwf. rewrite (step_succeeds_spec _ _ _ st) by done.
  case_bool_decide as Hpid; cbn [andb].
  2: { rewrite (step_other_player _ _ _ st Hst Hpid). cbn [fst]. split; lia. }
  destruct (_parse_action action) as [act | x] eqn:Hparse.
  2: { rewrite (step_parse_raises _ _ _ st x Hst Hpid Hparse). cbn. split; lia. }
  rewrite (step_full _ _ _ st act Hst Hwf Hpid Hparse). cbv zeta.
  pose proof (apply_result_accepts (set_step_count (step_count e + 1) e) st act
                (current_player st)) as Hacc.
  destruct (apply_result_fields (set_step_count (step_count e + 1) e) st act
              (current_player st)) as (H1 & _ & H2).
  destruct (apply_result (set_step_count (step_count e + 1) e) st act (current_player st))
    as [e1 [[[|] msg]|x]]; cbn [fst snd] in *.
  - destruct (game_end_fields (current_player st)
                (track_reward st (next_state st (_unit_counter e) act (current_player st))
                   (current_player st))
                (track_env st (next_state st (_unit_counter e) act (current_player st))
                   (current_player st) e1)
                (next_state st (_unit_counter e) act (current_player st))) as [-> ->].
    destruct (track_env_fields st
                (next_state st (_unit_counter e) act (current_player st))
                (current_player st) e1) as [-> ->].
    by rewrite H1, H2.
  - by rewrite H1, H2.
  - by rewrite H1, H2.
Qed.

(** The record of the acting player after an applied step is the one the
    action left: the end of the turn does not touch it. *)
Lemma applied_player (action : Z) (player_id : option Z) (e : NovusXEnv) (st : GameState)
    (act : Action) :
  state e = Some st -> state_wf st -> _parse_action action = Ok act ->
  step_succeeds action player_id e = true ->
  exists st' st1,
    state (step action player_id e).1 = Some st'
    /\ action_outcome st (_unit_counter e) act (current_player st) = Ok (inr st1)
    /\ player_at st' (current_player st) = player_at st1 (current_player st).
Proof.
  intros Hst Hwf Hparse Hsucc.
  destruct (step_applied action player_id e st Hst Hwf Hsucc)
    as (act' & st' & obs & i & Hpid & Hparse' & Hacc & Hnext & Hwf1 & Hstep).
  rewrite Hparse in Hparse'. injection Hparse' as <-.
  cbv zeta in Hstep. destruct Hstep as (_ & Hstep & _).
  pose proof Hwf as [Hg Hl Hc].
  exists st'.
  assert (state (step action player_id e).1 = Some st') as Hst'.
  { rewrite Hstep. cbn [fst]. rewrite game_end_state, track_env_state.
    rewrite apply_result_next by done. by rewrite Hnext. }
  destruct (next_state_cases st (_unit_counter e) act (current_player st))
    as [[Hno _] | [(_ & -> & Hn) | (p & st1 & _ & Hne & Hp & Hpos & Hout & Hn)]];
    [congruence | |].
  - exists st. split; [done|]. split; [done|].
    rewrite Hn in Hnext. subst st'. by apply end_turn_st_other.
  - exists st1. split; [done|]. split; [done|].
    rewrite Hn in Hnext. subst st'.
    destruct (action_outcome_frame st st1 _ act (current_player st) p Hc Hp Hne Hout)
      as (_ & Hcur1 & _).
    destruct (turn_over (current_player st) st1); [|done].
    rewrite <- Hcur1. apply end_turn_st_other. by rewrite Hcur1.
Qed.

(** X6.  An applied deploy puts a new unit of the decoded type on the
    empty cell of the player's home row (row 0 for player 0, row 4 for
    player 1) in the decoded column; the unit's id is made of the owner,
    the type name and the incremented unit counter, and it has acted
    unless the turn has ended.  The player pays one deployment and the
    count of the type grows by one. *)
Theorem deploy_effect (e : NovusXEnv) (st : GameState) (action : Z)
    (player_id : option Z) (ut : UnitType) (col : Z) :
  state e = Some st -> state_wf st -> _parse_action action = Ok (Deploy ut col) ->
  step_succeeds action player_id e = true ->
  let me := current_player st in
  let home := (if bool_decide (me = 0) then 0 else 4, col) in
  exists st' player player',
    state (step action player_id e).1 = Some st'
    /\ player_at st me = Some player /\ 0 < deployments_remaining player
    /\ default 0 (deployment_counts player !! ut) < MAX_DEPLOYMENTS_PER_TYPE
    /\ cell (grid st) home = None
    /\ _unit_counter (step action player_id e).1 = _unit_counter e + 1
    /\ cell (grid st') home
       = Some (mkUnit (pretty me +:+ "-" +:+ UnitType_name ut +:+ "-"
                         +:+ pretty (_unit_counter e + 1))
                 me ut home (bool_decide (current_player st' = me)))
    /\ player_at st' me = Some player'
    /\ deployments_remaining player' = deployments_remaining player - 1
    /\ deployment_counts player'
       = <[ut := default 0 (deployment_counts player !! ut) + 1]>
           (deployment_counts player).
Proof.
  intros Hst Hwf Hparse Hsucc me home.
  destruct (applied_cells action player_id e st _ Hst Hwf Hparse Hsucc)
    as (st' & st1 & Hst' & Hact & _ & Hcells).
  destruct (applied_player action player_id e st _ Hst Hwf Hparse Hsucc)
    as (st'' & st1' & Hst'' & Hact' & Hplayer).
  rewrite Hst' in Hst''. injection Hst'' as <-.
  rewrite Hact in Hact'. injection Hact' as <-.
  pose proof (_parse_action_coords _ _ Hparse) as Hco. cbn [coords_ok] in Hco.
  pose proof Hwf as [Hg Hl Hc].
  destruct (step_counters action player_id e st Hst Hwf) as [_ Hcount].
  rewrite Hsucc, Hparse in Hcount.
  pose proof Hact as Hinv.
  apply action_outcome_inv in Hinv as (player & Hp & Hdep & Hcell & Hmax & Hst1).
  assert (Deploy ut col <> EndTurn) as Hne by done.
  destruct (action_outcome_frame st st1 _ _ me player Hc Hp Hne Hact)
    as (_ & _ & _ & p1 & Hp1 & _ & Hcounts & _ & Hdep1).
  exists st', player, p1. do 6 (split; [done|]). split.
  - rewrite Hcells. subst st1.
    transitivity (settle st st'
      (cell (set_cell (grid st) home
               (Some (mkUnit (pretty me +:+ "-" +:+ UnitType_name ut +:+ "-"
                                +:+ pretty (_unit_counter e + 1))
                        me ut home true))) home)); [reflexivity|].
    rewrite cell_set_cell_eq by (done || by apply deploy_row_on_board).
    unfold settle. fold me. by destruct (bool_decide (current_player st' = me)).
  - split; [unfold me; by rewrite Hplayer|]. by split.
Qed.

(** *** The unit counter and the deployments *)

Lemma deployed_counts_after (p p' : Player) (a : Action) :
  deployment_counts p' = counts_after a (deployment_counts p) ->
  deployed p' = deployed p + match a with Deploy _ _ => 1 | _ => 0 end.
Proof.
  unfold deployed, all_unit_types. intros ->.
  destruct a as [ut col | | | |]; cbn [counts_after]; try lia.
  cbn [fmap list_fmap foldr].
  destruct ut;
    rewrite ?lookup_insert_eq; rewrite ?lookup_insert_ne by done; cbn; lia.
Qed.

Lemma deployed_same (p p' : Player) :
  deployment_counts p' = deployment_counts p -> deployed p' = deployed p.
Proof. unfold deployed. by intros ->. Qed.

Lemma end_turn_st_counts (st : GameState) (pid : Z) (p : Player) :
  state_wf st -> is_player pid -> player_at st pid = Some p ->
  exists p', player_at (end_turn_st st) pid = Some p'
             /\ deployment_counts p' = deployment_counts p.
Proof.
  intros [Hg Hl Hc] Hpid Hp.
  destruct (decide (pid = current_player st)) as [-> | Hne].
  - exists p. by rewrite end_turn_st_other.
  - assert (pid = 1 - current_player st) as ->
      by (destruct Hpid as [-> | ->], Hc as [Hc | Hc]; lia).
    rewrite (end_turn_st_player st p Hc Hp). by eexists.
Qed.

(** The deployment counts after [_apply_action]: an accepted deploy adds
    one to the type for the acting player; nothing else changes them. *)
Lemma next_state_counts (st : GameState) (counter : Z) (act : Action) (pid : Z)
    (p : Player) :
  state_wf st -> is_player pid -> player_at st pid = Some p ->
  exists p',
    player_at (next_state st counter act (current_player st)) pid = Some p'
    /\ deployment_counts p'
       = if bool_decide (pid = current_player st)
            && accepts st act (current_player st)
         then counts_after act (deployment_counts p) else deployment_counts p.
Proof.
  intros Hwf Hpid Hp. pose proof Hwf as [Hg Hl Hc].
  destruct (next_state_cases st counter act (current_player st))
    as [[-> ->] | [(-> & -> & ->) | (q & st1 & -> & Hne & Hq & Hpos & Hout & ->)]].
  - exists p. by rewrite andb_false_r.
  - destruct (end_turn_st_counts st pid p Hwf Hpid Hp) as (p' & Hp' & Hc').
    exists p'. split; [done|]. by destruct (bool_decide _).
  - destruct (action_outcome_frame st st1 _ act (current_player st) q Hc Hq Hne Hout)
      as (_ & Hcur1 & Hother & q1 & Hq1 & _ & Hcounts & _).
    pose proof (action_outcome_wf _ _ _ _ _ Hwf Hout) as Hwf1.
    assert (exists p1, player_at st1 pid = Some p1
                       /\ deployment_counts p1
                          = if bool_decide (pid = current_player st) && true
                            then counts_after act (deployment_counts p)
                            else deployment_counts p) as (p1 & Hp1 & Hc1).
    { case_bool_decide as Heq; cbn [andb].
      - subst pid. rewrite Hq in Hp. injection Hp as <-. by exists q1.
      - assert (pid = 1 - current_player st) as ->
          by (destruct Hpid as [-> | ->], Hc as [Hc' | Hc']; lia).
        exists p. by rewrite Hother. }
    destruct (turn_over (current_player st) st1); [|by exists p1].
    destruct (end_turn_st_counts st1 pid p1 Hwf1 Hpid Hp1) as (p' & Hp' & Hc').
    exists p'. split; [done|]. congruence.
Qed.

Lemma reachable_by_weaken (acts : Z -> Prop) (e : NovusXEnv) :
  reachable_by acts e -> reachable e.
Proof. induction 1; by constructor. Qed.

Lemma reachable_unit_counter (e : NovusXEnv) :
  reachable e ->
  exists st p0 p1,
    state e = Some st /\ state_wf st
    /\ player_at st 0 = Some p0 /\ player_at st 1 = Some p1
    /\ _unit_counter e = deployed p0 + deployed p1.
Proof.
  induction 1 as [e | e action player_id Hreach (st & p0 & p1 & Hst & Hwf & H0 & H1 & Hcount) _].
  - eexists _, _, _. split; [reflexivity|]. split; [apply state_wf_initial|].
    split; [reflexivity|]. split; [reflexivity|]. reflexivity.
  - destruct (step_counters action player_id e st Hst Hwf) as [_ Hc].
    pose proof (step_state_next action player_id e st Hst Hwf) as Hnext.
    pose proof (step_succeeds_spec action player_id e st Hst Hwf) as Hsucc.
    pose proof Hwf as [Hg Hl Hcur].
    assert (exists st', state (step action player_id e).1 = Some st' /\ state_wf st')
      as (st' & Hst' & Hwf').
    { destruct (reachable_good _ _ (reach_step _ e action player_id Hreach I))
        as (st' & ? & ? & _). by exists st'. }
    case_bool_decide as Hpid; cbn [andb] in Hsucc.
    2: { rewrite Hsucc in Hc. rewrite Hnext.
         exists st, p0, p1. do 4 (split; [done|]). lia. }
    destruct (_parse_action action) as [act|] eqn:Hparse.
    2: { rewrite Hsucc in Hc. rewrite Hnext.
         exists st, p0, p1. do 4 (split; [done|]). lia. }
    destruct (next_state_counts st (_unit_counter e) act 0 p0 Hwf ltac:(by left) H0)
      as (q0 & Hq0 & Hc0).
    destruct (next_state_counts st (_unit_counter e) act 1 p1 Hwf ltac:(by right) H1)
      as (q1 & Hq1 & Hc1).
    rewrite Hnext in Hst'. injection Hst' as <-.
    rewrite Hnext. eexists _, q0, q1. do 4 (split; [done|]).
    rewrite Hc, Hsucc, Hcount.
    destruct (accepts st act (current_player st)).
    + destruct Hcur as [Hcur | Hcur]; rewrite Hcur in Hc0, Hc1; cbn in Hc0, Hc1.
      * rewrite (deployed_counts_after p0 q0 act Hc0), (deployed_same p1 q1 Hc1).
        destruct act; lia.
      * rewrite (deployed_counts_after p1 q1 act Hc1), (deployed_same p0 q0 Hc0).
        destruct act; lia.
    + rewrite andb_false_r in Hc0, Hc1.
      rewrite (deployed_same p0 q0 Hc0), (deployed_same p1 q1 Hc1). lia.
Qed.

(** Within the action space no unit of the type [EMPTY] is deployed. *)
Lemma reachable_no_empty_count (e : NovusXEnv) :
  reachable_by in_action_space e ->
  exists st, state e = Some st /\ state_wf st
    /\ forall pid p, is_player pid -> player_at st pid = Some p ->
         default 0 (deployment_counts p !! EMPTY) = 0.
Proof.
  apply reachable_state_inv.
  - intros pid p [-> | ->] [= <-]; reflexivity.
  - intros st Hwf HI pid p Hpid Hp.
    destruct (player_at_is_Some st pid (wf_players _ Hwf) Hpid) as [q Hq].
    destruct (end_turn_st_counts st pid q Hwf Hpid Hq) as (p' & Hp' & Hc').
    rewrite Hp in Hp'. injection Hp' as <-. rewrite Hc'. by apply (HI pid).
  - intros st action a counter st1 p Hwf HI Hspace Hparse Hne Hp _ Hout pid q Hpid Hq.
    pose proof Hwf as [Hg Hl Hc].
    destruct (action_outcome_frame st st1 _ a (current_player st) p Hc Hp Hne Hout)
      as (_ & _ & Hother & p1 & Hp1 & _ & Hcounts & _).
    destruct (decide (pid = current_player st)) as [-> | Hneq].
    + rewrite Hp1 in Hq. injection Hq as <-. rewrite Hcounts.
      pose proof (_parse_action_on_board _ _ Hspace Hparse) as Hact.
      destruct a as [ut col | | | |]; cbn [counts_after]; try by apply (HI _ p Hc).
      destruct Hact as [Hut _]. rewrite lookup_insert_ne by done. by apply (HI _ p Hc).
    + assert (pid = 1 - current_player st) as ->
        by (destruct Hpid as [-> | ->], Hc as [Hc' | Hc']; lia).
      rewrite Hother in Hq. by apply (HI _ q Hpid).
Qed.

(** X11.  The unit counter is the number of deployments made: in every
    reachable environment it equals the two players' deployment counts,
    all types together.  With at most three deployments of a type, a game
    played with indices of the action space creates at most 36 units. *)
Theorem unit_counter_counts_deployments (e : NovusXEnv) (st : GameState)
    (p0 p1 : Player) :
  reachable e -> state e = Some st ->
  player_at st 0 = Some p0 -> player_at st 1 = Some p1 ->
  _unit_counter e = deployed p0 + deployed p1
  /\ (reachable_by in_action_space e -> _unit_counter e <= 36).
Proof.
  intros Hreach Hst H0 H1.
  destruct (reachable_unit_counter e Hreach) as (st' & q0 & q1 & Hst' & _ & Hq0 & Hq1 & Hc).
  rewrite Hst in Hst'. injection Hst' as <-.
  rewrite H0 in Hq0. injection Hq0 as <-. rewrite H1 in Hq1. injection Hq1 as <-.
  split; [done|]. intros Hspace. rewrite Hc.
  destruct (reachable_good _ e Hreach) as (st' & Hst' & _ & Hgood & _).
  rewrite Hst in Hst'. injection Hst' as <-.
  destruct (reachable_no_empty_count e Hspace) as (st' & Hst' & _ & Hempty).
  rewrite Hst in Hst'. injection Hst' as <-.
  assert (forall pid p, is_player pid -> player_at st pid = Some p -> deployed p <= 18)
    as Hbound.
  { intros pid p Hpid Hp. destruct (Hgood pid p Hpid Hp) as [_ Hmax].
    pose proof (Hempty pid p Hpid Hp) as He.
    unfold deployed, all_unit_types. cbn [fmap list_fmap foldr]. rewrite He.
    pose proof (Hmax SWORDSMAN). pose proof (Hmax SHIELDMAN). pose proof (Hmax AXEMAN).
    pose proof (Hmax CAVALRY). pose proof (Hmax ARCHER). pose proof (Hmax SPEARMAN).
    unfold MAX_DEPLOYMENTS_PER_TYPE in *. lia. }
  pose proof (Hbound 0 p0 ltac:(by left) H0).
  pose proof (Hbound 1 p1 ltac:(by right) H1). lia.
Qed.

(** *** Line of sight and the legality of an attack *)

Lemma elem_of_py_range_up (a b x : Z) : x ∈ py_range (a + 1) b 1 <-> a < x < b.
Proof.
  unfold py_range. rewrite bool_decide_eq_true_2 by lia.
  rewrite list_elem_of_fmap. setoid_rewrite elem_of_seq.
  rewrite Z.div_1_r. split.
  - intros (k & -> & Hk). lia.
  - intros Hx. exists (Z.to_nat (x - a - 1)). lia.
Qed.

Lemma elem_of_py_range_down (a b x : Z) : x ∈ py_range (a + -1) b (-1) <-> b < x < a.
Proof.
  unfold py_range. rewrite bool_decide_eq_false_2 by lia.
  rewrite list_elem_of_fmap. setoid_rewrite elem_of_seq.
  change (- -1) with 1. rewrite Z.div_1_r. split.
  - intros (k & -> & Hk). lia.
  - intros Hx. exists (Z.to_nat (a - 1 - x)). lia.
Qed.

Lemma forallb_elem_of {A} (f : A -> bool) (l : list A) :
  forallb f l = true <-> forall x, x ∈ l -> f x = true.
Proof.
  rewrite forallb_forall. by setoid_rewrite list_elem_of_In.
Qed.

Lemma _has_line_of_sight_between (st : GameState) (s t : Z * Z) :
  _has_line_of_sight st s t = true
  <-> (s.2 = t.2 ->
       forall r, s.1 < r < t.1 \/ t.1 < r < s.1 -> cell (grid st) (r, s.2) = None)
      /\ (s.1 = t.1 ->
          forall c, s.2 < c < t.2 \/ t.2 < c < s.2 -> cell (grid st) (s.1, c) = None).
Proof.
  unfold _has_line_of_sight. cbv zeta.
  destruct (decide (Z.abs (t.2 - s.2) = 0 /\ 1 < Z.abs (t.1 - s.1))) as [[Hx Hy] | Hcol].
  - rewrite !bool_decide_eq_true_2 by done. cbn [andb].
    rewrite forallb_elem_of.
    assert (forall r, r ∈ py_range (s.1 + (if bool_decide (0 < t.1 - s.1) then 1 else -1))
                        t.1 (if bool_decide (0 < t.1 - s.1) then 1 else -1)
                      <-> s.1 < r < t.1 \/ t.1 < r < s.1) as Hrange.
    { intros r. case_bool_decide.
      - rewrite elem_of_py_range_up. lia.
      - rewrite elem_of_py_range_down. lia. }
    split.
    + intros H. split; [|intros Heq; lia].
      intros _ r Hr. apply Hrange in Hr. apply H in Hr. by apply bool_decide_eq_true_1 in Hr.
    + intros [H _] r Hr. apply bool_decide_eq_true_2. apply H; [lia|]. by apply Hrange.
  - assert (bool_decide (Z.abs (t.2 - s.2) = 0) && bool_decide (1 < Z.abs (t.1 - s.1))
            = false) as ->.
    { apply andb_false_iff. destruct (decide (Z.abs (t.2 - s.2) = 0));
        [right | left]; apply bool_decide_eq_false_2; tauto. }
    destruct (decide (Z.abs (t.1 - s.1) = 0 /\ 1 < Z.abs (t.2 - s.2))) as [[Hy Hx] | Hrow].
    + rewrite !bool_decide_eq_true_2 by done. cbn [andb].
      rewrite forallb_elem_of.
      assert (forall c, c ∈ py_range (s.2 + (if bool_decide (0 < t.2 - s.2) then 1 else -1))
                          t.2 (if bool_decide (0 < t.2 - s.2) then 1 else -1)
                        <-> s.2 < c < t.2 \/ t.2 < c < s.2) as Hrange.
      { intros c. case_bool_decide.
        - rewrite elem_of_py_range_up. lia.
        - rewrite elem_of_py_range_down. lia. }
      split.
      * intros H. split; [intros Heq; lia|].
        intros _ c Hc. apply Hrange in Hc. apply H in Hc.
        by apply bool_decide_eq_true_1 in Hc.
      * intros [_ H] c Hc. apply bool_decide_eq_true_2. apply H; [lia|]. by apply Hrange.
    + assert (bool_decide (Z.abs (t.1 - s.1) = 0) && bool_decide (1 < Z.abs (t.2 - s.2))
              = false) as ->.
      { apply andb_false_iff. destruct (decide (Z.abs (t.1 - s.1) = 0));
          [right | left]; apply bool_decide_eq_false_2; tauto. }
      split; [intros _ | by destruct (_ && _)].
      split; intros Heq x Hx; lia.
Qed.

(** X9.  There is a line of sight between two cells of a row or of a
    column exactly when every cell strictly between them is empty; two
    cells that share neither always see each other. *)
Theorem line_of_sight_spec (st : GameState) (s t : Z * Z) :
  on_board s -> on_board t ->
  _has_line_of_sight st s t = true
  <-> (s.2 = t.2 ->
       forall r, s.1 < r < t.1 \/ t.1 < r < s.1 -> cell (grid st) (r, s.2) = None)
      /\ (s.1 = t.1 ->
          forall c, s.2 < c < t.2 \/ t.2 < c < s.2 -> cell (grid st) (s.1, c) = None).
Proof. intros _ _. apply _has_line_of_sight_between. Qed.

Lemma line_of_sight_two (st : GameState) (s t : Z * Z) :
  on_board s -> on_board t -> manhattan s t = 2 ->
  _has_line_of_sight st s t = true
  <-> (s.1 = t.1 \/ s.2 = t.2 -> cell (grid st) ((s.1 + t.1) / 2, (s.2 + t.2) / 2) = None).
Proof.
  intros Hs Ht Hd. rewrite _has_line_of_sight_between. unfold manhattan in Hd.
  split.
  - intros [Hcol Hrow] [Heq | Heq].
    + replace ((s.1 + t.1) / 2) with s.1 by dlia. apply Hrow; [done|]. dlia.
    + replace ((s.2 + t.2) / 2) with s.2 by dlia. apply Hcol; [done|]. dlia.
  - intros H. split; intros Heq x Hx.
    + specialize (H (or_intror Heq)).
      replace ((s.2 + t.2) / 2) with s.2 in H by dlia.
      by replace x with ((s.1 + t.1) / 2) by dlia.
    + specialize (H (or_introl Heq)).
      replace ((s.1 + t.1) / 2) with s.1 in H by dlia.
      by replace x with ((s.2 + t.2) / 2) by dlia.
Qed.

(** X10.  When an attack is legal.  Next to the target (distance 1) any
    unit may attack if one of the two defeats the other in melee.  At
    distance 2 only an Archer or a Spearman may, and only a unit of its
    ranged table, with the cell between them empty when they stand in a
    line; nothing is legal further away. *)
Theorem attack_legality (st : GameState) (attacker defender : Unit) (s t : Z * Z) :
  unit_type attacker <> EMPTY -> on_board s -> on_board t -> s <> t ->
  _can_attack st attacker s t defender = Ok true
  <-> (manhattan s t = 1
       /\ (py_in (unit_type defender) (beats_get MELEE_BEATS (unit_type attacker)) = true
           \/ py_in (unit_type attacker) (beats_get MELEE_BEATS (unit_type defender))
              = true))
      \/ (manhattan s t = 2
          /\ is_ranged_type (unit_type attacker) = true
          /\ py_in (unit_type defender) (beats_get RANGED_BEATS (unit_type attacker)) = true
          /\ (s.1 = t.1 \/ s.2 = t.2 ->
              cell (grid st) ((s.1 + t.1) / 2, (s.2 + t.2) / 2) = None)).
Proof.
  intros Hty Hs Ht Hne. pose proof (manhattan_pos s t Hne) as Hpos.
  unfold _can_attack. rewrite _get_distance_manhattan.
  destruct (UNIT_STATS (unit_type attacker)) as [stats|] eqn:Hstats;
    [|by destruct (unit_type attacker)].
  assert (stats.2 = if is_ranged_type (unit_type attacker) then 2 else 1) as Hrange
    by (revert Hstats; destruct (unit_type attacker); intros [= <-]; reflexivity).
  rewrite Hrange. clear Hstats Hrange.
  destruct (decide (manhattan s t = 1)) as [H1 | H1].
  - rewrite (bool_decide_eq_false_2 (_ < manhattan s t))
      by (destruct (is_ranged_type _); lia).
    rewrite (bool_decide_eq_true_2 (manhattan s t = 1)) by done. cbn [negb andb].
    destruct (py_in (unit_type defender) _), (py_in (unit_type attacker) _);
      cbn [negb andb]; split; try done;
      try (intros _; left; split; [done | by (left + right)]);
      intros [(_ & [? | ?]) | (? & _)]; (done || lia).
  - rewrite (bool_decide_eq_false_2 (manhattan s t = 1)) by done. cbn [negb andb].
    destruct (is_ranged_type (unit_type attacker)) eqn:Hranged.
    2: { rewrite bool_decide_eq_true_2 by lia.
         split; [done | intros [(? & _) | (_ & ? & _)]; done]. }
    destruct (decide (manhattan s t = 2)) as [H2 | H2].
    2: { rewrite bool_decide_eq_true_2 by lia.
         split; [done | intros [(? & _) | (? & _)]; done]. }
    rewrite bool_decide_eq_false_2 by lia.
    assert (py_in (unit_type defender) (beats_get RANGED_BEATS (unit_type attacker)) = true
            -> unit_type defender <> SHIELDMAN) as Himmune.
    { intros Hin Heq. rewrite Heq in Hin. revert Hin.
      by destruct (unit_type attacker). }
    destruct (py_in (unit_type defender) (beats_get RANGED_BEATS (unit_type attacker)))
      eqn:Hin.
    + rewrite bool_decide_eq_false_2 by (by apply Himmune). cbn [negb].
      split.
      * intros [= Hlos]. right. do 3 (split; [done|]). by apply line_of_sight_two.
      * intros [(? & _) | (_ & _ & _ & Hmid)]; [done|].
        f_equal. by apply line_of_sight_two.
    + cbn [negb]. destruct (bool_decide (unit_type defender = SHIELDMAN));
        (split; [done | intros [(? & _) | (_ & _ & ? & _)]; done]).
Qed.

(** *** What [step] reports *)

(** An applied step in closed form. *)
Lemma step_applied_full (action : Z) (player_id : option Z) (e : NovusXEnv)
    (st : GameState) :
  state e = Some st -> state_wf st -> step_succeeds action player_id e = true ->
  exists act st1 obs,
    default (current_player st) player_id = current_player st
    /\ _parse_action action = Ok act
    /\ accepts st act (current_player st) = true
    /\ st1 = next_state st (_unit_counter e) act (current_player st)
    /\ state_wf st1
    /\ _get_observation st1 (current_player st) = Ok obs
    /\ let e1 := (apply_result (set_step_count (step_count e + 1) e) st act
                    (current_player st)).1 in
       let ge := game_end (current_player st) (track_reward st st1 (current_player st))
                   (track_env st st1 (current_player st) e1) st1 in
       same_verdict e (track_env st st1 (current_player st) e1)
       /\ step action player_id e
          = (ge.1, Ok (obs, ge.2.1.1, ge.2.1.2,
                       InfoStep (info_of ge.2.2 ge.2.1.1 ge.1 st1))).
Proof.
  intros Hst Hwf Hsucc.
  destruct (step_applied action player_id e st Hst Hwf Hsucc)
    as (act & st1 & obs' & i & Hpid & Hparse & Hacc & Hnext & Hwf1 & _).
  pose proof Hwf as [_ _ Hc]. pose proof Hwf1 as [_ Hl1 _].
  destruct (_get_observation_ok st1 (current_player st) Hl1 Hc) as [obs Hobs].
  exists act, st1, obs. do 6 (split; [done|]). cbv zeta.
  pose proof (step_full action player_id e st act Hst Hwf Hpid Hparse) as Hfull.
  cbv zeta in Hfull. rewrite <- Hnext in Hfull.
  pose proof (apply_result_accepts (set_step_count (step_count e + 1) e) st act
                (current_player st)) as Hacc'.
  pose proof (apply_result_verdict (set_step_count (step_count e + 1) e) st act
                (current_player st)) as Hv.
  destruct (apply_result (set_step_count (step_count e + 1) e) st act (current_player st))
    as [e1 [[[|] msg]|x]]; cbn [fst snd] in *; [| congruence | congruence].
  rewrite Hobs in Hfull. split; [|done].
  destruct Hv as (H1 & H2 & H3 & H4).
  destruct (track_env_verdict st st1 (current_player st) e1) as (H5 & H6 & H7 & H8).
  repeat split; cbn in *; congruence.
Qed.

Lemma _check_winner_player (st : GameState) (w : Z) :
  _check_winner st = Some w -> is_player w.
Proof.
  unfold _check_winner.
  repeat match goal with
         | |- context [bool_decide ?P] => destruct (bool_decide P); cbn [andb]
         end; intros [= <-]; by (left + right).
Qed.

(** The return value and the verdict of an applied step. *)
Lemma step_applied_report (e : NovusXEnv) (st : GameState) (action : Z)
    (player_id : option Z) :
  state e = Some st -> state_wf st -> step_succeeds action player_id e = true ->
  exists e' st' obs reward finished,
    step action player_id e
    = (e', Ok (obs, reward, finished,
               InfoStep (info_of (_check_winner st') reward e' st')))
    /\ state e' = Some st' /\ state_wf st'
    /\ _get_observation st' (current_player st) = Ok obs
    /\ training_mode e' = training_mode e
    /\ match _check_winner st' with
       | Some w =>
           finished = true
           /\ reward = (if bool_decide (w = current_player st) then RKey win else RKey lose)
           /\ game_outcome e' = (if bool_decide (w = 0) then PLAYER_0_WIN else PLAYER_1_WIN)
           /\ draw_reason e' = draw_reason e
       | None =>
           if finished then
             game_outcome e' = DRAW /\ draw_reason e' <> NONE
             /\ reward = _get_draw_reward (training_mode e) (draw_reason e')
           else
             reward = track_reward st st' (current_player st)
             /\ game_outcome e' = game_outcome e /\ draw_reason e' = draw_reason e
       end.
Proof.
  intros Hst Hwf Hsucc.
  destruct (step_applied_full action player_id e st Hst Hwf Hsucc)
    as (act & st1 & obs & Hpid & Hparse & Hacc & Hnext & Hwf1 & Hobs & Hstep).
  cbv zeta in Hstep. destruct Hstep as ((_ & Hout & Hreason & Hmode) & Hstep).
  set (e2 := track_env st st1 (current_player st) _) in *.
  assert (state e2 = Some st1) as Hst2.
  { unfold e2. rewrite track_env_state, apply_result_next by done. by rewrite Hnext. }
  revert Hstep. unfold game_end.
  destruct (_check_winner st1) as [w|] eqn:Hw.
  - intros Hstep. eexists _, st1, _, _, _. rewrite Hw. split; [exact Hstep|].
    cbn. split; [exact Hst2|]. do 2 (split; [done|]). by repeat split.
  - unfold draw_check. cbv zeta.
    destruct (bool_decide (MAX_TURN_LIMIT <= turn_number st1)).
    { intros Hstep. eexists _, st1, _, _, _. rewrite Hw. split; [exact Hstep|].
      cbn. rewrite Hmode. split; [exact Hst2|]. do 2 (split; [done|]). by repeat split. }
    cbn [state_hash_counts set_state_hash_counts].
    destruct (bool_decide (REPEATED_STATE_LIMIT <= _)).
    { intros Hstep. eexists _, st1, _, _, _. rewrite Hw. split; [exact Hstep|].
      cbn. rewrite Hmode. split; [exact Hst2|]. do 2 (split; [done|]). by repeat split. }
    cbn [turns_since_last_capture turns_since_last_unit_death set_state_hash_counts].
    destruct (_ && _).
    { intros Hstep. eexists _, st1, _, _, _. rewrite Hw. split; [exact Hstep|].
      cbn. rewrite Hmode. split; [exact Hst2|]. do 2 (split; [done|]). by repeat split. }
    intros Hstep. eexists _, st1, _, _, _. rewrite Hw. split; [exact Hstep|].
    cbn. split; [exact Hst2|]. do 2 (split; [done|]). by repeat split.
Qed.

(** X15.  The reward of an applied step.  With a winner the step is the
    last one and the reward is the win reward if the acting player won,
    the lose reward otherwise.  Without a winner, a step that ends the
    game is a draw with a reason, and its reward is the draw reward of
    that reason in training mode and the default draw reward otherwise;
    any other step is paid the shaping reward.  The report carries the
    draw reward exactly when the recorded outcome is a draw. *)
Theorem step_rewards (e : NovusXEnv) (st : GameState) (action : Z) (player_id : option Z) :
  state e = Some st -> state_wf st -> step_succeeds action player_id e = true ->
  exists e' st' obs reward finished i,
    step action player_id e = (e', Ok (obs, reward, finished, InfoStep i))
    /\ state e' = Some st'
    /\ info_is_draw i = bool_decide (game_outcome e' = DRAW)
    /\ info_draw_reward i = (if info_is_draw i then Some reward else None)
    /\ info_training_mode i = training_mode e
    /\ match info_winner i with
       | Some w =>
           finished = true
           /\ reward = (if bool_decide (w = current_player st) then RKey win else RKey lose)
       | None =>
           if finished then
             game_outcome e' = DRAW /\ draw_reason e' <> NONE
             /\ reward = (if training_mode e
                          then match draw_reason e' with
                               | NO_PROGRESS => RKey draw_no_progress
                               | REPEATED_STATE => RKey draw_repetition
                               | _ => RKey draw_max_turns
                               end
                          else RKey draw_default)
           else reward = track_reward st st' (current_player st)
       end.
Proof.
  intros Hst Hwf Hsucc.
  destruct (step_applied_report e st action player_id Hst Hwf Hsucc)
    as (e' & st' & obs & reward & fin & Hstep & Hst' & _ & _ & Hmode & Hcases).
  eexists e', st', obs, reward, fin, _. split; [exact Hstep|].
  split; [done|]. cbn [info_of info_is_draw info_draw_reward info_training_mode info_winner].
  split; [done|]. split; [done|]. split; [done|].
  destruct (_check_winner st') as [w|]; [by destruct Hcases as (? & ? & _)|].
  destruct fin; [|by destruct Hcases].
  destruct Hcases as (Hdraw & Hreason & ->). do 2 (split; [done|]).
  unfold _get_draw_reward. destruct (training_mode e); [|done].
  by destruct (draw_reason e').
Qed.

Lemma step_unapplied_verdict (e : NovusXEnv) (st : GameState) (action : Z)
    (player_id : option Z) :
  state e = Some st -> state_wf st -> step_succeeds action player_id e = false ->
  same_verdict e (step action player_id e).1.
Proof.
  intros Hst Hwf Hsucc. rewrite (step_succeeds_spec _ _ _ st) in Hsucc by done.
  destruct (decide (default (current_player st) player_id = current_player st))
    as [Hpid | Hpid].
  2: { rewrite (step_other_player _ _ _ st Hst Hpid). apply same_verdict_refl. }
  rewrite bool_decide_eq_true_2 in Hsucc by done. cbn [andb] in Hsucc.
  destruct (_parse_action action) as [act | x] eqn:Hparse.
  2: { rewrite (step_parse_raises _ _ _ st x Hst Hpid Hparse). by repeat split. }
  rewrite (step_full _ _ _ st act Hst Hwf Hpid Hparse). cbv zeta.
  pose proof (apply_result_accepts (set_step_count (step_count e + 1) e) st act
                (current_player st)) as Hacc.
  pose proof (apply_result_verdict (set_step_count (step_count e + 1) e) st act
                (current_player st)) as Hv.
  destruct (apply_result (set_step_count (step_count e + 1) e) st act (current_player st))
    as [e1 [[[|] msg]|x]]; cbn [fst snd] in *; [congruence | exact Hv | exact Hv].
Qed.

(** A recorded draw always has a reason. *)
Lemma reachable_draw_reason (e : NovusXEnv) :
  reachable e -> game_outcome e = DRAW -> draw_reason e <> NONE.
Proof.
  induction 1 as [e | e action player_id Hreach IH _]; [done|].
  destruct (reachable_good _ e Hreach) as (st & Hst & Hwf & _).
  destruct (step_succeeds action player_id e) eqn:Hsucc.
  - destruct (step_applied_report e st action player_id Hst Hwf Hsucc)
      as (e' & st' & obs & reward & fin & -> & _ & _ & _ & _ & Hcases).
    cbn [fst]. destruct (_check_winner st') as [w|].
    + destruct Hcases as (_ & _ & -> & _). by case_bool_decide.
    + destruct fin; [by destruct Hcases as (_ & ? & _)|].
      destruct Hcases as (_ & -> & ->). exact IH.
  - destruct (step_unapplied_verdict e st action player_id Hst Hwf Hsucc)
      as (_ & -> & -> & _). exact IH.
Qed.

(** X16.  What [get_game_result] reports is consistent in every reachable
    environment: a draw always comes with a reason; once the game is
    terminal a further [step] never makes it in progress again; and after
    a step that returned done, the result is terminal, its winner is the
    winner of the step's report and it is a draw exactly when there is no
    winner. *)
Theorem game_result_consistent (e : NovusXEnv) (action : Z) (player_id : option Z) :
  reachable e ->
  let r := get_game_result e in
  let r' := get_game_result (step action player_id e).1 in
  (result_is_draw r = true -> result_draw_reason r <> None)
  /\ (result_is_terminal r = true -> result_is_terminal r' = true)
  /\ (forall obs reward i,
        (step action player_id e).2 = Ok (obs, reward, true, InfoStep i) ->
        result_is_terminal r' = true /\ result_winner r' = info_winner i
        /\ result_is_draw r' = bool_decide (info_winner i = None)).
Proof.
  intros Hreach r r'. subst r r'.
  destruct (reachable_good _ e Hreach) as (st & Hst & Hwf & _).
  unfold get_game_result.
  cbn [result_is_draw result_draw_reason result_is_terminal result_winner].
  split; [|split].
  - intros Hdraw. apply bool_decide_eq_true_1 in Hdraw.
    rewrite bool_decide_eq_true_2 by (by apply reachable_draw_reason). done.
  - intros Hterm. apply bool_decide_eq_true_1 in Hterm. apply bool_decide_eq_true_2.
    destruct (step_succeeds action player_id e) eqn:Hsucc.
    + destruct (step_applied_report e st action player_id Hst Hwf Hsucc)
        as (e' & st' & obs & reward & fin & -> & _ & _ & _ & _ & Hcases).
      cbn [fst]. destruct (_check_winner st') as [w|].
      * destruct Hcases as (_ & _ & -> & _). by case_bool_decide.
      * destruct fin; [by destruct Hcases as (-> & _)|].
        by destruct Hcases as (_ & -> & _).
    + by destruct (step_unapplied_verdict e st action player_id Hst Hwf Hsucc)
        as (_ & -> & _).
  - intros obs reward i Hres.
    assert (step_succeeds action player_id e = true) as Hsucc
      by (unfold step_succeeds; by rewrite Hres).
    destruct (step_applied_report e st action player_id Hst Hwf Hsucc)
      as (e' & st' & obs' & reward' & fin & Hstep & _ & _ & _ & _ & Hcases).
    rewrite Hstep in Hres |- *. cbn [fst snd] in *.
    injection Hres as <- <- -> <-. cbn [info_of info_winner].
    destruct (_check_winner st') as [w|] eqn:Hw.
    + destruct Hcases as (_ & _ & -> & _).
      apply _check_winner_player in Hw as [-> | ->]; done.
    + destruct Hcases as (-> & _). done.
Qed.

(** *** The observation [step] returns, and the player argument *)

(** X17.  Whenever [step] returns, applied or rejected, its observation is
    the observation of the state the call leaves, seen by the player the
    call was made for, also when the turn has passed to the other
    player. *)
Theorem step_observation (e : NovusXEnv) (st : GameState) (action : Z)
    (player_id : option Z) (obs : Observation) (reward : Reward) (finished : bool)
    (info : Info) :
  state e = Some st -> state_wf st ->
  (step action player_id e).2 = Ok (obs, reward, finished, info) ->
  exists st',
    state (step action player_id e).1 = Some st'
    /\ _get_observation st' (default (current_player st) player_id) = Ok obs
    /\ obs_is_turn obs
       = bool_decide (current_player st' = default (current_player st) player_id).
Proof.
  intros Hst Hwf Hres.
  assert (forall st' pid, _get_observation st' pid = Ok obs ->
            obs_is_turn obs = bool_decide (current_player st' = pid)) as Hturn.
  { intros st' pid. unfold _get_observation.
    destruct (py_get (players st') pid); [|done].
    destruct (py_get (players st') (1 - pid)); [|done]. by intros [= <-]. }
  destruct (decide (default (current_player st) player_id = current_player st))
    as [Hpid | Hpid].
  2: { rewrite (step_other_player _ _ _ st Hst Hpid) in Hres |- *. cbn [fst snd] in *.
       exists st. split; [done|].
       destruct (_get_observation st _) as [obs'|] eqn:Hobs; [|done].
       injection Hres as <- _ _ _. split; [done|]. by apply Hturn. }
  destruct (_parse_action action) as [act | x] eqn:Hparse.
  2: { by rewrite (step_parse_raises _ _ _ st x Hst Hpid Hparse) in Hres. }
  rewrite (step_full _ _ _ st act Hst Hwf Hpid Hparse) in Hres |- *. cbv zeta in *.
  pose proof (apply_result_next (set_step_count (step_count e + 1) e) st act
                (current_player st) Hst) as Hnext.
  change (_unit_counter (set_step_count (step_count e + 1) e))
    with (_unit_counter e) in Hnext.
  rewrite Hpid.
  destruct (apply_result (set_step_count (step_count e + 1) e) st act (current_player st))
    as [e1 [[[|] msg]|x]]; cbn [fst snd] in *; [| | done].
  - eexists. split.
    { rewrite game_end_state, track_env_state. exact Hnext. }
    destruct (_get_observation _ _) as [obs'|] eqn:Hobs; [|done].
    injection Hres as <- _ _ _. split; [done|]. by apply Hturn.
  - eexists. split; [exact Hnext|].
    destruct (_get_observation _ _) as [obs'|] eqn:Hobs; [|done].
    injection Hres as <- _ _ _. split; [done|]. by apply Hturn.
Qed.

Lemma _get_observation_bad_player (st : GameState) (pid : Z) :
  length (players st) = 2%nat -> ~ is_player pid ->
  _get_observation st pid = Raise IndexError.
Proof.
  intros Hl Hpid. unfold _get_observation, py_get, py_norm. rewrite Hl.
  assert (pid <> 0 /\ pid <> 1) as [H0 H1] by (unfold is_player in Hpid; lia).
  repeat case_bool_decide; try lia; try done;
    repeat match goal with
           | |- context [players st !! ?k] =>
               destruct (players st !! k) eqn:?; try done
           end.
Qed.

(** X18.  A call of [step] for a player id other than 0 and 1 raises
    IndexError and leaves the engine as it was: the id is tested against
    the player to move first, and the observation built for the
    rejection subscripts the two-element player list with it, where the
    ids -1 and -2 find one player and miss the other. *)
Theorem step_bad_player (e : NovusXEnv) (st : GameState) (action pid : Z) :
  state e = Some st -> state_wf st -> ~ is_player pid ->
  step action (Some pid) e = (e, Raise IndexError).
Proof.
  intros Hst [Hg Hl Hc] Hpid.
  rewrite (step_other_player _ _ _ st Hst); [|cbn; intros ->; by apply Hpid].
  cbn. by rewrite _get_observation_bad_player.
Qed.

(** *** The mask of the player who is not to move *)

(** X19.  In a game played within the action space the mask is always
    computed, with one bit per index; it is all zeros for a player who is
    not to move (and before any reset), and for the player to move the
    end-turn bit is always set: the mask has a set bit exactly when the
    player is to move. *)
Theorem mask_nonempty_iff_to_move (e0 e : NovusXEnv) (st : GameState)
    (player_id : option Z) :
  state e0 = None -> reachable_by in_action_space e -> state e = Some st ->
  get_valid_actions_mask e0 player_id = Ok (replicate (Z.to_nat ACTION_SPACE_SIZE) false)
  /\ exists mask,
       get_valid_actions_mask e player_id = Ok mask
       /\ length mask = Z.to_nat ACTION_SPACE_SIZE
       /\ (default (current_player st) player_id <> current_player st ->
           mask = replicate (Z.to_nat ACTION_SPACE_SIZE) false)
       /\ (default (current_player st) player_id = current_player st ->
           mask !! Z.to_nat (ACTION_SPACE_SIZE - 1) = Some true)
       /\ ((exists i, mask !! i = Some true)
           <-> default (current_player st) player_id = current_player st).
Proof.
  intros Hnone Hreach Hst.
  split; [unfold get_valid_actions_mask; by rewrite Hnone|].
  destruct (reachable_no_empty e Hreach) as (st' & Hst' & Hwf & Hne).
  rewrite Hst in Hst'. injection Hst' as <-.
  destruct (decide (default (current_player st) player_id = current_player st))
    as [Hpid | Hpid].
  - pose proof Hwf as [Hg Hl Hc].
    destruct (player_at_is_Some st (current_player st) Hl Hc) as [player Hp].
    destruct (mask_spec e st player_id player Hst Hwf Hne Hpid Hp)
      as (mask & Hmask & Hlen & Hbits).
    assert (mask !! Z.to_nat (ACTION_SPACE_SIZE - 1) = Some true) as Hend.
    { apply Hbits; [vm_compute; lia|]. by exists EndTurn. }
    exists mask. do 2 (split; [done|]). split; [done|]. split; [done|].
    split; [done | intros _; by eexists].
  - exists (replicate (Z.to_nat ACTION_SPACE_SIZE) false).
    split; [unfold get_valid_actions_mask; rewrite Hst; cbv zeta;
            by rewrite bool_decide_eq_true_2|].
    split; [by rewrite length_replicate|]. split; [done|]. split; [done|].
    split; [|done]. intros (i & Hi). by apply lookup_replicate in Hi as [? _].
Qed.

(** *** What the state hash reads *)

(** X20.  The state hash reads the type and the owner of the unit of each
    cell and the player to move, nothing else: two states that agree on
    those have the same hash, whatever their turn numbers, the players'
    budgets and counts, and the ids, positions and acted flags of the
    units. *)
Theorem state_hash_reads (st st' : GameState) :
  (forall p, on_board p ->
     (fun u => (unit_type u, owner_id u)) <$> cell (grid st) p
     = (fun u => (unit_type u, owner_id u)) <$> cell (grid st') p) ->
  current_player st = current_player st' ->
  _compute_state_hash st = _compute_state_hash st'.
Proof.
  intros Hcells Hcur. unfold _compute_state_hash, state_string.
  assert (cell_part st <$> all_cells = cell_part st' <$> all_cells) as ->.
  { apply list_fmap_ext. intros i p Hp.
    apply list_elem_of_lookup_2, elem_of_all_cells in Hp.
    specialize (Hcells p Hp). unfold cell_part.
    destruct (cell (grid st) p) as [u|], (cell (grid st') p) as [u'|]; try done.
    by injection Hcells as -> ->. }
  assert (cp_part st <$> CONTROL_POINTS = cp_part st' <$> CONTROL_POINTS) as ->.
  { apply list_fmap_ext. intros i p Hp. apply list_elem_of_lookup_2 in Hp.
    assert (on_board p) as Hb.
    { unfold CONTROL_POINTS in Hp. unfold on_board.
      repeat (apply elem_of_cons in Hp as [-> | Hp]; [cbn; lia|]).
      by apply elem_of_nil in Hp. }
    specialize (Hcells p Hb). unfold cp_part, _get_control_owner.
    destruct (cell (grid st) p) as [u|], (cell (grid st') p) as [u'|]; try done.
    cbn. by injection Hcells as _ ->. }
  by rewrite Hcur.
Qed.

(** *** The ids of the units *)

Lemma has_dash_app (x y : string) : has_dash (x +:+ y) = has_dash x || has_dash y.
Proof.
  induction x as [|a x IH]; [done|].
  change (has_dash (String a x +:+ y)) with (bool_decide (a = dash) || has_dash (x +:+ y)).
  change (has_dash (String a x)) with (bool_decide (a = dash) || has_dash x).
  rewrite IH. by rewrite orb_assoc.
Qed.

Lemma after_last_dash_app (x y : string) :
  has_dash y = true -> after_last_dash (x +:+ y) = after_last_dash y.
Proof.
  intros Hy. induction x as [|a x IH]; [done|].
  change (after_last_dash (String a x +:+ y))
    with (if has_dash (x +:+ y) then after_last_dash (x +:+ y)
          else if bool_decide (a = dash) then x +:+ y else String a (x +:+ y)).
  by rewrite has_dash_app, Hy, orb_true_r.
Qed.

Lemma pretty_N_go_no_dash (x : N) (s : string) :
  has_dash s = false -> has_dash (pretty_N_go x s) = false.
Proof.
  revert s. induction (N.lt_wf_0 x) as [x _ IH]. intros s Hs.
  assert (x = 0 \/ 0 < x)%N as [-> | Hpos] by lia.
  - by rewrite pretty_N_go_0.
  - rewrite pretty_N_go_step by done. apply IH; [by apply N.div_lt|].
    cbn. rewrite Hs, orb_false_r. apply bool_decide_eq_false_2.
    unfold pretty_N_char. by repeat case_match.
Qed.

Lemma pretty_Z_no_dash (c : Z) : 0 <= c -> has_dash (pretty c) = false.
Proof.
  intros Hc. destruct c as [|c|c]; [done | | lia].
  unfold pretty, pretty_Z, pretty, pretty_positive, pretty, pretty_N.
  case_decide; [done|]. by apply pretty_N_go_no_dash.
Qed.

Lemma UnitType_name_no_dash (ut : UnitType) : has_dash (UnitType_name ut) = false.
Proof. by destruct ut. Qed.

(** The serial number can be read back from an id. *)
Lemma after_last_dash_unit_name (owner : Z) (ut : UnitType) (serial : Z) :
  0 <= serial -> after_last_dash (unit_name owner ut serial) = pretty serial.
Proof.
  intros Hs. unfold unit_name.
  pose proof (pretty_Z_no_dash serial Hs) as Hd.
  rewrite after_last_dash_app by (cbn; done).
  change ("-" +:+ UnitType_name ut +:+ "-" +:+ pretty serial)
    with (String dash (UnitType_name ut +:+ "-" +:+ pretty serial)).
  cbn [after_last_dash]. rewrite has_dash_app. cbn [has_dash String.app].
  rewrite bool_decide_eq_true_2 by done. rewrite orb_true_r.
  rewrite after_last_dash_app by (cbn; done).
  change ("-" +:+ pretty serial) with (String dash (pretty serial)).
  cbn [after_last_dash]. rewrite Hd. by rewrite bool_decide_eq_true_2.
Qed.

Lemma unit_name_serial (o o' : Z) (t t' : UnitType) (c c' : Z) :
  0 <= c -> 0 <= c' -> unit_name o t c = unit_name o' t' c' -> c = c'.
Proof.
  intros Hc Hc' Heq.
  apply (f_equal after_last_dash) in Heq.
  rewrite !after_last_dash_unit_name in Heq by done.
  by apply (inj pretty) in Heq.
Qed.

Lemma ids_good_mono (c c' : Z) (st : GameState) :
  c <= c' -> ids_good c st -> ids_good c' st.
Proof.
  intros Hle [Hids Huniq]. split; [|done].
  intros p u Hp Hu. destruct (Hids p u Hp Hu) as (serial & Hs & Hid).
  exists serial. split; [lia | done].
Qed.

Lemma ids_good_end_turn (c : Z) (st : GameState) :
  ids_good c st -> ids_good c (end_turn_st st).
Proof.
  intros [Hids Huniq]. destruct (end_turn_st_fields st) as (_ & _ & Hgrid & _).
  split.
  - intros p u Hp. rewrite Hgrid, cell_clear_acted.
    destruct (cell (grid st) p) as [u'|] eqn:Hu'; [|done]. intros [= <-].
    by apply (Hids p u').
  - intros p q u v Hp Hq. rewrite Hgrid, !cell_clear_acted.
    destruct (cell (grid st) p) as [u'|] eqn:Hu'; [|done].
    destruct (cell (grid st) q) as [v'|] eqn:Hv'; [|done].
    intros [= <-] [= <-]. by apply (Huniq p q u' v').
Qed.

(** Reading a cell that has just been written, or another one. *)
Lemma cell_upd_grid (st : GameState) (p q : Z * Z) (v : option Unit) :
  grid_wf (grid st) -> on_board p -> on_board q ->
  cell (grid (upd_grid p v st)) q = if bool_decide (q = p) then v else cell (grid st) q.
Proof.
  intros Hg Hp Hq. unfold upd_grid. cbn [grid set_grid]. case_bool_decide as Heq.
  - subst q. by apply cell_set_cell_eq.
  - by apply cell_set_cell_ne.
Qed.

Lemma grid_wf_upd_grid (st : GameState) (p : Z * Z) (v : option Unit) :
  grid_wf (grid st) -> grid_wf (grid (upd_grid p v st)).
Proof. intros Hg. by apply grid_wf_set_cell. Qed.

Lemma cell_move_st (st : GameState) (u : Unit) (s t p : Z * Z) :
  grid_wf (grid st) -> on_board s -> on_board t -> on_board p ->
  cell (grid (move_st u s t st)) p
  = if bool_decide (p = t) then Some (set_acted (set_position u t) true)
    else if bool_decide (p = s) then None else cell (grid st) p.
Proof.
  intros Hg Hs Ht Hp. unfold move_st.
  rewrite cell_upd_grid by (done || by apply grid_wf_upd_grid).
  by rewrite cell_upd_grid.
Qed.

Lemma cell_rotate_st (st : GameState) (u d : Unit) (s t p : Z * Z) :
  grid_wf (grid st) -> on_board s -> on_board t -> on_board p ->
  cell (grid (rotate_st u d s t st)) p
  = if bool_decide (p = t) then Some (set_acted (set_position u t) true)
    else if bool_decide (p = s) then Some (set_position d s) else cell (grid st) p.
Proof.
  intros Hg Hs Ht Hp. unfold rotate_st.
  rewrite cell_upd_grid by (done || by apply grid_wf_upd_grid).
  by rewrite cell_upd_grid.
Qed.

(** After an attack every unit on the board is one that stood on the
    same cell before, up to its acted flag. *)
Lemma cell_attack_st (st : GameState) (u d : Unit) (s t p : Z * Z) (v : Unit) :
  grid_wf (grid st) -> on_board s -> on_board t -> on_board p ->
  cell (grid st) s = Some u ->
  cell (grid (attack_st u d s t st)) p = Some v ->
  exists v0, cell (grid st) p = Some v0 /\ unit_id v = unit_id v0.
Proof.
  intros Hg Hs Ht Hp Hu. unfold attack_st. cbv zeta.
  assert (forall w,
            cell (grid (upd_grid s (if (resolve_combat u d s t).1 then None
                                    else Some (set_acted u true)) st)) p = Some w ->
            exists v0, cell (grid st) p = Some v0 /\ unit_id w = unit_id v0) as H1.
  { intros w. rewrite cell_upd_grid by done.
    destruct (decide (p = s)) as [-> | Hne].
    - rewrite bool_decide_eq_true_2 by done.
      destruct (resolve_combat u d s t).1; [done|]. intros [= <-]. by exists u.
    - rewrite bool_decide_eq_false_2 by done. intros Hw. by exists w. }
  destruct (resolve_combat u d s t).2; [|by apply H1].
  rewrite cell_upd_grid by (done || by apply grid_wf_upd_grid).
  case_bool_decide; [done|]. by apply H1.
Qed.

Lemma ids_good_outcome (st st1 : GameState) (counter : Z) (a : Action) (pid : Z) :
  state_wf st -> coords_ok a -> 0 <= counter -> ids_good counter st ->
  action_outcome st counter a pid = Ok (inr st1) ->
  ids_good (counter + match a with Deploy _ _ => 1 | _ => 0 end) st1.
Proof.
  intros Hwf Hco Hc [Hids Huniq] Hout. pose proof (wf_grid _ Hwf) as Hg.
  apply action_outcome_inv in Hout.
  destruct a as [ut col | s t | s t | s t |]; cbn [coords_ok] in Hco.
  - destruct Hout as (player & _ & _ & Hempty & _ & ->).
    set (home := (if bool_decide (pid = 0) then 0 else 4, col)) in *.
    assert (on_board home) as Hhome by (by apply deploy_row_on_board).
    set (new := mkUnit (unit_name pid ut (counter + 1)) pid ut home true).
    assert (forall p, on_board p ->
              cell (grid (deploy_st ut col pid (counter + 1) st)) p
              = if bool_decide (p = home) then Some new else cell (grid st) p) as Hcell.
    { intros p Hp. by rewrite <- (cell_upd_grid st home p (Some new)). }
    split.
    + intros p u Hp. rewrite Hcell by done. case_bool_decide as Heq.
      * intros [= <-]. exists (counter + 1). split; [lia | done].
      * intros Hu. destruct (Hids p u Hp Hu) as (serial & Hs & Hid).
        exists serial. split; [lia | done].
    + assert (forall q v, on_board q -> cell (grid st) q = Some v ->
                unit_id v <> unit_name pid ut (counter + 1)) as Hfresh.
      { intros q v Hq Hv Hid. destruct (Hids q v Hq Hv) as (serial & Hs & Hid').
        rewrite Hid' in Hid. apply unit_name_serial in Hid; lia. }
      intros p q u v Hp Hq. rewrite !Hcell by done.
      destruct (decide (p = home)) as [-> | Hpne];
        destruct (decide (q = home)) as [-> | Hqne]; [done | | |].
      * rewrite bool_decide_eq_true_2, bool_decide_eq_false_2 by done.
        intros [= <-] Hv Hid. by destruct (Hfresh q v Hq Hv).
      * rewrite (bool_decide_eq_false_2 (p = home)), bool_decide_eq_true_2 by done.
        intros Hu [= <-] Hid. by destruct (Hfresh p u Hp Hu).
      * rewrite !bool_decide_eq_false_2 by done. apply Huniq; done.
  - destruct Hco as [Hs Ht]. destruct Hout as (unit & Hu & _ & _ & Hcan & ->).
    apply _can_move_ne in Hcan as [Hst Htgt]. rewrite Z.add_0_r. split.
    + intros p u Hp. rewrite cell_spend_st, cell_move_st by done.
      case_bool_decide; [intros [= <-]; by apply (Hids s unit)|].
      case_bool_decide; [done|]. by apply Hids.
    + intros p q u v Hp Hq. rewrite !cell_spend_st, !cell_move_st by done.
      destruct (decide (p = t)) as [-> | Hpt]; destruct (decide (q = t)) as [-> | Hqt];
        [done | | |].
      * rewrite bool_decide_eq_true_2, (bool_decide_eq_false_2 (q = t)) by done.
        intros [= <-]. case_bool_decide; [done|]. intros Hv Hid.
        by destruct (Huniq s q unit v Hs Hq Hu Hv Hid).
      * rewrite (bool_decide_eq_false_2 (p = t)), (bool_decide_eq_true_2 (t = t)) by done.
        case_bool_decide; [done|]. intros Hv [= <-] Hid.
        by destruct (Huniq p s u unit Hp Hs Hv Hu Hid).
      * rewrite !(bool_decide_eq_false_2 (_ = t)) by done.
        case_bool_decide; [done|]. case_bool_decide; [done|]. by apply Huniq.
  - destruct Hco as [Hs Ht].
    destruct Hout as (attacker & defender & Hu & _ & _ & _ & _ & _ & ->).
    rewrite Z.add_0_r. split.
    + intros p u Hp. rewrite cell_spend_st. intros Hcell.
      destruct (cell_attack_st st attacker defender s t p u Hg Hs Ht Hp Hu Hcell)
        as (v0 & Hv0 & Hid).
      assert (owner_id u = owner_id v0 /\ unit_type u = unit_type v0) as [Ho Hty].
      { revert Hcell. unfold attack_st. cbv zeta.
        assert (forall w,
            cell (grid (upd_grid s (if (resolve_combat attacker defender s t).1 then None
                                    else Some (set_acted attacker true)) st)) p = Some w ->
            owner_id w = owner_id v0 /\ unit_type w = unit_type v0) as H1.
        { intros w. rewrite cell_upd_grid by done.
          destruct (decide (p = s)) as [-> | Hne].
          - rewrite bool_decide_eq_true_2 by done.
            destruct (resolve_combat attacker defender s t).1; [done|].
            intros [= <-]. rewrite Hu in Hv0. by injection Hv0 as <-.
          - rewrite bool_decide_eq_false_2 by done. rewrite Hv0. by intros [= <-]. }
        destruct (resolve_combat attacker defender s t).2; [|by apply H1].
        rewrite cell_upd_grid by (done || by apply grid_wf_upd_grid).
        case_bool_decide; [done|]. by apply H1. }
      destruct (Hids p v0 Hp Hv0) as (serial & Hser & Hid0).
      exists serial. split; [done|]. by rewrite Hid, Ho, Hty.
    + intros p q u v Hp Hq. rewrite !cell_spend_st. intros Hcu Hcv Hid.
      destruct (cell_attack_st st attacker defender s t p u Hg Hs Ht Hp Hu Hcu)
        as (u0 & Hu0 & Hidu).
      destruct (cell_attack_st st attacker defender s t q v Hg Hs Ht Hq Hu Hcv)
        as (v0 & Hv0 & Hidv).
      apply (Huniq p q u0 v0); try done. congruence.
  - destruct Hco as [Hs Ht].
    destruct Hout as (unit & target_unit & Hu & _ & _ & Hd & _ & Hty & _ & ->).
    assert (s <> t) as Hst by (intros ->; congruence).
    rewrite Z.add_0_r. split.
    + intros p u Hp. rewrite cell_spend_st, cell_rotate_st by done.
      case_bool_decide; [intros [= <-]; by apply (Hids s unit)|].
      case_bool_decide; [intros [= <-]; by apply (Hids t target_unit)|]. by apply Hids.
    + intros p q u v Hp Hq. rewrite !cell_spend_st, !cell_rotate_st by done.
      assert (forall r w, on_board r -> r <> s -> cell (grid st) r = Some w ->
                unit_id w <> unit_id unit) as Hns.
      { intros r w Hr Hne Hw Hid. by destruct (Huniq r s w unit Hr Hs Hw Hu Hid). }
      assert (forall r w, on_board r -> r <> t -> cell (grid st) r = Some w ->
                unit_id w <> unit_id target_unit) as Hnt.
      { intros r w Hr Hne Hw Hid. by destruct (Huniq r t w target_unit Hr Ht Hw Hd Hid). }
      destruct (decide (p = t)) as [-> | Hpt]; destruct (decide (q = t)) as [-> | Hqt];
        [done | | |].
      * rewrite bool_decide_eq_true_2, (bool_decide_eq_false_2 (q = t)) by done.
        intros [= <-]. case_bool_decide as Hqs.
        -- intros [= <-] Hid. cbn in Hid. by destruct (Hnt s unit Hs Hst Hu).
        -- intros Hv Hid. cbn in Hid. by destruct (Hns q v Hq Hqs Hv).
      * rewrite (bool_decide_eq_false_2 (p = t)), (bool_decide_eq_true_2 (t = t)) by done.
        case_bool_decide as Hps.
        -- intros [= <-] [= <-] Hid. cbn in Hid. by destruct (Hnt s unit Hs Hst Hu).
        -- intros Hv [= <-] Hid. cbn in Hid. by destruct (Hns p u Hp Hps Hv).
      * rewrite !(bool_decide_eq_false_2 (_ = t)) by done.
        case_bool_decide as Hps; case_bool_decide as Hqs; [congruence | | |].
        -- intros [= <-] Hv Hid. cbn in Hid. by destruct (Hnt q v Hq Hqt Hv).
        -- intros Hv [= <-] Hid. cbn in Hid. by destruct (Hnt p u Hp Hpt Hv).
        -- by apply Huniq.
  - subst st1. by rewrite Z.add_0_r.
Qed.

Lemma reachable_ids (e : NovusXEnv) :
  reachable e ->
  exists st, state e = Some st /\ state_wf st
    /\ 0 <= _unit_counter e /\ ids_good (_unit_counter e) st.
Proof.
  induction 1 as [e | e action player_id Hreach (st & Hst & Hwf & Hc & Hgood) _].
  - exists initial_state. split; [reflexivity|]. split; [apply state_wf_initial|].
    split; [done|]. split.
    + intros p u [Hr Hcol]. destruct p as [r c]. cbn in Hr, Hcol.
      assert (r = 0 \/ r = 1 \/ r = 2 \/ r = 3 \/ r = 4) as Hrs by lia.
      assert (c = 0 \/ c = 1 \/ c = 2 \/ c = 3 \/ c = 4) as Hcs by lia.
      by destruct Hrs as [-> | [-> | [-> | [-> | ->]]]];
         destruct Hcs as [-> | [-> | [-> | [-> | ->]]]].
    + intros p q u v [Hr Hcol] _. destruct p as [r c]. cbn in Hr, Hcol.
      assert (r = 0 \/ r = 1 \/ r = 2 \/ r = 3 \/ r = 4) as Hrs by lia.
      assert (c = 0 \/ c = 1 \/ c = 2 \/ c = 3 \/ c = 4) as Hcs by lia.
      by destruct Hrs as [-> | [-> | [-> | [-> | ->]]]];
         destruct Hcs as [-> | [-> | [-> | [-> | ->]]]].
  - destruct (step_counters action player_id e st Hst Hwf) as [_ Hcount].
    rewrite (step_succeeds_spec action player_id e st Hst Hwf) in Hcount.
    rewrite (step_state_next action player_id e st Hst Hwf), Hcount.
    eexists. split; [reflexivity|].
    case_bool_decide as Hpid; cbn [andb];
      [|rewrite Z.add_0_r; done].
    destruct (_parse_action action) as [act|] eqn:Hparse;
      [|rewrite Z.add_0_r; done].
    pose proof (_parse_action_coords _ _ Hparse) as Hco.
    destruct (next_state_cases st (_unit_counter e) act (current_player st))
      as [[-> ->] | [(-> & -> & ->) | (p & st1 & -> & Hne & Hat & Hpos & Hout & ->)]].
    + rewrite Z.add_0_r. done.
    + rewrite Z.add_0_r. split; [by apply state_wf_end_turn|]. split; [done|].
      by apply ids_good_end_turn.
    + pose proof (action_outcome_wf _ _ _ _ _ Hwf Hout) as Hwf1.
      pose proof (ids_good_outcome _ _ _ _ _ Hwf Hco Hc Hgood Hout) as Hgood1.
      split; [destruct (turn_over _ _); [by apply state_wf_end_turn | done]|].
      split; [destruct act; lia|].
      destruct (turn_over _ _); [by apply ids_good_end_turn | done].
Qed.

(** X12.  Unit ids are unique: in an environment reached from a reset no
    two cells of the board hold units with the same id, and every id is
    the one [_apply_deploy] built from the owner, the type and a serial
    number between 1 and the unit counter. *)
Theorem unit_ids_unique (e : NovusXEnv) (st : GameState) (p q : Z * Z) (u v : Unit) :
  reachable e -> state e = Some st -> on_board p -> on_board q ->
  cell (grid st) p = Some u -> cell (grid st) q = Some v ->
  (unit_id u = unit_id v -> p = q)
  /\ exists serial,
       1 <= serial <= _unit_counter e
       /\ unit_id u = unit_name (owner_id u) (unit_type u) serial.
Proof.
  intros Hreach Hst Hp Hq Hu Hv.
  destruct (reachable_ids e Hreach) as (st' & Hst' & _ & _ & Hids & Huniq).
  rewrite Hst in Hst'. injection Hst' as <-.
  split; [by apply (Huniq p q u v) | by apply (Hids p u)].
Qed.

(** *** Turns *)

(** X2.  The turn counter and the budgets in play: in an environment
    reached from a reset the turn number is at least 1, player 0 moves
    on the odd turns and player 1 on the even ones, every player holds
    between 0 and 2 actions and no negative deployment budget, and the
    player to move has at least one action left. *)
Theorem turn_invariants (e : NovusXEnv) (st : GameState) :
  reachable e -> state e = Some st ->
  1 <= turn_number st
  /\ current_player st = (turn_number st + 1) mod 2
  /\ (forall pid p, is_player pid -> player_at st pid = Some p ->
        0 <= actions_remaining p <= 2 /\ 0 <= deployments_remaining p)
  /\ (forall p, player_at st (current_player st) = Some p -> 1 <= actions_remaining p).
Proof.
  intros Hreach Hst.
  destruct (reachable_turns _ e Hreach) as (st' & Hst' & _ & Hgood).
  rewrite Hst in Hst'. by injection Hst' as <-.
Qed.

(** *** The observation tensor *)

Lemma length_cell_channels (pid : Z) (pos : Z * Z) (c : option Unit) :
  length (cell_channels pid pos c) = 11%nat.
Proof.
  unfold cell_channels. cbv zeta.
  destruct c as [u|]; repeat case_bool_decide; by rewrite ?length_insert.
Qed.

(** A list made of chunks of one length: its length, and the chunk at an
    index. *)
Lemma length_bind_uniform {A B} (f : A -> list B) (n : nat) (l : list A) :
  (forall x, length (f x) = n) -> length (l ≫= f) = (length l * n)%nat.
Proof.
  intros Hf. induction l as [|y l IH]; [done|].
  change ((y :: l) ≫= f) with (f y ++ (l ≫= f)).
  rewrite length_app, Hf, IH. cbn. lia.
Qed.

Lemma take_drop_bind {A B} (f : A -> list B) (n : nat) (l : list A) (i : nat) (x : A) :
  (forall y, length (f y) = n) -> l !! i = Some x ->
  take n (drop (i * n) (l ≫= f)) = f x.
Proof.
  intros Hf. revert i. induction l as [|y l IH]; intros i Hi; [done|].
  change ((y :: l) ≫= f) with (f y ++ (l ≫= f)).
  destruct i as [|i].
  - injection Hi as ->. rewrite Nat.mul_0_l, drop_0. by rewrite take_app_length'.
  - cbn in Hi. replace (S i * n)%nat with (length (f y) + i * n)%nat by (rewrite Hf; lia).
    rewrite drop_app_add. by apply IH.
Qed.

Lemma all_cells_lookup (r c : Z) :
  on_board (r, c) -> all_cells !! Z.to_nat (r * 5 + c) = Some (r, c).
Proof.
  intros [Hr Hc]. cbn in Hr, Hc.
  assert (r = 0 \/ r = 1 \/ r = 2 \/ r = 3 \/ r = 4) as Hrs by lia.
  assert (c = 0 \/ c = 1 \/ c = 2 \/ c = 3 \/ c = 4) as Hcs by lia.
  by destruct Hrs as [-> | [-> | [-> | [-> | ->]]]];
     destruct Hcs as [-> | [-> | [-> | [-> | ->]]]].
Qed.

Lemma decode_cell_channels (pid : Z) (pos : Z * Z) (c : option Unit) :
  decode_cell (cell_channels pid pos c) = obs_cell pid c
  /\ (channel (cell_channels pid pos c) 6 = true
      <-> match c with Some unit => unit_type unit = SPEARMAN | None => True end).
Proof.
  unfold cell_channels, obs_cell. cbv zeta.
  destruct c as [[uid o ty upos a]|]; cbn [unit_type owner_id acted_this_turn].
  - destruct ty, a, (bool_decide (o = pid)), (bool_decide (pos ∈ CONTROL_POINTS));
      (split; [reflexivity | split; done]).
  - destruct (bool_decide (pos ∈ CONTROL_POINTS)); (split; [reflexivity | split; done]).
Qed.

(** X21.  The spatial part of the observation holds 275 numbers, the eleven
    channels of cell (r, c) at the offset (5 r + c) * 11.  The channels of
    a cell determine what the observer is told of it (the type of the
    unit, whether it is the observer's, its acted flag), and channel 6,
    which marks an empty cell, is also set for every SPEARMAN. *)
Theorem observation_cell_layout (st : GameState) (pid r c : Z) :
  grid_wf (grid st) -> on_board (r, c) ->
  let chs := take 11 (drop (Z.to_nat ((r * 5 + c) * STATE_CHANNELS))
                        (spatial_flat st pid)) in
  length (spatial_flat st pid) = 275%nat
  /\ chs = cell_channels pid (r, c) (cell (grid st) (r, c))
  /\ decode_cell chs = obs_cell pid (cell (grid st) (r, c))
  /\ (channel chs 6 = true
      <-> match cell (grid st) (r, c) with
          | Some unit => unit_type unit = SPEARMAN
          | None => True
          end).
Proof.
  intros _ Hpos. cbv zeta.
  assert (take 11 (drop (Z.to_nat ((r * 5 + c) * STATE_CHANNELS)) (spatial_flat st pid))
          = cell_channels pid (r, c) (cell (grid st) (r, c))) as ->.
  { unfold spatial_flat, STATE_CHANNELS.
    replace (Z.to_nat ((r * 5 + c) * 11)) with (Z.to_nat (r * 5 + c) * 11)%nat
      by (destruct Hpos; cbn in *; lia).
    apply (take_drop_bind (fun pos => cell_channels pid pos (cell (grid st) pos))).
    - intros pos. apply length_cell_channels.
    - by apply all_cells_lookup. }
  split.
  - unfold spatial_flat.
    by rewrite (length_bind_uniform _ 11) by (intros; apply length_cell_channels).
  - split; [done|]. apply decode_cell_channels.
Qed.

End Proofs.

(** * Concrete instances *)

(** Membership of a literal index in the action space, by evaluation. *)
Ltac in_space :=
  unfold in_action_space; vm_compute; split; [discriminate | reflexivity].

(** C5: the claim fails at the deploy indices 0 and 5, which are distinct
    and decode to the same action (Swordsman, column 0). *)
Lemma codec_deploy_indices_collide :
  in_action_space 0 /\ in_action_space 5 /\ 0 <> 5
  /\ _parse_action 0 = Ok (Deploy SWORDSMAN 0)
  /\ _parse_action 5 = Ok (Deploy SWORDSMAN 0).
Proof.
  split; [in_space|]. split; [in_space|].
  split; [discriminate|]. split; reflexivity.
Qed.

Lemma codec_total_section_not_injective_witness :
  (exists act_a, _parse_action 0 = Ok act_a /\ action_wf act_a)
  /\ (in_action_space (encode_action EndTurn)
      /\ _parse_action (encode_action EndTurn) = Ok EndTurn)
  /\ (DEPLOY_ACTIONS <= 0 -> _parse_action 0 = _parse_action 5 -> 0 = 5)
  /\ (0 < DEPLOY_ACTIONS -> 5 < DEPLOY_ACTIONS ->
      (_parse_action 0 = _parse_action 5 <-> 0 / 25 = 5 / 25 /\ 0 mod 5 = 5 mod 5)).
Proof.
  apply (codec_total_section_not_injective 0 5 EndTurn).
  - in_space.
  - in_space.
  - exact I.
Defined.

Lemma reachable_fresh : @reachable plain_digest fresh.
Proof. apply reach_reset. Qed.

Lemma reachable_play (actions : list Z) (e : NovusXEnv) :
  @reachable plain_digest e -> @reachable plain_digest (play actions e).
Proof.
  revert e. induction actions as [|a actions IH]; intros e He; [exact He|].
  apply IH. by apply reach_step.
Qed.

(** C3: the claim fails where the incoming player holds both outer
    control points and not the center one: after the end-turn that player
    has 1 action, not 2. *)
Lemma end_turn_both_sides_gives_one_action :
  @reachable plain_digest sides_env
  /\ (current_player <$> state sides_env) = Some 0
  /\ ((fun st => (_controls_position st 1 (2, 0), _controls_position st 1 (2, 4),
                  _controls_position st 1 (2, 2))) <$> state sides_env)
     = Some (true, true, false)
  /\ (_end_turn sides_env).2 = Ok tt
  /\ ((fun st => actions_remaining <$> player_at st 1) <$> state (_end_turn sides_env).1)
     = Some (Some 1).
Proof.
  split; [apply reachable_play, reachable_fresh|].
  repeat split; vm_compute; reflexivity.
Qed.

Lemma end_turn_bonuses_witness :
  exists e' st' p',
    _end_turn fresh = (e', Ok tt) /\ state e' = Some st'
    /\ current_player st' = 1 - current_player initial_state
    /\ turn_number st' = turn_number initial_state + 1
    /\ player_at st' (1 - current_player initial_state) = Some p'
    /\ actions_remaining p'
       = 1 + (if _controls_position initial_state (1 - current_player initial_state) (2, 2)
              then 1 else 0)
    /\ deployments_remaining p'
       = deployments_remaining (mkPlayer 1 0 10 initial_deployment_counts)
         + (if _controls_position initial_state (1 - current_player initial_state) (2, 0)
               && _controls_position initial_state (1 - current_player initial_state) (2, 4)
            then 1 else 0)
    /\ free_deployments_remaining st'
       = (if _controls_position initial_state (1 - current_player initial_state) (2, 0)
             || _controls_position initial_state (1 - current_player initial_state) (2, 4)
          then 1 else 0).
Proof.
  apply (end_turn_bonuses fresh initial_state (mkPlayer 1 0 10 initial_deployment_counts)).
  - reflexivity.
  - reflexivity.
  - left. reflexivity.
  - reflexivity.
Defined.

Lemma positions_synchronized_witness :
  position (mkUnit "0-SWORDSMAN-1" 0 SWORDSMAN (0, 2) false) = (0, 2).
Proof.
  apply (@positions_synchronized plain_digest one_unit_env one_unit_state (0, 2)
           (mkUnit "0-SWORDSMAN-1" 0 SWORDSMAN (0, 2) false)).
  - apply reachable_play, reachable_fresh.
  - vm_compute. reflexivity.
  - unfold on_board. cbn. lia.
  - vm_compute. reflexivity.
Defined.

Lemma deployment_cap_witness :
  default 0 (deployment_counts capped_player !! SWORDSMAN) <= 3
  /\ forall action col,
       0 = current_player capped_state ->
       _parse_action action = Ok (Deploy SWORDSMAN col) ->
       default 0 (deployment_counts capped_player !! SWORDSMAN) = 3 ->
       @step_rejects plain_digest action None capped_env = true
       /\ state (@step plain_digest action None capped_env).1 = Some capped_state.
Proof.
  apply (@deployment_cap plain_digest capped_env capped_state 0 capped_player SWORDSMAN).
  - apply reachable_play, reachable_fresh.
  - vm_compute. reflexivity.
  - left. reflexivity.
  - vm_compute. reflexivity.
Defined.

(** The fourth Swordsman, at column 3, is rejected in that state. *)
Example fourth_swordsman_rejected :
  default 0 (deployment_counts capped_player !! SWORDSMAN) = 3
  /\ @step_rejects plain_digest 3 None capped_env = true.
Proof. split; vm_compute; reflexivity. Qed.

(** C9: the claim fails at the explicit END_TURN: from the fresh state
    it is applied and ends the turn (turn 1 to 2, player 0 to 1) while
    player 0 still has the one action it had. *)
Lemma end_turn_action_leaves_actions :
  @reachable plain_digest fresh
  /\ _parse_action 2025 = Ok EndTurn
  /\ @step_succeeds plain_digest 2025 None fresh = true
  /\ ((fun st => (turn_number st, current_player st,
                  actions_remaining <$> player_at st 0)) <$> state fresh)
     = Some (1, 0, Some 1)
  /\ ((fun st => (turn_number st, current_player st,
                  actions_remaining <$> player_at st 0))
        <$> state (@step plain_digest 2025 None fresh).1)
     = Some (2, 1, Some 1).
Proof.
  split; [apply reachable_fresh|]. repeat split; vm_compute; reflexivity.
Qed.

Lemma turn_economy_witness :
  (forall pid p, is_player pid -> player_at initial_state pid = Some p ->
                 0 <= actions_remaining p)
  /\ forall action player_id act p,
       _parse_action action = Ok act ->
       player_at initial_state (current_player initial_state) = Some p ->
       @step_succeeds plain_digest action player_id fresh = true ->
       exists st',
         state (@step plain_digest action player_id fresh).1 = Some st'
         /\ match act with
            | EndTurn =>
                turn_number st' = turn_number initial_state + 1
                /\ current_player st' = 1 - current_player initial_state
                /\ player_at st' (current_player initial_state) = Some p
            | _ =>
                exists p',
                  player_at st' (current_player initial_state) = Some p'
                  /\ actions_remaining p' = actions_remaining p - 1
                  /\ (actions_remaining p' = 0 ->
                      turn_number st' = turn_number initial_state + 1
                      /\ current_player st' = 1 - current_player initial_state)
                  /\ (actions_remaining p' <> 0 ->
                      turn_number st' = turn_number initial_state
                      /\ current_player st' = current_player initial_state)
            end.
Proof.
  apply (@turn_economy plain_digest fresh initial_state).
  - apply reachable_fresh.
  - reflexivity.
Defined.

Lemma state_wf_duel : state_wf duel_state.
Proof.
  split.
  - split; [reflexivity|]. vm_compute. repeat constructor.
  - reflexivity.
  - left. reflexivity.
Qed.

(** C2: the code breaks the resolution rule at a ranged attack between
    two Archers.  Each type is in the ranged entry of the other, so both
    units are to be removed: the docstring of [_apply_attack] says that
    if both can defeat each other, both die, and its melee branch removes
    both.  The ranged branch sets the removal of the defender only: the
    attack is applied, the defender is gone and the attacking Archer is
    still on the board. *)
Lemma ranged_attacker_survives :
  @reachable plain_digest duel_env
  /\ _parse_action 785 = Ok (Attack (0, 0) (2, 0))
  /\ manhattan (0, 0) (2, 0) = 2
  /\ (unit_type <$> cell (grid duel_state) (0, 0)) = Some ARCHER
  /\ (unit_type <$> cell (grid duel_state) (2, 0)) = Some ARCHER
  /\ py_in ARCHER (beats_get RANGED_BEATS ARCHER) = true
  /\ state duel_env = Some duel_state
  /\ @step_succeeds plain_digest 785 None duel_env = true
  /\ ((fun st => (unit_type <$> cell (grid st) (0, 0), cell (grid st) (2, 0)))
        <$> state (@step plain_digest 785 None duel_env).1)
     = Some (Some ARCHER, None).
Proof.
  split; [apply reachable_play, reachable_fresh|].
  repeat split; vm_compute; reflexivity.
Qed.

Lemma attack_resolution_witness :
  exists st',
    state (@step plain_digest 785 None duel_env).1 = Some st'
    /\ ((manhattan (0, 0) (2, 0) = 1
         /\ (cell (grid st') (0, 0) = None
             <-> py_in ARCHER (beats_get MELEE_BEATS ARCHER) = true)
         /\ (cell (grid st') (2, 0) = None
             <-> py_in ARCHER (beats_get MELEE_BEATS ARCHER) = true))
        \/ (manhattan (0, 0) (2, 0) = 2
            /\ is_ranged_type ARCHER = true
            /\ py_in ARCHER (beats_get RANGED_BEATS ARCHER) = true
            /\ cell (grid st') (0, 0) <> None
            /\ cell (grid st') (2, 0) = None)).
Proof.
  apply (@attack_resolution plain_digest duel_env duel_state 785 None (0, 0) (2, 0)
           (mkUnit "0-ARCHER-1" 0 ARCHER (0, 0) false)
           (mkUnit "1-ARCHER-2" 1 ARCHER (2, 0) false)).
  - vm_compute. reflexivity.
  - apply state_wf_duel.
  - vm_compute. reflexivity.
  - vm_compute. reflexivity.
  - vm_compute. reflexivity.
  - vm_compute. reflexivity.
Defined.

(** C1: the claim fails at deploy index 5 in the fresh state: the mask
    has 0 there, and step decodes it as (Swordsman, column 0), like
    index 0, and applies it. *)
Lemma mask_misses_applied_deploy :
  @reachable_by plain_digest in_action_space fresh
  /\ in_action_space 5
  /\ _parse_action 5 = Ok (Deploy SWORDSMAN 0)
  /\ mask_bit fresh 5 = Some false
  /\ @step_succeeds plain_digest 5 None fresh = true.
Proof.
  split; [apply reach_reset|]. split; [in_space|].
  repeat split; vm_compute; reflexivity.
Qed.

(** The deploys of a Spearman (indices 125..129) are applied by step and
    never set in the mask, whose loop covers the types 1..5. *)
Example mask_omits_spearman :
  _parse_action 125 = Ok (Deploy SPEARMAN 0)
  /\ mask_bit fresh 125 = Some false
  /\ @step_succeeds plain_digest 125 None fresh = true.
Proof. repeat split; vm_compute; reflexivity. Qed.

Lemma mask_agrees_with_step_witness :
  exists mask,
    get_valid_actions_mask fresh None = Ok mask
    /\ length mask = Z.to_nat ACTION_SPACE_SIZE
    /\ (mask !! Z.to_nat 0 = Some true -> @step_succeeds plain_digest 0 None fresh = true)
    /\ (DEPLOY_ACTIONS <= 0 -> @step_succeeds plain_digest 0 None fresh = true ->
        mask !! Z.to_nat 0 = Some true)
    /\ (forall t col, 1 <= t <= 5 -> 0 <= col < 5 -> 0 = _encode_deploy t col ->
        @step_succeeds plain_digest 0 None fresh = true ->
        mask !! Z.to_nat 0 = Some true)
    /\ (0 < DEPLOY_ACTIONS -> 5 <= 0 mod 25 -> mask !! Z.to_nat 0 = Some false).
Proof.
  apply (@mask_agrees_with_step plain_digest fresh initial_state None 0).
  - apply reach_reset.
  - reflexivity.
  - reflexivity.
  - in_space.
Defined.

(** C4: the claim fails after a win, where step applies a further
    END_TURN as in a game in progress (turn 11 to 12), and at the
    out-of-range index 5000, which step applies as an END_TURN. *)
Lemma step_continues_after_game_over :
  @reachable plain_digest over_env
  /\ game_outcome over_env = PLAYER_0_WIN
  /\ (turn_number <$> state over_env) = Some 11
  /\ @step_succeeds plain_digest 2025 None over_env = true
  /\ (turn_number <$> state (@step plain_digest 2025 None over_env).1) = Some 12
  /\ ~ in_action_space 5000
  /\ @step_succeeds plain_digest 5000 None fresh = true
  /\ (current_player <$> state (@step plain_digest 5000 None fresh).1) = Some 1.
Proof.
  split; [apply reachable_play, reachable_fresh|].
  split; [vm_compute; reflexivity|]. split; [vm_compute; reflexivity|].
  split; [vm_compute; reflexivity|]. split; [vm_compute; reflexivity|].
  split; [|split; vm_compute; reflexivity].
  unfold in_action_space. vm_compute. intros [_ H]. discriminate H.
Qed.

Lemma step_misuse_witness :
  @step plain_digest 5000 None init_env = (init_env, Raise RuntimeError)
  /\ (5000 < -25 ->
      @step plain_digest 5000 None fresh
      = (set_step_count (step_count fresh + 1) fresh, Raise ValueError))
  /\ (-25 <= 5000 < 0 -> _parse_action 5000 = Ok (Deploy EMPTY (5000 mod 5)))
  /\ (ACTION_SPACE_SIZE <= 5000 ->
      _parse_action 5000 = Ok EndTurn
      /\ @step_succeeds plain_digest 5000 None fresh = true
      /\ state (@step plain_digest 5000 None fresh).1 = Some (end_turn_st initial_state))
  /\ (forall outcome reason,
        let e' := set_draw_reason reason (set_game_outcome outcome fresh) in
        @step_succeeds plain_digest 5000 None e'
        = @step_succeeds plain_digest 5000 None fresh
        /\ state (@step plain_digest 5000 None e').1
           = state (@step plain_digest 5000 None fresh).1).
Proof.
  apply (@step_misuse plain_digest init_env fresh initial_state 5000 None).
  - reflexivity.
  - reflexivity.
  - apply state_wf_initial.
  - reflexivity.
Defined.

(** An index below -25 raises, and one in [-25, -1] puts a unit of the
    type EMPTY on the board. *)
Example negative_indices :
  (@step plain_digest (-26) None fresh).2 = Raise ValueError
  /\ @step_succeeds plain_digest (-1) None fresh = true
  /\ ((fun st => unit_type <$> cell (grid st) (0, 4))
        <$> state (@step plain_digest (-1) None fresh).1)
     = Some (Some EMPTY).
Proof. repeat split; vm_compute; reflexivity. Qed.

Lemma rejection_is_read_only_witness :
  (@step_rejects plain_digest 0 (Some 1) fresh = true ->
   exists obs msg,
     (@step plain_digest 0 (Some 1) fresh).2
     = Ok (obs, RKey invalid_action_penalty, false, InfoError msg)
     /\ state (@step plain_digest 0 (Some 1) fresh).1 = Some initial_state
     /\ ((@step plain_digest 0 (Some 1) fresh).1 = fresh
         \/ (@step plain_digest 0 (Some 1) fresh).1
            = set_step_count (step_count fresh + 1) fresh))
  /\ (forall pid, Some 1 = Some pid -> is_player pid ->
                  pid <> current_player initial_state ->
                  @step_rejects plain_digest 0 (Some 1) fresh = true)
  /\ (forall act msg,
        default (current_player initial_state) (Some 1) = current_player initial_state ->
        _parse_action 0 = Ok act ->
        (_apply_action act (current_player initial_state)
           (set_step_count (step_count fresh + 1) fresh)).2 = Ok (false, msg) ->
        @step_rejects plain_digest 0 (Some 1) fresh = true).
Proof.
  apply (@rejection_is_read_only plain_digest fresh initial_state 0 (Some 1)).
  - apply reachable_fresh.
  - reflexivity.
Defined.

(** A move from an empty cell is rejected and changes nothing but the
    step counter. *)
Example illegal_move_rejected :
  @step_rejects plain_digest 150 None fresh = true
  /\ (@step plain_digest 150 None fresh).1 = set_step_count 1 fresh.
Proof. split; vm_compute; reflexivity. Qed.

Lemma game_end_priority_witness :
  exists e2 st2 obs reward finished i,
    @step plain_digest 0 None fresh = (e2, Ok (obs, reward, finished, InfoStep i))
    /\ state e2 = Some st2
    /\ info_winner i = _check_winner st2
    /\ info_game_outcome i = game_outcome e2
    /\ (_count_control_points st2 0 = 3 -> _check_winner st2 = Some 0)
    /\ (_count_control_points st2 0 <> 3 -> _count_control_points st2 1 = 3 ->
        _check_winner st2 = Some 1)
    /\ match _check_winner st2 with
       | Some w =>
           finished = true
           /\ game_outcome e2 = (if bool_decide (w = 0) then PLAYER_0_WIN
                                 else PLAYER_1_WIN)
           /\ draw_reason e2 = draw_reason fresh
           /\ state_hash_counts e2 = state_hash_counts fresh
       | None =>
           let seen :=
             default 0 (state_hash_counts fresh
                          !! @_compute_state_hash plain_digest st2) + 1 in
           if bool_decide (MAX_TURN_LIMIT <= turn_number st2) then
             finished = true /\ game_outcome e2 = DRAW /\ draw_reason e2 = MAX_TURNS
             /\ state_hash_counts e2 = state_hash_counts fresh
           else
             state_hash_counts e2
             = <[@_compute_state_hash plain_digest st2 := seen]> (state_hash_counts fresh)
             /\ if bool_decide (REPEATED_STATE_LIMIT <= seen) then
                  finished = true /\ game_outcome e2 = DRAW
                  /\ draw_reason e2 = REPEATED_STATE
                else if bool_decide (NO_PROGRESS_TURN_LIMIT <= turns_since_last_capture e2)
                        && bool_decide (NO_PROGRESS_TURN_LIMIT
                                        <= turns_since_last_unit_death e2)
                then finished = true /\ game_outcome e2 = DRAW
                     /\ draw_reason e2 = NO_PROGRESS
                else finished = false /\ game_outcome e2 = game_outcome fresh
                     /\ draw_reason e2 = draw_reason fresh
       end.
Proof.
  apply (@game_end_priority plain_digest fresh initial_state 0 None).
  - reflexivity.
  - apply state_wf_initial.
  - vm_compute. reflexivity.
Defined.

(** At the turn limit the draw is a MAX_TURNS draw although the
    no-progress condition holds too, and no state hash is counted. *)
Example max_turns_before_no_progress :
  bool_decide (NO_PROGRESS_TURN_LIMIT <= turns_since_last_capture late_env)
  && bool_decide (NO_PROGRESS_TURN_LIMIT <= turns_since_last_unit_death late_env) = true
  /\ (@_check_draw_conditions plain_digest late_env).2 = Ok (true, MAX_TURNS)
  /\ state_hash_counts (@_check_draw_conditions plain_digest late_env).1
     = state_hash_counts late_env.
Proof. repeat split; vm_compute; reflexivity. Qed.

(** ** Instances of the further properties *)

Lemma state_wf_march : state_wf march_state.
Proof.
  split.
  - split; [reflexivity|]. vm_compute. repeat constructor.
  - reflexivity.
  - left. reflexivity.
Qed.

Lemma state_wf_swap : state_wf swap_state.
Proof.
  split.
  - split; [reflexivity|]. vm_compute. repeat constructor.
  - reflexivity.
  - left. reflexivity.
Qed.

Lemma game_length_bound_witness : (length [(2025, None : option Z)] <= 1996)%nat.
Proof.
  apply (@game_length_bound plain_digest init_env [(2025, None)]).
  vm_compute. reflexivity.
Defined.

Lemma unit_conservation_witness :
  exists st',
    state (@step plain_digest 785 None duel_env).1 = Some st'
    /\ exists attacker defender,
         cell (grid duel_state) (0, 0) = Some attacker
         /\ cell (grid duel_state) (2, 0) = Some defender
         /\ _count_units st' (current_player duel_state)
            = _count_units duel_state (current_player duel_state)
              - (if (resolve_combat attacker defender (0, 0) (2, 0)).1 then 1 else 0)
         /\ _count_units st' (1 - current_player duel_state)
            = _count_units duel_state (1 - current_player duel_state)
              - (if (resolve_combat attacker defender (0, 0) (2, 0)).2 then 1 else 0).
Proof.
  apply (@unit_conservation plain_digest duel_env duel_state 785 None
           (Attack (0, 0) (2, 0))).
  - apply reachable_play, reachable_fresh.
  - vm_compute. reflexivity.
  - vm_compute. reflexivity.
  - vm_compute. reflexivity.
Defined.

Lemma step_frame_witness :
  exists st',
    state (@step plain_digest 785 None duel_env).1 = Some st'
    /\ cell (grid st') (1, 1) = settle duel_state st' (cell (grid duel_state) (1, 1)).
Proof.
  apply (@step_frame plain_digest duel_env duel_state 785 None (Attack (0, 0) (2, 0))).
  - vm_compute. reflexivity.
  - apply state_wf_duel.
  - vm_compute. reflexivity.
  - vm_compute. reflexivity.
  - unfold on_board. cbn. lia.
  - intros Hin. apply elem_of_cons in Hin as [Hin | Hin]; [discriminate|].
    apply elem_of_cons in Hin as [Hin | Hin]; [discriminate|].
    by apply elem_of_nil in Hin.
Defined.

Lemma move_effect_witness :
  exists st' unit,
    state (@step plain_digest 207 None march_env).1 = Some st'
    /\ cell (grid march_state) (0, 2) = Some unit
    /\ owner_id unit = current_player march_state
    /\ acted_this_turn unit = false /\ cell (grid march_state) (1, 2) = None
    /\ 1 <= manhattan (0, 2) (1, 2)
       <= (if bool_decide (unit_type unit = CAVALRY) then 2 else 1)
    /\ cell (grid st') (0, 2) = None
    /\ cell (grid st') (1, 2)
       = Some (mkUnit (unit_id unit) (owner_id unit) (unit_type unit) (1, 2)
                 (bool_decide (current_player st' = current_player march_state))).
Proof.
  apply (@move_effect plain_digest march_env march_state 207 None (0, 2) (1, 2)).
  - vm_compute. reflexivity.
  - apply state_wf_march.
  - vm_compute. reflexivity.
  - vm_compute. reflexivity.
Defined.

Lemma rotate_effect_witness :
  exists st' unit target_unit,
    state (@step plain_digest 1453 None swap_env).1 = Some st'
    /\ cell (grid swap_state) (0, 2) = Some unit
    /\ owner_id unit = current_player swap_state
    /\ acted_this_turn unit = false
    /\ cell (grid swap_state) (0, 3) = Some target_unit
    /\ owner_id target_unit = current_player swap_state
    /\ unit_type unit <> unit_type target_unit
    /\ (manhattan (0, 2) (0, 3) = 1
        \/ (unit_type unit = CAVALRY /\ manhattan (0, 2) (0, 3) = 2
            /\ (0 = 0 \/ 2 = 3 ->
                cell (grid swap_state) ((0 + 0) / 2, (2 + 3) / 2) = None)))
    /\ cell (grid st') (0, 2)
       = Some (mkUnit (unit_id target_unit) (owner_id target_unit)
                 (unit_type target_unit) (0, 2)
                 (acted_this_turn target_unit
                  && bool_decide (current_player st' = current_player swap_state)))
    /\ cell (grid st') (0, 3)
       = Some (mkUnit (unit_id unit) (owner_id unit) (unit_type unit) (0, 3)
                 (bool_decide (current_player st' = current_player swap_state))).
Proof.
  apply (@rotate_effect plain_digest swap_env swap_state 1453 None (0, 2) (0, 3)).
  - vm_compute. reflexivity.
  - apply state_wf_swap.
  - vm_compute. reflexivity.
  - vm_compute. reflexivity.
Defined.

Lemma clone_step_witness :
  clone (set_training_mode false fresh) = set_training_mode true (set_training_mode false fresh)
  /\ (@step plain_digest 2 None (clone (set_training_mode false fresh))).1
     = clone (@step plain_digest 2 None (set_training_mode false fresh)).1
  /\ same_return (@step plain_digest 2 None (clone (set_training_mode false fresh))).2
       (@step plain_digest 2 None (set_training_mode false fresh)).2.
Proof.
  apply (@clone_step plain_digest (set_training_mode false fresh) initial_state 2 None).
  - reflexivity.
  - apply state_wf_initial.
Defined.

Lemma deploy_effect_witness :
  exists st' player player',
    state (@step plain_digest 2 None fresh).1 = Some st'
    /\ player_at initial_state 0 = Some player /\ 0 < deployments_remaining player
    /\ default 0 (deployment_counts player !! SWORDSMAN) < MAX_DEPLOYMENTS_PER_TYPE
    /\ cell (grid initial_state) (0, 2) = None
    /\ _unit_counter (@step plain_digest 2 None fresh).1 = _unit_counter fresh + 1
    /\ cell (grid st') (0, 2)
       = Some (mkUnit "0-SWORDSMAN-1" 0 SWORDSMAN (0, 2)
                 (bool_decide (current_player st' = 0)))
    /\ player_at st' 0 = Some player'
    /\ deployments_remaining player' = deployments_remaining player - 1
    /\ deployment_counts player'
       = <[SWORDSMAN := default 0 (deployment_counts player !! SWORDSMAN) + 1]>
           (deployment_counts player).
Proof.
  apply (@deploy_effect plain_digest fresh initial_state 2 None SWORDSMAN 2).
  - reflexivity.
  - apply state_wf_initial.
  - vm_compute. reflexivity.
  - vm_compute. reflexivity.
Defined.

Lemma unit_counter_counts_deployments_witness :
  _unit_counter capped_env = deployed capped_player + deployed capped_opponent
  /\ (@reachable_by plain_digest in_action_space capped_env ->
      _unit_counter capped_env <= 36).
Proof.
  apply (@unit_counter_counts_deployments plain_digest capped_env capped_state).
  - apply reachable_play, reachable_fresh.
  - vm_compute. reflexivity.
  - vm_compute. reflexivity.
  - vm_compute. reflexivity.
Defined.

Lemma line_of_sight_spec_witness :
  _has_line_of_sight duel_state (0, 0) (2, 0) = true
  <-> (0 = 0 ->
       forall r, 0 < r < 2 \/ 2 < r < 0 -> cell (grid duel_state) (r, 0) = None)
      /\ (0 = 2 ->
          forall c, 0 < c < 0 \/ 0 < c < 0 -> cell (grid duel_state) (0, c) = None).
Proof.
  apply (line_of_sight_spec duel_state (0, 0) (2, 0)).
  - unfold on_board. cbn. lia.
  - unfold on_board. cbn. lia.
Defined.

Lemma attack_legality_witness :
  let attacker := mkUnit "0-ARCHER-1" 0 ARCHER (0, 0) false in
  let defender := mkUnit "1-ARCHER-2" 1 ARCHER (2, 0) false in
  _can_attack duel_state attacker (0, 0) (2, 0) defender = Ok true
  <-> (manhattan (0, 0) (2, 0) = 1
       /\ (py_in ARCHER (beats_get MELEE_BEATS ARCHER) = true
           \/ py_in ARCHER (beats_get MELEE_BEATS ARCHER) = true))
      \/ (manhattan (0, 0) (2, 0) = 2
          /\ is_ranged_type ARCHER = true
          /\ py_in ARCHER (beats_get RANGED_BEATS ARCHER) = true
          /\ (0 = 2 \/ 0 = 0 ->
              cell (grid duel_state) ((0 + 2) / 2, (0 + 0) / 2) = None)).
Proof.
  apply (attack_legality duel_state (mkUnit "0-ARCHER-1" 0 ARCHER (0, 0) false)
           (mkUnit "1-ARCHER-2" 1 ARCHER (2, 0) false) (0, 0) (2, 0)).
  - discriminate.
  - unfold on_board. cbn. lia.
  - unfold on_board. cbn. lia.
  - discriminate.
Defined.

Lemma step_rewards_witness :
  exists e' st' obs reward finished i,
    @step plain_digest 2 None fresh = (e', Ok (obs, reward, finished, InfoStep i))
    /\ state e' = Some st'
    /\ info_is_draw i = bool_decide (game_outcome e' = DRAW)
    /\ info_draw_reward i = (if info_is_draw i then Some reward else None)
    /\ info_training_mode i = training_mode fresh
    /\ match info_winner i with
       | Some w =>
           finished = true
           /\ reward = (if bool_decide (w = current_player initial_state)
                        then RKey win else RKey lose)
       | None =>
           if finished then
             game_outcome e' = DRAW /\ draw_reason e' <> NONE
             /\ reward = (if training_mode fresh
                          then match draw_reason e' with
                               | NO_PROGRESS => RKey draw_no_progress
                               | REPEATED_STATE => RKey draw_repetition
                               | _ => RKey draw_max_turns
                               end
                          else RKey draw_default)
           else reward = track_reward initial_state st' (current_player initial_state)
       end.
Proof.
  apply (@step_rewards plain_digest fresh initial_state 2 None).
  - reflexivity.
  - apply state_wf_initial.
  - vm_compute. reflexivity.
Defined.

Lemma game_result_consistent_witness :
  (result_is_draw (get_game_result over_env) = true ->
   result_draw_reason (get_game_result over_env) <> None)
  /\ (result_is_terminal (get_game_result over_env) = true ->
      result_is_terminal (get_game_result (@step plain_digest 2025 None over_env).1)
      = true)
  /\ (forall obs reward i,
        (@step plain_digest 2025 None over_env).2 = Ok (obs, reward, true, InfoStep i) ->
        result_is_terminal (get_game_result (@step plain_digest 2025 None over_env).1)
        = true
        /\ result_winner (get_game_result (@step plain_digest 2025 None over_env).1)
           = info_winner i
        /\ result_is_draw (get_game_result (@step plain_digest 2025 None over_env).1)
           = bool_decide (info_winner i = None)).
Proof.
  apply (@game_result_consistent plain_digest over_env 2025 None).
  apply reachable_play, reachable_fresh.
Defined.

Lemma step_observation_witness :
  exists st',
    state (@step plain_digest 2025 (Some 1) fresh).1 = Some st'
    /\ _get_observation st' 1
       = Ok (mkObs (replicate 5 (replicate 5 None)) 1 0 10 10 0 0 false)
    /\ obs_is_turn (mkObs (replicate 5 (replicate 5 None)) 1 0 10 10 0 0 false)
       = bool_decide (current_player st' = 1).
Proof.
  apply (@step_observation plain_digest fresh initial_state 2025 (Some 1)
           (mkObs (replicate 5 (replicate 5 None)) 1 0 10 10 0 0 false)
           (RKey invalid_action_penalty) false (InfoError "Not your turn")).
  - reflexivity.
  - apply state_wf_initial.
  - vm_compute. reflexivity.
Defined.

Lemma step_bad_player_witness :
  @step plain_digest 2025 (Some (-1)) fresh = (fresh, Raise IndexError).
Proof.
  apply (@step_bad_player plain_digest fresh initial_state 2025 (-1)).
  - reflexivity.
  - apply state_wf_initial.
  - intros [H | H]; discriminate H.
Defined.

Lemma mask_nonempty_iff_to_move_witness :
  get_valid_actions_mask init_env None
  = Ok (replicate (Z.to_nat ACTION_SPACE_SIZE) false)
  /\ exists mask,
       get_valid_actions_mask fresh None = Ok mask
       /\ length mask = Z.to_nat ACTION_SPACE_SIZE
       /\ (default (current_player initial_state) None <> current_player initial_state ->
           mask = replicate (Z.to_nat ACTION_SPACE_SIZE) false)
       /\ (default (current_player initial_state) None = current_player initial_state ->
           mask !! Z.to_nat (ACTION_SPACE_SIZE - 1) = Some true)
       /\ ((exists i, mask !! i = Some true)
           <-> default (current_player initial_state) None
               = current_player initial_state).
Proof.
  apply (@mask_nonempty_iff_to_move plain_digest init_env fresh initial_state None).
  - reflexivity.
  - apply reach_reset.
  - reflexivity.
Defined.

Lemma state_hash_reads_witness :
  @_compute_state_hash plain_digest duel_state
  = @_compute_state_hash plain_digest renamed_duel_state.
Proof.
  apply (@state_hash_reads plain_digest duel_state renamed_duel_state).
  - intros [r c] [Hr Hc]. cbn in Hr, Hc.
    assert (r = 0 \/ r = 1 \/ r = 2 \/ r = 3 \/ r = 4) as Hrs by lia.
    assert (c = 0 \/ c = 1 \/ c = 2 \/ c = 3 \/ c = 4) as Hcs by lia.
    destruct Hrs as [-> | [-> | [-> | [-> | ->]]]];
      destruct Hcs as [-> | [-> | [-> | [-> | ->]]]]; vm_compute; reflexivity.
  - reflexivity.
Defined.

Lemma unit_ids_unique_witness :
  let u := mkUnit "0-ARCHER-1" 0 ARCHER (0, 0) false in
  let v := mkUnit "1-ARCHER-2" 1 ARCHER (2, 0) false in
  (unit_id u = unit_id v -> (0, 0) = (2, 0))
  /\ exists serial,
       1 <= serial <= _unit_counter duel_env
       /\ unit_id u = unit_name (owner_id u) (unit_type u) serial.
Proof.
  apply (@unit_ids_unique plain_digest duel_env duel_state (0, 0) (2, 0)
           (mkUnit "0-ARCHER-1" 0 ARCHER (0, 0) false)
           (mkUnit "1-ARCHER-2" 1 ARCHER (2, 0) false)).
  - apply reachable_play, reachable_fresh.
  - vm_compute. reflexivity.
  - unfold on_board. cbn. lia.
  - unfold on_board. cbn. lia.
  - vm_compute. reflexivity.
  - vm_compute. reflexivity.
Defined.

Lemma turn_invariants_witness :
  1 <= turn_number duel_state
  /\ current_player duel_state = (turn_number duel_state + 1) mod 2
  /\ (forall pid p, is_player pid -> player_at duel_state pid = Some p ->
        0 <= actions_remaining p <= 2 /\ 0 <= deployments_remaining p)
  /\ (forall p, player_at duel_state (current_player duel_state) = Some p ->
        1 <= actions_remaining p).
Proof.
  apply (@turn_invariants plain_digest duel_env duel_state).
  - apply reachable_play, reachable_fresh.
  - vm_compute. reflexivity.
Defined.

Lemma observation_cell_layout_witness :
  let chs := take 11 (drop (Z.to_nat ((0 * 5 + 0) * STATE_CHANNELS))
                        (spatial_flat duel_state 0)) in
  length (spatial_flat duel_state 0) = 275%nat
  /\ chs = cell_channels 0 (0, 0) (cell (grid duel_state) (0, 0))
  /\ decode_cell chs = obs_cell 0 (cell (grid duel_state) (0, 0))
  /\ (channel chs 6 = true
      <-> match cell (grid duel_state) (0, 0) with
          | Some unit => unit_type unit = SPEARMAN
          | None => True
          end).
Proof.
  apply (observation_cell_layout duel_state 0 0 0).
  - apply state_wf_duel.
  - unfold on_board. cbn. lia.
Defined.
